(** * Mosaic ERP importers: a shallow embedding and its properties

    The development follows two scripts of the repository,
    [production/import_production.py] and [staging/import_claims.py].
    The first part models the fragments of the Python runtime the scripts
    rely on (text, binary64 numbers, calendar dates, exceptions, console and
    record store); the second part transcribes the scripts function by
    function; the last part states and proves their properties. *)

From Stdlib Require Import ZArith NArith List String Ascii Lia Bool.
From Stdlib Require Import Floats.SpecFloat.
From stdpp Require Import gmap strings list.

Local Open Scope N_scope.

(** ** Text: a [str] is a sequence of Unicode code points *)

Abbreviation pystr := (list N) (only parsing).

(** String literals of the scripts are written as UTF-8 text and decoded. *)
Fixpoint utf8_decode (bs : list N) : pystr :=
  match bs with
  | [] => []
  | b :: r =>
    if b <? 0x80 then b :: utf8_decode r
    else if b <? 0xE0 then
      match r with
      | c1 :: r1 =>
        N.lor (N.shiftl (N.land b 0x1F) 6) (N.land c1 0x3F) :: utf8_decode r1
      | [] => []
      end
    else if b <? 0xF0 then
      match r with
      | c1 :: c2 :: r2 =>
        N.lor (N.shiftl (N.land b 0x0F) 12)
          (N.lor (N.shiftl (N.land c1 0x3F) 6) (N.land c2 0x3F)) :: utf8_decode r2
      | _ => []
      end
    else
      match r with
      | c1 :: c2 :: c3 :: r3 =>
        N.lor (N.shiftl (N.land b 0x07) 18)
          (N.lor (N.shiftl (N.land c1 0x3F) 12)
             (N.lor (N.shiftl (N.land c2 0x3F) 6) (N.land c3 0x3F))) :: utf8_decode r3
      | _ => []
      end
  end.

Definition py (s : string) : pystr :=
  utf8_decode (map N_of_ascii (list_ascii_of_string s)).

(** [ch.isspace()] *)
Definition py_isspace (c : N) : bool :=
  ((0x09 <=? c) && (c <=? 0x0D)) || ((0x1C <=? c) && (c <=? 0x20))
  || (c =? 0x85) || (c =? 0xA0) || (c =? 0x1680)
  || ((0x2000 <=? c) && (c <=? 0x200A))
  || (c =? 0x2028) || (c =? 0x2029) || (c =? 0x202F) || (c =? 0x205F)
  || (c =? 0x3000).

Fixpoint py_lstrip (s : pystr) : pystr :=
  match s with
  | c :: r => if py_isspace c then py_lstrip r else s
  | [] => []
  end.

Definition py_rstrip (s : pystr) : pystr := rev (py_lstrip (rev s)).

(** [s.strip()] *)
Definition py_strip (s : pystr) : pystr := py_rstrip (py_lstrip s).

(** [s.split()]: the maximal runs of non-blank characters, in order.
    [cur] holds the run being read, reversed. *)
Fixpoint split_go (cur : pystr) (s : pystr) : list pystr :=
  match s with
  | [] => match cur with [] => [] | _ => [rev cur] end
  | c :: r =>
    if py_isspace c
    then match cur with [] => split_go [] r | _ => rev cur :: split_go [] r end
    else split_go (c :: cur) r
  end.

Definition py_split (s : pystr) : list pystr := split_go [] s.

(** [sep.join(parts)] *)
Fixpoint py_join (sep : pystr) (parts : list pystr) : pystr :=
  match parts with
  | [] => []
  | [p] => p
  | p :: rest => p ++ sep ++ py_join sep rest
  end.

Fixpoint py_startswith (s pre : pystr) : bool :=
  match pre, s with
  | [], _ => true
  | p :: pre', c :: s' => (p =? c) && py_startswith s' pre'
  | _ :: _, [] => false
  end.

(** [sub in s] *)
Fixpoint py_in (sub s : pystr) : bool :=
  py_startswith s sub ||
  match s with
  | [] => false
  | _ :: r => py_in sub r
  end.

(** [s.replace(old, new)] for a non-empty [old]: non-overlapping
    occurrences, leftmost first.  [skip] counts the characters of a matched
    occurrence that are still to be dropped. *)
Fixpoint replace_go (old new : pystr) (skip : nat) (s : pystr) : pystr :=
  match s with
  | [] => []
  | c :: r =>
    match skip with
    | S k => replace_go old new k r
    | O =>
      if py_startswith s old
      then new ++ replace_go old new (Nat.pred (length old)) r
      else c :: replace_go old new O r
    end
  end.

Definition py_replace (old new s : pystr) : pystr := replace_go old new O s.

(** [s.lower()] and [s.upper()]: the full case mappings of the runtime,
    from the Unicode Character Database 14.0 it ships.  A simple mapping is
    given by runs: [(first, count, step, image)] sends [first + k * step], for
    [k < count], to [image + k * step]. *)
Definition LOWER_RUNS : list (N * N * N * N) :=
  [(0x41, 26, 1, 0x61); (0xC0, 23, 1, 0xE0); (0xD8, 7, 1, 0xF8); (0x100, 24, 2, 0x101);
   (0x132, 3, 2, 0x133); (0x139, 8, 2, 0x13A); (0x14A, 23, 2, 0x14B); (0x178, 1, 1, 0xFF);
   (0x179, 3, 2, 0x17A); (0x181, 1, 1, 0x253); (0x182, 2, 2, 0x183); (0x186, 1, 1, 0x254);
   (0x187, 1, 1, 0x188); (0x189, 2, 1, 0x256); (0x18B, 1, 1, 0x18C); (0x18E, 1, 1, 0x1DD);
   (0x18F, 1, 1, 0x259); (0x190, 1, 1, 0x25B); (0x191, 1, 1, 0x192); (0x193, 1, 1, 0x260);
   (0x194, 1, 1, 0x263); (0x196, 1, 1, 0x269); (0x197, 1, 1, 0x268); (0x198, 1, 1, 0x199);
   (0x19C, 1, 1, 0x26F); (0x19D, 1, 1, 0x272); (0x19F, 1, 1, 0x275); (0x1A0, 3, 2, 0x1A1);
   (0x1A6, 1, 1, 0x280); (0x1A7, 1, 1, 0x1A8); (0x1A9, 1, 1, 0x283); (0x1AC, 1, 1, 0x1AD);
   (0x1AE, 1, 1, 0x288); (0x1AF, 1, 1, 0x1B0); (0x1B1, 2, 1, 0x28A); (0x1B3, 2, 2, 0x1B4);
   (0x1B7, 1, 1, 0x292); (0x1B8, 1, 1, 0x1B9); (0x1BC, 1, 1, 0x1BD); (0x1C4, 1, 1, 0x1C6);
   (0x1C5, 1, 1, 0x1C6); (0x1C7, 1, 1, 0x1C9); (0x1C8, 1, 1, 0x1C9); (0x1CA, 1, 1, 0x1CC);
   (0x1CB, 9, 2, 0x1CC); (0x1DE, 9, 2, 0x1DF); (0x1F1, 1, 1, 0x1F3); (0x1F2, 2, 2, 0x1F3);
   (0x1F6, 1, 1, 0x195); (0x1F7, 1, 1, 0x1BF); (0x1F8, 20, 2, 0x1F9); (0x220, 1, 1, 0x19E);
   (0x222, 9, 2, 0x223); (0x23A, 1, 1, 0x2C65); (0x23B, 1, 1, 0x23C); (0x23D, 1, 1, 0x19A);
   (0x23E, 1, 1, 0x2C66); (0x241, 1, 1, 0x242); (0x243, 1, 1, 0x180); (0x244, 1, 1, 0x289);
   (0x245, 1, 1, 0x28C); (0x246, 5, 2, 0x247); (0x370, 2, 2, 0x371); (0x376, 1, 1, 0x377);
   (0x37F, 1, 1, 0x3F3); (0x386, 1, 1, 0x3AC); (0x388, 3, 1, 0x3AD); (0x38C, 1, 1, 0x3CC);
   (0x38E, 2, 1, 0x3CD); (0x391, 17, 1, 0x3B1); (0x3A3, 9, 1, 0x3C3); (0x3CF, 1, 1, 0x3D7);
   (0x3D8, 12, 2, 0x3D9); (0x3F4, 1, 1, 0x3B8); (0x3F7, 1, 1, 0x3F8); (0x3F9, 1, 1, 0x3F2);
   (0x3FA, 1, 1, 0x3FB); (0x3FD, 3, 1, 0x37B); (0x400, 16, 1, 0x450); (0x410, 32, 1, 0x430);
   (0x460, 17, 2, 0x461); (0x48A, 27, 2, 0x48B); (0x4C0, 1, 1, 0x4CF); (0x4C1, 7, 2, 0x4C2);
   (0x4D0, 48, 2, 0x4D1); (0x531, 38, 1, 0x561); (0x10A0, 38, 1, 0x2D00); (0x10C7, 1, 1, 0x2D27);
   (0x10CD, 1, 1, 0x2D2D); (0x13A0, 80, 1, 0xAB70); (0x13F0, 6, 1, 0x13F8);
   (0x1C90, 43, 1, 0x10D0); (0x1CBD, 3, 1, 0x10FD); (0x1E00, 75, 2, 0x1E01); (0x1E9E, 1, 1, 0xDF);
   (0x1EA0, 48, 2, 0x1EA1); (0x1F08, 8, 1, 0x1F00); (0x1F18, 6, 1, 0x1F10);
   (0x1F28, 8, 1, 0x1F20); (0x1F38, 8, 1, 0x1F30); (0x1F48, 6, 1, 0x1F40); (0x1F59, 4, 2, 0x1F51);
   (0x1F68, 8, 1, 0x1F60); (0x1F88, 8, 1, 0x1F80); (0x1F98, 8, 1, 0x1F90); (0x1FA8, 8, 1, 0x1FA0);
   (0x1FB8, 2, 1, 0x1FB0); (0x1FBA, 2, 1, 0x1F70); (0x1FBC, 1, 1, 0x1FB3); (0x1FC8, 4, 1, 0x1F72);
   (0x1FCC, 1, 1, 0x1FC3); (0x1FD8, 2, 1, 0x1FD0); (0x1FDA, 2, 1, 0x1F76); (0x1FE8, 2, 1, 0x1FE0);
   (0x1FEA, 2, 1, 0x1F7A); (0x1FEC, 1, 1, 0x1FE5); (0x1FF8, 2, 1, 0x1F78); (0x1FFA, 2, 1, 0x1F7C);
   (0x1FFC, 1, 1, 0x1FF3); (0x2126, 1, 1, 0x3C9); (0x212A, 1, 1, 0x6B); (0x212B, 1, 1, 0xE5);
   (0x2132, 1, 1, 0x214E); (0x2160, 16, 1, 0x2170); (0x2183, 1, 1, 0x2184);
   (0x24B6, 26, 1, 0x24D0); (0x2C00, 48, 1, 0x2C30); (0x2C60, 1, 1, 0x2C61);
   (0x2C62, 1, 1, 0x26B); (0x2C63, 1, 1, 0x1D7D); (0x2C64, 1, 1, 0x27D); (0x2C67, 3, 2, 0x2C68);
   (0x2C6D, 1, 1, 0x251); (0x2C6E, 1, 1, 0x271); (0x2C6F, 1, 1, 0x250); (0x2C70, 1, 1, 0x252);
   (0x2C72, 1, 1, 0x2C73); (0x2C75, 1, 1, 0x2C76); (0x2C7E, 2, 1, 0x23F); (0x2C80, 50, 2, 0x2C81);
   (0x2CEB, 2, 2, 0x2CEC); (0x2CF2, 1, 1, 0x2CF3); (0xA640, 23, 2, 0xA641);
   (0xA680, 14, 2, 0xA681); (0xA722, 7, 2, 0xA723); (0xA732, 31, 2, 0xA733);
   (0xA779, 2, 2, 0xA77A); (0xA77D, 1, 1, 0x1D79); (0xA77E, 5, 2, 0xA77F); (0xA78B, 1, 1, 0xA78C);
   (0xA78D, 1, 1, 0x265); (0xA790, 2, 2, 0xA791); (0xA796, 10, 2, 0xA797); (0xA7AA, 1, 1, 0x266);
   (0xA7AB, 1, 1, 0x25C); (0xA7AC, 1, 1, 0x261); (0xA7AD, 1, 1, 0x26C); (0xA7AE, 1, 1, 0x26A);
   (0xA7B0, 1, 1, 0x29E); (0xA7B1, 1, 1, 0x287); (0xA7B2, 1, 1, 0x29D); (0xA7B3, 1, 1, 0xAB53);
   (0xA7B4, 8, 2, 0xA7B5); (0xA7C4, 1, 1, 0xA794); (0xA7C5, 1, 1, 0x282); (0xA7C6, 1, 1, 0x1D8E);
   (0xA7C7, 2, 2, 0xA7C8); (0xA7D0, 1, 1, 0xA7D1); (0xA7D6, 2, 2, 0xA7D7); (0xA7F5, 1, 1, 0xA7F6);
   (0xFF21, 26, 1, 0xFF41); (0x10400, 40, 1, 0x10428); (0x104B0, 36, 1, 0x104D8);
   (0x10570, 11, 1, 0x10597); (0x1057C, 15, 1, 0x105A3); (0x1058C, 7, 1, 0x105B3);
   (0x10594, 2, 1, 0x105BB); (0x10C80, 51, 1, 0x10CC0); (0x118A0, 32, 1, 0x118C0);
   (0x16E40, 32, 1, 0x16E60); (0x1E900, 34, 1, 0x1E922)].

Definition UPPER_RUNS : list (N * N * N * N) :=
  [(0x61, 26, 1, 0x41); (0xB5, 1, 1, 0x39C); (0xE0, 23, 1, 0xC0); (0xF8, 7, 1, 0xD8);
   (0xFF, 1, 1, 0x178); (0x101, 24, 2, 0x100); (0x131, 1, 1, 0x49); (0x133, 3, 2, 0x132);
   (0x13A, 8, 2, 0x139); (0x14B, 23, 2, 0x14A); (0x17A, 3, 2, 0x179); (0x17F, 1, 1, 0x53);
   (0x180, 1, 1, 0x243); (0x183, 2, 2, 0x182); (0x188, 1, 1, 0x187); (0x18C, 1, 1, 0x18B);
   (0x192, 1, 1, 0x191); (0x195, 1, 1, 0x1F6); (0x199, 1, 1, 0x198); (0x19A, 1, 1, 0x23D);
   (0x19E, 1, 1, 0x220); (0x1A1, 3, 2, 0x1A0); (0x1A8, 1, 1, 0x1A7); (0x1AD, 1, 1, 0x1AC);
   (0x1B0, 1, 1, 0x1AF); (0x1B4, 2, 2, 0x1B3); (0x1B9, 1, 1, 0x1B8); (0x1BD, 1, 1, 0x1BC);
   (0x1BF, 1, 1, 0x1F7); (0x1C5, 1, 1, 0x1C4); (0x1C6, 1, 1, 0x1C4); (0x1C8, 1, 1, 0x1C7);
   (0x1C9, 1, 1, 0x1C7); (0x1CB, 1, 1, 0x1CA); (0x1CC, 1, 1, 0x1CA); (0x1CE, 8, 2, 0x1CD);
   (0x1DD, 1, 1, 0x18E); (0x1DF, 9, 2, 0x1DE); (0x1F2, 1, 1, 0x1F1); (0x1F3, 1, 1, 0x1F1);
   (0x1F5, 1, 1, 0x1F4); (0x1F9, 20, 2, 0x1F8); (0x223, 9, 2, 0x222); (0x23C, 1, 1, 0x23B);
   (0x23F, 2, 1, 0x2C7E); (0x242, 1, 1, 0x241); (0x247, 5, 2, 0x246); (0x250, 1, 1, 0x2C6F);
   (0x251, 1, 1, 0x2C6D); (0x252, 1, 1, 0x2C70); (0x253, 1, 1, 0x181); (0x254, 1, 1, 0x186);
   (0x256, 2, 1, 0x189); (0x259, 1, 1, 0x18F); (0x25B, 1, 1, 0x190); (0x25C, 1, 1, 0xA7AB);
   (0x260, 1, 1, 0x193); (0x261, 1, 1, 0xA7AC); (0x263, 1, 1, 0x194); (0x265, 1, 1, 0xA78D);
   (0x266, 1, 1, 0xA7AA); (0x268, 1, 1, 0x197); (0x269, 1, 1, 0x196); (0x26A, 1, 1, 0xA7AE);
   (0x26B, 1, 1, 0x2C62); (0x26C, 1, 1, 0xA7AD); (0x26F, 1, 1, 0x19C); (0x271, 1, 1, 0x2C6E);
   (0x272, 1, 1, 0x19D); (0x275, 1, 1, 0x19F); (0x27D, 1, 1, 0x2C64); (0x280, 1, 1, 0x1A6);
   (0x282, 1, 1, 0xA7C5); (0x283, 1, 1, 0x1A9); (0x287, 1, 1, 0xA7B1); (0x288, 1, 1, 0x1AE);
   (0x289, 1, 1, 0x244); (0x28A, 2, 1, 0x1B1); (0x28C, 1, 1, 0x245); (0x292, 1, 1, 0x1B7);
   (0x29D, 1, 1, 0xA7B2); (0x29E, 1, 1, 0xA7B0); (0x345, 1, 1, 0x399); (0x371, 2, 2, 0x370);
   (0x377, 1, 1, 0x376); (0x37B, 3, 1, 0x3FD); (0x3AC, 1, 1, 0x386); (0x3AD, 3, 1, 0x388);
   (0x3B1, 17, 1, 0x391); (0x3C2, 1, 1, 0x3A3); (0x3C3, 9, 1, 0x3A3); (0x3CC, 1, 1, 0x38C);
   (0x3CD, 2, 1, 0x38E); (0x3D0, 1, 1, 0x392); (0x3D1, 1, 1, 0x398); (0x3D5, 1, 1, 0x3A6);
   (0x3D6, 1, 1, 0x3A0); (0x3D7, 1, 1, 0x3CF); (0x3D9, 12, 2, 0x3D8); (0x3F0, 1, 1, 0x39A);
   (0x3F1, 1, 1, 0x3A1); (0x3F2, 1, 1, 0x3F9); (0x3F3, 1, 1, 0x37F); (0x3F5, 1, 1, 0x395);
   (0x3F8, 1, 1, 0x3F7); (0x3FB, 1, 1, 0x3FA); (0x430, 32, 1, 0x410); (0x450, 16, 1, 0x400);
   (0x461, 17, 2, 0x460); (0x48B, 27, 2, 0x48A); (0x4C2, 7, 2, 0x4C1); (0x4CF, 1, 1, 0x4C0);
   (0x4D1, 48, 2, 0x4D0); (0x561, 38, 1, 0x531); (0x10D0, 43, 1, 0x1C90); (0x10FD, 3, 1, 0x1CBD);
   (0x13F8, 6, 1, 0x13F0); (0x1C80, 1, 1, 0x412); (0x1C81, 1, 1, 0x414); (0x1C82, 1, 1, 0x41E);
   (0x1C83, 2, 1, 0x421); (0x1C85, 1, 1, 0x422); (0x1C86, 1, 1, 0x42A); (0x1C87, 1, 1, 0x462);
   (0x1C88, 1, 1, 0xA64A); (0x1D79, 1, 1, 0xA77D); (0x1D7D, 1, 1, 0x2C63); (0x1D8E, 1, 1, 0xA7C6);
   (0x1E01, 75, 2, 0x1E00); (0x1E9B, 1, 1, 0x1E60); (0x1EA1, 48, 2, 0x1EA0);
   (0x1F00, 8, 1, 0x1F08); (0x1F10, 6, 1, 0x1F18); (0x1F20, 8, 1, 0x1F28); (0x1F30, 8, 1, 0x1F38);
   (0x1F40, 6, 1, 0x1F48); (0x1F51, 4, 2, 0x1F59); (0x1F60, 8, 1, 0x1F68); (0x1F70, 2, 1, 0x1FBA);
   (0x1F72, 4, 1, 0x1FC8); (0x1F76, 2, 1, 0x1FDA); (0x1F78, 2, 1, 0x1FF8); (0x1F7A, 2, 1, 0x1FEA);
   (0x1F7C, 2, 1, 0x1FFA); (0x1FB0, 2, 1, 0x1FB8); (0x1FBE, 1, 1, 0x399); (0x1FD0, 2, 1, 0x1FD8);
   (0x1FE0, 2, 1, 0x1FE8); (0x1FE5, 1, 1, 0x1FEC); (0x214E, 1, 1, 0x2132);
   (0x2170, 16, 1, 0x2160); (0x2184, 1, 1, 0x2183); (0x24D0, 26, 1, 0x24B6);
   (0x2C30, 48, 1, 0x2C00); (0x2C61, 1, 1, 0x2C60); (0x2C65, 1, 1, 0x23A); (0x2C66, 1, 1, 0x23E);
   (0x2C68, 3, 2, 0x2C67); (0x2C73, 1, 1, 0x2C72); (0x2C76, 1, 1, 0x2C75);
   (0x2C81, 50, 2, 0x2C80); (0x2CEC, 2, 2, 0x2CEB); (0x2CF3, 1, 1, 0x2CF2);
   (0x2D00, 38, 1, 0x10A0); (0x2D27, 1, 1, 0x10C7); (0x2D2D, 1, 1, 0x10CD);
   (0xA641, 23, 2, 0xA640); (0xA681, 14, 2, 0xA680); (0xA723, 7, 2, 0xA722);
   (0xA733, 31, 2, 0xA732); (0xA77A, 2, 2, 0xA779); (0xA77F, 5, 2, 0xA77E);
   (0xA78C, 1, 1, 0xA78B); (0xA791, 2, 2, 0xA790); (0xA794, 1, 1, 0xA7C4);
   (0xA797, 10, 2, 0xA796); (0xA7B5, 8, 2, 0xA7B4); (0xA7C8, 2, 2, 0xA7C7);
   (0xA7D1, 1, 1, 0xA7D0); (0xA7D7, 2, 2, 0xA7D6); (0xA7F6, 1, 1, 0xA7F5); (0xAB53, 1, 1, 0xA7B3);
   (0xAB70, 80, 1, 0x13A0); (0xFF41, 26, 1, 0xFF21); (0x10428, 40, 1, 0x10400);
   (0x104D8, 36, 1, 0x104B0); (0x10597, 11, 1, 0x10570); (0x105A3, 15, 1, 0x1057C);
   (0x105B3, 7, 1, 0x1058C); (0x105BB, 2, 1, 0x10594); (0x10CC0, 51, 1, 0x10C80);
   (0x118C0, 32, 1, 0x118A0); (0x16E60, 32, 1, 0x16E40); (0x1E922, 34, 1, 0x1E900)].

(** The code points whose upper case is more than one code point, or is
    given by [SpecialCasing.txt]. *)
Definition UPPER_SPECIAL : list (N * pystr) :=
  [(0xDF, [0x53; 0x53]); (0x149, [0x2BC; 0x4E]); (0x1F0, [0x4A; 0x30C]);
   (0x390, [0x399; 0x308; 0x301]); (0x3B0, [0x3A5; 0x308; 0x301]); (0x587, [0x535; 0x552]);
   (0x1E96, [0x48; 0x331]); (0x1E97, [0x54; 0x308]); (0x1E98, [0x57; 0x30A]);
   (0x1E99, [0x59; 0x30A]); (0x1E9A, [0x41; 0x2BE]); (0x1F50, [0x3A5; 0x313]);
   (0x1F52, [0x3A5; 0x313; 0x300]); (0x1F54, [0x3A5; 0x313; 0x301]);
   (0x1F56, [0x3A5; 0x313; 0x342]); (0x1F80, [0x1F08; 0x399]); (0x1F81, [0x1F09; 0x399]);
   (0x1F82, [0x1F0A; 0x399]); (0x1F83, [0x1F0B; 0x399]); (0x1F84, [0x1F0C; 0x399]);
   (0x1F85, [0x1F0D; 0x399]); (0x1F86, [0x1F0E; 0x399]); (0x1F87, [0x1F0F; 0x399]);
   (0x1F88, [0x1F08; 0x399]); (0x1F89, [0x1F09; 0x399]); (0x1F8A, [0x1F0A; 0x399]);
   (0x1F8B, [0x1F0B; 0x399]); (0x1F8C, [0x1F0C; 0x399]); (0x1F8D, [0x1F0D; 0x399]);
   (0x1F8E, [0x1F0E; 0x399]); (0x1F8F, [0x1F0F; 0x399]); (0x1F90, [0x1F28; 0x399]);
   (0x1F91, [0x1F29; 0x399]); (0x1F92, [0x1F2A; 0x399]); (0x1F93, [0x1F2B; 0x399]);
   (0x1F94, [0x1F2C; 0x399]); (0x1F95, [0x1F2D; 0x399]); (0x1F96, [0x1F2E; 0x399]);
   (0x1F97, [0x1F2F; 0x399]); (0x1F98, [0x1F28; 0x399]); (0x1F99, [0x1F29; 0x399]);
   (0x1F9A, [0x1F2A; 0x399]); (0x1F9B, [0x1F2B; 0x399]); (0x1F9C, [0x1F2C; 0x399]);
   (0x1F9D, [0x1F2D; 0x399]); (0x1F9E, [0x1F2E; 0x399]); (0x1F9F, [0x1F2F; 0x399]);
   (0x1FA0, [0x1F68; 0x399]); (0x1FA1, [0x1F69; 0x399]); (0x1FA2, [0x1F6A; 0x399]);
   (0x1FA3, [0x1F6B; 0x399]); (0x1FA4, [0x1F6C; 0x399]); (0x1FA5, [0x1F6D; 0x399]);
   (0x1FA6, [0x1F6E; 0x399]); (0x1FA7, [0x1F6F; 0x399]); (0x1FA8, [0x1F68; 0x399]);
   (0x1FA9, [0x1F69; 0x399]); (0x1FAA, [0x1F6A; 0x399]); (0x1FAB, [0x1F6B; 0x399]);
   (0x1FAC, [0x1F6C; 0x399]); (0x1FAD, [0x1F6D; 0x399]); (0x1FAE, [0x1F6E; 0x399]);
   (0x1FAF, [0x1F6F; 0x399]); (0x1FB2, [0x1FBA; 0x399]); (0x1FB3, [0x391; 0x399]);
   (0x1FB4, [0x386; 0x399]); (0x1FB6, [0x391; 0x342]); (0x1FB7, [0x391; 0x342; 0x399]);
   (0x1FBC, [0x391; 0x399]); (0x1FC2, [0x1FCA; 0x399]); (0x1FC3, [0x397; 0x399]);
   (0x1FC4, [0x389; 0x399]); (0x1FC6, [0x397; 0x342]); (0x1FC7, [0x397; 0x342; 0x399]);
   (0x1FCC, [0x397; 0x399]); (0x1FD2, [0x399; 0x308; 0x300]); (0x1FD3, [0x399; 0x308; 0x301]);
   (0x1FD6, [0x399; 0x342]); (0x1FD7, [0x399; 0x308; 0x342]); (0x1FE2, [0x3A5; 0x308; 0x300]);
   (0x1FE3, [0x3A5; 0x308; 0x301]); (0x1FE4, [0x3A1; 0x313]); (0x1FE6, [0x3A5; 0x342]);
   (0x1FE7, [0x3A5; 0x308; 0x342]); (0x1FF2, [0x1FFA; 0x399]); (0x1FF3, [0x3A9; 0x399]);
   (0x1FF4, [0x38F; 0x399]); (0x1FF6, [0x3A9; 0x342]); (0x1FF7, [0x3A9; 0x342; 0x399]);
   (0x1FFC, [0x3A9; 0x399]); (0xFB00, [0x46; 0x46]); (0xFB01, [0x46; 0x49]);
   (0xFB02, [0x46; 0x4C]); (0xFB03, [0x46; 0x46; 0x49]); (0xFB04, [0x46; 0x46; 0x4C]);
   (0xFB05, [0x53; 0x54]); (0xFB06, [0x53; 0x54]); (0xFB13, [0x544; 0x546]);
   (0xFB14, [0x544; 0x535]); (0xFB15, [0x544; 0x53B]); (0xFB16, [0x54E; 0x546]);
   (0xFB17, [0x544; 0x53D])].

(** The code points with the properties [Cased] and [Case_Ignorable], as
    inclusive ranges. *)
Definition CASED : list (N * N) :=
  [(0x41, 0x5A); (0x61, 0x7A); (0xAA, 0xAA); (0xB5, 0xB5); (0xBA, 0xBA); (0xC0, 0xD6);
   (0xD8, 0xF6); (0xF8, 0x1BA); (0x1BC, 0x1BF); (0x1C4, 0x293); (0x295, 0x2B8); (0x2C0, 0x2C1);
   (0x2E0, 0x2E4); (0x345, 0x345); (0x370, 0x373); (0x376, 0x377); (0x37A, 0x37D); (0x37F, 0x37F);
   (0x386, 0x386); (0x388, 0x38A); (0x38C, 0x38C); (0x38E, 0x3A1); (0x3A3, 0x3F5); (0x3F7, 0x481);
   (0x48A, 0x52F); (0x531, 0x556); (0x560, 0x588); (0x10A0, 0x10C5); (0x10C7, 0x10C7);
   (0x10CD, 0x10CD); (0x10D0, 0x10FA); (0x10FD, 0x10FF); (0x13A0, 0x13F5); (0x13F8, 0x13FD);
   (0x1C80, 0x1C88); (0x1C90, 0x1CBA); (0x1CBD, 0x1CBF); (0x1D00, 0x1DBF); (0x1E00, 0x1F15);
   (0x1F18, 0x1F1D); (0x1F20, 0x1F45); (0x1F48, 0x1F4D); (0x1F50, 0x1F57); (0x1F59, 0x1F59);
   (0x1F5B, 0x1F5B); (0x1F5D, 0x1F5D); (0x1F5F, 0x1F7D); (0x1F80, 0x1FB4); (0x1FB6, 0x1FBC);
   (0x1FBE, 0x1FBE); (0x1FC2, 0x1FC4); (0x1FC6, 0x1FCC); (0x1FD0, 0x1FD3); (0x1FD6, 0x1FDB);
   (0x1FE0, 0x1FEC); (0x1FF2, 0x1FF4); (0x1FF6, 0x1FFC); (0x2071, 0x2071); (0x207F, 0x207F);
   (0x2090, 0x209C); (0x2102, 0x2102); (0x2107, 0x2107); (0x210A, 0x2113); (0x2115, 0x2115);
   (0x2119, 0x211D); (0x2124, 0x2124); (0x2126, 0x2126); (0x2128, 0x2128); (0x212A, 0x212D);
   (0x212F, 0x2134); (0x2139, 0x2139); (0x213C, 0x213F); (0x2145, 0x2149); (0x214E, 0x214E);
   (0x2160, 0x217F); (0x2183, 0x2184); (0x24B6, 0x24E9); (0x2C00, 0x2CE4); (0x2CEB, 0x2CEE);
   (0x2CF2, 0x2CF3); (0x2D00, 0x2D25); (0x2D27, 0x2D27); (0x2D2D, 0x2D2D); (0xA640, 0xA66D);
   (0xA680, 0xA69D); (0xA722, 0xA787); (0xA78B, 0xA78E); (0xA790, 0xA7CA); (0xA7D0, 0xA7D1);
   (0xA7D3, 0xA7D3); (0xA7D5, 0xA7D9); (0xA7F5, 0xA7F6); (0xA7F8, 0xA7FA); (0xAB30, 0xAB5A);
   (0xAB5C, 0xAB68); (0xAB70, 0xABBF); (0xFB00, 0xFB06); (0xFB13, 0xFB17); (0xFF21, 0xFF3A);
   (0xFF41, 0xFF5A); (0x10400, 0x1044F); (0x104B0, 0x104D3); (0x104D8, 0x104FB);
   (0x10570, 0x1057A); (0x1057C, 0x1058A); (0x1058C, 0x10592); (0x10594, 0x10595);
   (0x10597, 0x105A1); (0x105A3, 0x105B1); (0x105B3, 0x105B9); (0x105BB, 0x105BC);
   (0x10780, 0x10780); (0x10783, 0x10785); (0x10787, 0x107B0); (0x107B2, 0x107BA);
   (0x10C80, 0x10CB2); (0x10CC0, 0x10CF2); (0x118A0, 0x118DF); (0x16E40, 0x16E7F);
   (0x1D400, 0x1D454); (0x1D456, 0x1D49C); (0x1D49E, 0x1D49F); (0x1D4A2, 0x1D4A2);
   (0x1D4A5, 0x1D4A6); (0x1D4A9, 0x1D4AC); (0x1D4AE, 0x1D4B9); (0x1D4BB, 0x1D4BB);
   (0x1D4BD, 0x1D4C3); (0x1D4C5, 0x1D505); (0x1D507, 0x1D50A); (0x1D50D, 0x1D514);
   (0x1D516, 0x1D51C); (0x1D51E, 0x1D539); (0x1D53B, 0x1D53E); (0x1D540, 0x1D544);
   (0x1D546, 0x1D546); (0x1D54A, 0x1D550); (0x1D552, 0x1D6A5); (0x1D6A8, 0x1D6C0);
   (0x1D6C2, 0x1D6DA); (0x1D6DC, 0x1D6FA); (0x1D6FC, 0x1D714); (0x1D716, 0x1D734);
   (0x1D736, 0x1D74E); (0x1D750, 0x1D76E); (0x1D770, 0x1D788); (0x1D78A, 0x1D7A8);
   (0x1D7AA, 0x1D7C2); (0x1D7C4, 0x1D7CB); (0x1DF00, 0x1DF09); (0x1DF0B, 0x1DF1E);
   (0x1E900, 0x1E943); (0x1F130, 0x1F149); (0x1F150, 0x1F169); (0x1F170, 0x1F189)].

Definition CASE_IGNORABLE : list (N * N) :=
  [(0x27, 0x27); (0x2E, 0x2E); (0x3A, 0x3A); (0x5E, 0x5E); (0x60, 0x60); (0xA8, 0xA8);
   (0xAD, 0xAD); (0xAF, 0xAF); (0xB4, 0xB4); (0xB7, 0xB8); (0x2B0, 0x36F); (0x374, 0x375);
   (0x37A, 0x37A); (0x384, 0x385); (0x387, 0x387); (0x483, 0x489); (0x559, 0x559); (0x55F, 0x55F);
   (0x591, 0x5BD); (0x5BF, 0x5BF); (0x5C1, 0x5C2); (0x5C4, 0x5C5); (0x5C7, 0x5C7); (0x5F4, 0x5F4);
   (0x600, 0x605); (0x610, 0x61A); (0x61C, 0x61C); (0x640, 0x640); (0x64B, 0x65F); (0x670, 0x670);
   (0x6D6, 0x6DD); (0x6DF, 0x6E8); (0x6EA, 0x6ED); (0x70F, 0x70F); (0x711, 0x711); (0x730, 0x74A);
   (0x7A6, 0x7B0); (0x7EB, 0x7F5); (0x7FA, 0x7FA); (0x7FD, 0x7FD); (0x816, 0x82D); (0x859, 0x85B);
   (0x888, 0x888); (0x890, 0x891); (0x898, 0x89F); (0x8C9, 0x902); (0x93A, 0x93A); (0x93C, 0x93C);
   (0x941, 0x948); (0x94D, 0x94D); (0x951, 0x957); (0x962, 0x963); (0x971, 0x971); (0x981, 0x981);
   (0x9BC, 0x9BC); (0x9C1, 0x9C4); (0x9CD, 0x9CD); (0x9E2, 0x9E3); (0x9FE, 0x9FE); (0xA01, 0xA02);
   (0xA3C, 0xA3C); (0xA41, 0xA42); (0xA47, 0xA48); (0xA4B, 0xA4D); (0xA51, 0xA51); (0xA70, 0xA71);
   (0xA75, 0xA75); (0xA81, 0xA82); (0xABC, 0xABC); (0xAC1, 0xAC5); (0xAC7, 0xAC8); (0xACD, 0xACD);
   (0xAE2, 0xAE3); (0xAFA, 0xAFF); (0xB01, 0xB01); (0xB3C, 0xB3C); (0xB3F, 0xB3F); (0xB41, 0xB44);
   (0xB4D, 0xB4D); (0xB55, 0xB56); (0xB62, 0xB63); (0xB82, 0xB82); (0xBC0, 0xBC0); (0xBCD, 0xBCD);
   (0xC00, 0xC00); (0xC04, 0xC04); (0xC3C, 0xC3C); (0xC3E, 0xC40); (0xC46, 0xC48); (0xC4A, 0xC4D);
   (0xC55, 0xC56); (0xC62, 0xC63); (0xC81, 0xC81); (0xCBC, 0xCBC); (0xCBF, 0xCBF); (0xCC6, 0xCC6);
   (0xCCC, 0xCCD); (0xCE2, 0xCE3); (0xD00, 0xD01); (0xD3B, 0xD3C); (0xD41, 0xD44); (0xD4D, 0xD4D);
   (0xD62, 0xD63); (0xD81, 0xD81); (0xDCA, 0xDCA); (0xDD2, 0xDD4); (0xDD6, 0xDD6); (0xE31, 0xE31);
   (0xE34, 0xE3A); (0xE46, 0xE4E); (0xEB1, 0xEB1); (0xEB4, 0xEBC); (0xEC6, 0xEC6); (0xEC8, 0xECD);
   (0xF18, 0xF19); (0xF35, 0xF35); (0xF37, 0xF37); (0xF39, 0xF39); (0xF71, 0xF7E); (0xF80, 0xF84);
   (0xF86, 0xF87); (0xF8D, 0xF97); (0xF99, 0xFBC); (0xFC6, 0xFC6); (0x102D, 0x1030);
   (0x1032, 0x1037); (0x1039, 0x103A); (0x103D, 0x103E); (0x1058, 0x1059); (0x105E, 0x1060);
   (0x1071, 0x1074); (0x1082, 0x1082); (0x1085, 0x1086); (0x108D, 0x108D); (0x109D, 0x109D);
   (0x10FC, 0x10FC); (0x135D, 0x135F); (0x1712, 0x1714); (0x1732, 0x1733); (0x1752, 0x1753);
   (0x1772, 0x1773); (0x17B4, 0x17B5); (0x17B7, 0x17BD); (0x17C6, 0x17C6); (0x17C9, 0x17D3);
   (0x17D7, 0x17D7); (0x17DD, 0x17DD); (0x180B, 0x180F); (0x1843, 0x1843); (0x1885, 0x1886);
   (0x18A9, 0x18A9); (0x1920, 0x1922); (0x1927, 0x1928); (0x1932, 0x1932); (0x1939, 0x193B);
   (0x1A17, 0x1A18); (0x1A1B, 0x1A1B); (0x1A56, 0x1A56); (0x1A58, 0x1A5E); (0x1A60, 0x1A60);
   (0x1A62, 0x1A62); (0x1A65, 0x1A6C); (0x1A73, 0x1A7C); (0x1A7F, 0x1A7F); (0x1AA7, 0x1AA7);
   (0x1AB0, 0x1ACE); (0x1B00, 0x1B03); (0x1B34, 0x1B34); (0x1B36, 0x1B3A); (0x1B3C, 0x1B3C);
   (0x1B42, 0x1B42); (0x1B6B, 0x1B73); (0x1B80, 0x1B81); (0x1BA2, 0x1BA5); (0x1BA8, 0x1BA9);
   (0x1BAB, 0x1BAD); (0x1BE6, 0x1BE6); (0x1BE8, 0x1BE9); (0x1BED, 0x1BED); (0x1BEF, 0x1BF1);
   (0x1C2C, 0x1C33); (0x1C36, 0x1C37); (0x1C78, 0x1C7D); (0x1CD0, 0x1CD2); (0x1CD4, 0x1CE0);
   (0x1CE2, 0x1CE8); (0x1CED, 0x1CED); (0x1CF4, 0x1CF4); (0x1CF8, 0x1CF9); (0x1D2C, 0x1D6A);
   (0x1D78, 0x1D78); (0x1D9B, 0x1DFF); (0x1FBD, 0x1FBD); (0x1FBF, 0x1FC1); (0x1FCD, 0x1FCF);
   (0x1FDD, 0x1FDF); (0x1FED, 0x1FEF); (0x1FFD, 0x1FFE); (0x200B, 0x200F); (0x2018, 0x2019);
   (0x2024, 0x2024); (0x2027, 0x2027); (0x202A, 0x202E); (0x2060, 0x2064); (0x2066, 0x206F);
   (0x2071, 0x2071); (0x207F, 0x207F); (0x2090, 0x209C); (0x20D0, 0x20F0); (0x2C7C, 0x2C7D);
   (0x2CEF, 0x2CF1); (0x2D6F, 0x2D6F); (0x2D7F, 0x2D7F); (0x2DE0, 0x2DFF); (0x2E2F, 0x2E2F);
   (0x3005, 0x3005); (0x302A, 0x302D); (0x3031, 0x3035); (0x303B, 0x303B); (0x3099, 0x309E);
   (0x30FC, 0x30FE); (0xA015, 0xA015); (0xA4F8, 0xA4FD); (0xA60C, 0xA60C); (0xA66F, 0xA672);
   (0xA674, 0xA67D); (0xA67F, 0xA67F); (0xA69C, 0xA69F); (0xA6F0, 0xA6F1); (0xA700, 0xA721);
   (0xA770, 0xA770); (0xA788, 0xA78A); (0xA7F2, 0xA7F4); (0xA7F8, 0xA7F9); (0xA802, 0xA802);
   (0xA806, 0xA806); (0xA80B, 0xA80B); (0xA825, 0xA826); (0xA82C, 0xA82C); (0xA8C4, 0xA8C5);
   (0xA8E0, 0xA8F1); (0xA8FF, 0xA8FF); (0xA926, 0xA92D); (0xA947, 0xA951); (0xA980, 0xA982);
   (0xA9B3, 0xA9B3); (0xA9B6, 0xA9B9); (0xA9BC, 0xA9BD); (0xA9CF, 0xA9CF); (0xA9E5, 0xA9E6);
   (0xAA29, 0xAA2E); (0xAA31, 0xAA32); (0xAA35, 0xAA36); (0xAA43, 0xAA43); (0xAA4C, 0xAA4C);
   (0xAA70, 0xAA70); (0xAA7C, 0xAA7C); (0xAAB0, 0xAAB0); (0xAAB2, 0xAAB4); (0xAAB7, 0xAAB8);
   (0xAABE, 0xAABF); (0xAAC1, 0xAAC1); (0xAADD, 0xAADD); (0xAAEC, 0xAAED); (0xAAF3, 0xAAF4);
   (0xAAF6, 0xAAF6); (0xAB5B, 0xAB5F); (0xAB69, 0xAB6B); (0xABE5, 0xABE5); (0xABE8, 0xABE8);
   (0xABED, 0xABED); (0xFB1E, 0xFB1E); (0xFBB2, 0xFBC2); (0xFE00, 0xFE0F); (0xFE13, 0xFE13);
   (0xFE20, 0xFE2F); (0xFE52, 0xFE52); (0xFE55, 0xFE55); (0xFEFF, 0xFEFF); (0xFF07, 0xFF07);
   (0xFF0E, 0xFF0E); (0xFF1A, 0xFF1A); (0xFF3E, 0xFF3E); (0xFF40, 0xFF40); (0xFF70, 0xFF70);
   (0xFF9E, 0xFF9F); (0xFFE3, 0xFFE3); (0xFFF9, 0xFFFB); (0x101FD, 0x101FD); (0x102E0, 0x102E0);
   (0x10376, 0x1037A); (0x10780, 0x10785); (0x10787, 0x107B0); (0x107B2, 0x107BA);
   (0x10A01, 0x10A03); (0x10A05, 0x10A06); (0x10A0C, 0x10A0F); (0x10A38, 0x10A3A);
   (0x10A3F, 0x10A3F); (0x10AE5, 0x10AE6); (0x10D24, 0x10D27); (0x10EAB, 0x10EAC);
   (0x10F46, 0x10F50); (0x10F82, 0x10F85); (0x11001, 0x11001); (0x11038, 0x11046);
   (0x11070, 0x11070); (0x11073, 0x11074); (0x1107F, 0x11081); (0x110B3, 0x110B6);
   (0x110B9, 0x110BA); (0x110BD, 0x110BD); (0x110C2, 0x110C2); (0x110CD, 0x110CD);
   (0x11100, 0x11102); (0x11127, 0x1112B); (0x1112D, 0x11134); (0x11173, 0x11173);
   (0x11180, 0x11181); (0x111B6, 0x111BE); (0x111C9, 0x111CC); (0x111CF, 0x111CF);
   (0x1122F, 0x11231); (0x11234, 0x11234); (0x11236, 0x11237); (0x1123E, 0x1123E);
   (0x112DF, 0x112DF); (0x112E3, 0x112EA); (0x11300, 0x11301); (0x1133B, 0x1133C);
   (0x11340, 0x11340); (0x11366, 0x1136C); (0x11370, 0x11374); (0x11438, 0x1143F);
   (0x11442, 0x11444); (0x11446, 0x11446); (0x1145E, 0x1145E); (0x114B3, 0x114B8);
   (0x114BA, 0x114BA); (0x114BF, 0x114C0); (0x114C2, 0x114C3); (0x115B2, 0x115B5);
   (0x115BC, 0x115BD); (0x115BF, 0x115C0); (0x115DC, 0x115DD); (0x11633, 0x1163A);
   (0x1163D, 0x1163D); (0x1163F, 0x11640); (0x116AB, 0x116AB); (0x116AD, 0x116AD);
   (0x116B0, 0x116B5); (0x116B7, 0x116B7); (0x1171D, 0x1171F); (0x11722, 0x11725);
   (0x11727, 0x1172B); (0x1182F, 0x11837); (0x11839, 0x1183A); (0x1193B, 0x1193C);
   (0x1193E, 0x1193E); (0x11943, 0x11943); (0x119D4, 0x119D7); (0x119DA, 0x119DB);
   (0x119E0, 0x119E0); (0x11A01, 0x11A0A); (0x11A33, 0x11A38); (0x11A3B, 0x11A3E);
   (0x11A47, 0x11A47); (0x11A51, 0x11A56); (0x11A59, 0x11A5B); (0x11A8A, 0x11A96);
   (0x11A98, 0x11A99); (0x11C30, 0x11C36); (0x11C38, 0x11C3D); (0x11C3F, 0x11C3F);
   (0x11C92, 0x11CA7); (0x11CAA, 0x11CB0); (0x11CB2, 0x11CB3); (0x11CB5, 0x11CB6);
   (0x11D31, 0x11D36); (0x11D3A, 0x11D3A); (0x11D3C, 0x11D3D); (0x11D3F, 0x11D45);
   (0x11D47, 0x11D47); (0x11D90, 0x11D91); (0x11D95, 0x11D95); (0x11D97, 0x11D97);
   (0x11EF3, 0x11EF4); (0x13430, 0x13438); (0x16AF0, 0x16AF4); (0x16B30, 0x16B36);
   (0x16B40, 0x16B43); (0x16F4F, 0x16F4F); (0x16F8F, 0x16F9F); (0x16FE0, 0x16FE1);
   (0x16FE3, 0x16FE4); (0x1AFF0, 0x1AFF3); (0x1AFF5, 0x1AFFB); (0x1AFFD, 0x1AFFE);
   (0x1BC9D, 0x1BC9E); (0x1BCA0, 0x1BCA3); (0x1CF00, 0x1CF2D); (0x1CF30, 0x1CF46);
   (0x1D167, 0x1D169); (0x1D173, 0x1D182); (0x1D185, 0x1D18B); (0x1D1AA, 0x1D1AD);
   (0x1D242, 0x1D244); (0x1DA00, 0x1DA36); (0x1DA3B, 0x1DA6C); (0x1DA75, 0x1DA75);
   (0x1DA84, 0x1DA84); (0x1DA9B, 0x1DA9F); (0x1DAA1, 0x1DAAF); (0x1E000, 0x1E006);
   (0x1E008, 0x1E018); (0x1E01B, 0x1E021); (0x1E023, 0x1E024); (0x1E026, 0x1E02A);
   (0x1E130, 0x1E13D); (0x1E2AE, 0x1E2AE); (0x1E2EC, 0x1E2EF); (0x1E8D0, 0x1E8D6);
   (0x1E944, 0x1E94B); (0x1F3FB, 0x1F3FF); (0xE0001, 0xE0001); (0xE0020, 0xE007F);
   (0xE0100, 0xE01EF)].

Definition in_run (c : N) (run : N * N * N * N) : bool :=
  let '(first, count, step, _) := run in
  (first <=? c) && (c <? first + count * step) && ((c - first) mod step =? 0).

Definition simple_case (runs : list (N * N * N * N)) (c : N) : N :=
  match List.find (in_run c) runs with
  | Some (first, _, _, image) => image + (c - first)
  | None => c
  end.

Definition in_ranges (ranges : list (N * N)) (c : N) : bool :=
  existsb (fun r => (fst r <=? c) && (c <=? snd r)) ranges.

Definition is_cased (c : N) : bool := in_ranges CASED c.
Definition is_case_ignorable (c : N) : bool := in_ranges CASE_IGNORABLE c.

(** The lower case of one code point, capital sigma apart: U+0130 alone
    gives two code points. *)
Definition lower_cp (c : N) : pystr :=
  if c =? 0x130 then [0x69; 0x307] else [simple_case LOWER_RUNS c].

Definition upper_cp (c : N) : pystr :=
  match List.find (fun p => fst p =? c) UPPER_SPECIAL with
  | Some (_, full) => full
  | None => [simple_case UPPER_RUNS c]
  end.

(** The first code point that is not case-ignorable. *)
Fixpoint skip_case_ignorable (s : pystr) : option N :=
  match s with
  | [] => None
  | c :: r => if is_case_ignorable c then skip_case_ignorable r else Some c
  end.

(** Capital sigma is final when a cased letter precedes it and none
    follows, case-ignorable code points aside. *)
Definition final_sigma (before_reversed after : pystr) : bool :=
  match skip_case_ignorable before_reversed with
  | Some c =>
    is_cased c
    && match skip_case_ignorable after with
       | Some c' => negb (is_cased c')
       | None => true
       end
  | None => false
  end.

Fixpoint lower_go (before_reversed s : pystr) : pystr :=
  match s with
  | [] => []
  | c :: r =>
    (if c =? 0x3A3 then [if final_sigma before_reversed r then 0x3C2 else 0x3C3]
     else lower_cp c)
    ++ lower_go (c :: before_reversed) r
  end.

Definition py_lower (s : pystr) : pystr := lower_go [] s.
Definition py_upper (s : pystr) : pystr := flat_map upper_cp s.

Definition pystr_eqb (a b : pystr) : bool := bool_decide (a = b).

(** Decimal rendering of integers: [str(n)] for an [int]. *)
Fixpoint digits_go (fuel : nat) (n : N) (acc : pystr) : pystr :=
  match fuel with
  | O => acc
  | S f =>
    let acc' := (0x30 + n mod 10) :: acc in
    if n <? 10 then acc' else digits_go f (n / 10) acc'
  end.

Definition str_of_N (n : N) : pystr := digits_go (S (N.to_nat (N.log2 n))) n [].

Definition str_of_Z (z : Z) : pystr :=
  match z with
  | Zneg p => 0x2D :: str_of_N (Npos p)
  | _ => str_of_N (Z.to_N z)
  end.

(** Left padding with zeros, as [%02d] and [%04d] do. *)
Definition zfill (w : nat) (s : pystr) : pystr :=
  repeat 0x30 (w - length s)%nat ++ s.

Example py_decodes_euro : py "€ 5" = [0x20AC; 0x20; 0x35].
Proof. reflexivity. Qed.

Example py_split_runs : py_split (py "  Acme   Insurance ") = [py "Acme"; py "Insurance"].
Proof. reflexivity. Qed.

Example py_replace_commas : py_replace (py ",") [] (py "1,234,5") = py "12345".
Proof. reflexivity. Qed.

Example py_upper_sharp_s : py_upper (py "exceß") = py "EXCESS".
Proof. reflexivity. Qed.

Example str_of_Z_samples :
  str_of_Z 0 = py "0" /\ str_of_Z 1024 = py "1024" /\ str_of_Z (-70) = py "-70".
Proof. repeat split; reflexivity. Qed.

(** ** Exceptions *)

(** The exception classes the scripts meet, each with its message.
    [APIError] stands for whatever the store client raises. *)
Inductive exn :=
  | ValueError (msg : pystr)
  | OverflowError (msg : pystr)
  | TypeError (msg : pystr)
  | EOFError (msg : pystr)
  | AttributeError (msg : pystr)
  | KeyError (msg : pystr)
  | IndexError (msg : pystr)
  | APIError (msg : pystr).

(** [str(e)] *)
Definition exn_msg (e : exn) : pystr :=
  match e with
  | ValueError m | OverflowError m | TypeError m | EOFError m
  | AttributeError m | KeyError m | IndexError m | APIError m => m
  end.

Definition is_ValueError (e : exn) : bool :=
  match e with ValueError _ => true | _ => false end.
Definition is_OverflowError (e : exn) : bool :=
  match e with OverflowError _ => true | _ => false end.
Definition is_TypeError (e : exn) : bool :=
  match e with TypeError _ => true | _ => false end.

(** A computation without side effects that may raise. *)
Definition Exc (A : Type) : Type := exn + A.

Definition exc_bind {A B} (c : Exc A) (k : A -> Exc B) : Exc B :=
  match c with
  | inl e => inl e
  | inr a => k a
  end.

(** [try: c  except <classes>: h] *)
Definition exc_catch {A} (c : Exc A) (handles : exn -> bool) (h : Exc A) : Exc A :=
  match c with
  | inl e => if handles e then h else inl e
  | inr a => inr a
  end.


(** ** Unicode decimal digits

    [int], [float] and the regular expression class [\d] accept every
    character of category Nd.  Such characters come in blocks of ten
    consecutive code points; the table lists the zero of each block. *)
Definition digit_blocks : list N :=
  [0x30; 0x660; 0x6f0; 0x7c0; 0x966; 0x9e6; 0xa66; 0xae6; 0xb66; 0xbe6; 0xc66;
   0xce6; 0xd66; 0xde6; 0xe50; 0xed0; 0xf20; 0x1040; 0x1090; 0x17e0; 0x1810;
   0x1946; 0x19d0; 0x1a80; 0x1a90; 0x1b50; 0x1bb0; 0x1c40; 0x1c50; 0xa620;
   0xa8d0; 0xa900; 0xa9d0; 0xa9f0; 0xaa50; 0xabf0; 0xff10; 0x104a0; 0x10d30;
   0x11066; 0x110f0; 0x11136; 0x111d0; 0x112f0; 0x11450; 0x114d0; 0x11650;
   0x116c0; 0x11730; 0x118e0; 0x11950; 0x11c50; 0x11d50; 0x11da0; 0x16a60;
   0x16ac0; 0x16b50; 0x1d7ce; 0x1d7d8; 0x1d7e2; 0x1d7ec; 0x1d7f6; 0x1e140;
   0x1e2f0; 0x1e950; 0x1fbf0].

Definition decimal_value (c : N) : option N :=
  match List.find (fun z => (z <=? c) && (c <? z + 10)) digit_blocks with
  | Some z => Some (c - z)
  | None => None
  end.

Definition is_digit (c : N) : bool :=
  match decimal_value c with Some _ => true | None => false end.

Definition ascii_digit (c : N) : bool := (0x30 <=? c) && (c <=? 0x39).

(** The runtime first rewrites a numeric literal to ASCII: blanks become
    spaces, decimal digits become ASCII digits, and the text is cut after the
    first other character beyond ASCII, which becomes a question mark. *)
Fixpoint to_ascii_numeric (s : pystr) : pystr :=
  match s with
  | [] => []
  | c :: r =>
    if c <? 127 then c :: to_ascii_numeric r
    else if py_isspace c then 0x20 :: to_ascii_numeric r
    else match decimal_value c with
         | Some d => (0x30 + d) :: to_ascii_numeric r
         | None => [0x3F]
         end
  end.

Definition c_isspace (c : N) : bool := ((0x09 <=? c) && (c <=? 0x0D)) || (c =? 0x20).

Fixpoint c_lstrip (s : pystr) : pystr :=
  match s with
  | c :: r => if c_isspace c then c_lstrip r else s
  | [] => []
  end.

Definition c_strip (s : pystr) : pystr := rev (c_lstrip (rev (c_lstrip s))).

(** Underscores in numeric literals: each one sits between two digits.
    Returns the literal without them, or [None] when one is misplaced. *)
Fixpoint drop_underscores (prev : N) (s : pystr) : option pystr :=
  match s with
  | [] => if prev =? 0x5F then None else Some []
  | c :: r =>
    if c =? 0x5F then
      if ascii_digit prev then drop_underscores c r else None
    else if (prev =? 0x5F) && negb (ascii_digit c) then None
    else option_map (cons c) (drop_underscores c r)
  end.

(** Reads a maximal run of ASCII digits: their number, their value with
    [acc] as the digits already read, and the rest. *)
Fixpoint read_digits (acc : N) (s : pystr) : nat * N * pystr :=
  match s with
  | c :: r =>
    if ascii_digit c
    then let '(n, v, rest) := read_digits (10 * acc + (c - 0x30)) r in (S n, v, rest)
    else (O, acc, s)
  | [] => (O, acc, [])
  end.

Definition read_sign (s : pystr) : bool * pystr :=
  match s with
  | 0x2D :: r => (true, r)
  | 0x2B :: r => (false, r)
  | _ => (false, s)
  end.

(** [int(s)] in base ten *)
Definition int_of_str (s : pystr) : Exc Z :=
  let bad := inl (ValueError (py "invalid literal for int() with base 10")) in
  match drop_underscores 0 (c_strip (to_ascii_numeric s)) with
  | None => bad
  | Some t =>
    let '(neg, t1) := read_sign t in
    match read_digits 0 t1 with
    | (S _, v, []) => inr (if neg then (- Z.of_N v)%Z else Z.of_N v)
    | _ => bad
    end
  end.

(** ** Numbers: binary64 *)

Abbreviation float := spec_float (only parsing).

Definition prec : Z := 53.
Definition emax : Z := 1024.

(** [float(n)] for an integer within range *)
Definition float_of_Z (z : Z) : float := binary_normalize prec emax z 0 false.

(** The binary64 nearest to [d * 10^e10], ties to even; beyond the range
    it is an infinity. *)
Definition float_of_decimal (neg : bool) (d : N) (e10 : Z) : float :=
  match d with
  | N0 => S754_zero neg
  | Npos p =>
    if (0 <=? e10)%Z
    then binary_normalize prec emax ((if neg then Z.neg p else Z.pos p) * 10 ^ e10)%Z 0 neg
    else SFdiv prec emax (S754_finite neg p 0)
           (S754_finite false (Z.to_pos (10 ^ (- e10))) 0)
  end.

(** [float(s)] *)
Definition float_of_str (s : pystr) : Exc float :=
  let bad := inl (ValueError (py "could not convert string to float")) in
  match drop_underscores 0 (c_strip (to_ascii_numeric s)) with
  | None => bad
  | Some t =>
    let '(neg, t1) := read_sign t in
    let low := py_lower t1 in
    if pystr_eqb low (py "inf") || pystr_eqb low (py "infinity")
    then inr (S754_infinity neg)
    else if pystr_eqb low (py "nan") then inr S754_nan
    else
      let '(n1, v1, t2) := read_digits 0 t1 in
      let '(n2, v2, t3) :=
        match t2 with
        | 0x2E :: r => read_digits v1 r
        | _ => (O, v1, t2)
        end in
      match (n1 + n2)%nat, t3 with
      | O, _ => bad
      | _, [] => inr (float_of_decimal neg v2 (- Z.of_nat n2))
      | _, c :: r =>
        if (c =? 0x65) || (c =? 0x45) then
          let '(eneg, r1) := read_sign r in
          match read_digits 0 r1 with
          | (S _, ev, []) =>
            inr (float_of_decimal neg v2
                   ((if eneg then - Z.of_N ev else Z.of_N ev) - Z.of_nat n2))
          | _ => bad
          end
        else bad
      end
  end.

(** [int(x)] for a float: truncation towards zero *)
Definition int_of_float (x : float) : Exc Z :=
  match x with
  | S754_nan => inl (ValueError (py "cannot convert float NaN to integer"))
  | S754_infinity _ => inl (OverflowError (py "cannot convert float infinity to integer"))
  | S754_zero _ => inr 0%Z
  | S754_finite s m e =>
    let a := (if 0 <=? e then Z.pos m * 2 ^ e else Z.pos m / 2 ^ (- e))%Z in
    inr (if s then (- a)%Z else a)
  end.

(** [bool(x)] for a float *)
Definition float_truthy (x : float) : bool :=
  match x with S754_zero _ => false | _ => true end.

Definition float_zero : float := S754_zero false.

(** [x > y] and [x == y] *)
Definition float_gt (x y : float) : bool := SFltb y x.
Definition float_eq (x y : float) : bool := SFeqb x y.

Definition float_mul (x y : float) : float := SFmul prec emax x y.

(** [math.isinf], [math.isnan] *)
Definition float_isinf (x : float) : bool :=
  match x with S754_infinity _ => true | _ => false end.
Definition float_isnan (x : float) : bool :=
  match x with S754_nan => true | _ => false end.

(** *** [repr] of a float: the shortest decimal that reads back *)

(** For a decimal exponent [q], the scaled rounding interval [(L, H)] of
    the float [m * 2^e], its scaled value [X] and the unit [U] of one step
    of the last digit: a digit string [d] denotes [d * U]. *)
Definition repr_scale (m : positive) (e q : Z) : Z * Z * Z * Z :=
  let boundary := (Z.pos m =? 2 ^ 52)%Z && (-1074 <? e)%Z in
  let p2 := (2 ^ Z.max e 0)%Z in
  let x := (4 * Z.pos m * p2)%Z in
  let lo := (x - (if boundary then 1 else 2) * p2)%Z in
  let hi := (x + 2 * p2)%Z in
  let den := (4 * 2 ^ Z.max (- e) 0)%Z in
  if (0 <=? q)%Z then (lo, hi, x, (10 ^ q * den)%Z)
  else let t := (10 ^ (- q))%Z in ((lo * t)%Z, (hi * t)%Z, (x * t)%Z, den).

Definition cdiv (a b : Z) : Z := (- ((- a) / b))%Z.

(** The digit string at exponent [q] that reads back as the float and is
    nearest to it, if there is one. *)
Definition repr_at (m : positive) (e q : Z) : option Z :=
  let '(L, H, X, U) := repr_scale m e q in
  let closed := Z.even (Z.pos m) in
  let dmin := if closed then cdiv L U else (L / U + 1)%Z in
  let dmax := if closed then (H / U)%Z else (cdiv H U - 1)%Z in
  if (dmax <? dmin)%Z then None
  else
    let clamp d := Z.max dmin (Z.min dmax d) in
    let a := clamp (X / U)%Z in
    let b := clamp (X / U + 1)%Z in
    let da := Z.abs (a * U - X) in
    let db := Z.abs (b * U - X) in
    Some (if (da <? db)%Z then a
          else if (db <? da)%Z then b
          else if Z.even a then a else b).

Fixpoint repr_search (fuel : nat) (m : positive) (e q : Z) : Z * Z :=
  match fuel with
  | O => (Z.pos m, e)
  | S f =>
    match repr_at m e q with
    | Some d => (d, q)
    | None => repr_search f m e (q - 1)
    end
  end.

Definition repr_digits (m : positive) (e : Z) : pystr * Z :=
  let bits := (Z.pos (digits2_pos m) + e)%Z in
  let q0 := (bits * 30103 / 100000 + 2)%Z in
  let '(d, q) := repr_search 24 m e q0 in
  let ds := str_of_Z d in
  (ds, (Z.of_nat (length ds) + q)%Z).

Definition repr_layout (ds : pystr) (decpt : Z) : pystr :=
  let n := Z.of_nat (length ds) in
  if (decpt <=? -4)%Z || (16 <? decpt)%Z then
    let ex := (decpt - 1)%Z in
    let frac := match ds with
                | d1 :: (_ :: _) as rest => d1 :: 0x2E :: rest
                | _ => ds
                end in
    frac ++ [0x65] ++ (if (ex <? 0)%Z then [0x2D] else [0x2B])
         ++ zfill 2 (str_of_Z (Z.abs ex))
  else if (decpt <=? 0)%Z then
    py "0." ++ repeat 0x30 (Z.to_nat (- decpt)) ++ ds
  else if (n <=? decpt)%Z then
    ds ++ repeat 0x30 (Z.to_nat (decpt - n)) ++ py ".0"
  else take (Z.to_nat decpt) ds ++ [0x2E] ++ drop (Z.to_nat decpt) ds.

(** [repr(x)], which is also [str(x)] *)
Definition float_repr (x : float) : pystr :=
  match x with
  | S754_nan => py "nan"
  | S754_infinity s => if s then py "-inf" else py "inf"
  | S754_zero s => if s then py "-0.0" else py "0.0"
  | S754_finite s m e =>
    let '(ds, decpt) := repr_digits m e in
    (if s then [0x2D] else []) ++ repr_layout ds decpt
  end.

(** ** Calendar dates: the proleptic Gregorian calendar of [datetime] *)

Local Open Scope Z_scope.

Record datetime := mk_datetime {
  dt_year : Z; dt_month : Z; dt_day : Z;
  dt_hour : Z; dt_minute : Z; dt_second : Z; dt_micro : Z
}.

Definition MINYEAR : Z := 1.
Definition MAXYEAR : Z := 9999.
Definition MAXORDINAL : Z := 3652059.

Definition is_leap (year : Z) : bool :=
  (year mod 4 =? 0) && (negb (year mod 100 =? 0) || (year mod 400 =? 0)).

Definition days_before_year (year : Z) : Z :=
  let y := year - 1 in y * 365 + y / 4 - y / 100 + y / 400.

Definition DAYS_IN_MONTH : list Z := [-1; 31; 28; 31; 30; 31; 30; 31; 31; 30; 31; 30; 31].
Definition DAYS_BEFORE_MONTH : list Z := [-1; 0; 31; 59; 90; 120; 151; 181; 212; 243; 273; 304; 334].

Definition table_at (t : list Z) (i : Z) : Z := nth (Z.to_nat i) t 0.

Definition days_in_month (year month : Z) : Z :=
  if (month =? 2) && is_leap year then 29 else table_at DAYS_IN_MONTH month.

Definition days_before_month (year month : Z) : Z :=
  table_at DAYS_BEFORE_MONTH month + (if (2 <? month) && is_leap year then 1 else 0).

(** [date(year, month, day).toordinal()]; day 1 is 0001-01-01 *)
Definition ymd2ord (year month day : Z) : Z :=
  days_before_year year + days_before_month year month + day.

Definition DI400Y : Z := 146097.
Definition DI100Y : Z := 36524.
Definition DI4Y : Z := 1461.

(** [date.fromordinal(n)] *)
Definition ord2ymd (n : Z) : Z * Z * Z :=
  let n := n - 1 in
  let n400 := n / DI400Y in
  let n := n mod DI400Y in
  let year := n400 * 400 + 1 in
  let n100 := n / DI100Y in
  let n := n mod DI100Y in
  let n4 := n / DI4Y in
  let n := n mod DI4Y in
  let n1 := n / 365 in
  let n := n mod 365 in
  let year := year + n100 * 100 + n4 * 4 + n1 in
  if (n1 =? 4) || (n100 =? 4) then (year - 1, 12, 31)
  else
    let leapyear := (n1 =? 3) && (negb (n4 =? 24) || (n100 =? 3)) in
    let month := Z.shiftr (n + 50) 5 in
    let preceding :=
      table_at DAYS_BEFORE_MONTH month + (if (2 <? month) && leapyear then 1 else 0) in
    if n <? preceding then
      let month := month - 1 in
      let preceding :=
        preceding - (table_at DAYS_IN_MONTH month
                     + (if (month =? 2) && leapyear then 1 else 0)) in
      (year, month, n - preceding + 1)
    else (year, month, n - preceding + 1).

(** The constructor [datetime(year, month, day)] checks its fields. *)
Definition mk_date (year month day : Z) : Exc datetime :=
  if negb ((MINYEAR <=? year) && (year <=? MAXYEAR))
  then inl (ValueError (py "year is out of range"))
  else if negb ((1 <=? month) && (month <=? 12))
  then inl (ValueError (py "month must be in 1..12"))
  else if negb ((1 <=? day) && (day <=? days_in_month year month))
  then inl (ValueError (py "day is out of range for month"))
  else inr (mk_datetime year month day 0 0 0 0).

Definition toordinal (d : datetime) : Z := ymd2ord (dt_year d) (dt_month d) (dt_day d).

(** [timedelta(days=n)] *)
Definition timedelta_days (n : Z) : Exc Z :=
  if Z.abs n <=? 999999999 then inr n
  else inl (OverflowError (py "days out of range; must have magnitude <= 999999999")).

(** [d + timedelta(days=n)] for a delta already built *)
Definition datetime_add_days (d : datetime) (n : Z) : Exc datetime :=
  let o := toordinal d + n in
  if (0 <? o) && (o <=? MAXORDINAL) then
    let '(y, m, dd) := ord2ymd o in
    inr (mk_datetime y m dd (dt_hour d) (dt_minute d) (dt_second d) (dt_micro d))
  else inl (OverflowError (py "date value out of range")).

(** [d.strftime("%Y-%m-%d")]: the C library writes the year without
    padding, month and day on two digits. *)
Definition strftime_ymd (d : datetime) : pystr :=
  str_of_Z (dt_year d) ++ [0x2D%N] ++ zfill 2 (str_of_Z (dt_month d))
    ++ [0x2D%N] ++ zfill 2 (str_of_Z (dt_day d)).

(** [str(d)] *)
Definition datetime_str (d : datetime) : pystr :=
  zfill 4 (str_of_Z (dt_year d)) ++ [0x2D%N] ++ zfill 2 (str_of_Z (dt_month d))
    ++ [0x2D%N] ++ zfill 2 (str_of_Z (dt_day d)) ++ [0x20%N]
    ++ zfill 2 (str_of_Z (dt_hour d)) ++ [0x3A%N] ++ zfill 2 (str_of_Z (dt_minute d))
    ++ [0x3A%N] ++ zfill 2 (str_of_Z (dt_second d))
    ++ (if dt_micro d =? 0 then [] else 0x2E%N :: zfill 6 (str_of_Z (dt_micro d))).

(** *** [datetime.strptime] for the directives [%d], [%m], [%Y] *)

Inductive fmt_item := FLit (c : N) | FDay | FMonth | FYear.

(** A character class of the directive's regular expression. *)
Definition cclass := N -> bool.

Definition cc_range (a b : N) : cclass := fun c => (a <=? c)%N && (c <=? b)%N.
Definition cc_char (a : N) : cclass := fun c => (c =? a)%N.

(** The alternatives of a directive, in the order the matcher tries them:
    [%d] is [3[0-1]|[1-2]\d|0[1-9]|[1-9]| [1-9]], [%m] is
    [1[0-2]|0[1-9]|[1-9]] and [%Y] is [\d\d\d\d]. *)
Definition directive_alts (it : fmt_item) : list (list cclass) :=
  match it with
  | FLit c => [[cc_char c]]
  | FDay => [[cc_char 0x33; cc_range 0x30 0x31]; [cc_range 0x31 0x32; is_digit];
             [cc_char 0x30; cc_range 0x31 0x39]; [cc_range 0x31 0x39];
             [cc_char 0x20; cc_range 0x31 0x39]]
  | FMonth => [[cc_char 0x31; cc_range 0x30 0x32]; [cc_char 0x30; cc_range 0x31 0x39];
               [cc_range 0x31 0x39]]
  | FYear => [[is_digit; is_digit; is_digit; is_digit]]
  end.

Fixpoint match_classes (cs : list cclass) (s : pystr) : option (pystr * pystr) :=
  match cs, s with
  | [], _ => Some ([], s)
  | k :: cs', c :: r =>
    if k c then
      match match_classes cs' r with
      | Some (got, rest) => Some (c :: got, rest)
      | None => None
      end
    else None
  | _ :: _, [] => None
  end.

(** Backtracking match of a format at the start of [s]: the captured
    texts, in format order, and what remains after the match. *)
Fixpoint match_format (f : list fmt_item) (s : pystr) : option (list pystr * pystr) :=
  match f with
  | [] => Some ([], s)
  | it :: f' =>
    let try_alt (found : option (list pystr * pystr)) (alt : list cclass) :=
      match found with
      | Some _ => found
      | None =>
        match match_classes alt s with
        | Some (got, rest) =>
          match match_format f' rest with
          | Some (caps, rest') => Some (got :: caps, rest')
          | None => None
          end
        | None => None
        end
      end in
    fold_left try_alt (directive_alts it) None
  end.

Fixpoint capture_of (what : fmt_item) (f : list fmt_item) (caps : list pystr) : pystr :=
  match f, caps with
  | it :: f', c :: caps' =>
    match what, it with
    | FDay, FDay | FMonth, FMonth | FYear, FYear => c
    | _, _ => capture_of what f' caps'
    end
  | _, _ => []
  end.

Definition strptime (s : pystr) (f : list fmt_item) : Exc datetime :=
  match match_format f s with
  | None => inl (ValueError (py "time data does not match format"))
  | Some (caps, rest) =>
    match rest with
    | _ :: _ => inl (ValueError (py "unconverted data remains"))
    | [] =>
      exc_bind (int_of_str (capture_of FYear f caps)) (fun year =>
      exc_bind (int_of_str (capture_of FMonth f caps)) (fun month =>
      exc_bind (int_of_str (capture_of FDay f caps)) (fun day =>
      mk_date year month day)))
    end
  end.

(** The five formats of the scripts, in the order they are tried. *)
Definition fmt_dmy_dot : list fmt_item := [FDay; FLit 0x2E; FMonth; FLit 0x2E; FYear].
Definition fmt_ymd_dash : list fmt_item := [FYear; FLit 0x2D; FMonth; FLit 0x2D; FDay].
Definition fmt_mdy_slash : list fmt_item := [FMonth; FLit 0x2F; FDay; FLit 0x2F; FYear].
Definition fmt_dmy_slash : list fmt_item := [FDay; FLit 0x2F; FMonth; FLit 0x2F; FYear].
Definition fmt_ymd_slash : list fmt_item := [FYear; FLit 0x2F; FMonth; FLit 0x2F; FDay].

Definition date_formats : list (list fmt_item) :=
  [fmt_dmy_dot; fmt_ymd_dash; fmt_mdy_slash; fmt_dmy_slash; fmt_ymd_slash].

(** ** Values *)

(** What a spreadsheet cell or a field of a record can hold. *)
Inductive value :=
  | VNone
  | VBool (b : bool)
  | VInt (z : Z)
  | VFloat (x : float)
  | VStr (s : pystr)
  | VDate (d : datetime).

(** [bool(v)] *)
Definition truthy (v : value) : bool :=
  match v with
  | VNone => false
  | VBool b => b
  | VInt z => negb (z =? 0)
  | VFloat x => float_truthy x
  | VStr s => match s with [] => false | _ => true end
  | VDate _ => true
  end.

(** [str(v)] *)
Definition py_str (v : value) : pystr :=
  match v with
  | VNone => py "None"
  | VBool b => if b then py "True" else py "False"
  | VInt z => str_of_Z z
  | VFloat x => float_repr x
  | VStr s => s
  | VDate d => datetime_str d
  end.

(** [v is None] *)
Definition is_none (v : value) : bool :=
  match v with VNone => true | _ => false end.

(** [a or b] *)
Definition py_or (a b : value) : value := if truthy a then a else b.

(** [float(n)] for an [int]: beyond the binary64 range it raises. *)
Definition float_of_int (z : Z) : Exc float :=
  match float_of_Z z with
  | S754_infinity _ => inl (OverflowError (py "int too large to convert to float"))
  | x => inr x
  end.

(** A dict with text keys: a record on its way to the store, or a row in it. *)
Abbreviation dict := (gmap string value) (only parsing).

(** [d.get(k)] *)
Definition dict_get (d : dict) (k : string) : value := default VNone (d !! k).

(** [d[k] = v] *)
Definition dict_set (d : dict) (k : string) (v : value) : dict := <[k := v]> d.

(** [d[k]] *)
Definition dict_item (d : dict) (k : string) : Exc value :=
  match d !! k with
  | Some v => inr v
  | None => inl (KeyError (py k))
  end.

(** A value on which a [str] method is about to be called, behind a
    truth test: text when it is non-empty text, nothing when it is falsy,
    and an [AttributeError] when it is a truthy value of another type. *)
Definition text_if_truthy (v : value) : Exc (option pystr) :=
  match v with
  | VStr [] => inr None
  | VStr s => inr (Some s)
  | _ => if truthy v then inl (AttributeError (py "object has no such attribute"))
         else inr None
  end.

Definition opt_str (o : option pystr) : value :=
  match o with Some s => VStr s | None => VNone end.

Definition opt_float (o : option float) : value :=
  match o with Some x => VFloat x | None => VNone end.

(** Exact comparison of an [int] with a float, as the runtime does it:
    [Some c] orders [z] against [x], [None] when [x] is not a number. *)
Definition compare_Z_float (z : Z) (x : float) : option comparison :=
  match x with
  | S754_nan => None
  | S754_infinity s => Some (if s then Gt else Lt)
  | S754_zero _ => Some (z ?= 0)
  | S754_finite s m e =>
    let v := if s then Z.neg m else Z.pos m in
    Some (if 0 <=? e then z ?= v * 2 ^ e else z * 2 ^ (- e) ?= v)
  end.

(** [x > n] for a float and an [int] *)
Definition float_gt_int (x : float) (n : Z) : bool :=
  match compare_Z_float n x with Some Lt => true | _ => false end.

(** [a > b] on numbers; [None] stands for operands that do not compare. *)
Definition num_gt (a b : value) : option bool :=
  let as_num v := match v with
                  | VBool b => Some (VInt (if b then 1 else 0))
                  | VInt _ | VFloat _ => Some v
                  | _ => None
                  end in
  match as_num a, as_num b with
  | Some (VInt x), Some (VInt y) => Some (y <? x)
  | Some (VFloat x), Some (VFloat y) => Some (float_gt x y)
  | Some (VInt x), Some (VFloat y) =>
    Some (match compare_Z_float x y with Some Gt => true | _ => false end)
  | Some (VFloat x), Some (VInt y) =>
    Some (match compare_Z_float y x with Some Lt => true | _ => false end)
  | _, _ => None
  end.

(** ** The outside world *)

(** The record store keeps, per table, its rows in insertion order.  Which
    rows, statements and deletions it refuses is the schema's business:
    the three oracles return the error message of a refusal. *)
Record store := mk_store {
  st_tables : gmap string (list dict);
  st_next_id : N;
  st_reject_row : string -> list dict -> dict -> option pystr;
  st_reject_bulk : string -> list dict -> list dict -> option pystr;
  st_reject_delete : string -> list dict -> option pystr
}.

Definition set_tables (st : store) (t : gmap string (list dict)) (n : N) : store :=
  mk_store t n (st_reject_row st) (st_reject_bulk st) (st_reject_delete st).

(** The clock answers the successive calls of [datetime.now()], the
    keyboard the successive calls of [input()]; the console collects what
    is printed. *)
Record world := mk_world {
  w_now : nat -> datetime;
  w_ticks : nat;
  w_stdin : list pystr;
  w_stdout : list pystr;
  w_store : store
}.

(** A computation with side effects that may raise. *)
Definition M (A : Type) : Type := world -> Exc A * world.

Definition m_ret {A} (a : A) : M A := fun w => (inr a, w).

Definition m_bind {A B} (c : M A) (k : A -> M B) : M B :=
  fun w => match c w with
           | (inl e, w') => (inl e, w')
           | (inr a, w') => k a w'
           end.

Definition m_raise {A} (e : exn) : M A := fun w => (inl e, w).

Definition m_lift {A} (c : Exc A) : M A := fun w => (c, w).

(** [try: c  except <classes> as e: h e] *)
Definition m_try {A} (c : M A) (handles : exn -> bool) (h : exn -> M A) : M A :=
  fun w => match c w with
           | (inl e, w') => if handles e then h e w' else (inl e, w')
           | r => r
           end.

Definition any_exception (e : exn) : bool := true.

Declare Scope m_scope.
Delimit Scope m_scope with M.
Notation "x <- c ;; k" := (m_bind c (fun x => k))
  (at level 100, c at next level, right associativity) : m_scope.
Notation "c ;; k" := (m_bind c (fun _ => k))
  (at level 100, right associativity) : m_scope.

(** [datetime.now()] *)
Definition now : M datetime :=
  fun w => (inr (w_now w (w_ticks w)),
            mk_world (w_now w) (S (w_ticks w)) (w_stdin w) (w_stdout w) (w_store w)).

(** [print(line)] *)
Definition print (line : pystr) : M unit :=
  fun w => (inr tt,
            mk_world (w_now w) (w_ticks w) (w_stdin w) (w_stdout w ++ [line]) (w_store w)).

(** [input(prompt)]: the prompt is printed, a line is read *)
Definition input (prompt : pystr) : M pystr :=
  fun w =>
    let out := w_stdout w ++ [prompt] in
    match w_stdin w with
    | line :: rest =>
      (inr line, mk_world (w_now w) (w_ticks w) rest out (w_store w))
    | [] =>
      (inl (EOFError (py "EOF when reading a line")),
       mk_world (w_now w) (w_ticks w) [] out (w_store w))
    end.

(** *** The store client *)

Definition generated_id (n : N) : value := VStr (py "id-" ++ str_of_N n).

(** A row as stored: the store generates the [id] the record lacks. *)
Definition with_id (n : N) (r : dict) : dict :=
  match r !! "id"%string with
  | Some _ => r
  | None => <["id"%string := generated_id n]> r
  end.

(** One row enters a table: the rows so far, the next id, the rows
    stored by the statement so far; then the row. *)
Definition store_add (st : store) (table : string) (acc : Exc (list dict * N * list dict))
    (r : dict) : Exc (list dict * N * list dict) :=
  match acc with
  | inl e => inl e
  | inr (rows, n, stored) =>
    match st_reject_row st table rows r with
    | Some msg => inl (APIError msg)
    | None => let r' := with_id n r in inr (rows ++ [r'], (n + 1)%N, stored ++ [r'])
    end
  end.

(** An insert statement: it enters every row or none, and answers with
    the rows as stored. *)
Definition store_insert_many (table : string) (rs : list dict) (st : store)
  : Exc (list dict * store) :=
  match st_tables st !! table with
  | None => inl (APIError (py "relation does not exist"))
  | Some rows =>
    match st_reject_bulk st table rows rs with
    | Some msg => inl (APIError msg)
    | None =>
      match fold_left (store_add st table) rs (inr (rows, st_next_id st, [])) with
      | inl e => inl e
      | inr (rows', n', stored) =>
        inr (stored, set_tables st (<[table := rows']> (st_tables st)) n')
      end
    end
  end.

(** The insert of a single record *)
Definition store_insert_one (table : string) (r : dict) (st : store)
  : Exc (list dict * store) :=
  match st_tables st !! table with
  | None => inl (APIError (py "relation does not exist"))
  | Some rows =>
    match store_add st table (inr (rows, st_next_id st, [])) r with
    | inl e => inl e
    | inr (rows', n', stored) =>
      inr (stored, set_tables st (<[table := rows']> (st_tables st)) n')
    end
  end.

(** The filter [.eq(column, text)] *)
Definition row_matches (column : string) (v : pystr) (r : dict) : bool :=
  match r !! column with
  | Some (VStr s) => pystr_eqb s v
  | _ => false
  end.

(** The rows a filter selects, and the rows it leaves. *)
Definition rows_matching (column : string) (v : pystr) (rows : list dict) : list dict :=
  List.filter (row_matches column v) rows.

Definition rows_not_matching (column : string) (v : pystr) (rows : list dict) : list dict :=
  List.filter (fun r => negb (row_matches column v r)) rows.

(** The exact count of the rows a filter selects *)
Definition store_count_eq (table column : string) (v : pystr) (st : store)
  : Exc (Z * store) :=
  match st_tables st !! table with
  | None => inl (APIError (py "relation does not exist"))
  | Some rows => inr (Z.of_nat (length (rows_matching column v rows)), st)
  end.

(** The deletion of the rows a filter selects *)
Definition store_delete_eq (table column : string) (v : pystr) (st : store)
  : Exc (unit * store) :=
  match st_tables st !! table with
  | None => inl (APIError (py "relation does not exist"))
  | Some rows =>
    match st_reject_delete st table (rows_matching column v rows) with
    | Some msg => inl (APIError msg)
    | None =>
      inr (tt, set_tables st (<[table := rows_not_matching column v rows]> (st_tables st))
                 (st_next_id st))
    end
  end.

(** A request to the store: an error leaves the world as it is. *)
Definition with_store {A} (request : store -> Exc (A * store)) : M A :=
  fun w =>
    match request (w_store w) with
    | inl e => (inl e, w)
    | inr (a, st') =>
      (inr a, mk_world (w_now w) (w_ticks w) (w_stdin w) (w_stdout w) st')
    end.

(** [supabase.table(t).insert(rows).execute().data] *)
Definition db_insert_many (table : string) (rs : list dict) : M (list dict) :=
  with_store (store_insert_many table rs).

(** [supabase.table(t).insert(row).execute().data] *)
Definition db_insert_one (table : string) (r : dict) : M (list dict) :=
  with_store (store_insert_one table r).

(** [supabase.table(t).select("id", count="exact").eq(column, v).execute().count] *)
Definition db_count_eq (table column : string) (v : pystr) : M Z :=
  with_store (store_count_eq table column v).

(** [supabase.table(t).delete().eq(column, v).execute()] *)
Definition db_delete_eq (table column : string) (v : pystr) : M unit :=
  with_store (store_delete_eq table column v).

(** A row as a [select] of some columns answers it: those columns, null
    where the row has none. *)
Definition project (columns : list string) (r : dict) : dict :=
  fold_left (fun answer column => <[column := dict_get r column]> answer) columns ∅.

(** The selection of some columns of every row of a table *)
Definition store_select (table : string) (columns : list string) (st : store)
  : Exc (list dict * store) :=
  match st_tables st !! table with
  | None => inl (APIError (py "relation does not exist"))
  | Some rows => inr (map (project columns) rows, st)
  end.

(** [supabase.table(t).select(columns).execute().data] *)
Definition db_select (table : string) (columns : list string) : M (list dict) :=
  with_store (store_select table columns).

(** [bool(d)] for a dict *)
Definition dict_truthy (d : dict) : bool := negb (bool_decide (d = ∅)).

(** [d.get(k, default)] *)
Definition dict_get_default (d : dict) (k : string) (dflt : value) : value :=
  default dflt (d !! k).

(** [a == b] between values that are not one and the same object *)
Definition py_eq (a b : value) : bool :=
  let as_num v :=
    match v with
    | VBool b => Some (VInt (if b then 1 else 0))
    | VInt _ | VFloat _ => Some v
    | _ => None
    end in
  match a, b with
  | VNone, VNone => true
  | VStr s, VStr t => pystr_eqb s t
  | VDate d, VDate e =>
    (dt_year d =? dt_year e)%Z && (dt_month d =? dt_month e)%Z && (dt_day d =? dt_day e)%Z
    && (dt_hour d =? dt_hour e)%Z && (dt_minute d =? dt_minute e)%Z
    && (dt_second d =? dt_second e)%Z && (dt_micro d =? dt_micro e)%Z
  | _, _ =>
    match as_num a, as_num b with
    | Some (VInt x), Some (VInt y) => (x =? y)%Z
    | Some (VFloat x), Some (VFloat y) => float_eq x y
    | Some (VInt x), Some (VFloat y) | Some (VFloat y), Some (VInt x) =>
      match compare_Z_float x y with Some Eq => true | _ => false end
    | _, _ => false
    end
  end.

(** [range(0, n, step)] for a positive step *)
Fixpoint range_from (fuel : nat) (i n step : nat) : list nat :=
  match fuel with
  | O => []
  | S f => if (i <? n)%nat then i :: range_from f (i + step) n step else []
  end.

Definition py_range (n step : nat) : list nat := range_from n 0 n step.

(** [xs[i:j]] *)
Definition slice {A} (xs : list A) (i j : nat) : list A := take (j - i) (drop i xs).

(** A loop whose body has side effects: [for x in xs: acc = body(acc, x)] *)
Fixpoint m_for {A B} (xs : list A) (acc : B) (body : B -> A -> M B) : M B :=
  match xs with
  | [] => m_ret acc
  | x :: rest => (acc' <- body acc x ;; m_for rest acc' body)%M
  end.

(** [int(v)] for a value that passed [isinstance(v, (int, float))] *)
Definition int_of_number (v : value) : Exc Z :=
  match v with
  | VBool b => inr (if b then 1 else 0)
  | VInt z => inr z
  | VFloat x => int_of_float x
  | _ => inl (TypeError (py "int() argument must be a number"))
  end.

(** [v == 0] for a value that passed [isinstance(v, (int, float))] *)
Definition number_is_zero (v : value) : bool :=
  match v with
  | VBool b => negb b
  | VInt z => z =? 0
  | VFloat (S754_zero _) => true
  | _ => false
  end.

Definition is_number (v : value) : bool :=
  match v with VBool _ | VInt _ | VFloat _ => true | _ => false end.

(** [float(v)] for a value that passed [isinstance(v, (int, float))] *)
Definition float_of_number (v : value) : Exc float :=
  match v with
  | VBool b => inr (float_of_Z (if b then 1 else 0))
  | VInt z => float_of_int z
  | VFloat x => inr x
  | _ => inl (TypeError (py "float() argument must be a string or a number"))
  end.

(** * [production/import_production.py] *)

Module Production.

Local Open Scope nat_scope.

Definition BATCH_SIZE : nat := 50.

(** Column index to field name, in the order the mappings list them. *)
Definition TEXT_COLUMNS : list (nat * string) :=
  [(1, "original_insured_name"); (4, "broker_name"); (5, "cedant_name");
   (7, "contract_number"); (11, "type_of_cover"); (12, "class_of_cover");
   (14, "risk_description"); (15, "industry"); (16, "territory");
   (19, "currency")]%string.

Definition DATE_COLUMNS : list (nat * string) :=
  [(25, "inception_date"); (26, "expiry_date")]%string.

Definition NUMERIC_COLUMNS : list (nat * string) :=
  [(32, "limit_of_liability"); (35, "deductible"); (39, "our_share");
   (41, "gross_premium"); (45, "commission_percent"); (48, "net_premium")]%string.

Definition STRUCTURE_COLUMN : nat := 31.
Definition NOTES_COLUMNS : list nat := [2; 3; 6; 8; 9; 10; 13; 17; 18; 20; 21].

Local Open Scope Z_scope.

(** [excel_epoch + timedelta(days=int(value))], rendered *)
Definition serial_to_date (days : Exc Z) : Exc (option pystr) :=
  exc_bind (mk_date 1899 12 30) (fun excel_epoch =>
  exc_bind days (fun n =>
  exc_bind (timedelta_days n) (fun delta =>
  exc_bind (datetime_add_days excel_epoch delta) (fun result =>
  inr (Some (strftime_ymd result)))))).

(** The loop over the formats: the first one that parses wins. *)
Fixpoint try_formats (formats : list (list fmt_item)) (s : pystr) : Exc (option pystr) :=
  match formats with
  | [] => inr None
  | fmt :: rest =>
    exc_catch
      (exc_bind (strptime s fmt) (fun d => inr (Some (strftime_ymd d))))
      is_ValueError
      (try_formats rest s)
  end.

Definition parse_date (v : value) : Exc (option pystr) :=
  match v with
  | VNone => inr None
  | VDate d => inr (Some (strftime_ymd d))
  | VBool _ | VInt _ | VFloat _ =>
    exc_catch (serial_to_date (int_of_number v))
      (fun e => is_ValueError e || is_OverflowError e) (inr None)
  | VStr s =>
    let s := py_strip s in
    match s with
    | [] => inr None
    | _ => try_formats date_formats s
    end
  end.

Definition parse_number (v : value) : Exc (option float) :=
  match v with
  | VNone => inr None
  | VBool _ | VInt _ | VFloat _ => exc_bind (float_of_number v) (fun x => inr (Some x))
  | VStr s =>
    let cleaned := py_replace (py " ") [] (py_replace (py ",") [] (py_strip s)) in
    let cleaned :=
      py_replace (py "%") []
        (py_replace (py "€") []
           (py_replace (py "$") [] (py_replace [0xA0%N] [] cleaned))) in
    if match cleaned with [] => true | _ => false end || pystr_eqb cleaned (py "-")
    then inr None
    else exc_catch (exc_bind (float_of_str cleaned) (fun x => inr (Some x)))
           is_ValueError (inr None)
  | VDate _ => inr None
  end.

Definition parse_structure (v : value) : pystr :=
  match v with
  | VNone => py "PROPORTIONAL"
  | _ =>
    let val_str := py_upper (py_strip (py_str v)) in
    if py_in (py "XL") val_str || py_in (py "EXCESS") val_str || py_in (py "NON") val_str
    then py "NON_PROPORTIONAL"
    else py "PROPORTIONAL"
  end.

Definition determine_origin (territory currency : option pystr) : pystr :=
  let by_currency :=
    match currency with
    | Some ((_ :: _) as c) =>
      if pystr_eqb (py_upper c) (py "UZS") then py "DOMESTIC" else py "FOREIGN"
    | _ => py "FOREIGN"
    end in
  match territory with
  | Some ((_ :: _) as t) =>
    let territory_lower := py_lower t in
    if py_in (py "uzbek") territory_lower || pystr_eqb territory_lower (py "uz")
    then py "DOMESTIC"
    else by_currency
  | _ => by_currency
  end.

(** A row is the sequence of its cells' values. *)
Definition get_cell_value (row : list value) (col_idx : nat) : value :=
  match row !! col_idx with
  | Some v => v
  | None => VNone
  end.

Definition determine_entity_type (name : pystr) (is_cedant is_broker : bool) : pystr :=
  let name_lower := py_lower name in
  if is_broker || py_in (py "broker") name_lower then py "Broker"
  else if py_in (py "insurance") name_lower || py_in (py "страхов") name_lower
          || py_in (py "insuranc") name_lower
  then py "Insurance Company"
  else if py_in (py "reinsur") name_lower || py_in (py "перестрах") name_lower
  then py "Reinsurer"
  else if is_cedant then py "Insurance Company"
  else py "Other".

Definition normalize_name (name : pystr) : pystr :=
  match name with
  | [] => []
  | _ => let normalized := py_join (py " ") (py_split name) in py_strip normalized
  end.

(** [re.search(r'20\d{2}', s)]: the leftmost match.  [year_at] tries
    the pattern at the start of the text. *)
Definition year_at (s : pystr) : option pystr :=
  match s with
  | c1 :: c2 :: a :: b :: _ =>
    if (c1 =? 0x32)%N && (c2 =? 0x30)%N && is_digit a && is_digit b
    then Some [c1; c2; a; b] else None
  | _ => None
  end.

Fixpoint search_year (s : pystr) : option pystr :=
  match year_at s with
  | Some found => Some found
  | None =>
    match s with
    | [] => None
    | _ :: r => search_year r
    end
  end.

Definition extract_year_from_sheet_name (sheet_name : pystr) : M value :=
  match search_year sheet_name with
  | Some found => (y <- m_lift (int_of_str found) ;; m_ret (VInt y))%M
  | None => (t <- now ;; m_ret (VInt (dt_year t)))%M
  end.

(** [v[:n]] on a value that ought to be text *)
Definition text_prefix (n : nat) (v : value) : Exc pystr :=
  match v with
  | VStr s => inr (take n s)
  | _ => inl (TypeError (py "object is not subscriptable"))
  end.

(** [if not record.get(k): record[k] = v] *)
Definition set_if_falsy (record : dict) (k : string) (v : value) : dict :=
  if negb (truthy (dict_get record k)) then dict_set record k v else record.

(** [if record.get(k) is None: record[k] = v] *)
Definition set_if_none (record : dict) (k : string) (v : value) : dict :=
  if is_none (dict_get record k) then dict_set record k v else record.

(** The parts of [parse_row], in the order of its comments. *)

(** Text columns *)
Definition text_columns (row : list value) (record : dict) : dict :=
  fold_left (fun (record : dict) '(col_idx, field_name) =>
               let value := get_cell_value row col_idx in
               dict_set record field_name
                 (if truthy value then VStr (py_strip (py_str value)) else VNone))
    TEXT_COLUMNS record.

(** Date columns *)
Definition date_columns (row : list value) (record : dict) : M dict :=
  m_for DATE_COLUMNS record (fun record '(col_idx, field_name) =>
    let value := get_cell_value row col_idx in
    (d <- m_lift (parse_date value) ;;
     m_ret (dict_set record field_name (opt_str d)))%M).

(** Numeric columns *)
Definition numeric_columns (row : list value) (record : dict) : M dict :=
  m_for NUMERIC_COLUMNS record (fun record '(col_idx, field_name) =>
    let value := get_cell_value row col_idx in
    (x <- m_lift (parse_number value) ;;
     m_ret (dict_set record field_name (opt_float x)))%M).

(** Structure, and the concatenated notes columns *)
Definition structure_and_notes (row : list value) (record : dict) : dict :=
  let structure_value := get_cell_value row STRUCTURE_COLUMN in
  let record := dict_set record "structure" (VStr (parse_structure structure_value)) in
  let notes_parts :=
    fold_left (fun notes_parts col_idx =>
                 let value := get_cell_value row col_idx in
                 if truthy value then notes_parts ++ [py_strip (py_str value)]
                 else notes_parts)
      NOTES_COLUMNS [] in
  dict_set record "notes"
    (match notes_parts with
     | [] => VNone
     | _ => VStr (py_join (py " | ") notes_parts)
     end).

(** The test that skips empty rows *)
Definition is_empty_row (record : dict) : bool :=
  negb (truthy (dict_get record "cedant_name"))
  && negb (truthy (dict_get record "contract_number"))
  && negb (truthy (dict_get record "original_insured_name")).

(** Derived fields *)
Definition derived_fields (record : dict) (row_number : Z) (sheet_name batch_id : pystr)
  : M dict :=
  (territory <- m_lift (text_if_truthy (dict_get record "territory")) ;;
   currency <- m_lift (text_if_truthy (dict_get record "currency")) ;;
   let record := dict_set record "origin" (VStr (determine_origin territory currency)) in
   let record := dict_set record "type" (VStr (py "FAC")) in
   let record := dict_set record "status" (VStr (py "ACTIVE")) in
   let record := dict_set record "cedant_country" (dict_get record "territory") in
   let record := dict_set record "import_batch_id" (VStr batch_id) in
   m_ret (dict_set record "import_source"
            (VStr (py "Excel:" ++ sheet_name ++ py ":Row" ++ str_of_Z row_number))))%M.

(** UW year from inception date or sheet name *)
Definition uw_year (record : dict) (sheet_name : pystr) : M dict :=
  (if truthy (dict_get record "inception_date") then
     m_try
       (inception <- m_lift (dict_item record "inception_date") ;;
        head4 <- m_lift (text_prefix 4 inception) ;;
        year <- m_lift (int_of_str head4) ;;
        m_ret (dict_set record "uw_year" (VInt year)))
       (fun e => is_ValueError e || is_TypeError e)
       (fun _ =>
          y <- extract_year_from_sheet_name sheet_name ;;
          m_ret (dict_set record "uw_year" y))
   else
     y <- extract_year_from_sheet_name sheet_name ;;
     m_ret (dict_set record "uw_year" y))%M.

(** Required field fallbacks *)
Definition required_fallbacks (record : dict) (row_number : Z) (sheet_name : pystr)
  : M dict :=
  (let record :=
     set_if_falsy record "contract_number"
       (VStr (py "IMPORT-" ++ sheet_name ++ py "-" ++ str_of_Z row_number)) in
   let record := set_if_falsy record "cedant_name" (VStr (py "Unknown Cedant")) in
   let record := set_if_falsy record "type_of_cover" (VStr (py "Property")) in
   let record := set_if_falsy record "class_of_cover" (VStr (py "All Risks")) in
   t1 <- now ;;
   let today := strftime_ymd t1 in
   t2 <- now ;;
   delta <- m_lift (timedelta_days 365) ;;
   t2' <- m_lift (datetime_add_days t2 delta) ;;
   let next_year := strftime_ymd t2' in
   let record := set_if_falsy record "inception_date" (VStr today) in
   let record := set_if_falsy record "expiry_date" (VStr next_year) in
   let record := set_if_falsy record "currency" (VStr (py "USD")) in
   let record := set_if_none record "limit_of_liability" (VInt 0) in
   let record := set_if_none record "gross_premium" (VInt 0) in
   let record := set_if_none record "our_share" (VInt 100) in
   m_ret record)%M.

Definition parse_row (row : list value) (row_number : Z) (sheet_name batch_id : pystr)
  : M (option dict) :=
  (let record : dict := ∅ in
   let record := text_columns row record in
   record <- date_columns row record ;;
   record <- numeric_columns row record ;;
   let record := structure_and_notes row record in
   (* Skip empty rows *)
   if is_empty_row record then m_ret None
   else
     record <- derived_fields record row_number sheet_name batch_id ;;
     record <- uw_year record sheet_name ;;
     record <- required_fallbacks record row_number sheet_name ;;
     m_ret (Some record))%M.

(** A legal entity as the extractor builds it. *)
Record entity := mk_entity {
  fullName : pystr;
  shortName : value;
  type : pystr;
  country : value;
  import_batch_id : value
}.

(** The extractor's dict keeps its keys in insertion order. *)
Abbreviation entity_dict := (list (pystr * entity)) (only parsing).

(** [key in entities] *)
Definition has_key (entities : entity_dict) (key : pystr) : bool :=
  existsb (fun kv => pystr_eqb (fst kv) key) entities.

(** [if normalized and normalized not in entities: entities[normalized] = e] *)
Definition add_if_new (entities : entity_dict) (normalized : pystr) (e : entity)
  : entity_dict :=
  match normalized with
  | [] => entities
  | _ => if has_key entities normalized then entities else entities ++ [(normalized, e)]
  end.

(** [name.strip()[:50] if len(name) > 50 else None] *)
Definition short_name (name : pystr) : value :=
  if (50 <? length name)%nat then VStr (take 50 (py_strip name)) else VNone.

(** The body of the loop over the records. *)
Definition extract_from_record (entities : entity_dict) (record : dict)
  : Exc entity_dict :=
  (* Extract cedant *)
  exc_bind (text_if_truthy (dict_get record "cedant_name")) (fun cedant_name =>
  let entities :=
    match cedant_name with
    | Some cedant_name =>
      if negb (pystr_eqb cedant_name (py "Unknown Cedant")) then
        let normalized := normalize_name cedant_name in
        add_if_new entities normalized
          {| fullName := py_strip cedant_name;
             shortName := short_name cedant_name;
             type := determine_entity_type cedant_name true false;
             country := py_or (dict_get record "cedant_country") (dict_get record "territory");
             import_batch_id := dict_get record "import_batch_id" |}
      else entities
    | None => entities
    end in
  (* Extract broker *)
  exc_bind (text_if_truthy (dict_get record "broker_name")) (fun broker_name =>
  let entities :=
    match broker_name with
    | Some broker_name =>
      let normalized := normalize_name broker_name in
      add_if_new entities normalized
        {| fullName := py_strip broker_name;
           shortName := short_name broker_name;
           type := determine_entity_type broker_name false true;
           country := VNone;
           import_batch_id := dict_get record "import_batch_id" |}
    | None => entities
    end in
  (* Extract original insured *)
  exc_bind (text_if_truthy (dict_get record "original_insured_name")) (fun insured_name =>
  let entities :=
    match insured_name with
    | Some insured_name =>
      let normalized := normalize_name insured_name in
      add_if_new entities normalized
        {| fullName := py_strip insured_name;
           shortName := short_name insured_name;
           type := py "Insured";
           country := dict_get record "territory";
           import_batch_id := dict_get record "import_batch_id" |}
    | None => entities
    end in
  inr entities))).

Fixpoint extract_loop (records : list dict) (entities : entity_dict) : Exc entity_dict :=
  match records with
  | [] => inr entities
  | record :: rest =>
    exc_bind (extract_from_record entities record) (extract_loop rest)
  end.

Definition extract_legal_entities (records : list dict) : Exc (list entity) :=
  exc_bind (extract_loop records []) (fun entities => inr (map snd entities)).

(** *** Rollback by batch id *)

(** The body of the loop over the tables. *)
Definition rollback_table (batch_id : pystr) (table : string) : M unit :=
  (m_try
     (print (py "  Checking " ++ py table ++ py "...") ;;
      (* Count records with this batch_id *)
      count <- db_count_eq table "import_batch_id" batch_id ;;
      if count =? 0 then print (py "0 records")
      else
        (* Confirm deletion *)
        confirm <- input (py "  Delete " ++ str_of_Z count ++ py " records from "
                            ++ py table ++ py "? (yes/no): ") ;;
        if negb (pystr_eqb (py_lower confirm) (py "yes")) then print (py "  Skipped")
        else
          (* Delete records with this batch_id *)
          db_delete_eq table "import_batch_id" batch_id ;;
          print (py "Deleted " ++ str_of_Z count ++ py " records"))
     any_exception
     (fun e => print (py "FAILED: " ++ exn_msg e)))%M.

Definition rollback_batch (batch_id : pystr) : M bool :=
  (print ([0x0A%N] ++ py "Rolling back batch: " ++ batch_id) ;;
   let tables := ["inward_reinsurance"; "legal_entities"]%string in
   m_for tables tt (fun _ table => rollback_table batch_id table) ;;
   print ([0x0A%N] ++ py "Rollback complete!") ;;
   m_ret true)%M.

(** *** The commit loop of [run_import] (step 6) *)

Record import_stats := mk_stats {
  records_inserted : Z;
  records_errors : Z;
  error_records : list (value * pystr)   (* contract, error *)
}.

(** The row-by-row retry of one batch. *)
Definition retry_rows (batch : list dict) (st : import_stats) : M import_stats :=
  m_for batch st (fun st record =>
    m_try
      (db_insert_one "inward_reinsurance" record ;;
       m_ret (mk_stats (records_inserted st + 1) (records_errors st) (error_records st)))%M
      any_exception
      (fun row_error =>
         m_ret (mk_stats (records_inserted st) (records_errors st + 1)
                  (error_records st
                   ++ [(dict_get record "contract_number", take 100 (exn_msg row_error))])))).

Definition import_batch (all_records : list dict) (st : import_stats) (i : nat)
  : M import_stats :=
  (let batch := slice all_records i (i + BATCH_SIZE) in
   let batch_num := (Z.of_nat i / Z.of_nat BATCH_SIZE) + 1 in
   print (py "  Record batch " ++ str_of_Z batch_num ++ py ": " ++ str_of_Z (Z.of_nat i + 1)
          ++ py " - "
          ++ str_of_Z (Z.min (Z.of_nat i + Z.of_nat BATCH_SIZE) (Z.of_nat (length all_records)))
          ++ py "...") ;;
   m_try
     (db_insert_many "inward_reinsurance" batch ;;
      let st := mk_stats (records_inserted st + Z.of_nat (length batch))
                  (records_errors st) (error_records st) in
      print (py "OK") ;;
      m_ret st)
     any_exception
     (fun _ =>
        print (py "FAILED - retrying row by row...") ;;
        retry_rows batch st))%M.

Definition import_records (all_records : list dict) : M import_stats :=
  m_for (py_range (length all_records) BATCH_SIZE) (mk_stats 0 0 [])
    (import_batch all_records).

(** *** Header detection and the pass over the sheets *)

(** [if cell.v: cell_str = str(cell.v).lower(); "insured" in cell_str or ...] *)
Definition is_header_cell (v : value) : bool :=
  if truthy v then
    let cell_str := py_lower (py_str v) in
    py_in (py "insured") cell_str || py_in (py "застрахован") cell_str
  else false.

(** The loop of [find_header_row], from row [row_idx] on. *)
Fixpoint find_header_from (row_idx : nat) (rows : list (list value)) (max_rows : nat)
  : nat :=
  match rows with
  | [] => 0%nat
  | row :: rest =>
    if (max_rows <=? row_idx)%nat then 0%nat
    else if existsb is_header_cell row then row_idx
    else find_header_from (S row_idx) rest max_rows
  end.

Definition find_header_row (rows : list (list value)) (max_rows : nat) : nat :=
  find_header_from 0 rows max_rows.

(** A workbook as the reader presents it: the names of its sheets, the
    text [print] shows for that list, and for a name the rows of the sheet,
    [list(wb.get_sheet(name).rows())], each row the values of its cells. *)
Record workbook := mk_workbook {
  wb_sheets : list pystr;
  wb_sheets_text : pystr;
  wb_rows : pystr -> Exc (list (list value))
}.

Definition get_all_sheets (wb : workbook) : list pystr := wb_sheets wb.

Definition SKIP_WORDS : list pystr :=
  [py "template"; py "blank"; py "summary"; py "pivot"; py "chart"].

(** [d[k] = v] on a dict of counts, which keeps the order of insertion *)
Fixpoint count_set (d : list (pystr * Z)) (k : pystr) (v : Z) : list (pystr * Z) :=
  match d with
  | [] => [(k, v)]
  | (k', v') :: rest =>
    if pystr_eqb k' k then (k', v) :: rest else (k', v') :: count_set rest k v
  end.

(** [enumerate(xs)] *)
Definition enumerate {A} (xs : list A) : list (nat * A) :=
  combine (seq 0 (length xs)) xs.

(** The loop over the rows of one sheet. *)
Definition parse_sheet_rows (rows : list (list value)) (header_row_idx : nat)
    (sheet_name batch_id : pystr) : M (list dict) :=
  m_for (enumerate rows) [] (fun sheet_records '(row_idx, row) =>
    if (row_idx <=? header_row_idx)%nat then m_ret sheet_records
    else
      (let row_number := Z.of_nat row_idx + 1 in
       record <- parse_row row row_number sheet_name batch_id ;;
       match record with
       | Some record =>
         if dict_truthy record then m_ret (sheet_records ++ [record])
         else m_ret sheet_records
       | None => m_ret sheet_records
       end)%M).

(** The body of the loop over the sheets. *)
Definition process_sheet (wb : workbook) (batch_id : pystr)
    (acc : list dict * list (pystr * Z)) (sheet_name : pystr)
  : M (list dict * list (pystr * Z)) :=
  (let '(all_records, sheet_stats) := acc in
   (* Skip sheets that don't look like data sheets *)
   if existsb (fun skip => py_in skip (py_lower sheet_name)) SKIP_WORDS then
     print ([0x0A%N] ++ py "  Skipping sheet: " ++ sheet_name) ;;
     m_ret (all_records, sheet_stats)
   else
     print ([0x0A%N] ++ py "  Processing sheet: " ++ sheet_name) ;;
     m_try
       (rows <- m_lift (wb_rows wb sheet_name) ;;
        let header_row_idx := find_header_row rows 15 in
        sheet_records <- parse_sheet_rows rows header_row_idx sheet_name batch_id ;;
        let all_records := all_records ++ sheet_records in
        let sheet_stats :=
          count_set sheet_stats sheet_name (Z.of_nat (length sheet_records)) in
        print (py "    Parsed: " ++ str_of_Z (Z.of_nat (length sheet_records))
               ++ py " records") ;;
        m_ret (all_records, sheet_stats))
       any_exception
       (fun e =>
          print (py "    Error: " ++ exn_msg e) ;;
          m_ret (all_records, count_set sheet_stats sheet_name 0)))%M.

Definition process_all_sheets (wb : workbook) (batch_id : pystr)
  : M (list dict * list (pystr * Z)) :=
  (let all_records := [] in
   let sheet_stats := [] in
   let sheet_names := get_all_sheets wb in
   print ([0x0A%N] ++ py "Found " ++ str_of_Z (Z.of_nat (length sheet_names))
          ++ py " sheets: " ++ wb_sheets_text wb) ;;
   m_for sheet_names (all_records, sheet_stats) (process_sheet wb batch_id))%M.

(** *** The entities the store already has *)

(** [{normalize_name(e["fullName"]) for e in data if e.get("fullName")}] *)
Fixpoint existing_names_of (data : list dict) : Exc (gset (list N)) :=
  match data with
  | [] => inr ∅
  | e :: rest =>
    exc_bind (text_if_truthy (dict_get e "fullName")) (fun name =>
    exc_bind (existing_names_of rest) (fun names =>
    inr (match name with
         | Some name => {[ normalize_name name ]} ∪ names
         | None => names
         end)))
  end.

Definition check_existing_entities (entities : list entity) : M (list entity) :=
  match entities with
  | [] => m_ret []
  | _ =>
    (print (py "  Checking for existing entities...") ;;
     m_try
       ((* Get all existing entity names *)
        data <- db_select "legal_entities" ["fullName"%string] ;;
        existing_names <- m_lift (existing_names_of data) ;;
        (* Filter to only new entities *)
        let new_entities :=
          List.filter (fun e => negb (bool_decide (normalize_name (fullName e) ∈ existing_names)))
            entities in
        print (str_of_Z (Z.of_nat (size existing_names)) ++ py " existing, "
               ++ str_of_Z (Z.of_nat (length new_entities)) ++ py " new") ;;
        m_ret new_entities)
       any_exception
       (fun e =>
          print (py "Error: " ++ exn_msg e) ;;
          m_ret entities))%M
  end.

(** *** The entity loop of [run_import] (step 5) *)

(** An entity as the dict the store is sent. *)
Definition entity_row (e : entity) : dict :=
  {[ "fullName"%string := VStr (fullName e);
     "shortName"%string := shortName e;
     "type"%string := VStr (type e);
     "country"%string := country e;
     "import_batch_id"%string := import_batch_id e ]}.

(** The counters of the loop: inserted, errors. *)
Definition retry_entities (batch : list entity) (st : Z * Z) : M (Z * Z) :=
  m_for batch st (fun st entity =>
    m_try
      (db_insert_one "legal_entities" (entity_row entity) ;;
       m_ret (fst st + 1, snd st))%M
      any_exception
      (fun row_error =>
         print (py "    Failed: " ++ take 40 (fullName entity) ++ py " - "
                ++ take 50 (exn_msg row_error)) ;;
         m_ret (fst st, snd st + 1))%M).

Definition import_entity_batch (new_entities : list entity) (st : Z * Z) (i : nat)
  : M (Z * Z) :=
  (let batch := slice new_entities i (i + BATCH_SIZE) in
   let batch_num := (Z.of_nat i / Z.of_nat BATCH_SIZE) + 1 in
   print (py "  Entity batch " ++ str_of_Z batch_num ++ py ": " ++ str_of_Z (Z.of_nat i + 1)
          ++ py " - "
          ++ str_of_Z (Z.min (Z.of_nat i + Z.of_nat BATCH_SIZE) (Z.of_nat (length new_entities)))
          ++ py "...") ;;
   m_try
     (db_insert_many "legal_entities" (map entity_row batch) ;;
      let st := (fst st + Z.of_nat (length batch), snd st) in
      print (py "OK") ;;
      m_ret st)
     any_exception
     (fun e =>
        print (py "FAILED: " ++ exn_msg e) ;;
        (* Try one by one *)
        retry_entities batch st))%M.

Definition import_entities (new_entities : list entity) : M (Z * Z) :=
  match new_entities with
  | [] => m_ret (0, 0)
  | _ =>
    m_for (py_range (length new_entities) BATCH_SIZE) (0, 0)
      (import_entity_batch new_entities)
  end.

End Production.

(** * [staging/import_claims.py] *)

Module Claims.

Definition BATCH_SIZE : nat := 50.

(** Claim source type mappings, in the order the script lists them. *)
Definition SOURCE_TYPE_MAP : list (pystr * pystr) :=
  [(py "foreign inward", py "inward-foreign");
   (py "local inward", py "inward-domestic");
   (py "domestic inward", py "inward-domestic");
   (py "direct", py "direct");
   (py "local outward", py "outward")].

Definition parse_date (v : value) : Exc (option pystr) :=
  match v with
  | VNone => inr None
  | VStr [] => inr None
  | VDate d => inr (Some (strftime_ymd d))
  | VBool _ | VInt _ | VFloat _ =>
    if number_is_zero v then inr None
    else
      exc_catch (Production.serial_to_date (int_of_number v))
        (fun e => is_ValueError e || is_OverflowError e) (inr None)
  | VStr s =>
    let s := py_strip s in
    match s with
    | [] => inr None
    | _ => Production.try_formats date_formats s
    end
  end.

Definition parse_number (v : value) : Exc (option float) :=
  match v with
  | VNone => inr None
  | VStr [] => inr None
  | VBool _ | VInt _ | VFloat _ => exc_bind (float_of_number v) (fun x => inr (Some x))
  | VStr s =>
    let cleaned := py_strip s in
    let cleaned := py_replace (py ",") [] cleaned in
    let cleaned := py_replace (py " ") [] cleaned in
    let cleaned := py_replace [0xA0%N] [] cleaned in
    let cleaned := py_replace (py "$") [] cleaned in
    let cleaned := py_replace (py "€") [] cleaned in
    let cleaned := py_replace (py "%") [] cleaned in
    if match cleaned with [] => true | _ => false end || pystr_eqb cleaned (py "-")
    then inr None
    else exc_catch (exc_bind (float_of_str cleaned) (fun x => inr (Some x)))
           is_ValueError (inr None)
  | VDate _ => inr None
  end.

(** A cell of the sheet as the reader presents it: its type tag matters
    for empty and date cells only.  A date cell carries, next to its raw
    value, the reader's conversion of it when that conversion succeeds. *)
Inductive xl_cell :=
  | XL_CELL_EMPTY
  | XL_CELL_DATE (raw : value) (as_datetime : option datetime)
  | XL_CELL_OTHER (v : value).

Abbreviation xl_sheet := (list (list xl_cell)) (only parsing).

(** [sheet.cell(row_idx, col_idx)] *)
Definition sheet_cell (sheet : xl_sheet) (row_idx col_idx : nat) : Exc xl_cell :=
  match sheet !! row_idx with
  | Some row =>
    match row !! col_idx with
    | Some c => inr c
    | None => inl (IndexError (py "list index out of range"))
    end
  | None => inl (IndexError (py "list index out of range"))
  end.

Definition is_IndexError (e : exn) : bool :=
  match e with IndexError _ => true | _ => false end.

Definition get_cell_value (sheet : xl_sheet) (row_idx col_idx : nat) : Exc value :=
  exc_catch
    (exc_bind (sheet_cell sheet row_idx col_idx) (fun cell =>
     match cell with
     | XL_CELL_EMPTY => inr VNone
     | XL_CELL_DATE raw (Some dt) => inr (VDate dt)
     | XL_CELL_DATE raw None => inr raw
     | XL_CELL_OTHER v => inr v
     end))
    is_IndexError (inr VNone).

Fixpoint lookup_source_type (entries : list (pystr * pystr)) (val_lower : pystr) : pystr :=
  match entries with
  | [] => py "unknown"
  | (key, source_type) :: rest =>
    if py_in key val_lower then source_type else lookup_source_type rest val_lower
  end.

Definition determine_source_type (col0_value : value) : pystr :=
  match col0_value with
  | VNone => py "unknown"
  | _ =>
    let val_lower := py_lower (py_strip (py_str col0_value)) in
    lookup_source_type SOURCE_TYPE_MAP val_lower
  end.

(** [x and x > 0] for an optional amount *)
Definition positive_amount (x : option float) : bool :=
  match x with
  | Some x => float_truthy x && float_gt_int x 0
  | None => false
  end.

Definition determine_liability_type (reserve paid : option float) : pystr :=
  if positive_amount reserve || positive_amount paid then py "ACTIVE"
  else py "INFORMATIONAL".

Definition determine_status (paid outstanding : option float) : pystr :=
  if positive_amount outstanding then py "OPEN"
  else if positive_amount paid then py "CLOSED"
  else py "OPEN".

(** *** Parent record matching *)

(** A lookup map: normalized identifier to the id of the owning record. *)
Abbreviation lookup_map := (gmap (list N) value) (only parsing).

Definition match_parent (source_type : pystr) (slip_number contract_number : value)
    (policies_by_number policies_by_slip inward_by_contract : lookup_map)
  : value * value :=
  let policy_id := VNone in
  let inward_id := VNone in
  let slip_key : pystr :=
    if truthy slip_number then py_lower (py_strip (py_str slip_number)) else [] in
  let contract_key : pystr :=
    if truthy contract_number then py_lower (py_strip (py_str contract_number)) else [] in
  let nonempty (k : pystr) := match k with [] => false | _ => true end in
  if pystr_eqb source_type (py "inward-foreign") || pystr_eqb source_type (py "inward-domestic")
  then
    (* Match to inward_reinsurance by slip/contract number *)
    match (if nonempty slip_key then inward_by_contract !! slip_key else None) with
    | Some id => (policy_id, id)
    | None =>
      match (if nonempty contract_key then inward_by_contract !! contract_key else None) with
      | Some id => (policy_id, id)
      | None => (policy_id, inward_id)
      end
    end
  else if pystr_eqb source_type (py "direct") then
    (* Match to policies by policy number *)
    match (if nonempty contract_key then policies_by_number !! contract_key else None) with
    | Some id => (id, inward_id)
    | None => (policy_id, inward_id)
    end
  else if pystr_eqb source_type (py "outward") then
    (* Match to policies by slip number *)
    match (if nonempty slip_key then policies_by_slip !! slip_key else None) with
    | Some id => (id, inward_id)
    | None =>
      match (if nonempty contract_key then policies_by_number !! contract_key else None) with
      | Some id => (id, inward_id)
      | None => (policy_id, inward_id)
      end
    end
  else (policy_id, inward_id).

(** *** Row parsing *)

(** [max(a, b)] on numbers *)
Definition py_max (a b : value) : Exc value :=
  match num_gt b a with
  | Some true => inr b
  | Some false => inr a
  | None => inl (TypeError (py "'>' not supported between these operands"))
  end.

(** [str(v).strip() if v else None] *)
Definition stripped_or_none (v : value) : value :=
  if truthy v then VStr (py_strip (py_str v)) else VNone.

(** [label + str(v)] appended to the parts when [v] is truthy *)
Definition add_note (parts : list pystr) (label : pystr) (v : value) : list pystr :=
  if truthy v then parts ++ [label ++ py_str v] else parts.

(** [get_cell_value(sheet, row_idx, c)] and its two parsed forms *)
Definition cell_at (sheet : xl_sheet) (row_idx c : nat) : M value :=
  m_lift (get_cell_value sheet row_idx c).

Definition date_at (sheet : xl_sheet) (row_idx c : nat) : M (option pystr) :=
  (v <- cell_at sheet row_idx c ;; m_lift (parse_date v))%M.

Definition number_at (sheet : xl_sheet) (row_idx c : nat) : M (option float) :=
  (v <- cell_at sheet row_idx c ;; m_lift (parse_number v))%M.

(** [datetime.now().strftime("%Y-%m-%d")] *)
Definition today : M value := (t <- now ;; m_ret (VStr (strftime_ymd t)))%M.

Definition parse_claim_row (sheet : xl_sheet) (row_idx : nat) (row_number : Z)
    (policies_by_number policies_by_slip inward_by_contract : lookup_map)
  : M (option dict * list dict) :=
  (let cell := cell_at sheet row_idx in
   let date_cell := date_at sheet row_idx in
   let number_cell := number_at sheet row_idx in
   (* Get key values *)
   col0 <- cell 0%nat ;;
   let source_type := determine_source_type col0 in
   (* Skip if empty row *)
   if pystr_eqb source_type (py "unknown") && negb (truthy col0) then m_ret (None, [])
   else
   (* Extract all columns *)
   loss_date <- date_cell 1%nat ;;
   report_date <- date_cell 2%nat ;;
   claim_number_raw <- cell 3%nat ;;
   broker_reinsurer <- cell 4%nat ;;
   slip_number <- cell 5%nat ;;
   slip_date <- cell 6%nat ;;
   claimant_name <- cell 7%nat ;;
   reinsured <- cell 8%nat ;;
   insurance_type <- cell 9%nat ;;
   risk_description <- cell 10%nat ;;
   location_country <- cell 11%nat ;;
   city <- cell 12%nat ;;
   contract_number <- cell 13%nat ;;
   currency <- cell 14%nat ;;
   (* Financial columns *)
   sum_insured_usd <- number_cell 15%nat ;;
   sum_insured <- number_cell 16%nat ;;
   our_share_decimal <- number_cell 25%nat ;;
   reserve_fc <- number_cell 33%nat ;;
   reserve_nc <- number_cell 34%nat ;;
   total_loss <- number_cell 35%nat ;;
   our_share_loss_decimal <- number_cell 37%nat ;;
   our_share_loss_fc <- number_cell 38%nat ;;
   our_share_loss_nc <- number_cell 39%nat ;;
   paid_fc <- number_cell 40%nat ;;
   exchange_rate <- number_cell 41%nat ;;
   paid_nc <- number_cell 42%nat ;;
   payment_date <- date_cell 43%nat ;;
   outstanding <- number_cell 44%nat ;;
   description <- cell 46%nat ;;
   (* Convert our_share from decimal to percentage *)
   let our_share_percentage :=
     match our_share_decimal with
     | Some x => VFloat (float_mul x (float_of_Z 100))
     | None => VNone
     end in
   (* Generate claim number if missing *)
   let claim_number :=
     if truthy claim_number_raw then py_strip (py_str claim_number_raw)
     else py "IMP-CLM-" ++ str_of_Z row_number in
   (* Match to parent record *)
   let '(policy_id, inward_id) :=
     match_parent source_type slip_number contract_number
       policies_by_number policies_by_slip inward_by_contract in
   (* Determine liability type and status *)
   let liability_type := determine_liability_type reserve_fc paid_fc in
   let status := determine_status paid_fc outstanding in
   (* Calculate imported totals *)
   imported_total_incurred <-
     m_lift (py_max (py_or (opt_float total_loss) (VInt 0))
                    (py_or (opt_float reserve_fc) (VInt 0))) ;;
   let imported_total_paid := py_or (opt_float paid_fc) (VInt 0) in
   (* Build notes from extra fields *)
   let notes_parts := [] in
   let notes_parts := add_note notes_parts (py "Broker/Reinsurer: ") broker_reinsurer in
   let notes_parts := add_note notes_parts (py "Reinsured: ") reinsured in
   let notes_parts := add_note notes_parts (py "Insurance Type: ") insurance_type in
   let notes_parts := add_note notes_parts (py "Risk: ") risk_description in
   let notes_parts := add_note notes_parts (py "City: ") city in
   let notes :=
     match notes_parts with
     | [] => VNone
     | _ => VStr (py_join (py " | ") notes_parts)
     end in
   (* Build claim record *)
   report_date' <-
     (if truthy (opt_str report_date) then m_ret (opt_str report_date) else today) ;;
   let claim : dict := ∅ in
   let claim := dict_set claim "claim_number" (VStr claim_number) in
   let claim := dict_set claim "source_type" (VStr source_type) in
   let claim := dict_set claim "slip_number" (stripped_or_none slip_number) in
   let claim := dict_set claim "contract_number" (stripped_or_none contract_number) in
   let claim := dict_set claim "liability_type" (VStr liability_type) in
   let claim := dict_set claim "status" (VStr status) in
   let claim := dict_set claim "loss_date" (opt_str loss_date) in
   let claim := dict_set claim "report_date" report_date' in
   let claim :=
     dict_set claim "description"
       (if truthy description then VStr (take 1000 (py_str description)) else notes) in
   let claim := dict_set claim "claimant_name" (stripped_or_none claimant_name) in
   let claim := dict_set claim "location_country" (stripped_or_none location_country) in
   let claim := dict_set claim "imported_total_incurred" imported_total_incurred in
   let claim := dict_set claim "imported_total_paid" imported_total_paid in
   let claim := dict_set claim "is_deleted" (VBool false) in
   (* Add parent references (nullable) *)
   let claim := if truthy policy_id then dict_set claim "policy_id" policy_id else claim in
   let claim :=
     if truthy inward_id then dict_set claim "inward_reinsurance_id" inward_id else claim in
   (* Build transactions *)
   let transactions : list dict := [] in
   let txn_currency :=
     if truthy currency then VStr (py_upper (py_strip (py_str currency)))
     else VStr (py "USD") in
   (* Reserve transaction *)
   transactions <-
     (if positive_amount reserve_fc then
        date <- (if truthy (opt_str loss_date) then m_ret (opt_str loss_date) else today) ;;
        let txn : dict := ∅ in
        let txn := dict_set txn "transaction_type" (VStr (py "RESERVE_SET")) in
        let txn := dict_set txn "transaction_date" date in
        let txn :=
          dict_set txn "amount_100pct" (py_or (opt_float total_loss) (opt_float reserve_fc)) in
        let txn := dict_set txn "currency" txn_currency in
        let txn := dict_set txn "exchange_rate" (py_or (opt_float exchange_rate) (VInt 1)) in
        let txn := dict_set txn "our_share_percentage" (py_or our_share_percentage (VInt 100)) in
        let txn :=
          dict_set txn "notes" (VStr (py "Imported from Excel portfolio (reserve)")) in
        m_ret (transactions ++ [txn])
      else m_ret transactions) ;;
   (* Payment transaction *)
   transactions <-
     (if positive_amount paid_fc then
        date <- (if truthy (opt_str payment_date) then m_ret (opt_str payment_date)
                 else if truthy (opt_str loss_date) then m_ret (opt_str loss_date)
                 else today) ;;
        let txn : dict := ∅ in
        let txn := dict_set txn "transaction_type" (VStr (py "PAYMENT")) in
        let txn := dict_set txn "transaction_date" date in
        let txn := dict_set txn "amount_100pct" (opt_float paid_fc) in
        let txn := dict_set txn "currency" txn_currency in
        let txn := dict_set txn "exchange_rate" (py_or (opt_float exchange_rate) (VInt 1)) in
        let txn := dict_set txn "our_share_percentage" (py_or our_share_percentage (VInt 100)) in
        let txn :=
          dict_set txn "notes" (VStr (py "Imported from Excel portfolio (payment)")) in
        m_ret (transactions ++ [txn])
      else m_ret transactions) ;;
   m_ret (Some claim, transactions))%M.

(** *** [main], step 5: inserting the claims *)

(** [for i, record in enumerate(data): claim_id_map[batch_start + i] = record["id"]];
    the map is updated in place, so the entries written before a failure stay. *)
Fixpoint record_ids (at_ : nat) (data : list dict) (claim_id_map : gmap nat value)
  : gmap nat value * option exn :=
  match data with
  | [] => (claim_id_map, None)
  | record :: rest =>
    match dict_item record "id" with
    | inr id => record_ids (S at_) rest (<[at_ := id]> claim_id_map)
    | inl e => (claim_id_map, Some e)
    end
  end.

(** The state of the loop: the count and the map from claim index to id. *)
Definition claim_state : Type := Z * gmap nat value.

(** [for i, claim in enumerate(batch)]: the row-by-row retry *)
Fixpoint retry_claims (at_ : nat) (batch : list dict) (st : claim_state) : M claim_state :=
  match batch with
  | [] => m_ret st
  | claim :: rest =>
    (st' <-
       m_try
         (result <- db_insert_one "claims" claim ;;
          first <- m_lift (match result with
                           | r :: _ => inr r
                           | [] => inl (IndexError (py "list index out of range"))
                           end) ;;
          id <- m_lift (dict_item first "id") ;;
          m_ret (fst st + 1, <[at_ := id]> (snd st)))
         any_exception
         (fun row_error =>
            print (py "      Failed: " ++ py_str (dict_get claim "claim_number") ++ py " - "
                   ++ take 100 (exn_msg row_error)) ;;
            m_ret st) ;;
     retry_claims (S at_) rest st')%M
  end.

Definition insert_claim_batch (claims : list dict) (st : claim_state) (batch_start : nat)
  : M claim_state :=
  (let batch_end := Nat.min (batch_start + BATCH_SIZE) (length claims) in
   let batch := slice claims batch_start batch_end in
   let batch_num := (Z.of_nat batch_start / Z.of_nat BATCH_SIZE) + 1 in
   print (py "  Batch " ++ str_of_Z batch_num ++ py ": claims "
          ++ str_of_Z (Z.of_nat batch_start + 1) ++ py " - "
          ++ str_of_Z (Z.of_nat batch_end) ++ py "...") ;;
   (* the insert and the recording of the ids; an exception leaves the
      entries already written in the map *)
   attempt <- m_try
                (result <- db_insert_many "claims" batch ;; m_ret (inr result))
                any_exception (fun e => m_ret (inl e)) ;;
   let '(st, failure) :=
     match attempt with
     | inr data =>
       let '(m, err) := record_ids batch_start data (snd st) in ((fst st, m), err)
     | inl e => (st, Some e)
     end in
   match failure with
   | None =>
     let st := (fst st + Z.of_nat (length batch), snd st) in
     print (py "OK (" ++ str_of_Z (Z.of_nat (length batch)) ++ py " claims)") ;;
     m_ret st
   | Some e =>
     print (py "FAILED") ;;
     print (py "    Error: " ++ exn_msg e) ;;
     (* Retry row by row *)
     print (py "    Retrying row-by-row...") ;;
     retry_claims batch_start batch st
   end)%M.

Definition insert_claims (claims : list dict) : M claim_state :=
  m_for (py_range (length claims) BATCH_SIZE) (0, ∅) (insert_claim_batch claims).

(** *** [main], step 6: the transactions with their claim ids *)

(** [all_transactions] pairs each transaction with the index of its claim. *)
Definition build_transactions (claim_id_map : gmap nat value)
    (all_transactions : list (nat * dict)) : list dict :=
  fold_left
    (fun transactions_to_insert '(claim_idx, txn) =>
       match claim_id_map !! claim_idx with
       | Some id => transactions_to_insert ++ [dict_set txn "claim_id" id]
       | None => transactions_to_insert
       end)
    all_transactions [].

(** *** [main], step 6: inserting the transactions *)

(** The row-by-row retry of one batch of transactions. *)
Definition retry_transactions (batch : list dict) (inserted_transactions : Z) : M Z :=
  m_for batch inserted_transactions (fun inserted_transactions txn =>
    m_try
      (db_insert_one "claim_transactions" txn ;;
       m_ret (inserted_transactions + 1))%M
      any_exception
      (fun row_error =>
         print (py "      Failed: " ++ take 100 (exn_msg row_error)) ;;
         m_ret inserted_transactions)%M).

Definition insert_transaction_batch (transactions_to_insert : list dict)
    (inserted_transactions : Z) (batch_start : nat) : M Z :=
  (let batch_end := Nat.min (batch_start + BATCH_SIZE) (length transactions_to_insert) in
   let batch := slice transactions_to_insert batch_start batch_end in
   let batch_num := (Z.of_nat batch_start / Z.of_nat BATCH_SIZE) + 1 in
   print (py "  Batch " ++ str_of_Z batch_num ++ py ": transactions "
          ++ str_of_Z (Z.of_nat batch_start + 1) ++ py " - "
          ++ str_of_Z (Z.of_nat batch_end) ++ py "...") ;;
   m_try
     (db_insert_many "claim_transactions" batch ;;
      let inserted_transactions := inserted_transactions + Z.of_nat (length batch) in
      print (py "OK (" ++ str_of_Z (Z.of_nat (length batch)) ++ py " transactions)") ;;
      m_ret inserted_transactions)
     any_exception
     (fun e =>
        print (py "FAILED") ;;
        print (py "    Error: " ++ exn_msg e) ;;
        (* Retry row by row *)
        retry_transactions batch inserted_transactions))%M.

Definition insert_transactions (transactions_to_insert : list dict) : M Z :=
  m_for (py_range (length transactions_to_insert) BATCH_SIZE) 0
    (insert_transaction_batch transactions_to_insert).

(** *** Building the lookup maps *)

(** [str(v).strip().lower()]: the key of an identifier in a lookup map *)
Definition lookup_key (v : value) : pystr := py_lower (py_strip (py_str v)).

(** [if r.get(column): m[str(r[column]).strip().lower()] = r["id"]] *)
Definition index_one (r : dict) (column : string) (m : lookup_map) : Exc lookup_map :=
  if truthy (dict_get r column) then
    exc_bind (dict_item r "id") (fun id =>
    exc_bind (dict_item r column) (fun v =>
    inr (<[lookup_key v := id]> m)))
  else inr m.

(** [for p in policies]: both maps are updated in place, so what was
    written before a failure stays. *)
Fixpoint index_policies (policies : list dict)
    (policies_by_number policies_by_slip : lookup_map)
  : lookup_map * lookup_map * option exn :=
  match policies with
  | [] => (policies_by_number, policies_by_slip, None)
  | p :: rest =>
    match index_one p "policyNumber" policies_by_number with
    | inl e => (policies_by_number, policies_by_slip, Some e)
    | inr policies_by_number =>
      match index_one p "slipNumber" policies_by_slip with
      | inl e => (policies_by_number, policies_by_slip, Some e)
      | inr policies_by_slip => index_policies rest policies_by_number policies_by_slip
      end
    end
  end.

(** [for ir in inward_records] *)
Fixpoint index_inward (inward_records : list dict) (inward_by_contract : lookup_map)
  : lookup_map * option exn :=
  match inward_records with
  | [] => (inward_by_contract, None)
  | ir :: rest =>
    match index_one ir "contract_number" inward_by_contract with
    | inl e => (inward_by_contract, Some e)
    | inr inward_by_contract => index_inward rest inward_by_contract
    end
  end.

(** A [select] inside a [try]: the rows, or the exception. *)
Definition fetch (table : string) (columns : list string) : M (Exc (list dict)) :=
  m_try (data <- db_select table columns ;; m_ret (inr data))%M
    any_exception (fun e => m_ret (inl e)).

Definition build_lookup_maps : M (lookup_map * lookup_map * lookup_map) :=
  (print ([0x0A%N] ++ py "  Building lookup maps...") ;;
   (* Fetch policies *)
   let policies_by_number : lookup_map := ∅ in
   let policies_by_slip : lookup_map := ∅ in
   fetched <- fetch "policies" ["id"; "policyNumber"; "slipNumber"]%string ;;
   by_policy <-
     match fetched with
     | inr policies =>
       let '(policies_by_number, policies_by_slip, failure) :=
         index_policies policies policies_by_number policies_by_slip in
       match failure with
       | None =>
         print (py "    Policies loaded: " ++ str_of_Z (Z.of_nat (length policies))
                ++ py " (by number: " ++ str_of_Z (Z.of_nat (size policies_by_number))
                ++ py ", by slip: " ++ str_of_Z (Z.of_nat (size policies_by_slip))
                ++ py ")") ;;
         m_ret (policies_by_number, policies_by_slip)
       | Some e =>
         print (py "    Warning: Could not fetch policies: " ++ exn_msg e) ;;
         m_ret (policies_by_number, policies_by_slip)
       end
     | inl e =>
       print (py "    Warning: Could not fetch policies: " ++ exn_msg e) ;;
       m_ret (policies_by_number, policies_by_slip)
     end ;;
   (* Fetch inward reinsurance *)
   let inward_by_contract : lookup_map := ∅ in
   fetched <- fetch "inward_reinsurance" ["id"; "contract_number"]%string ;;
   inward_by_contract <-
     match fetched with
     | inr inward_records =>
       let '(inward_by_contract, failure) :=
         index_inward inward_records inward_by_contract in
       match failure with
       | None =>
         print (py "    Inward reinsurance loaded: "
                ++ str_of_Z (Z.of_nat (length inward_records)) ++ py " (by contract: "
                ++ str_of_Z (Z.of_nat (size inward_by_contract)) ++ py ")") ;;
         m_ret inward_by_contract
       | Some e =>
         print (py "    Warning: Could not fetch inward_reinsurance: " ++ exn_msg e) ;;
         m_ret inward_by_contract
       end
     | inl e =>
       print (py "    Warning: Could not fetch inward_reinsurance: " ++ exn_msg e) ;;
       m_ret inward_by_contract
     end ;;
   m_ret (fst by_policy, snd by_policy, inward_by_contract))%M.

(** *** [main], step 4: parsing the claims *)

Record match_stats := mk_match_stats {
  total : Z;
  matched_policy : Z;
  matched_inward : Z;
  unmatched : Z;
  by_source_type : list (value * Z)
}.

(** [d[k] = d.get(k, 0) + 1] on a dict kept in insertion order *)
Fixpoint count_add (d : list (value * Z)) (k : value) : list (value * Z) :=
  match d with
  | [] => [(k, 0 + 1)]
  | (k', n) :: rest =>
    if py_eq k' k then (k', n + 1) :: rest else (k', n) :: count_add rest k
  end.

(** The state of the loop: the claims, the transactions with the index of
    their claim, the statistics. *)
Definition parse_state : Type := list dict * list (nat * dict) * match_stats.

Definition parse_claims_row (sheet : xl_sheet)
    (policies_by_number policies_by_slip inward_by_contract : lookup_map)
    (st : parse_state) (row_idx : nat) : M parse_state :=
  (let '(claims, all_transactions, stats) := st in
   let row_number := Z.of_nat row_idx + 1 in
   parsed <- parse_claim_row sheet row_idx row_number
               policies_by_number policies_by_slip inward_by_contract ;;
   let '(claim, transactions) := parsed in
   match claim with
   | Some claim =>
     if dict_truthy claim then
       let claims := claims ++ [claim] in
       let claim_idx := (length claims - 1)%nat in
       (* Store transactions with claim index for later *)
       let all_transactions := all_transactions ++ map (pair claim_idx) transactions in
       (* Track statistics *)
       let source_type := dict_get_default claim "source_type" (VStr (py "unknown")) in
       let by_type := count_add (by_source_type stats) source_type in
       let stats :=
         if truthy (dict_get claim "policy_id") then
           mk_match_stats (total stats + 1) (matched_policy stats + 1)
             (matched_inward stats) (unmatched stats) by_type
         else if truthy (dict_get claim "inward_reinsurance_id") then
           mk_match_stats (total stats + 1) (matched_policy stats)
             (matched_inward stats + 1) (unmatched stats) by_type
         else
           mk_match_stats (total stats + 1) (matched_policy stats)
             (matched_inward stats) (unmatched stats + 1) by_type in
       m_ret (claims, all_transactions, stats)
     else m_ret st
   | None => m_ret st
   end)%M.

(** Data starts at row 2 (row 0 = headers, row 1 = sub-headers). *)
Definition data_start_row : nat := 2.

Definition parse_claims (sheet : xl_sheet)
    (policies_by_number policies_by_slip inward_by_contract : lookup_map)
  : M parse_state :=
  m_for (seq data_start_row (length sheet - data_start_row))
    ([], [], mk_match_stats 0 0 0 0 [])
    (parse_claims_row sheet policies_by_number policies_by_slip inward_by_contract).

End Claims.

(** * Properties *)

(** ** Text *)

Lemma lstrip_decomp (s : pystr) :
  exists sp, s = sp ++ py_lstrip s /\ Forall (fun c => py_isspace c = true) sp.
Proof.
  induction s as [|c r IH]; simpl.
  - exists []. split; [reflexivity | constructor].
  - destruct (py_isspace c) eqn:Hc.
    + destruct IH as (sp & Hsp & Hall).
      exists (c :: sp). split.
      * simpl. congruence.
      * constructor; assumption.
    + exists []. split; [reflexivity | constructor].
Qed.

Lemma rstrip_decomp (s : pystr) :
  exists sp, s = py_rstrip s ++ sp /\ Forall (fun c => py_isspace c = true) sp.
Proof.
  destruct (lstrip_decomp (rev s)) as (sp & Hsp & Hall).
  exists (rev sp). split.
  - unfold py_rstrip. rewrite <- rev_app_distr, <- Hsp, rev_involutive. reflexivity.
  - apply List.Forall_rev. assumption.
Qed.

Lemma split_go_blanks (sp cur : pystr) :
  Forall (fun c => py_isspace c = true) sp ->
  split_go cur sp = match cur with [] => [] | _ => [rev cur] end.
Proof.
  intros Hall. revert cur.
  induction Hall as [|c sp Hc _ IH]; intros cur; simpl.
  - reflexivity.
  - rewrite Hc. destruct cur; rewrite IH; reflexivity.
Qed.

Lemma split_go_trailing (s sp cur : pystr) :
  Forall (fun c => py_isspace c = true) sp ->
  split_go cur (s ++ sp) = split_go cur s.
Proof.
  intros Hall. revert cur.
  induction s as [|c r IH]; intros cur; simpl.
  - apply split_go_blanks. assumption.
  - destruct (py_isspace c); [destruct cur|]; rewrite IH; reflexivity.
Qed.

Lemma split_lstrip (s : pystr) : py_split (py_lstrip s) = py_split s.
Proof.
  unfold py_split. induction s as [|c r IH]; simpl; [reflexivity|].
  destruct (py_isspace c) eqn:Hc; [assumption|].
  simpl. rewrite Hc. reflexivity.
Qed.

Lemma split_rstrip (s : pystr) : py_split (py_rstrip s) = py_split s.
Proof.
  destruct (rstrip_decomp s) as (sp & Hs & Hall).
  rewrite Hs at 2. unfold py_split. symmetry. apply split_go_trailing. assumption.
Qed.

Lemma split_strip (s : pystr) : py_split (py_strip s) = py_split s.
Proof. unfold py_strip. rewrite split_rstrip. apply split_lstrip. Qed.

Lemma split_nil : py_split [] = [].
Proof. reflexivity. Qed.

(** Trimming a name does not change its dedup key. *)
Lemma normalize_name_strip (name : pystr) :
  Production.normalize_name (py_strip name) = Production.normalize_name name.
Proof.
  unfold Production.normalize_name.
  destruct (py_strip name) eqn:Hs.
  - destruct name as [|c r]; [reflexivity|].
    rewrite <- (split_strip (c :: r)), Hs. reflexivity.
  - rewrite <- Hs, split_strip. destruct name as [|c r]; [discriminate|reflexivity].
Qed.

(** ** Case mappings *)

(** Lower-casing folds every cased letter: the Kelvin sign gives k, the
    Kazakh and the Polish capitals their small letters, a capital sigma that
    ends a word the final sigma, and the dotted capital I two code points. *)
Lemma lower_folds_every_cased_letter :
  py_lower [0x212A%N] = py "k" /\
  py_lower ([0x49A; 0x421]%N ++ py "-100") = [0x49B; 0x441]%N ++ py "-100" /\
  py_lower [0x492; 0x141]%N = [0x493; 0x142]%N /\
  py_lower [0x39F; 0x394; 0x39F; 0x3A3]%N = [0x3BF; 0x3B4; 0x3BF; 0x3C2]%N /\
  py_lower [0x3A3; 0x391]%N = [0x3C3; 0x3B1]%N /\
  py_lower [0x130%N] = [0x69; 0x307]%N /\
  py_lower (py "BROKER House 7") = py "broker house 7".
Proof. repeat split; vm_compute; reflexivity. Qed.

(** Upper-casing likewise: the long s gives S, the sharp s two letters. *)
Lemma upper_maps_every_cased_letter :
  py_upper [0x17F%N] = py "S" /\
  py_upper [0xDF%N] = py "SS" /\
  py_upper [0x49B; 0x441]%N = [0x49A; 0x421]%N /\
  py_upper (py "Excess of loss") = py "EXCESS OF LOSS".
Proof. repeat split; vm_compute; reflexivity. Qed.

(** The origin reads the whole of the territory and of the currency. *)
Lemma origin_reads_whole_text :
  Production.determine_origin (Some (py "Uzbekistan")) None = py "DOMESTIC" /\
  Production.determine_origin (Some (py "UZ")) (Some (py "USD")) = py "DOMESTIC" /\
  Production.determine_origin None (Some (py "uzs")) = py "DOMESTIC" /\
  Production.determine_origin (Some (py "Kazakhstan")) (Some (py "UZS")) = py "DOMESTIC" /\
  Production.determine_origin (Some (py "xuz")) (Some (py "XUZS")) = py "FOREIGN" /\
  Production.determine_origin (Some (py "")) (Some (py "")) = py "FOREIGN" /\
  Production.determine_origin None None = py "FOREIGN".
Proof. repeat split; vm_compute; reflexivity. Qed.

(** ** The entity extractor *)

Section Extractor.
Import Production.

(** The roles under which a record names a counterparty, and the field
    each role is read from. *)
Inductive role := CedantRole | BrokerRole | InsuredRole.

Definition role_field (r : role) : string :=
  match r with
  | CedantRole => "cedant_name"
  | BrokerRole => "broker_name"
  | InsuredRole => "original_insured_name"
  end.

(** The type the extractor writes on a candidate of a given role. *)
Definition extracted_type (r : role) (name : pystr) : pystr :=
  match r with
  | CedantRole => determine_entity_type name true false
  | BrokerRole => determine_entity_type name false true
  | InsuredRole => py "Insured"
  end.

(** The dedup key of a candidate, recomputed from its stored name. *)
Definition entity_key (e : entity) : pystr := normalize_name (fullName e).

(** A record whose three name fields hold text or nothing. *)
Definition names_are_text (record : dict) : Prop :=
  forall r, exists o, text_if_truthy (dict_get record (role_field r)) = inr o.

(** What is known of an entry of the extractor's dict. *)
Definition entry_from (records : list dict) (kv : pystr * entity) : Prop :=
  fst kv = entity_key (snd kv) /\ fst kv <> [] /\
  exists record name r,
    record ∈ records /\ dict_get record (role_field r) = VStr name /\
    fullName (snd kv) = py_strip name /\ type (snd kv) = extracted_type r name.

Definition dict_inv (records : list dict) (entities : list (pystr * entity)) : Prop :=
  Forall (entry_from records) entities /\ NoDup (map fst entities).

Lemma has_key_true (entities : list (pystr * entity)) (k : pystr) :
  has_key entities k = true <-> k ∈ map fst entities.
Proof.
  unfold has_key. rewrite existsb_exists. split.
  - intros ((k', e) & Hin & Heq). simpl in Heq.
    apply bool_decide_eq_true in Heq. subst.
    apply list_elem_of_fmap. exists (k, e). split; [reflexivity|].
    apply list_elem_of_In. assumption.
  - intros Hin. apply list_elem_of_fmap in Hin. destruct Hin as ((k', e) & -> & Hin).
    exists (k', e). split; [apply list_elem_of_In; assumption|].
    simpl. apply bool_decide_eq_true. reflexivity.
Qed.

Lemma add_if_new_extends (entities : list (pystr * entity)) k e :
  exists more, add_if_new entities k e = entities ++ more.
Proof.
  unfold add_if_new. destruct k.
  - exists []. rewrite app_nil_r. reflexivity.
  - destruct (has_key entities _).
    + exists []. rewrite app_nil_r. reflexivity.
    + eexists. reflexivity.
Qed.

Lemma add_if_new_inv records (entities : list (pystr * entity)) k e :
  dict_inv records entities ->
  (k <> [] -> entry_from records (k, e)) ->
  dict_inv records (add_if_new entities k e).
Proof.
  intros [Hall Hnd] Hentry. unfold add_if_new.
  destruct k as [|c k']; [split; assumption|].
  destruct (has_key entities (c :: k')) eqn:Hk; [split; assumption|].
  split.
  - apply Forall_app. split; [assumption|]. constructor; [|constructor].
    apply Hentry. discriminate.
  - rewrite map_app. simpl. apply NoDup_app. split; [assumption|]. split.
    + intros x Hx Hx'. apply list_elem_of_singleton in Hx'. subst x.
      apply has_key_true in Hx. congruence.
    + apply NoDup_singleton.
Qed.

Lemma text_if_truthy_some v s :
  text_if_truthy v = inr (Some s) -> v = VStr s /\ s <> [].
Proof.
  destruct v as [| b | z | x | t | d]; simpl; intros H.
  - discriminate.
  - destruct b; discriminate.
  - destruct (negb _); discriminate.
  - destruct (float_truthy x); discriminate.
  - destruct t; [discriminate|]. injection H as <-. split; [reflexivity | discriminate].
  - discriminate.
Qed.

(** One candidate: its entry is justified by the record it is read from. *)
Lemma candidate_entry records record r name e :
  record ∈ records ->
  dict_get record (role_field r) = VStr name ->
  fullName e = py_strip name -> type e = extracted_type r name ->
  normalize_name name <> [] -> entry_from records (normalize_name name, e).
Proof.
  intros Hin Hget Hfull Htype Hne. unfold entry_from. simpl.
  split; [|split; [assumption|]].
  - unfold entity_key. rewrite Hfull, normalize_name_strip. reflexivity.
  - exists record, name, r. auto.
Qed.

Lemma extract_from_record_inv records entities record entities' :
  record ∈ records ->
  extract_from_record entities record = inr entities' ->
  dict_inv records entities ->
  dict_inv records entities' /\ exists more, entities' = entities ++ more.
Proof.
  intros Hin Hrun Hinv. unfold extract_from_record in Hrun.
  destruct (text_if_truthy (dict_get record "cedant_name")) as [|cedant] eqn:Hc;
    [discriminate|]. simpl in Hrun.
  destruct (text_if_truthy (dict_get record "broker_name")) as [|broker] eqn:Hb;
    [discriminate|]. simpl in Hrun.
  destruct (text_if_truthy (dict_get record "original_insured_name")) as [|insured] eqn:Hi;
    [discriminate|]. simpl in Hrun.
  injection Hrun as <-.
  set (step1 := match cedant with Some _ => _ | None => _ end).
  set (step2 := match broker with Some _ => _ | None => _ end).
  assert (H1 : dict_inv records step1 /\ exists more, step1 = entities ++ more).
  { subst step1. destruct cedant as [name|].
    - apply text_if_truthy_some in Hc. destruct Hc as [Hc _].
      destruct (negb _).
      + split; [|apply add_if_new_extends].
        apply add_if_new_inv; [assumption|].
        apply (candidate_entry records record CedantRole); auto.
      + split; [assumption|]. exists []. rewrite app_nil_r. reflexivity.
    - split; [assumption|]. exists []. rewrite app_nil_r. reflexivity. }
  destruct H1 as (Hinv1 & more1 & Hm1).
  assert (H2 : dict_inv records step2 /\ exists more, step2 = step1 ++ more).
  { subst step2. destruct broker as [name|].
    - apply text_if_truthy_some in Hb. destruct Hb as [Hb _].
      split; [|apply add_if_new_extends].
      apply add_if_new_inv; [assumption|].
      apply (candidate_entry records record BrokerRole); auto.
    - split; [assumption|]. exists []. rewrite app_nil_r. reflexivity. }
  destruct H2 as (Hinv2 & more2 & Hm2).
  destruct insured as [name|].
  - apply text_if_truthy_some in Hi. destruct Hi as [Hi _].
    destruct (add_if_new_extends step2 (normalize_name name)
                {| fullName := py_strip name; shortName := short_name name;
                   type := py "Insured"; country := dict_get record "territory";
                   import_batch_id := dict_get record "import_batch_id" |})
      as (more3 & Hm3).
    split.
    + apply add_if_new_inv; [assumption|].
      apply (candidate_entry records record InsuredRole); auto.
    + exists (more1 ++ more2 ++ more3). rewrite Hm3, Hm2, Hm1.
      rewrite <- !app_assoc. reflexivity.
  - split; [assumption|]. exists (more1 ++ more2). rewrite Hm2, Hm1.
    rewrite <- !app_assoc. reflexivity.
Qed.

Lemma extract_from_record_total entities record :
  names_are_text record -> exists entities', extract_from_record entities record = inr entities'.
Proof.
  intros Hnames. unfold extract_from_record.
  destruct (Hnames CedantRole) as (c & Hc). simpl in Hc. rewrite Hc. simpl.
  destruct (Hnames BrokerRole) as (b & Hb). simpl in Hb. rewrite Hb. simpl.
  destruct (Hnames InsuredRole) as (i & Hi). simpl in Hi. rewrite Hi. simpl.
  eexists. reflexivity.
Qed.

Lemma extract_loop_inv records rs entities entities' :
  (forall r, r ∈ rs -> r ∈ records) ->
  extract_loop rs entities = inr entities' ->
  dict_inv records entities ->
  dict_inv records entities' /\ exists more, entities' = entities ++ more.
Proof.
  revert entities. induction rs as [|record rest IH]; intros entities Hsub Hrun Hinv.
  - simpl in Hrun. injection Hrun as <-. split; [assumption|].
    exists []. rewrite app_nil_r. reflexivity.
  - simpl in Hrun.
    destruct (extract_from_record entities record) as [|mid] eqn:Hstep; [discriminate|].
    simpl in Hrun.
    destruct (extract_from_record_inv records entities record mid) as (Hmid & m1 & Hm1);
      [apply Hsub; left | assumption | assumption |].
    destruct (IH mid) as (Hfin & m2 & Hm2);
      [intros r Hr; apply Hsub; right; assumption | assumption | assumption |].
    split; [assumption|]. exists (m1 ++ m2). rewrite Hm2, Hm1, <- app_assoc. reflexivity.
Qed.

Lemma extract_loop_total rs entities :
  Forall names_are_text rs -> exists entities', extract_loop rs entities = inr entities'.
Proof.
  intros Hall. revert entities.
  induction Hall as [|record rest Hrec _ IH]; intros entities; simpl.
  - eexists. reflexivity.
  - destruct (extract_from_record_total entities record Hrec) as (mid & ->). simpl.
    apply IH.
Qed.

Lemma extract_loop_app rs later entities :
  extract_loop (rs ++ later) entities
  = exc_bind (extract_loop rs entities) (extract_loop later).
Proof.
  revert entities. induction rs as [|record rest IH]; intros entities; simpl.
  - reflexivity.
  - destruct (extract_from_record entities record); simpl; [reflexivity | apply IH].
Qed.

Lemma dict_inv_nil records : dict_inv records [].
Proof. split; constructor. Qed.

Lemma dict_inv_keys records (entities : list (pystr * entity)) :
  dict_inv records entities -> map entity_key (map snd entities) = map fst entities.
Proof.
  intros [Hall _]. induction Hall as [|[k e] rest [Hk _] _ IH]; simpl.
  - reflexivity.
  - simpl in Hk. rewrite IH, Hk. reflexivity.
Qed.

End Extractor.

(** The classification as the specification words it: the first matching
    rule wins, the role deciding only when no keyword does. *)
Definition broker_keywords : list pystr := [py "broker"].
Definition insurance_keywords : list pystr := [py "insurance"; py "страхов"; py "insuranc"].
Definition reinsurance_keywords : list pystr := [py "reinsur"; py "перестрах"].

Definition has_any (keywords : list pystr) (text : pystr) : bool :=
  existsb (fun k => py_in k text) keywords.

Definition classify_by_spec (name : pystr) (r : role) : pystr :=
  let name_lower := py_lower name in
  if match r with BrokerRole => true | _ => false end || has_any broker_keywords name_lower
  then py "Broker"
  else if has_any insurance_keywords name_lower then py "Insurance Company"
  else if has_any reinsurance_keywords name_lower then py "Reinsurer"
  else match r with
       | CedantRole => py "Insurance Company"
       | InsuredRole => py "Insured"
       | BrokerRole => py "Other"
       end.

Lemma extracted_type_by_rules (name : pystr) (r : role) :
  r <> InsuredRole -> extracted_type r name = classify_by_spec name r.
Proof.
  intros Hr. unfold extracted_type, classify_by_spec, Production.determine_entity_type,
    has_any, broker_keywords, insurance_keywords, reinsurance_keywords.
  cbn [existsb]. rewrite !orb_false_r.
  destruct r; [| |contradiction]; cbn [orb].
  - destruct (py_in (py "broker") _); [reflexivity|].
    rewrite <- orb_assoc.
    destruct (py_in (py "insurance") _ || _); [reflexivity|].
    destruct (py_in (py "reinsur") _ || _); reflexivity.
  - reflexivity.
Qed.

Lemma extract_entities_inv records ents :
  Production.extract_legal_entities records = inr ents ->
  exists entities, ents = map snd entities /\ dict_inv records entities.
Proof.
  unfold Production.extract_legal_entities. intros Hrun.
  destruct (Production.extract_loop records []) as [|entities] eqn:Hloop; [discriminate|].
  simpl in Hrun. injection Hrun as <-.
  exists entities. split; [reflexivity|].
  apply (extract_loop_inv records records [] entities); auto using dict_inv_nil.
Qed.

(** C6, as the code has it.  Every extracted candidate comes from a name
    field of a record and is typed by the role of that field: an insured is
    typed Insured whatever its name; a cedant or a broker is typed by the
    first matching rule (broker flag or broker keyword, insurance keyword,
    reinsurance keyword, cedant role, Other), so that a cedant or broker
    whose name holds a broker keyword is a Broker. *)
Theorem candidate_type_follows_role (records : list dict) ents e :
  Production.extract_legal_entities records = inr ents ->
  e ∈ ents ->
  exists record name r,
    record ∈ records /\ dict_get record (role_field r) = VStr name /\
    Production.fullName e = py_strip name /\
    Production.type e
      = match r with
        | InsuredRole => py "Insured"
        | _ => classify_by_spec name r
        end /\
    (r <> InsuredRole -> py_in (py "broker") (py_lower name) = true ->
     Production.type e = py "Broker").
Proof.
  intros Hrun He.
  destruct (extract_entities_inv records ents Hrun) as (entities & -> & Hall & _).
  apply list_elem_of_fmap in He. destruct He as ([k e'] & -> & Hin).
  rewrite Forall_forall in Hall. specialize (Hall _ Hin).
  destruct Hall as (_ & _ & record & name & r & Hrec & Hget & Hfull & Htype).
  simpl in *. exists record, name, r.
  split; [exact Hrec|]. split; [exact Hget|]. split; [exact Hfull|].
  assert (Hrule : r <> InsuredRole -> Production.type e' = classify_by_spec name r).
  { intros Hr. rewrite Htype. apply extracted_type_by_rules. exact Hr. }
  split.
  - destruct r; [apply Hrule; discriminate | apply Hrule; discriminate | exact Htype].
  - intros Hr Hbroker. rewrite (Hrule Hr). unfold classify_by_spec, has_any, broker_keywords.
    cbn [existsb]. rewrite Hbroker. destruct r; reflexivity.
Qed.

Definition marsh_cedant : dict := {[ "cedant_name"%string := VStr (py "Marsh Broker LLC") ]}.

Definition marsh_entity : Production.entity :=
  {| Production.fullName := py "Marsh Broker LLC";
     Production.shortName := VNone;
     Production.type := py "Broker";
     Production.country := VNone;
     Production.import_batch_id := VNone |}.

Lemma candidate_type_follows_role_witness :
  Production.extract_legal_entities [marsh_cedant] = inr [marsh_entity] /\
  (marsh_entity ∈ [marsh_entity]) /\
  exists record name r,
    record ∈ [marsh_cedant] /\ dict_get record (role_field r) = VStr name /\
    Production.fullName marsh_entity = py_strip name /\
    Production.type marsh_entity
      = match r with
        | InsuredRole => py "Insured"
        | _ => classify_by_spec name r
        end /\
    (r <> InsuredRole -> py_in (py "broker") (py_lower name) = true ->
     Production.type marsh_entity = py "Broker").
Proof.
  assert (H1 : Production.extract_legal_entities [marsh_cedant] = inr [marsh_entity]).
  { vm_compute. reflexivity. }
  assert (H2 : marsh_entity ∈ [marsh_entity]) by left.
  split; [exact H1|]. split; [exact H2|].
  exact (candidate_type_follows_role [marsh_cedant] [marsh_entity] marsh_entity H1 H2).
Defined.

(** C6 as stated fails: an insured whose name holds a broker keyword is
    typed Insured, where the ordered rules of the claim say Broker. *)
Lemma insured_with_broker_keyword_counterexample :
  exists e,
    Production.extract_legal_entities
      [ {[ "original_insured_name"%string := VStr (py "Marsh Broker LLC") ]} ] = inr [e] /\
    py_in (py "broker") (py_lower (Production.fullName e)) = true /\
    classify_by_spec (Production.fullName e) InsuredRole = py "Broker" /\
    Production.type e = py "Insured" /\
    Production.type e <> classify_by_spec (Production.fullName e) InsuredRole.
Proof.
  eexists. split; [vm_compute; reflexivity|].
  split; [vm_compute; reflexivity|].
  split; [vm_compute; reflexivity|].
  split; [vm_compute; reflexivity|].
  vm_compute. discriminate.
Qed.

(** ** Calendar arithmetic *)

(** A check over the [2^k] integers from [a] on, by halving. *)
Fixpoint forall_range (k : nat) (a : Z) (P : Z -> bool) : bool :=
  match k with
  | O => P a
  | S k' => forall_range k' a P && forall_range k' (a + 2 ^ Z.of_nat k') P
  end.

Lemma forall_range_spec (k : nat) (a : Z) (P : Z -> bool) :
  forall_range k a P = true ->
  forall z, a <= z < a + 2 ^ Z.of_nat k -> P z = true.
Proof.
  revert a. induction k as [|k IH]; intros a Hall z Hz.
  - simpl in *. assert (z = a) by lia. subst. exact Hall.
  - cbn [forall_range] in Hall. apply andb_prop in Hall. destruct Hall as [H1 H2].
    rewrite Nat2Z.inj_succ, Z.pow_succ_r in Hz by lia.
    destruct (Z_lt_le_dec z (a + 2 ^ Z.of_nat k)).
    + apply (IH a H1). lia.
    + apply (IH _ H2). lia.
Qed.

(** A date with its fields in range. *)
Definition date_valid (y m d : Z) : bool :=
  (1 <=? m) && (m <=? 12) && (1 <=? d) && (d <=? days_in_month y m).

(** One day of the 400-year cycle: [fromordinal] gives a valid date of
    the years 1 to 400 whose ordinal is the day given. *)
Definition cycle_day_ok (r : Z) : bool :=
  let '(y, m, d) := ord2ymd (r + 1) in
  (1 <=? y) && (y <=? 400) && date_valid y m d && (ymd2ord y m d =? r + 1).

Lemma cycle_days_ok (r : Z) : 0 <= r < DI400Y -> cycle_day_ok r = true.
Proof.
  intros Hr.
  assert (H : forall_range 18 0 (fun z => (DI400Y <=? z) || cycle_day_ok z) = true).
  { vm_cast_no_check (eq_refl true). }
  pose proof (forall_range_spec 18 0 _ H r) as Hz. simpl in Hz.
  unfold DI400Y in *.
  destruct (Z.leb_spec 146097 r); [lia|].
  apply Hz. lia.
Qed.

Lemma is_leap_shift (y k : Z) : is_leap (y + 400 * k) = is_leap y.
Proof.
  unfold is_leap.
  replace ((y + 400 * k) mod 4) with (y mod 4)
    by (replace (y + 400 * k) with (y + (100 * k) * 4) by lia; symmetry; apply Z.mod_add; lia).
  replace ((y + 400 * k) mod 100) with (y mod 100)
    by (replace (y + 400 * k) with (y + (4 * k) * 100) by lia; symmetry; apply Z.mod_add; lia).
  replace ((y + 400 * k) mod 400) with (y mod 400)
    by (replace (y + 400 * k) with (y + k * 400) by lia; symmetry; apply Z.mod_add; lia).
  reflexivity.
Qed.

Lemma days_before_year_shift (y k : Z) :
  days_before_year (y + 400 * k) = days_before_year y + DI400Y * k.
Proof.
  unfold days_before_year, DI400Y. cbv zeta.
  replace ((y + 400 * k - 1) / 4) with ((y - 1) / 4 + 100 * k)
    by (replace (y + 400 * k - 1) with (y - 1 + (100 * k) * 4) by lia;
        symmetry; apply Z.div_add; lia).
  replace ((y + 400 * k - 1) / 100) with ((y - 1) / 100 + 4 * k)
    by (replace (y + 400 * k - 1) with (y - 1 + (4 * k) * 100) by lia;
        symmetry; apply Z.div_add; lia).
  replace ((y + 400 * k - 1) / 400) with ((y - 1) / 400 + k)
    by (replace (y + 400 * k - 1) with (y - 1 + k * 400) by lia;
        symmetry; apply Z.div_add; lia).
  lia.
Qed.

Lemma ymd2ord_shift (y m d k : Z) :
  ymd2ord (y + 400 * k) m d = ymd2ord y m d + DI400Y * k.
Proof.
  unfold ymd2ord, days_before_month.
  rewrite days_before_year_shift, is_leap_shift. lia.
Qed.

Lemma days_in_month_shift (y m k : Z) : days_in_month (y + 400 * k) m = days_in_month y m.
Proof. unfold days_in_month. rewrite is_leap_shift. reflexivity. Qed.

Lemma ord2ymd_shift (k r : Z) :
  0 <= r < DI400Y ->
  ord2ymd (DI400Y * k + r + 1)
  = let '(y, m, d) := ord2ymd (r + 1) in (y + 400 * k, m, d).
Proof.
  intros Hr. unfold ord2ymd. cbv zeta.
  replace (DI400Y * k + r + 1 - 1) with (r + k * DI400Y) by lia.
  replace (r + 1 - 1) with r by lia.
  rewrite Z.div_add, Z.mod_add by (unfold DI400Y; lia).
  rewrite (Z.div_small r DI400Y), (Z.mod_small r DI400Y) by lia.
  set (n100 := r / DI100Y). set (r1 := r mod DI100Y).
  set (n4 := r1 / DI4Y). set (r2 := r1 mod DI4Y).
  set (n1 := r2 / 365). set (r3 := r2 mod 365).
  destruct ((n1 =? 4) || (n100 =? 4)).
  - f_equal. f_equal. lia.
  - match goal with |- context [if ?c then _ else _] => destruct c end;
      f_equal; f_equal; lia.
Qed.

(** [fromordinal] inverts [toordinal] and yields a valid date. *)
Lemma fromordinal_toordinal (o : Z) :
  1 <= o ->
  let '(y, m, d) := ord2ymd o in
  1 <= y /\ date_valid y m d = true /\ ymd2ord y m d = o.
Proof.
  intros Ho.
  pose proof (Z.div_mod (o - 1) DI400Y ltac:(unfold DI400Y; lia)) as Hdm.
  pose proof (Z.mod_pos_bound (o - 1) DI400Y ltac:(unfold DI400Y; lia)) as Hr.
  pose proof (Z.div_pos (o - 1) DI400Y ltac:(lia) ltac:(unfold DI400Y; lia)) as Hk.
  set (k := (o - 1) / DI400Y) in *. set (r := (o - 1) mod DI400Y) in *.
  replace o with (DI400Y * k + r + 1) by lia.
  rewrite (ord2ymd_shift k r Hr).
  pose proof (cycle_days_ok r Hr) as Hc. unfold cycle_day_ok in Hc.
  destruct (ord2ymd (r + 1)) as [[y m] d].
  repeat (apply andb_prop in Hc; destruct Hc as [Hc ?]).
  unfold date_valid in *. rewrite days_in_month_shift, ymd2ord_shift.
  split; [lia|]. split; [assumption|]. lia.
Qed.

(** ** Dates from spreadsheet serials *)

Definition excel_epoch : datetime := mk_datetime 1899 12 30 0 0 0 0.

(** The serials whose date falls within the years 1 to 9999. *)
Definition serial_in_range (n : Z) : bool :=
  (0 <? toordinal excel_epoch + n) && (toordinal excel_epoch + n <=? MAXORDINAL).

Lemma serial_to_date_in_range (n : Z) :
  serial_in_range n = true ->
  exists d,
    Production.serial_to_date (inr n) = inr (Some (strftime_ymd d)) /\
    toordinal d = toordinal excel_epoch + n /\
    date_valid (dt_year d) (dt_month d) (dt_day d) = true.
Proof.
  unfold serial_in_range. intros Hr. apply andb_prop in Hr. destruct Hr as [Hlo Hhi].
  apply Z.ltb_lt in Hlo. apply Z.leb_le in Hhi.
  change (toordinal excel_epoch) with 693594 in *. unfold MAXORDINAL in Hhi.
  unfold Production.serial_to_date.
  change (mk_date 1899 12 30) with (@inr exn datetime excel_epoch).
  cbn [exc_bind]. unfold timedelta_days.
  destruct (Z.leb_spec (Z.abs n) 999999999) as [_|Hbig]; [|lia].
  cbn [exc_bind]. unfold datetime_add_days.
  change (toordinal excel_epoch) with 693594.
  destruct (Z.ltb_spec 0 (693594 + n)) as [_|]; [|lia].
  destruct (Z.leb_spec (693594 + n) MAXORDINAL) as [_|]; [|unfold MAXORDINAL in *; lia].
  cbn [andb].
  pose proof (fromordinal_toordinal (693594 + n) ltac:(lia)) as Hinv.
  destruct (ord2ymd (693594 + n)) as [[y m] d]. destruct Hinv as (_ & Hvalid & Hord).
  cbn [exc_bind]. eexists. split; [reflexivity|].
  split; [exact Hord | exact Hvalid].
Qed.

Lemma serial_to_date_out_of_range (n : Z) :
  serial_in_range n = false ->
  exists e, Production.serial_to_date (inr n) = inl e /\ is_OverflowError e = true.
Proof.
  unfold serial_in_range. intros Hr.
  unfold Production.serial_to_date.
  change (mk_date 1899 12 30) with (@inr exn datetime excel_epoch).
  cbn [exc_bind]. unfold timedelta_days.
  destruct (Z.abs n <=? 999999999); cbn [exc_bind].
  - unfold datetime_add_days. rewrite Hr. eexists. split; reflexivity.
  - eexists. split; reflexivity.
Qed.

Lemma int_of_number_error (v : value) e :
  is_number v = true -> int_of_number v = inl e ->
  is_ValueError e || is_OverflowError e = true.
Proof.
  destruct v as [| b | z | x | s | d]; simpl; try discriminate.
  destruct x; simpl; intros _ [= <-]; reflexivity.
Qed.

(** The days of a month, and the days before it. *)
Lemma days_in_month_le (y m : Z) : days_in_month y m <= 31.
Proof.
  unfold days_in_month. destruct (_ && _); [lia|].
  unfold table_at, DAYS_IN_MONTH.
  generalize (Z.to_nat m). intros n.
  do 13 (destruct n as [|n]; [cbn; lia|]). destruct n; cbn; lia.
Qed.

Lemma days_before_month_bounds (y m : Z) :
  1 <= m <= 12 -> 0 <= days_before_month y m <= 335.
Proof.
  intros Hm. unfold days_before_month.
  assert (Htable : 0 <= table_at DAYS_BEFORE_MONTH m <= 334).
  { assert (Hcases : m = 1 \/ m = 2 \/ m = 3 \/ m = 4 \/ m = 5 \/ m = 6 \/ m = 7 \/ m = 8
                     \/ m = 9 \/ m = 10 \/ m = 11 \/ m = 12) by lia.
    repeat (destruct Hcases as [-> | Hcases]; [vm_compute; split; discriminate|]).
    subst m. vm_compute. split; discriminate. }
  destruct (_ && _); lia.
Qed.

(** A year has 365 days, and one more when it is a leap year. *)
Lemma days_before_year_succ (y : Z) :
  days_before_year (y + 1) = days_before_year y + 365 + (if is_leap y then 1 else 0).
Proof.
  unfold days_before_year, is_leap. cbv zeta. replace (y + 1 - 1) with y by lia.
  destruct (Z.eqb_spec (y mod 4) 0), (Z.eqb_spec (y mod 100) 0), (Z.eqb_spec (y mod 400) 0);
    cbn [andb orb negb]; Z.div_mod_to_equations; lia.
Qed.

(** The ordinal of a valid date lies within its year. *)
Lemma ordinal_within_year (y m d : Z) :
  date_valid y m d = true ->
  days_before_year y < ymd2ord y m d <= days_before_year (y + 1).
Proof.
  intros Hvalid. unfold date_valid in Hvalid.
  repeat (apply andb_prop in Hvalid; destruct Hvalid as [Hvalid ?]).
  repeat match goal with H : (_ <=? _) = true |- _ => apply Z.leb_le in H end.
  rewrite days_before_year_succ. unfold ymd2ord.
  assert (Hyear : days_before_month y m + days_in_month y m
                  <= 365 + (if is_leap y then 1 else 0)).
  { unfold days_before_month, days_in_month.
    assert (Hcases : m = 1 \/ m = 2 \/ m = 3 \/ m = 4 \/ m = 5 \/ m = 6 \/ m = 7 \/ m = 8
                     \/ m = 9 \/ m = 10 \/ m = 11 \/ m = 12) by lia.
    destruct (is_leap y);
      repeat (destruct Hcases as [-> | Hcases]; [vm_compute; discriminate|]);
      subst m; vm_compute; discriminate. }
  pose proof (days_before_month_bounds y m ltac:(lia)). lia.
Qed.

Lemma days_before_year_mono (y y' : Z) : y <= y' -> days_before_year y <= days_before_year y'.
Proof.
  intros Hle. unfold days_before_year. cbv zeta. Z.div_mod_to_equations. lia.
Qed.

(** The date is of the year 1000 or later exactly from the ordinal of
    1000-01-01 on. *)
Lemma four_digit_year_ordinal (y m d : Z) :
  date_valid y m d = true -> (1000 <= y <-> 364878 <= ymd2ord y m d).
Proof.
  intros Hvalid. pose proof (ordinal_within_year y m d Hvalid) as [Hlo Hhi].
  change 364878 with (days_before_year 1000 + 1). split.
  - intros Hy. pose proof (days_before_year_mono 1000 y Hy). lia.
  - intros Hord. destruct (Z_lt_le_dec y 1000) as [Hlt|Hge]; [|exact Hge].
    pose proof (days_before_year_mono (y + 1) 1000 ltac:(lia)). lia.
Qed.

(** Decimal digits, by twos and by fours. *)
Definition digit (n : Z) : N := (0x30 + Z.to_N n)%N.

Definition two_digits (n : Z) : pystr := [digit (n / 10); digit (n mod 10)].

Definition four_digits (n : Z) : pystr :=
  [digit (n / 1000); digit (n / 100 mod 10); digit (n / 10 mod 10); digit (n mod 10)].

Lemma two_digit_texts (n : Z) : 1 <= n <= 31 -> zfill 2 (str_of_Z n) = two_digits n.
Proof.
  intros Hn.
  assert (Hall : forall_range 5 0 (fun z =>
                   (z <? 1) || (31 <? z) || pystr_eqb (zfill 2 (str_of_Z z)) (two_digits z))
                 = true) by (vm_compute; reflexivity).
  pose proof (forall_range_spec 5 0 _ Hall n) as Hok. cbv beta in Hok.
  destruct (Z.ltb_spec n 1); [lia|]. destruct (Z.ltb_spec 31 n); [lia|].
  specialize (Hok ltac:(change (2 ^ Z.of_nat 5) with 32; lia)). cbn [orb] in Hok.
  unfold pystr_eqb in Hok. apply bool_decide_eq_true_1 in Hok. exact Hok.
Qed.

Lemma four_digit_texts (y : Z) : 1000 <= y <= 9999 -> str_of_Z y = four_digits y.
Proof.
  intros Hy.
  assert (Hall : forall_range 14 0 (fun z =>
                   (z <? 1000) || (9999 <? z) || pystr_eqb (str_of_Z z) (four_digits z))
                 = true) by (vm_compute; reflexivity).
  pose proof (forall_range_spec 14 0 _ Hall y) as Hok. cbv beta in Hok.
  destruct (Z.ltb_spec y 1000); [lia|]. destruct (Z.ltb_spec 9999 y); [lia|].
  specialize (Hok ltac:(change (2 ^ Z.of_nat 14) with 16384; lia)). cbn [orb] in Hok.
  unfold pystr_eqb in Hok. apply bool_decide_eq_true_1 in Hok. exact Hok.
Qed.

Lemma short_year_texts (y : Z) : 1 <= y < 1000 -> (length (str_of_Z y) < 4)%nat.
Proof.
  intros Hy.
  assert (Hall : forall_range 10 0 (fun z =>
                   (z <? 1) || (999 <? z) || (length (str_of_Z z) <? 4)%nat)
                 = true) by (vm_compute; reflexivity).
  pose proof (forall_range_spec 10 0 _ Hall y) as Hok. cbv beta in Hok.
  destruct (Z.ltb_spec y 1); [lia|]. destruct (Z.ltb_spec 999 y); [lia|].
  apply Nat.ltb_lt. apply Hok. change (2 ^ Z.of_nat 10) with 1024. lia.
Qed.

(** The text of a date: the year as it is, month and day on two digits. *)
Lemma strftime_ymd_text (d : datetime) :
  date_valid (dt_year d) (dt_month d) (dt_day d) = true ->
  strftime_ymd d
  = str_of_Z (dt_year d) ++ [0x2D%N] ++ two_digits (dt_month d)
      ++ [0x2D%N] ++ two_digits (dt_day d).
Proof.
  intros Hvalid. unfold date_valid in Hvalid.
  repeat (apply andb_prop in Hvalid; destruct Hvalid as [Hvalid ?]).
  repeat match goal with H : (_ <=? _) = true |- _ => apply Z.leb_le in H end.
  pose proof (days_in_month_le (dt_year d) (dt_month d)).
  unfold strftime_ymd. rewrite !two_digit_texts by lia. reflexivity.
Qed.

(** C3, as the code has it.  For every numeric cell value the integer part
    is added as a day offset to the epoch 1899-12-30: within the calendar the
    result is the valid date that many days from the epoch, written as the
    year in decimal without padding, a dash, the month on two digits, a dash
    and the day on two digits; the year has four digits, and the text ten
    characters, exactly from serial -328716 (1000-01-01) on.  Beyond the
    calendar (and for a value without an integer part) the result is null.
    Serial 1 is 1899-12-31, serial 45657 is 2024-12-31 and serial 45658, with
    or without a fraction, is 2025-01-01; serial -693593 is written
    1-01-01. *)
Theorem numeric_date_is_epoch_plus_days (v : value) :
  is_number v = true ->
  match int_of_number v with
  | inr n =>
    if serial_in_range n then
      exists d,
        Production.parse_date v = inr (Some (strftime_ymd d)) /\
        toordinal d = toordinal excel_epoch + n /\
        date_valid (dt_year d) (dt_month d) (dt_day d) = true /\
        1 <= dt_year d <= 9999 /\
        strftime_ymd d
        = str_of_Z (dt_year d) ++ [0x2D%N] ++ two_digits (dt_month d)
            ++ [0x2D%N] ++ two_digits (dt_day d) /\
        (1000 <= dt_year d <-> -328716 <= n) /\
        (-328716 <= n ->
         strftime_ymd d
         = four_digits (dt_year d) ++ [0x2D%N] ++ two_digits (dt_month d)
             ++ [0x2D%N] ++ two_digits (dt_day d) /\
         length (strftime_ymd d) = 10%nat) /\
        (n < -328716 -> (length (strftime_ymd d) < 10)%nat)
    else Production.parse_date v = inr None
  | inl _ => Production.parse_date v = inr None
  end /\
  Production.parse_date (VFloat (float_of_Z 1)) = inr (Some (py "1899-12-31")) /\
  Production.parse_date (VFloat (float_of_Z 45657)) = inr (Some (py "2024-12-31")) /\
  Production.parse_date (VFloat (float_of_Z 45658)) = inr (Some (py "2025-01-01")) /\
  Production.parse_date (VFloat (float_of_decimal false 4565875 (-2)))
    = inr (Some (py "2025-01-01")) /\
  Production.parse_date (VInt (-693593)) = inr (Some (py "1-01-01")).
Proof.
  intros Hnum. split; [|repeat split; vm_compute; reflexivity].
  assert (Hpd : Production.parse_date v
                = exc_catch (Production.serial_to_date (int_of_number v))
                    (fun e => is_ValueError e || is_OverflowError e) (inr None)).
  { destruct v; try discriminate; reflexivity. }
  rewrite Hpd.
  destruct (int_of_number v) as [e|n] eqn:Hint.
  - pose proof (int_of_number_error v e Hnum Hint) as He.
    unfold Production.serial_to_date.
    change (mk_date 1899 12 30) with (@inr exn datetime excel_epoch).
    cbn [exc_bind exc_catch]. rewrite He. reflexivity.
  - destruct (serial_in_range n) eqn:Hr.
    + destruct (serial_to_date_in_range n Hr) as (d & Hd & Hord & Hvalid).
      exists d. rewrite Hd. cbn [exc_catch].
      split; [reflexivity|]. split; [exact Hord|]. split; [exact Hvalid|].
      unfold serial_in_range in Hr. apply andb_prop in Hr. destruct Hr as [Hlo Hhi].
      apply Z.ltb_lt in Hlo. apply Z.leb_le in Hhi.
      change (toordinal excel_epoch) with 693594 in *. unfold MAXORDINAL in Hhi.
      pose proof (ordinal_within_year _ _ _ Hvalid) as [Hafter Hbefore].
      fold (toordinal d) in Hafter, Hbefore.
      assert (Hyear : 1 <= dt_year d <= 9999).
      { split.
        - destruct (Z_lt_le_dec (dt_year d) 1) as [Hlt|Hge]; [|exact Hge].
          pose proof (days_before_year_mono (dt_year d + 1) 1 ltac:(lia)) as Hmono.
          change (days_before_year 1) with 0 in Hmono. lia.
        - destruct (Z_lt_le_dec 9999 (dt_year d)) as [Hlt|Hge]; [|exact Hge].
          pose proof (days_before_year_mono 10000 (dt_year d) ltac:(lia)) as Hmono.
          change (days_before_year 10000) with 3652059 in Hmono. lia. }
      split; [exact Hyear|].
      pose proof (strftime_ymd_text d Hvalid) as Htext.
      split; [exact Htext|].
      pose proof (four_digit_year_ordinal _ _ _ Hvalid) as Hfour.
      fold (toordinal d) in Hfour. rewrite Hord in Hfour.
      assert (Hiff : 1000 <= dt_year d <-> -328716 <= n) by (rewrite Hfour; lia).
      split; [exact Hiff|]. split.
      * intros Hn. apply Hiff in Hn. rewrite Htext.
        rewrite (four_digit_texts (dt_year d)) by lia. split; reflexivity.
      * intros Hn. rewrite Htext, length_app.
        pose proof (short_year_texts (dt_year d)) as Hshort.
        unfold two_digits. cbn [length app].
        destruct (Z_lt_le_dec (dt_year d) 1000) as [Hlt|Hge]; [|apply Hiff in Hge; lia].
        specialize (Hshort ltac:(lia)). lia.
    + destruct (serial_to_date_out_of_range n Hr) as (e & He & Hov).
      rewrite He. cbn [exc_catch]. rewrite Hov, orb_true_r. reflexivity.
Qed.

Lemma numeric_date_is_epoch_plus_days_witness :
  is_number (VFloat (float_of_Z 45658)) = true /\
  exists d,
    Production.parse_date (VFloat (float_of_Z 45658)) = inr (Some (strftime_ymd d)) /\
    toordinal d = toordinal excel_epoch + 45658 /\
    date_valid (dt_year d) (dt_month d) (dt_day d) = true /\
    length (strftime_ymd d) = 10%nat.
Proof.
  split; [reflexivity|].
  destruct (numeric_date_is_epoch_plus_days (VFloat (float_of_Z 45658)) eq_refl)
    as [Hrule _].
  change (int_of_number (VFloat (float_of_Z 45658))) with (@inr exn Z 45658) in Hrule.
  change (serial_in_range 45658) with true in Hrule. cbv iota in Hrule.
  destruct Hrule as (d & Hparse & Hord & Hvalid & _ & _ & _ & Hten & _).
  exists d. split; [exact Hparse|]. split; [exact Hord|]. split; [exact Hvalid|].
  apply Hten. lia.
Defined.

(** C3 as stated fails at its second example: serial 45658 is not
    2024-12-31. *)
Lemma serial_45658_counterexample :
  Production.parse_date (VFloat (float_of_Z 45658)) <> inr (Some (py "2024-12-31")) /\
  Production.parse_date (VInt 45658) <> inr (Some (py "2024-12-31")).
Proof. split; vm_compute; discriminate. Qed.

(** ** Numbers from cells *)

(** The binary64 value of [m * 2^e]. *)
Definition dyadic (m e : Z) : float := binary_normalize prec emax m e false.

(** What the number parser does with formatting: separators, currency
    glyphs and the percent sign are stripped before the text is read as a
    number, and the empty text and the lone dash give null. *)
Lemma parse_number_strips_formatting :
  Production.parse_number (VStr (py "1,234.50")) = inr (Some (dyadic 2469 (-1))) /\
  Production.parse_number (VStr (py "$1234.50")) = inr (Some (dyadic 2469 (-1))) /\
  Production.parse_number (VStr (py "45%")) = inr (Some (float_of_Z 45)) /\
  Production.parse_number (VStr (py " € 1 234,5 ")) = inr (Some (float_of_Z 12345)) /\
  Production.parse_number (VStr (py "1" ++ [0xA0%N] ++ py "234")) = inr (Some (float_of_Z 1234)) /\
  Production.parse_number (VStr (py "")) = inr None /\
  Production.parse_number (VStr (py "-")) = inr None /\
  Production.parse_number (VStr (py "n/a")) = inr None.
Proof. repeat split; vm_compute; reflexivity. Qed.

(** C4, where the code departs from the claim: an infinite or NaN result
    is returned as it is, for a native number and for a text alike. *)
Theorem parse_number_keeps_non_finite :
  Production.parse_number (VFloat (S754_infinity false)) = inr (Some (S754_infinity false)) /\
  Production.parse_number (VFloat S754_nan) = inr (Some S754_nan) /\
  Production.parse_number (VStr (py "nan")) = inr (Some S754_nan) /\
  Production.parse_number (VStr (py "inf")) = inr (Some (S754_infinity false)) /\
  Production.parse_number (VStr (py "-1e999")) = inr (Some (S754_infinity true)).
Proof. repeat split; vm_compute; reflexivity. Qed.

(** ** Claim status *)

(** An amount that is present and greater than zero. *)
Definition amount_is_positive (x : option float) : Prop :=
  match x with
  | Some (S754_finite false _ _) | Some (S754_infinity false) => True
  | _ => False
  end.

Lemma float_gt_zero_finite (s : bool) (m : positive) (e : Z) :
  float_gt_int (S754_finite s m e) 0 = negb s.
Proof.
  unfold float_gt_int, compare_Z_float.
  destruct (Z.leb_spec 0 e) as [He|He].
  - pose proof (Z.pow_pos_nonneg 2 e ltac:(lia) He) as Hpow.
    destruct s; simpl negb.
    + assert (H : (0 ?= Z.neg m * 2 ^ e) = Gt) by (apply Z.compare_gt_iff; nia).
      rewrite H. reflexivity.
    + assert (H : (0 ?= Z.pos m * 2 ^ e) = Lt) by (apply Z.compare_lt_iff; nia).
      rewrite H. reflexivity.
  - rewrite Z.mul_0_l. destruct s; reflexivity.
Qed.

Lemma positive_amount_spec (x : option float) :
  Claims.positive_amount x = true <-> amount_is_positive x.
Proof.
  destruct x as [[s | s | | s m e]|]; unfold Claims.positive_amount, amount_is_positive.
  - simpl. split; [discriminate | tauto].
  - destruct s; simpl; split; try discriminate; tauto.
  - simpl. split; [discriminate | tauto].
  - rewrite float_gt_zero_finite. destruct s; simpl; split; try discriminate; tauto.
  - split; [discriminate | tauto].
Qed.

(** The three cases of the status rule. *)
Lemma determine_status_cases (paid outstanding : option float) :
  (amount_is_positive outstanding ->
   Claims.determine_status paid outstanding = py "OPEN") /\
  (Claims.determine_status paid outstanding = py "CLOSED" <->
   ~ amount_is_positive outstanding /\ amount_is_positive paid) /\
  (~ amount_is_positive outstanding -> ~ amount_is_positive paid ->
   Claims.determine_status paid outstanding = py "OPEN").
Proof.
  unfold Claims.determine_status.
  pose proof (positive_amount_spec outstanding) as Ho.
  pose proof (positive_amount_spec paid) as Hp.
  assert (Hneq : py "OPEN" <> py "CLOSED") by (vm_compute; discriminate).
  destruct (Claims.positive_amount outstanding), (Claims.positive_amount paid).
  - assert (Hout : amount_is_positive outstanding) by (apply Ho; reflexivity).
    split; [reflexivity|]. split; [|tauto]. split; [intros H; contradiction | tauto].
  - assert (Hout : amount_is_positive outstanding) by (apply Ho; reflexivity).
    split; [reflexivity|]. split; [|tauto]. split; [intros H; contradiction | tauto].
  - assert (Hout : ~ amount_is_positive outstanding) by (intros H; apply Ho in H; discriminate).
    assert (Hpaid : amount_is_positive paid) by (apply Hp; reflexivity).
    split; [tauto|]. split; [|tauto]. split; [tauto | reflexivity].
  - assert (Hout : ~ amount_is_positive outstanding) by (intros H; apply Ho in H; discriminate).
    assert (Hpaid : ~ amount_is_positive paid) by (intros H; apply Hp in H; discriminate).
    split; [reflexivity|]. split; [|reflexivity]. split; [intros H; contradiction | tauto].
Qed.

(** ** Running effectful code *)

Lemma m_bind_inv {A B} (c : M A) (k : A -> M B) (w w' : world) (r : B) :
  m_bind c k w = (inr r, w') ->
  exists a w1, c w = (inr a, w1) /\ k a w1 = (inr r, w').
Proof.
  unfold m_bind. destruct (c w) as [[e|a] w1]; [discriminate|].
  intros H. exists a, w1. auto.
Qed.

Lemma m_lift_inv {A} (c : Exc A) (w w' : world) (a : A) :
  m_lift c w = (inr a, w') -> c = inr a /\ w' = w.
Proof. unfold m_lift. intros [= -> ->]. auto. Qed.

Lemma m_ret_inv {A} (a b : A) (w w' : world) :
  m_ret a w = (inr b, w') -> a = b /\ w' = w.
Proof. unfold m_ret. intros [= -> ->]. auto. Qed.

Lemma m_ret_some_inv {A B} (a a' : A) (b b' : B) (w w' : world) :
  m_ret (Some a, b) w = (inr (Some a', b'), w') -> a' = a /\ b' = b /\ w' = w.
Proof. unfold m_ret. intros [= -> -> ->]. auto. Qed.

Lemma dict_set_eq (d : dict) (k : string) (v : value) : dict_set d k v !! k = Some v.
Proof. apply lookup_insert_eq. Qed.

Lemma dict_set_ne (d : dict) (k k' : string) (v : value) :
  k <> k' -> dict_set d k v !! k' = d !! k'.
Proof. intros H. apply lookup_insert_ne. exact H. Qed.

(** ** The claim row *)

Section ClaimRow.
Import Claims.

(** The value of a cell and its two parsed forms, without the world. *)
Definition cell_value (sheet : xl_sheet) (row_idx c : nat) : value :=
  match get_cell_value sheet row_idx c with
  | inr v => v
  | inl _ => VNone
  end.

Lemma get_cell_value_total (sheet : xl_sheet) (row_idx c : nat) :
  get_cell_value sheet row_idx c = inr (cell_value sheet row_idx c).
Proof.
  unfold cell_value, get_cell_value, sheet_cell.
  destruct (sheet !! row_idx) as [row|]; [|reflexivity].
  destruct (row !! c) as [[| raw [dt|] | v]|]; reflexivity.
Qed.

Lemma cell_at_inv sheet row_idx c w v w' :
  cell_at sheet row_idx c w = (inr v, w') -> v = cell_value sheet row_idx c /\ w' = w.
Proof.
  unfold cell_at. intros H. apply m_lift_inv in H. destruct H as [H ->].
  rewrite get_cell_value_total in H. injection H as <-. auto.
Qed.

Lemma number_at_inv sheet row_idx c w x w' :
  number_at sheet row_idx c w = (inr x, w') ->
  parse_number (cell_value sheet row_idx c) = inr x /\ w' = w.
Proof.
  unfold number_at. intros H. apply m_bind_inv in H. destruct H as (v & w1 & Hv & H).
  apply cell_at_inv in Hv. destruct Hv as [-> ->].
  apply m_lift_inv in H. exact H.
Qed.

Lemma date_at_inv sheet row_idx c w x w' :
  date_at sheet row_idx c w = (inr x, w') ->
  parse_date (cell_value sheet row_idx c) = inr x /\ w' = w.
Proof.
  unfold date_at. intros H. apply m_bind_inv in H. destruct H as (v & w1 & Hv & H).
  apply cell_at_inv in Hv. destruct Hv as [-> ->].
  apply m_lift_inv in H. exact H.
Qed.

(** The parent references as the claim record holds them: a key is
    written only for a truthy id. *)
Definition parent_ref (id : value) : option value := if truthy id then Some id else None.

(** What a parsed claim row holds in the fields of interest. *)
Lemma parse_claim_row_fields sheet row_idx row_number pn ps ibc w claim txns w' :
  parse_claim_row sheet row_idx row_number pn ps ibc w = (inr (Some claim, txns), w') ->
  let cell := cell_value sheet row_idx in
  let parents := match_parent (determine_source_type (cell 0%nat))
                   (cell 5%nat) (cell 13%nat) pn ps ibc in
  exists paid outstanding,
    parse_number (cell 40%nat) = inr paid /\
    parse_number (cell 44%nat) = inr outstanding /\
    claim !! "status"%string = Some (VStr (determine_status paid outstanding)) /\
    claim !! "source_type"%string = Some (VStr (determine_source_type (cell 0%nat))) /\
    claim !! "slip_number"%string = Some (stripped_or_none (cell 5%nat)) /\
    claim !! "contract_number"%string = Some (stripped_or_none (cell 13%nat)) /\
    claim !! "policy_id"%string = parent_ref (fst parents) /\
    claim !! "inward_reinsurance_id"%string = parent_ref (snd parents).
Proof.
  intros H. unfold parse_claim_row in H.
  apply m_bind_inv in H. destruct H as (col0 & w0 & Hc0 & H).
  apply cell_at_inv in Hc0. destruct Hc0 as [-> ->].
  destruct (_ && _) in H; [apply m_ret_inv in H; destruct H as [[=] _]|].
  repeat (apply m_bind_inv in H; destruct H as (? & ? & ?Hs & H);
          first [ apply cell_at_inv in Hs; destruct Hs as [-> ->]
                | apply number_at_inv in Hs; destruct Hs as [?Hn ->]
                | apply date_at_inv in Hs; destruct Hs as [?Hd ->]
                | idtac ]).
  destruct (match_parent _ _ _ _ _ _) as [policy_id inward_id] eqn:Hmp.
  repeat (apply m_bind_inv in H; destruct H as (? & ? & ?Hs & H)).
  apply m_ret_some_inv in H. destruct H as (-> & -> & ->).
  cbv zeta. rewrite Hmp. cbn [fst snd]. unfold parent_ref.
  eexists _, _. split; [eassumption|]. split; [eassumption|].
  destruct (truthy inward_id), (truthy policy_id);
    repeat split;
    repeat first [ rewrite dict_set_eq | rewrite dict_set_ne by discriminate ];
    try reflexivity; apply lookup_empty.
Qed.

End ClaimRow.

(** ** The parent matcher *)

Section Matcher.
Import Claims.

(** The lookup maps and the identifiers of a claim, and for each source
    type the ordered pairs the matcher tries, as the specification lists
    them. *)
Inductive id_map := ContractMap | PolicyNumberMap | PolicySlipMap.
Inductive id_field := SlipField | ContractField.

Definition is_inward (source_type : pystr) : bool :=
  pystr_eqb source_type (py "inward-foreign") || pystr_eqb source_type (py "inward-domestic").

Definition category_pairs (source_type : pystr) : list (id_map * id_field) :=
  if is_inward source_type then [(ContractMap, SlipField); (ContractMap, ContractField)]
  else if pystr_eqb source_type (py "direct") then [(PolicyNumberMap, ContractField)]
  else if pystr_eqb source_type (py "outward")
  then [(PolicySlipMap, SlipField); (PolicyNumberMap, ContractField)]
  else [].

(** An identifier as a key of the maps: trimmed and case-folded. *)
Definition match_key (v : value) : pystr :=
  if truthy v then py_lower (py_strip (py_str v)) else [].

Fixpoint first_hit (pairs : list (id_map * id_field)) (slip contract : value)
    (pn ps ibc : lookup_map) : option (id_map * value) :=
  match pairs with
  | [] => None
  | (m, f) :: rest =>
    let key := match f with SlipField => match_key slip | ContractField => match_key contract end in
    let map := match m with ContractMap => ibc | PolicyNumberMap => pn | PolicySlipMap => ps end in
    match key with
    | [] => first_hit rest slip contract pn ps ibc
    | _ => match map !! key with
           | Some id => Some (m, id)
           | None => first_hit rest slip contract pn ps ibc
           end
    end
  end.

(** The pair (policy id, inward id) of the first hit. *)
Definition match_by_spec (source_type : pystr) (slip contract : value)
    (pn ps ibc : lookup_map) : value * value :=
  match first_hit (category_pairs source_type) slip contract pn ps ibc with
  | Some (ContractMap, id) => (VNone, id)
  | Some (_, id) => (id, VNone)
  | None => (VNone, VNone)
  end.

Lemma match_parent_by_spec (source_type : pystr) (slip contract : value)
    (pn ps ibc : lookup_map) :
  match_parent source_type slip contract pn ps ibc
  = match_by_spec source_type slip contract pn ps ibc.
Proof.
  unfold match_parent, match_by_spec, category_pairs, is_inward.
  fold (match_key slip). fold (match_key contract).
  destruct (pystr_eqb source_type (py "inward-foreign") ||
            pystr_eqb source_type (py "inward-domestic")).
  - cbn [first_hit]. destruct (match_key slip) as [|c1 k1].
    + destruct (match_key contract) as [|c2 k2]; [reflexivity|].
      destruct (ibc !! (c2 :: k2)); reflexivity.
    + destruct (ibc !! (c1 :: k1)); [reflexivity|].
      destruct (match_key contract) as [|c2 k2]; [reflexivity|].
      destruct (ibc !! (c2 :: k2)); reflexivity.
  - destruct (pystr_eqb source_type (py "direct")).
    + cbn [first_hit]. destruct (match_key contract) as [|c2 k2]; [reflexivity|].
      destruct (pn !! (c2 :: k2)); reflexivity.
    + destruct (pystr_eqb source_type (py "outward")); [|reflexivity].
      cbn [first_hit]. destruct (match_key slip) as [|c1 k1].
      * destruct (match_key contract) as [|c2 k2]; [reflexivity|].
        destruct (pn !! (c2 :: k2)); reflexivity.
      * destruct (ps !! (c1 :: k1)); [reflexivity|].
        destruct (match_key contract) as [|c2 k2]; [reflexivity|].
        destruct (pn !! (c2 :: k2)); reflexivity.
Qed.

Lemma inward_ignores_policies (source_type : pystr) (slip contract : value)
    (pn ps pn' ps' ibc : lookup_map) :
  is_inward source_type = true ->
  match_by_spec source_type slip contract pn ps ibc
  = match_by_spec source_type slip contract pn' ps' ibc /\
  fst (match_by_spec source_type slip contract pn ps ibc) = VNone.
Proof.
  intros Hin. unfold match_by_spec, category_pairs. rewrite Hin. cbn [first_hit].
  destruct (match_key slip) as [|c1 k1].
  - destruct (match_key contract) as [|c2 k2]; [split; reflexivity|].
    destruct (ibc !! (c2 :: k2)); split; reflexivity.
  - destruct (ibc !! (c1 :: k1)); [split; reflexivity|].
    destruct (match_key contract) as [|c2 k2]; [split; reflexivity|].
    destruct (ibc !! (c2 :: k2)); split; reflexivity.
Qed.

(** C7, as the code has it.  The matcher tries the (map, identifier)
    pairs of the claim's source type in order and the first hit wins; an
    inward claim consults the contract map alone, slip number first, so that
    the policy maps do not matter and no policy is ever set; without a hit
    both parent references are absent; and the record keeps the slip and
    contract identifiers as trimmed text, whatever the outcome. *)
Theorem parent_match_is_by_category (sheet : xl_sheet) (row_idx : nat) (row_number : Z)
    (pn ps ibc : lookup_map) (w w' : world) (claim : dict) (txns : list dict) :
  parse_claim_row sheet row_idx row_number pn ps ibc w = (inr (Some claim, txns), w') ->
  let cell := cell_value sheet row_idx in
  let source_type := determine_source_type (cell 0%nat) in
  let hit := first_hit (category_pairs source_type) (cell 5%nat) (cell 13%nat) pn ps ibc in
  let parents := match_by_spec source_type (cell 5%nat) (cell 13%nat) pn ps ibc in
  claim !! "policy_id"%string = parent_ref (fst parents) /\
  claim !! "inward_reinsurance_id"%string = parent_ref (snd parents) /\
  (is_inward source_type = true ->
   claim !! "policy_id"%string = None /\
   forall pn' ps' : lookup_map,
     match_by_spec source_type (cell 5%nat) (cell 13%nat) pn' ps' ibc = parents) /\
  (hit = None ->
   claim !! "policy_id"%string = None /\ claim !! "inward_reinsurance_id"%string = None) /\
  claim !! "slip_number"%string = Some (stripped_or_none (cell 5%nat)) /\
  claim !! "contract_number"%string = Some (stripped_or_none (cell 13%nat)).
Proof.
  intros Hrun. cbv zeta.
  destruct (parse_claim_row_fields _ _ _ _ _ _ _ _ _ _ Hrun)
    as (paid & outstanding & _ & _ & _ & _ & Hslip & Hcontract & Hpol & Hinw).
  rewrite match_parent_by_spec in Hpol, Hinw.
  split; [exact Hpol|]. split; [exact Hinw|]. split; [|split; [|split; assumption]].
  - intros Hin. split.
    + rewrite Hpol.
      rewrite (proj2 (inward_ignores_policies _ _ _ pn ps pn ps ibc Hin)). reflexivity.
    + intros pn' ps'. symmetry.
      apply (proj1 (inward_ignores_policies _ _ _ pn ps pn' ps' ibc Hin)).
  - intros Hhit. rewrite Hpol, Hinw. unfold match_by_spec. rewrite Hhit. split; reflexivity.
Qed.

End Matcher.

(** A world for examples: a fixed clock, a silent keyboard, a store with
    the given tables that refuses nothing. *)
Definition example_clock : nat -> datetime := fun _ => mk_datetime 2026 2 10 14 30 0 0.

Definition open_store (tables : gmap string (list dict)) : store :=
  mk_store tables 1 (fun _ _ _ => None) (fun _ _ _ => None) (fun _ _ => None).

Definition example_world (answers : list pystr) (st : store) : world :=
  mk_world example_clock 0 answers [] st.

(** An inward claim whose contract number is also a policy number, with a
    slip number typed with blanks around it. *)
Definition inward_claim_sheet : list (list Claims.xl_cell) :=
  [[Claims.XL_CELL_OTHER (VStr (py "Foreign Inward")); Claims.XL_CELL_EMPTY;
    Claims.XL_CELL_EMPTY; Claims.XL_CELL_OTHER (VStr (py "CLM-1")); Claims.XL_CELL_EMPTY;
    Claims.XL_CELL_OTHER (VStr (py " SL-7 ")); Claims.XL_CELL_EMPTY; Claims.XL_CELL_EMPTY;
    Claims.XL_CELL_EMPTY; Claims.XL_CELL_EMPTY; Claims.XL_CELL_EMPTY; Claims.XL_CELL_EMPTY;
    Claims.XL_CELL_EMPTY; Claims.XL_CELL_OTHER (VStr (py "PN-100"))]].

Definition policy_numbers : gmap (list N) value := {[ py "pn-100" := VStr (py "policy-1") ]}.

Definition inward_claim_run :=
  Claims.parse_claim_row inward_claim_sheet 0 1 policy_numbers ∅ ∅
    (example_world [] (open_store ∅)).

(** The claim and the transactions of a finished run. *)
Definition claim_of (run : Exc (option dict * list dict) * world) : dict :=
  match fst run with
  | inr (Some claim, _) => claim
  | _ => ∅
  end.

Definition txns_of (run : Exc (option dict * list dict) * world) : list dict :=
  match fst run with
  | inr (_, txns) => txns
  | _ => []
  end.

(** An equation between closed terms, settled by evaluating both sides. *)
Ltac by_evaluation :=
  match goal with
  | |- @eq ?T _ ?b => vm_cast_no_check (@eq_refl T b)
  end.

Lemma inward_claim_runs :
  inward_claim_run
  = (inr (Some (claim_of inward_claim_run), txns_of inward_claim_run), snd inward_claim_run).
Proof. by_evaluation. Qed.

Lemma parent_match_is_by_category_witness :
  exists claim txns w',
    inward_claim_run = (inr (Some claim, txns), w') /\
    claim !! "policy_id"%string = None /\
    claim !! "inward_reinsurance_id"%string = None /\
    claim !! "contract_number"%string = Some (VStr (py "PN-100")).
Proof.
  exists (claim_of inward_claim_run), (txns_of inward_claim_run), (snd inward_claim_run).
  split; [exact inward_claim_runs|].
  pose proof (parent_match_is_by_category _ _ _ _ _ _ _ _ _ _ inward_claim_runs) as H.
  cbv zeta in H. destruct H as (_ & _ & Hinward & Hnone & _ & Hcontract).
  split; [apply Hinward; vm_compute; reflexivity|].
  split; [apply Hnone; vm_compute; reflexivity|].
  rewrite Hcontract. vm_compute. reflexivity.
Defined.

(** C7 as stated fails in its last part: the record does not keep the raw
    slip identifier unchanged, it keeps it trimmed. *)
Lemma padded_slip_counterexample :
  exists claim txns w',
    inward_claim_run = (inr (Some claim, txns), w') /\
    claim !! "policy_id"%string = None /\
    claim !! "inward_reinsurance_id"%string = None /\
    cell_value inward_claim_sheet 0 5 = VStr (py " SL-7 ") /\
    claim !! "slip_number"%string = Some (VStr (py "SL-7")) /\
    claim !! "slip_number"%string <> Some (cell_value inward_claim_sheet 0 5).
Proof.
  exists (claim_of inward_claim_run), (txns_of inward_claim_run), (snd inward_claim_run).
  split; [exact inward_claim_runs|].
  repeat split; try (vm_compute; reflexivity).
  vm_compute. discriminate.
Qed.

(** C10.  For every parsed claim row the status is derived from the paid
    and outstanding amounts of the row: OPEN whenever outstanding is present
    and positive, whatever was paid; CLOSED exactly when outstanding is
    absent or not positive while paid is positive; OPEN when neither is
    positive. *)
Theorem status_follows_outstanding_then_paid (sheet : list (list Claims.xl_cell))
    (row_idx : nat) (row_number : Z) (pn ps ibc : gmap (list N) value)
    (w w' : world) (claim : dict) (txns : list dict) :
  Claims.parse_claim_row sheet row_idx row_number pn ps ibc w = (inr (Some claim, txns), w') ->
  exists paid outstanding status,
    Claims.parse_number (cell_value sheet row_idx 40) = inr paid /\
    Claims.parse_number (cell_value sheet row_idx 44) = inr outstanding /\
    claim !! "status"%string = Some (VStr status) /\
    (amount_is_positive outstanding -> status = py "OPEN") /\
    (status = py "CLOSED" <-> ~ amount_is_positive outstanding /\ amount_is_positive paid) /\
    (~ amount_is_positive outstanding -> ~ amount_is_positive paid -> status = py "OPEN").
Proof.
  intros Hrun.
  destruct (parse_claim_row_fields _ _ _ _ _ _ _ _ _ _ Hrun)
    as (paid & outstanding & Hpaid & Hout & Hstatus & _).
  exists paid, outstanding, (Claims.determine_status paid outstanding).
  split; [exact Hpaid|]. split; [exact Hout|]. split; [exact Hstatus|].
  apply determine_status_cases.
Qed.

(** A claim part paid with a reserve still outstanding. *)
Definition part_paid_sheet : list (list Claims.xl_cell) :=
  [[Claims.XL_CELL_OTHER (VStr (py "Direct"))]
     ++ repeat Claims.XL_CELL_EMPTY 39
     ++ [Claims.XL_CELL_OTHER (VFloat (float_of_Z 700))]
     ++ repeat Claims.XL_CELL_EMPTY 3
     ++ [Claims.XL_CELL_OTHER (VStr (py "1,300.00"))]].

Definition part_paid_run :=
  Claims.parse_claim_row part_paid_sheet 0 1 ∅ ∅ ∅ (example_world [] (open_store ∅)).

Lemma part_paid_runs :
  part_paid_run
  = (inr (Some (claim_of part_paid_run), txns_of part_paid_run), snd part_paid_run).
Proof. by_evaluation. Qed.

Lemma status_follows_outstanding_then_paid_witness :
  exists claim txns w',
    part_paid_run = (inr (Some claim, txns), w') /\
    Claims.parse_number (cell_value part_paid_sheet 0 40) = inr (Some (float_of_Z 700)) /\
    Claims.parse_number (cell_value part_paid_sheet 0 44) = inr (Some (float_of_Z 1300)) /\
    claim !! "status"%string = Some (VStr (py "OPEN")).
Proof.
  exists (claim_of part_paid_run), (txns_of part_paid_run), (snd part_paid_run).
  split; [exact part_paid_runs|].
  destruct (status_follows_outstanding_then_paid _ _ _ _ _ _ _ _ _ _ part_paid_runs)
    as (paid & outstanding & status & Hpaid & Hout & Hstatus & Hopen & _).
  split; [vm_compute; reflexivity|]. split; [vm_compute; reflexivity|].
  rewrite Hstatus, Hopen; [reflexivity|].
  assert (Hval : Claims.parse_number (cell_value part_paid_sheet 0 44)
                 = inr (Some (float_of_Z 1300))) by (vm_compute; reflexivity).
  rewrite Hval in Hout. injection Hout as <-. exact I.
Defined.

(** ** Transactions of claims that were not inserted *)

Section Orphans.
Import Claims.

(** The transaction as it enters the batch, when its claim has an id. *)
Definition linked (claim_id_map : gmap nat value) (p : nat * dict) : option dict :=
  match claim_id_map !! fst p with
  | Some id => Some (dict_set (snd p) "claim_id" id)
  | None => None
  end.

Lemma build_transactions_from (claim_id_map : gmap nat value)
    (all_transactions : list (nat * dict)) (acc : list dict) :
  fold_left
    (fun transactions_to_insert '(claim_idx, txn) =>
       match claim_id_map !! claim_idx with
       | Some id => transactions_to_insert ++ [dict_set txn "claim_id" id]
       | None => transactions_to_insert
       end)
    all_transactions acc
  = acc ++ omap (linked claim_id_map) all_transactions.
Proof.
  revert acc. induction all_transactions as [|[i t] rest IH]; intros acc; simpl.
  - rewrite app_nil_r. reflexivity.
  - rewrite IH. unfold linked at 2. simpl.
    destruct (claim_id_map !! i); [rewrite <- app_assoc|]; reflexivity.
Qed.

Lemma build_transactions_omap (claim_id_map : gmap nat value)
    (all_transactions : list (nat * dict)) :
  build_transactions claim_id_map all_transactions
  = omap (linked claim_id_map) all_transactions.
Proof. unfold build_transactions. apply build_transactions_from. Qed.

(** The world after the message of a failed row. *)
Definition after_failed_row (claim : dict) (row_error : exn) : M unit :=
  print (py "      Failed: " ++ py_str (dict_get claim "claim_number") ++ py " - "
         ++ take 100 (exn_msg row_error)).

End Orphans.

(** A store whose [claims] table refuses the claim numbered BAD. *)
Definition picky_store : store :=
  mk_store {[ "claims"%string := [] ]} 1
    (fun _ _ r => if pystr_eqb (py_str (dict_get r "claim_number")) (py "BAD")
                  then Some (py "violates check constraint") else None)
    (fun _ _ _ => None) (fun _ _ => None).

Definition three_claims : list dict :=
  [ {[ "claim_number"%string := VStr (py "A") ]};
    {[ "claim_number"%string := VStr (py "BAD") ]};
    {[ "claim_number"%string := VStr (py "C") ]} ].

Definition payment_of (amount : Z) : dict :=
  {[ "transaction_type"%string := VStr (py "PAYMENT");
     "amount_100pct"%string := VFloat (float_of_Z amount) ]}.

Definition three_claims_txns : list (nat * dict) :=
  [ (0%nat, payment_of 10); (1%nat, payment_of 20); (1%nat, payment_of 30);
    (2%nat, payment_of 40) ].

Definition three_claims_run : Exc Claims.claim_state * world :=
  Claims.insert_claims three_claims (example_world [] picky_store).

(** The id map a finished run of step 5 leaves. *)
Definition ids_of (run : Exc Claims.claim_state * world) : gmap nat value :=
  match fst run with
  | inr st => snd st
  | inl _ => ∅
  end.

(** ** The commit loop *)

Section Commit.
Import Production.

(** Each row of a batch inserted on its own, one after the other: what
    the store answers to each, and the store left behind. *)
Fixpoint row_outcomes (batch : list dict) (st : store) : list (dict * option exn) * store :=
  match batch with
  | [] => ([], st)
  | record :: rest =>
    match store_insert_one "inward_reinsurance" record st with
    | inl row_error =>
      let '(os, st') := row_outcomes rest st in ((record, Some row_error) :: os, st')
    | inr (_, st1) =>
      let '(os, st') := row_outcomes rest st1 in ((record, None) :: os, st')
    end
  end.

(** The rows that went in, and the entries reported for those that did
    not: contract number and error text cut at 100 characters. *)
Definition count_inserted (os : list (dict * option exn)) : Z :=
  Z.of_nat (length (List.filter (fun o => match snd o with None => true | Some _ => false end) os)).

Definition reported (o : dict * option exn) : option (value * pystr) :=
  match snd o with
  | Some row_error => Some (dict_get (fst o) "contract_number", take 100 (exn_msg row_error))
  | None => None
  end.

Definition failures (os : list (dict * option exn)) : list (value * pystr) :=
  omap reported os.

Definition count_failed (os : list (dict * option exn)) : Z :=
  Z.of_nat (length (failures os)).

Lemma row_outcomes_length (batch : list dict) (st : store) :
  length (fst (row_outcomes batch st)) = length batch.
Proof.
  revert st. induction batch as [|record rest IH]; intros st; simpl; [reflexivity|].
  destruct (store_insert_one _ record st) as [e|[data st1]].
  - specialize (IH st). destruct (row_outcomes rest st). simpl in *. congruence.
  - specialize (IH st1). destruct (row_outcomes rest st1). simpl in *. congruence.
Qed.

Lemma outcomes_partition (os : list (dict * option exn)) :
  count_inserted os + count_failed os = Z.of_nat (length os).
Proof.
  unfold count_inserted, count_failed, failures.
  induction os as [|[r [e|]] rest IH];
    cbn [List.filter snd fst omap list_omap reported length] in *;
    rewrite ?Nat2Z.inj_succ; lia.
Qed.

Lemma stats_eq (a a' b b' : Z) (c c' : list (value * pystr)) :
  a = a' -> b = b' -> c = c' -> mk_stats a b c = mk_stats a' b' c'.
Proof. intros -> -> ->. reflexivity. Qed.

Definition set_store (w : world) (st : store) : world :=
  mk_world (w_now w) (w_ticks w) (w_stdin w) (w_stdout w) st.

(** The retry loop does what [row_outcomes] lists, and never raises. *)
Lemma retry_rows_outcomes (batch : list dict) (stats : import_stats) (w : world) :
  let '(os, st') := row_outcomes batch (w_store w) in
  retry_rows batch stats w
  = (inr (mk_stats (records_inserted stats + count_inserted os)
                   (records_errors stats + count_failed os)
                   (error_records stats ++ failures os)),
     set_store w st').
Proof.
  revert stats w. induction batch as [|record rest IH]; intros stats w.
  - simpl. unfold retry_rows, m_for, m_ret, set_store, count_inserted, count_failed. simpl.
    rewrite !Z.add_0_r, app_nil_r. destruct stats, w. reflexivity.
  - cbn [row_outcomes]. unfold retry_rows. cbn [m_for].
    unfold m_bind at 1. unfold m_try at 1. unfold m_bind at 1.
    unfold db_insert_one at 1, with_store at 1.
    destruct (store_insert_one "inward_reinsurance" record (w_store w))
      as [row_error|[data st1]] eqn:Hrow.
    + cbn [any_exception]. unfold m_ret at 1.
      specialize (IH (mk_stats (records_inserted stats) (records_errors stats + 1)
                        (error_records stats
                         ++ [(dict_get record "contract_number",
                              take 100 (exn_msg row_error))])) w).
      destruct (row_outcomes rest (w_store w)) as [os st'].
      unfold retry_rows in IH. rewrite IH. cbn [records_inserted records_errors error_records].
      f_equal. f_equal. unfold count_inserted, count_failed, failures.
      cbn [List.filter snd fst omap list_omap reported length].
      rewrite ?Nat2Z.inj_succ.
      apply stats_eq; [lia | lia | rewrite <- app_assoc; reflexivity].
    + unfold m_ret at 1.
      specialize (IH (mk_stats (records_inserted stats + 1) (records_errors stats)
                        (error_records stats)) (set_store w st1)).
      cbn [set_store w_store] in IH.
      destruct (row_outcomes rest st1) as [os st'].
      unfold retry_rows in IH. unfold set_store in IH. cbn in IH. rewrite IH.
      cbn [records_inserted records_errors error_records].
      f_equal. f_equal. unfold count_inserted, count_failed, failures.
      cbn [List.filter snd fst omap list_omap reported length].
      rewrite ?Nat2Z.inj_succ.
      apply stats_eq; [lia | lia | reflexivity].
Qed.

(** Printing leaves the store alone and cannot fail. *)
Lemma print_run (line : pystr) (w : world) :
  exists w1, print line w = (inr tt, w1) /\ w_store w1 = w_store w.
Proof. eexists. split; reflexivity. Qed.

Lemma import_batch_completes (all_records : list dict) (stats : import_stats) (i : nat)
    (w : world) :
  exists stats' w', import_batch all_records stats i w = (inr stats', w').
Proof.
  unfold import_batch. cbv zeta. unfold m_bind at 1.
  destruct (print_run (py "  Record batch " ++
              str_of_Z (Z.of_nat i / Z.of_nat BATCH_SIZE + 1) ++ py ": " ++
              str_of_Z (Z.of_nat i + 1) ++ py " - " ++
              str_of_Z (Z.min (Z.of_nat i + Z.of_nat BATCH_SIZE)
                          (Z.of_nat (length all_records))) ++ py "...") w)
    as (w1 & -> & Hst1).
  unfold m_try at 1. unfold m_bind at 1. unfold db_insert_many at 1, with_store at 1.
  destruct (store_insert_many _ _ (w_store w1)) as [e|[data st1]].
  - cbn [any_exception]. unfold m_bind at 1.
    destruct (print_run (py "FAILED - retrying row by row...") w1) as (w2 & -> & Hst2).
    pose proof (retry_rows_outcomes (slice all_records i (i + BATCH_SIZE)) stats w2) as Hr.
    destruct (row_outcomes _ (w_store w2)) as [os st']. rewrite Hr. eauto.
  - unfold m_bind at 1. unfold print at 1. unfold m_ret. eauto.
Qed.

Lemma import_loop_completes (all_records : list dict) (offsets : list nat)
    (stats : import_stats) (w : world) :
  exists stats' w', m_for offsets stats (import_batch all_records) w = (inr stats', w').
Proof.
  revert stats w. induction offsets as [|i rest IH]; intros stats w; cbn [m_for].
  - unfold m_ret. eauto.
  - unfold m_bind.
    destruct (import_batch_completes all_records stats i w) as (stats1 & w1 & ->).
    apply IH.
Qed.

(** C1.  When the bulk insert of a chunk fails, each record of the chunk
    is inserted on its own: every row that goes in adds one to the inserted
    count, every row that is refused adds one to the error count and is
    recorded with its contract number and the error text cut at 100
    characters, and the loop goes on; a chunk of 50 with exactly one refused
    row gives 49 inserted and 1 reported error.  The whole run never raises. *)
Theorem failed_chunk_is_retried_row_by_row (all_records : list dict)
    (stats : import_stats) (i : nat) (w : world) (e : exn) :
  let batch := slice all_records i (i + BATCH_SIZE) in
  store_insert_many "inward_reinsurance" batch (w_store w) = inl e ->
  let os := fst (row_outcomes batch (w_store w)) in
  (exists stats' w',
     import_batch all_records stats i w = (inr stats', w') /\
     w_store w' = snd (row_outcomes batch (w_store w)) /\
     records_inserted stats' = records_inserted stats + count_inserted os /\
     records_errors stats' = records_errors stats + count_failed os /\
     error_records stats' = error_records stats ++ failures os /\
     count_inserted os + count_failed os = Z.of_nat (length batch) /\
     (length batch = 50%nat -> count_failed os = 1 ->
      records_inserted stats' = records_inserted stats + 49 /\
      records_errors stats' = records_errors stats + 1 /\
      length (error_records stats') = S (length (error_records stats)))) /\
  (forall w0, exists total w1, import_records all_records w0 = (inr total, w1)).
Proof.
  cbv zeta. intros Hbulk. split; [|intros w0; apply import_loop_completes].
  unfold import_batch. cbv zeta. unfold m_bind at 1.
  destruct (print_run (py "  Record batch " ++
              str_of_Z (Z.of_nat i / Z.of_nat BATCH_SIZE + 1) ++ py ": " ++
              str_of_Z (Z.of_nat i + 1) ++ py " - " ++
              str_of_Z (Z.min (Z.of_nat i + Z.of_nat BATCH_SIZE)
                          (Z.of_nat (length all_records))) ++ py "...") w)
    as (w1 & -> & Hst1).
  unfold m_try at 1. unfold m_bind at 1. unfold db_insert_many at 1, with_store at 1.
  rewrite Hst1, Hbulk. cbn [any_exception]. unfold m_bind at 1.
  destruct (print_run (py "FAILED - retrying row by row...") w1) as (w2 & -> & Hst2).
  pose proof (retry_rows_outcomes (slice all_records i (i + BATCH_SIZE)) stats w2) as Hr.
  rewrite Hst2, Hst1 in Hr.
  pose proof (row_outcomes_length (slice all_records i (i + BATCH_SIZE)) (w_store w)) as Hlen.
  destruct (row_outcomes _ (w_store w)) as [os st']. cbn [fst snd] in *.
  rewrite Hr. eexists _, _. split; [reflexivity|].
  cbn [records_inserted records_errors error_records set_store w_store].
  pose proof (outcomes_partition os) as Hpart. rewrite Hlen in Hpart.
  split; [reflexivity|]. split; [reflexivity|]. split; [reflexivity|].
  split; [reflexivity|]. split; [exact Hpart|].
  intros Hfifty Hone. rewrite Hfifty in Hpart.
  split; [lia|]. split; [lia|].
  rewrite length_app. unfold count_failed in Hone. lia.
Qed.

End Commit.

(** A table with a unique contract number, holding contract C-7, and a
    chunk of fifty records numbered C-0 to C-49. *)
Definition same_contract (a b : dict) : bool :=
  pystr_eqb (py_str (dict_get a "contract_number")) (py_str (dict_get b "contract_number")).

Definition unique_contract_store : store :=
  mk_store {[ "inward_reinsurance"%string
              := [ {[ "contract_number"%string := VStr (py "C-7") ]} ] ]} 1
    (fun _ rows r =>
       if existsb (same_contract r) rows
       then Some (py "duplicate key value violates unique constraint") else None)
    (fun _ _ _ => None) (fun _ _ => None).

Definition fifty_records : list dict :=
  map (fun k : nat =>
         {[ "contract_number"%string := VStr (py "C-" ++ str_of_Z (Z.of_nat k)) ]})
    (seq 0 50).

Definition fifty_world : world := example_world [] unique_contract_store.

Lemma failed_chunk_is_retried_row_by_row_witness :
  store_insert_many "inward_reinsurance" (slice fifty_records 0 (0 + Production.BATCH_SIZE))
    (w_store fifty_world)
  = inl (APIError (py "duplicate key value violates unique constraint")) /\
  exists stats' w',
    Production.import_batch fifty_records (Production.mk_stats 0 0 []) 0 fifty_world
    = (inr stats', w') /\
    Production.records_inserted stats' = 49 /\
    Production.records_errors stats' = 1 /\
    Production.error_records stats'
    = [(VStr (py "C-7"), py "duplicate key value violates unique constraint")].
Proof.
  assert (Hbulk : store_insert_many "inward_reinsurance"
                    (slice fifty_records 0 (0 + Production.BATCH_SIZE)) (w_store fifty_world)
                  = inl (APIError (py "duplicate key value violates unique constraint")))
    by by_evaluation.
  split; [exact Hbulk|].
  destruct (failed_chunk_is_retried_row_by_row fifty_records (Production.mk_stats 0 0 [])
              0 fifty_world _ Hbulk)
    as ((stats' & w' & Hrun & _ & _ & _ & Hrec & _ & Hcount) & _).
  exists stats', w'. split; [exact Hrun|].
  destruct Hcount as (Hins & Herr & _); [by_evaluation | by_evaluation |].
  split; [exact Hins|]. split; [exact Herr|].
  rewrite Hrec. by_evaluation.
Defined.

(** ** Rollback by batch *)

Section Rollback.
Import Production.

(** The rows of a table a rollback of batch [b] keeps: those tagged with
    another batch and those without a tag. *)
Definition kept (b : pystr) (rows : list dict) : list dict :=
  rows_not_matching "import_batch_id" b rows.

Lemma row_matches_tag (b : pystr) (r : dict) :
  row_matches "import_batch_id" b r = true <-> r !! "import_batch_id"%string = Some (VStr b).
Proof.
  unfold row_matches. destruct (r !! "import_batch_id"%string) as [[| | | | s |]|];
    try (split; discriminate).
  unfold pystr_eqb. rewrite bool_decide_eq_true. split; [intros ->; reflexivity|].
  intros [= ->]. reflexivity.
Qed.

Lemma kept_spec (b : pystr) (rows : list dict) (r : dict) :
  In r (kept b rows) <-> In r rows /\ r !! "import_batch_id"%string <> Some (VStr b).
Proof.
  unfold kept, rows_not_matching. rewrite List.filter_In, negb_true_iff.
  rewrite <- row_matches_tag. destruct (row_matches _ b r); split; intros [? ?];
    split; auto; congruence.
Qed.

Lemma kept_idem (b : pystr) (rows : list dict) : kept b (kept b rows) = kept b rows.
Proof.
  unfold kept, rows_not_matching. induction rows as [|r rest IH]; simpl; [reflexivity|].
  destruct (negb (row_matches _ b r)) eqn:Hr; simpl; [rewrite Hr, IH|]; auto.
Qed.

Lemma kept_no_match (b : pystr) (rows : list dict) :
  length (rows_matching "import_batch_id" b rows) = 0%nat -> kept b rows = rows.
Proof.
  unfold kept, rows_not_matching, rows_matching.
  induction rows as [|r rest IH]; simpl; [reflexivity|].
  destruct (row_matches _ b r); simpl; [discriminate|].
  intros H. rewrite IH; auto.
Qed.

(** A table after a rollback: as it was, or without the rows of the batch. *)
Definition table_rolled_back (b : pystr) (before after : option (list dict)) : Prop :=
  match before, after with
  | Some rows, Some rows' => rows' = rows \/ rows' = kept b rows
  | None, None => True
  | _, _ => False
  end.

Definition rolled_back (b : pystr) (st st' : store) : Prop :=
  (forall t, table_rolled_back b (st_tables st !! t) (st_tables st' !! t)) /\
  st_reject_delete st' = st_reject_delete st.

Lemma rolled_back_refl (b : pystr) (st : store) : rolled_back b st st.
Proof.
  split; [|reflexivity]. intros t. unfold table_rolled_back.
  destruct (st_tables st !! t); auto.
Qed.

Lemma rolled_back_trans (b : pystr) (st1 st2 st3 : store) :
  rolled_back b st1 st2 -> rolled_back b st2 st3 -> rolled_back b st1 st3.
Proof.
  intros [H12 Hd12] [H23 Hd23]. split; [|congruence].
  intros t. specialize (H12 t). specialize (H23 t). unfold table_rolled_back in *.
  destruct (st_tables st1 !! t), (st_tables st2 !! t), (st_tables st3 !! t);
    try tauto.
  destruct H12 as [-> | ->], H23 as [-> | ->]; auto.
  right. apply kept_idem.
Qed.

(** The first answer on the keyboard is an affirmative one. *)
Definition confirms (w : world) : Prop :=
  exists a rest, w_stdin w = a :: rest /\ py_lower a = py "yes".

Lemma rollback_table_run (b : pystr) (table : string) (w : world) :
  exists w',
    rollback_table b table w = (inr tt, w') /\
    rolled_back b (w_store w) (w_store w') /\
    (forall t, t <> table -> st_tables (w_store w') !! t = st_tables (w_store w) !! t) /\
    (w_stdin w' = w_stdin w \/ w_stdin w' = tail (w_stdin w)) /\
    (forall rows,
       st_tables (w_store w) !! table = Some rows ->
       confirms w ->
       (forall rs, st_reject_delete (w_store w) table rs = None) ->
       st_tables (w_store w') !! table = Some (kept b rows)).
Proof.
  destruct w as [nw tk sin sout st]. unfold confirms.
  unfold rollback_table, m_try, m_bind, print, db_count_eq, with_store, store_count_eq.
  cbn [w_store w_stdin w_stdout w_now w_ticks].
  destruct (st_tables st !! table) as [rows|] eqn:Htable.
  2:{ cbn [any_exception]. eexists. split; [reflexivity|].
      cbn [w_store w_stdin]. split; [apply rolled_back_refl|].
      split; [reflexivity|]. split; [left; reflexivity|]. intros rows [=]. }
  cbn [w_store w_stdin w_stdout w_now w_ticks].
  destruct (Z.eqb_spec (Z.of_nat (length (rows_matching "import_batch_id" b rows))) 0)
    as [Hzero|Hsome].
  { eexists. split; [reflexivity|]. cbn [w_store w_stdin].
    split; [apply rolled_back_refl|]. split; [reflexivity|]. split; [left; reflexivity|].
    intros rows' [= <-] _ _. rewrite kept_no_match by lia. exact Htable. }
  unfold input. cbn [w_store w_stdin w_stdout w_now w_ticks].
  destruct sin as [|answer rest].
  { cbn [any_exception]. eexists. split; [reflexivity|]. cbn [w_store w_stdin].
    split; [apply rolled_back_refl|]. split; [reflexivity|]. split; [left; reflexivity|].
    intros rows' _ (a & r & [=] & _). }
  destruct (pystr_eqb (py_lower answer) (py "yes")) eqn:Hyes; cbn [negb].
  2:{ eexists. split; [reflexivity|]. cbn [w_store w_stdin].
      split; [apply rolled_back_refl|]. split; [reflexivity|]. split; [right; reflexivity|].
      intros rows' _ (a & r & [= <- <-] & Ha) _.
      unfold pystr_eqb in Hyes. apply bool_decide_eq_false in Hyes. contradiction. }
  unfold db_delete_eq, with_store, store_delete_eq.
  cbn [w_store w_stdin w_stdout w_now w_ticks]. rewrite Htable.
  destruct (st_reject_delete st table (rows_matching "import_batch_id" b rows))
    as [msg|] eqn:Hreject.
  { cbn [any_exception]. eexists. split; [reflexivity|]. cbn [w_store w_stdin].
    split; [apply rolled_back_refl|]. split; [reflexivity|]. split; [right; reflexivity|].
    intros rows' _ _ Hnever. rewrite Hnever in Hreject.
    discriminate. }
  eexists. split; [reflexivity|]. cbn [w_store w_stdin]. unfold set_tables.
  cbn [st_tables st_reject_delete].
  split; [|split; [|split]].
  - split; [|reflexivity]. intros t. cbn [st_tables]. unfold table_rolled_back.
    destruct (decide (table = t)) as [<-|Hne].
    + rewrite lookup_insert_eq, Htable. right. reflexivity.
    + rewrite lookup_insert_ne by exact Hne. destruct (st_tables st !! t); auto.
  - intros t Hne. rewrite lookup_insert_ne by congruence. reflexivity.
  - right. reflexivity.
  - intros rows' [= <-] _ _. apply lookup_insert_eq.
Qed.

Lemma print_keeps (line : pystr) (w : world) :
  exists w1, print line w = (inr tt, w1) /\ w_store w1 = w_store w /\ w_stdin w1 = w_stdin w.
Proof. eexists. repeat split. Qed.

(** Every answer on the keyboard is affirmative, and there is one for
    each table. *)
Definition all_confirmed (w : world) : Prop :=
  Forall (fun a => py_lower a = py "yes") (w_stdin w) /\ (2 <= length (w_stdin w))%nat.

(** C2.  Rollback by batch always completes; in every table the rows
    tagged with another batch and the rows without a tag are kept as they
    are, in place; a table is either left whole or loses exactly the rows
    tagged with the given batch; tables other than the two the importer tags
    are not touched; and when every prompt is answered yes and the store
    accepts the deletions, each of the two tables loses exactly the rows of
    the batch. *)
Theorem rollback_deletes_only_the_batch (batch_id : pystr) (w : world) :
  exists w',
    rollback_batch batch_id w = (inr true, w') /\
    (forall table,
       match st_tables (w_store w) !! table, st_tables (w_store w') !! table with
       | Some rows, Some rows' =>
         kept batch_id rows' = kept batch_id rows /\
         (rows' = rows \/ rows' = kept batch_id rows)
       | None, None => True
       | _, _ => False
       end) /\
    (forall table,
       table <> "inward_reinsurance"%string -> table <> "legal_entities"%string ->
       st_tables (w_store w') !! table = st_tables (w_store w) !! table) /\
    (all_confirmed w ->
     (forall t rs, st_reject_delete (w_store w) t rs = None) ->
     forall table rows,
       table = "inward_reinsurance"%string \/ table = "legal_entities"%string ->
       st_tables (w_store w) !! table = Some rows ->
       st_tables (w_store w') !! table = Some (kept batch_id rows)).
Proof.
  unfold rollback_batch. cbv zeta. unfold m_bind at 1.
  destruct (print_keeps ([0x0A%N] ++ py "Rolling back batch: " ++ batch_id) w) as (w1 & -> & Hs1 & Hi1).
  unfold m_bind at 1. cbn [m_for]. unfold m_bind at 1.
  destruct (rollback_table_run batch_id "inward_reinsurance" w1)
    as (w2 & -> & Hrb2 & Hoth2 & Hin2 & Hdel2).
  unfold m_bind at 1.
  destruct (rollback_table_run batch_id "legal_entities" w2)
    as (w3 & -> & Hrb3 & Hoth3 & Hin3 & Hdel3).
  unfold m_ret at 1. unfold m_bind at 1.
  destruct (print_keeps ([0x0A%N] ++ py "Rollback complete!") w3) as (w4 & -> & Hs4 & Hi4).
  unfold m_ret. exists w4. split; [reflexivity|].
  rewrite Hs4. rewrite Hs1 in *.
  pose proof (rolled_back_trans _ _ _ _ Hrb2 Hrb3) as [Hall Hrej].
  split; [|split].
  - intros table. specialize (Hall table). unfold table_rolled_back in Hall.
    destruct (st_tables (w_store w) !! table) as [rows|],
             (st_tables (w_store w3) !! table) as [rows'|]; try exact Hall.
    split; [|exact Hall]. destruct Hall as [-> | ->]; [reflexivity | apply kept_idem].
  - intros table Hne1 Hne2. rewrite Hoth3, Hoth2 by assumption. reflexivity.
  - intros [Hyes Hlen] Hnever table rows Htable Hrows. rewrite <- Hi1 in Hyes, Hlen.
    assert (Hc1 : confirms w1).
    { unfold confirms. destruct (w_stdin w1) as [|a rest]; [simpl in Hlen; lia|].
      exists a, rest. split; [reflexivity|]. inversion Hyes; assumption. }
    assert (Hc2 : confirms w2).
    { unfold confirms. destruct Hin2 as [-> | ->].
      - destruct Hc1 as (a & rest & -> & Ha). eauto.
      - destruct (w_stdin w1) as [|a [|a' rest]]; simpl in Hlen; try lia.
        exists a', rest. split; [reflexivity|].
        inversion Hyes as [|? ? _ Hrest]. inversion Hrest; assumption. }
    assert (Hnever2 : forall rs, st_reject_delete (w_store w2) "legal_entities" rs = None).
    { intros rs. destruct Hrb2 as [_ ->]. apply Hnever. }
    destruct Htable as [-> | ->].
    + rewrite Hoth3 by discriminate. apply Hdel2; auto.
    + apply Hdel3; auto. rewrite Hoth2 by discriminate. exact Hrows.
Qed.

End Rollback.

(** A store after two imports: batch ab12cd34 is rolled back, batch
    ffff0000 and the rows without a tag are not. *)
Definition tagged (contract batch : string) : dict :=
  {[ "contract_number"%string := VStr (py contract);
     "import_batch_id"%string := VStr (py batch) ]}.

Definition untagged (contract : string) : dict :=
  {[ "contract_number"%string := VStr (py contract) ]}.

Definition two_imports : store :=
  open_store
    {[ "inward_reinsurance"%string
       := [ untagged "C-0"; tagged "C-1" "ab12cd34"; tagged "C-2" "ffff0000";
            tagged "C-3" "ab12cd34" ];
       "legal_entities"%string := [ tagged "Acme" "ab12cd34"; untagged "Zenith" ];
       "claims"%string := [ untagged "CLM-1" ] ]}.

Definition rollback_world : world := example_world [py "yes"; py "YES"] two_imports.

Lemma rollback_deletes_only_the_batch_witness :
  all_confirmed rollback_world /\
  exists w',
    Production.rollback_batch (py "ab12cd34") rollback_world = (inr true, w') /\
    st_tables (w_store w') !! "inward_reinsurance"%string
    = Some [ untagged "C-0"; tagged "C-2" "ffff0000" ] /\
    st_tables (w_store w') !! "legal_entities"%string = Some [ untagged "Zenith" ] /\
    st_tables (w_store w') !! "claims"%string = Some [ untagged "CLM-1" ].
Proof.
  assert (Hconf : all_confirmed rollback_world).
  { split; [repeat constructor | simpl; lia]. }
  split; [exact Hconf|].
  destruct (rollback_deletes_only_the_batch (py "ab12cd34") rollback_world)
    as (w' & Hrun & _ & Hother & Hexact).
  exists w'. split; [exact Hrun|].
  split; [|split].
  - rewrite (Hexact Hconf (fun _ _ => eq_refl) "inward_reinsurance"%string
               [ untagged "C-0"; tagged "C-1" "ab12cd34"; tagged "C-2" "ffff0000";
                 tagged "C-3" "ab12cd34" ]); [by_evaluation | left; reflexivity | by_evaluation].
  - rewrite (Hexact Hconf (fun _ _ => eq_refl) "legal_entities"%string
               [ tagged "Acme" "ab12cd34"; untagged "Zenith" ]);
      [by_evaluation | right; reflexivity | by_evaluation].
  - rewrite Hother by discriminate. by_evaluation.
Defined.


(** ** The normalizer never raises *)

Section Normalizer.
Import Production.

Lemma float_of_str_error (s : pystr) (e : exn) :
  float_of_str s = inl e -> is_ValueError e = true.
Proof.
  unfold float_of_str.
  destruct (drop_underscores 0 _) as [t|]; [|intros [= <-]; reflexivity].
  destruct (read_sign t) as [neg t1].
  destruct (_ || _); [discriminate|].
  destruct (pystr_eqb _ _); [discriminate|].
  destruct (read_digits 0 t1) as [[n1 v1] t2].
  destruct (match t2 with | 0x2E%N :: r => read_digits v1 r | _ => (0%nat, v1, t2) end)
    as [[n2 v2] t3].
  destruct (n1 + n2)%nat; [intros [= <-]; reflexivity|].
  destruct t3 as [|c r]; [discriminate|].
  destruct (_ || _); [|intros [= <-]; reflexivity].
  destruct (read_sign r) as [eneg r1].
  destruct (read_digits 0 r1) as [[[|k] ev] [|c' r']];
    try discriminate; intros [= <-]; reflexivity.
Qed.

Lemma int_of_str_error (s : pystr) (e : exn) :
  int_of_str s = inl e -> is_ValueError e = true.
Proof.
  unfold int_of_str.
  destruct (drop_underscores 0 _) as [t|]; [|intros [= <-]; reflexivity].
  destruct (read_sign t) as [neg t1].
  destruct (read_digits 0 t1) as [[[|k] v] [|c r]];
    try discriminate; intros [= <-]; reflexivity.
Qed.

Lemma mk_date_error (y m d : Z) (e : exn) :
  mk_date y m d = inl e -> is_ValueError e = true.
Proof.
  unfold mk_date. repeat (destruct (negb _); [intros [= <-]; reflexivity|]). discriminate.
Qed.

Lemma strptime_error (s : pystr) (f : list fmt_item) (e : exn) :
  strptime s f = inl e -> is_ValueError e = true.
Proof.
  unfold strptime.
  destruct (match_format f s) as [[caps [|c rest]]|]; try (intros [= <-]; reflexivity).
  destruct (int_of_str (capture_of FYear f caps)) as [e1|year] eqn:Hy; cbn [exc_bind].
  { intros [= <-]. eapply int_of_str_error. exact Hy. }
  destruct (int_of_str (capture_of FMonth f caps)) as [e1|month] eqn:Hm; cbn [exc_bind].
  { intros [= <-]. eapply int_of_str_error. exact Hm. }
  destruct (int_of_str (capture_of FDay f caps)) as [e1|day] eqn:Hd; cbn [exc_bind].
  { intros [= <-]. eapply int_of_str_error. exact Hd. }
  apply mk_date_error.
Qed.

Lemma try_formats_total (formats : list (list fmt_item)) (s : pystr) :
  exists d, try_formats formats s = inr d.
Proof.
  induction formats as [|fmt rest IH]; cbn [try_formats].
  - eexists. reflexivity.
  - destruct (strptime s fmt) as [e|d] eqn:Hp; cbn [exc_bind exc_catch].
    + rewrite (strptime_error _ _ _ Hp). exact IH.
    + eexists. reflexivity.
Qed.

(** A date cell never raises: what does not parse is null. *)
Lemma parse_date_total (v : value) : exists d, parse_date v = inr d.
Proof.
  assert (Hnum : is_number v = true ->
                 exists d, exc_catch (serial_to_date (int_of_number v))
                             (fun e => is_ValueError e || is_OverflowError e) (inr None)
                           = inr d).
  { intros Hn. destruct (int_of_number v) as [e|n] eqn:Hint.
    - pose proof (int_of_number_error v e Hn Hint) as He.
      unfold serial_to_date.
      change (mk_date 1899 12 30) with (@inr exn datetime excel_epoch).
      cbn [exc_bind exc_catch]. rewrite He. eauto.
    - destruct (serial_in_range n) eqn:Hr.
      + destruct (serial_to_date_in_range n Hr) as (d & -> & _). cbn [exc_catch]. eauto.
      + destruct (serial_to_date_out_of_range n Hr) as (e & -> & Hov).
        cbn [exc_catch]. rewrite Hov, orb_true_r. eauto. }
  destruct v as [| b | z | x | s | d]; try (apply Hnum; reflexivity).
  - eexists. reflexivity.
  - cbn [parse_date]. destruct (py_strip s); [eexists; reflexivity|].
    apply try_formats_total.
  - eexists. reflexivity.
Qed.

(** A cell as the reader hands it over: its integers fit a float. *)
Definition cell_ok (v : value) : Prop :=
  match v with
  | VInt z => exists x, float_of_int z = inr x
  | _ => True
  end.

(** A number cell from the reader never raises: what does not parse is
    null. *)
Lemma parse_number_total (v : value) : cell_ok v -> exists x, parse_number v = inr x.
Proof.
  destruct v as [| b | z | x | s | d]; cbn [parse_number cell_ok]; intros Hok;
    try (eexists; reflexivity).
  - destruct Hok as (x & Hx). cbn [float_of_number]. rewrite Hx. eexists. reflexivity.
  - destruct (_ || _); [eexists; reflexivity|].
    destruct (float_of_str _) as [e|x] eqn:Hf; cbn [exc_bind exc_catch].
    + rewrite (float_of_str_error _ _ Hf). eexists. reflexivity.
    + eexists. reflexivity.
Qed.

Lemma get_cell_value_ok (row : list value) (c : nat) :
  Forall cell_ok row -> cell_ok (get_cell_value row c).
Proof.
  intros Hall. unfold get_cell_value. destruct (row !! c) as [v|] eqn:Hv; [|exact I].
  rewrite Forall_forall in Hall. apply Hall. eapply list_elem_of_lookup_2. exact Hv.
Qed.

(** *** The year in a sheet name always reads as a number *)

Lemma decimal_value_block (a d : N) :
  decimal_value a = Some d ->
  exists z, In z digit_blocks /\ (z <= a)%N /\ (a < z + 10)%N /\ d = (a - z)%N.
Proof.
  unfold decimal_value.
  destruct (List.find _ digit_blocks) as [z|] eqn:Hfind; [|discriminate].
  intros [= <-]. apply List.find_some in Hfind. destruct Hfind as [Hin Htest].
  apply andb_prop in Htest. destruct Htest as [Hlo Hhi].
  apply N.leb_le in Hlo. apply N.ltb_lt in Hhi. eauto.
Qed.

Lemma digit_blocks_spread (z : N) :
  In z digit_blocks -> z = 0x30%N \/ (0x660 <= z)%N.
Proof.
  assert (H : forallb (fun z => (z =? 0x30)%N || (0x660 <=? z)%N) digit_blocks = true)
    by (vm_compute; reflexivity).
  rewrite forallb_forall in H. intros Hin. specialize (H z Hin).
  apply orb_prop in H. destruct H as [H|H]; [left; apply N.eqb_eq | right; apply N.leb_le];
    exact H.
Qed.

Definition block_has_no_blank (z : N) : bool :=
  forallb (fun k => negb (py_isspace (z + k))) [0; 1; 2; 3; 4; 5; 6; 7; 8; 9]%N.

Lemma digit_blocks_have_no_blank : forallb block_has_no_blank digit_blocks = true.
Proof. vm_compute. reflexivity. Qed.

Lemma digit_is_not_blank (a : N) : is_digit a = true -> py_isspace a = false.
Proof.
  unfold is_digit. destruct (decimal_value a) as [d|] eqn:Hd; [|discriminate].
  intros _. apply decimal_value_block in Hd. destruct Hd as (z & Hin & Hlo & Hhi & _).
  pose proof digit_blocks_have_no_blank as Hall.
  rewrite forallb_forall in Hall. specialize (Hall z Hin).
  unfold block_has_no_blank in Hall. rewrite forallb_forall in Hall.
  specialize (Hall (a - z)%N).
  replace (z + (a - z))%N with a in Hall by lia.
  apply negb_true_iff. apply Hall.
  cbn [In]. lia.
Qed.

Lemma ascii_digit_cases (c : N) :
  ascii_digit c = true ->
  (c = 0x30 \/ c = 0x31 \/ c = 0x32 \/ c = 0x33 \/ c = 0x34 \/
   c = 0x35 \/ c = 0x36 \/ c = 0x37 \/ c = 0x38 \/ c = 0x39)%N.
Proof.
  unfold ascii_digit. intros H. apply andb_prop in H. destruct H as [Hlo Hhi].
  apply N.leb_le in Hlo. apply N.leb_le in Hhi. lia.
Qed.

(** A decimal digit is rewritten to an ASCII digit. *)
Lemma to_ascii_digit (a : N) (r : pystr) :
  is_digit a = true ->
  exists a', ascii_digit a' = true /\ to_ascii_numeric (a :: r) = a' :: to_ascii_numeric r.
Proof.
  intros Hdigit. pose proof (digit_is_not_blank a Hdigit) as Hblank.
  unfold is_digit in Hdigit. destruct (decimal_value a) as [d|] eqn:Hd; [|discriminate].
  cbn [to_ascii_numeric]. rewrite Hblank, Hd.
  apply decimal_value_block in Hd. destruct Hd as (z & Hin & Hlo & Hhi & ->).
  destruct (N.ltb_spec a 127) as [Hsmall|Hbig].
  - exists a. split; [|reflexivity].
    destruct (digit_blocks_spread z Hin) as [-> | Hz]; [|lia].
    unfold ascii_digit. apply andb_true_intro. split; [apply N.leb_le | apply N.leb_le]; lia.
  - exists (0x30 + (a - z))%N. split; [|reflexivity].
    unfold ascii_digit. apply andb_true_intro. split; [apply N.leb_le | apply N.leb_le]; lia.
Qed.

Lemma int_of_year_text (a b : N) :
  is_digit a = true -> is_digit b = true ->
  exists y, int_of_str [0x32; 0x30; a; b]%N = inr y.
Proof.
  intros Ha Hb. unfold int_of_str.
  assert (Hascii : exists a' b', ascii_digit a' = true /\ ascii_digit b' = true /\
                     to_ascii_numeric [0x32; 0x30; a; b]%N = [0x32; 0x30; a'; b']%N).
  { destruct (to_ascii_digit b [] Hb) as (b' & Hb' & Heqb).
    destruct (to_ascii_digit a [b] Ha) as (a' & Ha' & Heqa).
    exists a', b'. split; [exact Ha'|]. split; [exact Hb'|].
    change (to_ascii_numeric [0x32; 0x30; a; b]%N)
      with (0x32 :: 0x30 :: to_ascii_numeric (a :: [b]))%N.
    rewrite Heqa, Heqb. reflexivity. }
  destruct Hascii as (a' & b' & Ha' & Hb' & ->).
  apply ascii_digit_cases in Ha'. apply ascii_digit_cases in Hb'.
  destruct Ha' as [-> | [-> | [-> | [-> | [-> | [-> | [-> | [-> | [-> | ->]]]]]]]]];
  destruct Hb' as [-> | [-> | [-> | [-> | [-> | [-> | [-> | [-> | [-> | ->]]]]]]]]];
  eexists; vm_compute; reflexivity.
Qed.

Lemma search_year_reads (s found : pystr) :
  search_year s = Some found -> exists y, int_of_str found = inr y.
Proof.
  induction s as [|c r IH]; cbn [search_year].
  - simpl. discriminate.
  - destruct (year_at (c :: r)) as [f|] eqn:Hat.
    + intros [= <-]. unfold year_at in Hat.
      destruct r as [|c2 [|a [|b rest]]]; try discriminate.
      destruct (_ && _) eqn:Htest in Hat; [|discriminate].
      injection Hat as <-.
      repeat (apply andb_prop in Htest; destruct Htest as [Htest ?]).
      apply N.eqb_eq in Htest. subst c.
      match goal with H : (c2 =? _)%N = true |- _ => apply N.eqb_eq in H; subst c2 end.
      apply int_of_year_text; assumption.
    + exact IH.
Qed.

(** *** The parts of [parse_row] *)

(** The world after [n] more readings of the clock: nothing printed,
    nothing read, nothing stored. *)
Definition tick (n : nat) (w : world) : world :=
  mk_world (w_now w) (w_ticks w + n) (w_stdin w) (w_stdout w) (w_store w).

Lemma tick_0 (w : world) : tick 0 w = w.
Proof. destruct w. unfold tick. cbn. rewrite Nat.add_0_r. reflexivity. Qed.

Lemma tick_tick (n m : nat) (w : world) : tick m (tick n w) = tick (n + m) w.
Proof. unfold tick. cbn. rewrite Nat.add_assoc. reflexivity. Qed.

Lemma now_run (w : world) : now w = (inr (w_now w (w_ticks w)), tick 1 w).
Proof. unfold now, tick. rewrite Nat.add_1_r. reflexivity. Qed.

(** The clock shows dates from which a year can be added. *)
Definition clock_ok (w : world) : Prop :=
  forall k, 0 < toordinal (w_now w k) /\ toordinal (w_now w k) + 365 <= MAXORDINAL.

(** The cells of a row, coerced: text, date and number. *)
Definition text_cell (row : list value) (c : nat) : value :=
  let value := get_cell_value row c in
  if truthy value then VStr (py_strip (py_str value)) else VNone.

Definition date_cell (row : list value) (c : nat) : option pystr :=
  match parse_date (get_cell_value row c) with
  | inr d => d
  | inl _ => None
  end.

Definition number_cell (row : list value) (c : nat) : option float :=
  match parse_number (get_cell_value row c) with
  | inr x => x
  | inl _ => None
  end.

Lemma parse_date_cell (row : list value) (c : nat) :
  parse_date (get_cell_value row c) = inr (date_cell row c).
Proof.
  unfold date_cell. destruct (parse_date_total (get_cell_value row c)) as (d & ->).
  reflexivity.
Qed.

Lemma parse_number_cell (row : list value) (c : nat) :
  Forall cell_ok row -> parse_number (get_cell_value row c) = inr (number_cell row c).
Proof.
  intros Hok. unfold number_cell.
  destruct (parse_number_total _ (get_cell_value_ok row c Hok)) as (x & ->). reflexivity.
Qed.

(** What [parse_date] returns is never empty text. *)
Lemma strftime_ymd_truthy (d : datetime) : truthy (VStr (strftime_ymd d)) = true.
Proof.
  unfold strftime_ymd. cbn [truthy]. destruct (str_of_Z (dt_year d)); reflexivity.
Qed.

Lemma try_formats_truthy (formats : list (list fmt_item)) (s t : pystr) :
  try_formats formats s = inr (Some t) -> truthy (VStr t) = true.
Proof.
  induction formats as [|fmt rest IH]; cbn [try_formats]; [discriminate|].
  destruct (strptime s fmt) as [e|d]; cbn [exc_bind exc_catch].
  - destruct (is_ValueError e); [exact IH | discriminate].
  - intros [= <-]. apply strftime_ymd_truthy.
Qed.

Lemma parse_date_truthy (v : value) (t : pystr) :
  parse_date v = inr (Some t) -> truthy (VStr t) = true.
Proof.
  assert (Hnum : forall days,
             exc_catch (serial_to_date days)
               (fun e => is_ValueError e || is_OverflowError e) (inr None) = inr (Some t) ->
             truthy (VStr t) = true).
  { intros days. unfold serial_to_date.
    destruct (mk_date 1899 12 30) as [e|epoch]; cbn [exc_bind exc_catch];
      [destruct (_ || _); discriminate|].
    destruct days as [e|n]; cbn [exc_bind exc_catch]; [destruct (_ || _); discriminate|].
    destruct (timedelta_days n) as [e|delta]; cbn [exc_bind exc_catch];
      [destruct (_ || _); discriminate|].
    destruct (datetime_add_days epoch delta) as [e|d]; cbn [exc_bind exc_catch];
      [destruct (_ || _); discriminate|].
    intros [= <-]. apply strftime_ymd_truthy. }
  destruct v as [| b | z | x | s | d]; cbn [parse_date]; try apply Hnum; try discriminate.
  - destruct (py_strip s); [discriminate|]. apply try_formats_truthy.
  - intros [= <-]. apply strftime_ymd_truthy.
Qed.

Lemma date_columns_run (row : list value) (record : dict) (w : world) :
  date_columns row record w
  = (inr (dict_set (dict_set record "inception_date" (opt_str (date_cell row 25)))
            "expiry_date" (opt_str (date_cell row 26))), w).
Proof.
  unfold date_columns, DATE_COLUMNS. cbn [m_for]. unfold m_bind, m_lift, m_ret.
  rewrite !parse_date_cell. reflexivity.
Qed.

Lemma numeric_columns_run (row : list value) (record : dict) (w : world) :
  Forall cell_ok row ->
  numeric_columns row record w
  = (inr (dict_set (dict_set (dict_set (dict_set (dict_set (dict_set record
        "limit_of_liability" (opt_float (number_cell row 32)))
        "deductible" (opt_float (number_cell row 35)))
        "our_share" (opt_float (number_cell row 39)))
        "gross_premium" (opt_float (number_cell row 41)))
        "commission_percent" (opt_float (number_cell row 45)))
        "net_premium" (opt_float (number_cell row 48))), w).
Proof.
  intros Hok. unfold numeric_columns, NUMERIC_COLUMNS. cbn [m_for].
  unfold m_bind, m_lift, m_ret. rewrite !(parse_number_cell _ _ Hok). reflexivity.
Qed.

(** The record once every column is read. *)
Definition columns_read (row : list value) : dict :=
  structure_and_notes row
    (dict_set (dict_set (dict_set (dict_set (dict_set (dict_set
       (dict_set (dict_set (text_columns row ∅)
          "inception_date" (opt_str (date_cell row 25)))
          "expiry_date" (opt_str (date_cell row 26)))
       "limit_of_liability" (opt_float (number_cell row 32)))
       "deductible" (opt_float (number_cell row 35)))
       "our_share" (opt_float (number_cell row 39)))
       "gross_premium" (opt_float (number_cell row 41)))
       "commission_percent" (opt_float (number_cell row 45)))
       "net_premium" (opt_float (number_cell row 48))).

Ltac find_field :=
  repeat first [ rewrite dict_set_eq | rewrite dict_set_ne by discriminate ].

(** The fields of the record once every column is read. *)
Lemma columns_read_text (row : list value) (c : nat) (k : string) :
  In (c, k) TEXT_COLUMNS -> columns_read row !! k = Some (text_cell row c).
Proof.
  unfold columns_read, structure_and_notes, text_columns, TEXT_COLUMNS. cbn [fold_left].
  cbv zeta. fold (text_cell row 1) (text_cell row 4) (text_cell row 5) (text_cell row 7)
    (text_cell row 11) (text_cell row 12) (text_cell row 14) (text_cell row 15)
    (text_cell row 16) (text_cell row 19).
  intros Hin. cbn [In] in Hin.
  repeat (destruct Hin as [[= <- <-]|Hin]; [find_field; reflexivity|]).
  contradiction.
Qed.

Lemma columns_read_date (row : list value) (c : nat) (k : string) :
  In (c, k) DATE_COLUMNS -> columns_read row !! k = Some (opt_str (date_cell row c)).
Proof.
  unfold columns_read, structure_and_notes, DATE_COLUMNS. cbv zeta.
  intros Hin. cbn [In] in Hin.
  repeat (destruct Hin as [[= <- <-]|Hin]; [find_field; reflexivity|]).
  contradiction.
Qed.

Lemma columns_read_number (row : list value) (c : nat) (k : string) :
  In (c, k) NUMERIC_COLUMNS -> columns_read row !! k = Some (opt_float (number_cell row c)).
Proof.
  unfold columns_read, structure_and_notes, NUMERIC_COLUMNS. cbv zeta.
  intros Hin. cbn [In] in Hin.
  repeat (destruct Hin as [[= <- <-]|Hin]; [find_field; reflexivity|]).
  contradiction.
Qed.

Lemma text_cell_reads (row : list value) (c : nat) :
  exists o, text_if_truthy (text_cell row c) = inr o.
Proof.
  unfold text_cell. destruct (truthy _); cbn [text_if_truthy]; [|eauto].
  destruct (py_strip _); eauto.
Qed.

(** *** Derived fields *)

Definition derived_names : list string :=
  ["origin"; "type"; "status"; "cedant_country"; "import_batch_id"; "import_source"]%string.

Lemma derived_fields_run (record : dict) (row_number : Z) (sheet_name batch_id : pystr)
    (w : world) :
  (exists o, text_if_truthy (dict_get record "territory") = inr o) ->
  (exists o, text_if_truthy (dict_get record "currency") = inr o) ->
  exists derived,
    derived_fields record row_number sheet_name batch_id w = (inr derived, w) /\
    forall k, ~ In k derived_names -> derived !! k = record !! k.
Proof.
  intros (t & Ht) (cur & Hc). unfold derived_fields, m_bind, m_lift, m_ret.
  rewrite Ht, Hc. cbv zeta. eexists. split; [reflexivity|].
  intros k Hk. unfold derived_names in Hk. cbn [In] in Hk.
  rewrite !dict_set_ne by (intros <-; apply Hk; tauto). reflexivity.
Qed.

(** *** The underwriting year *)

Lemma extract_year_run (sheet_name : pystr) (w : world) :
  exists y n, extract_year_from_sheet_name sheet_name w = (inr y, tick n w).
Proof.
  unfold extract_year_from_sheet_name.
  destruct (search_year sheet_name) as [found|] eqn:Hs.
  - destruct (search_year_reads _ _ Hs) as (y & Hy). unfold m_bind, m_lift, m_ret.
    rewrite Hy. exists (VInt y), 0%nat. rewrite tick_0. reflexivity.
  - unfold m_bind, m_ret. rewrite now_run. eauto.
Qed.

Lemma uw_year_run (record : dict) (sheet_name : pystr) (w : world) :
  exists dated n,
    uw_year record sheet_name w = (inr dated, tick n w) /\
    forall k, k <> "uw_year"%string -> dated !! k = record !! k.
Proof.
  assert (Hsheet : exists dated n,
             m_bind (extract_year_from_sheet_name sheet_name)
               (fun y => m_ret (dict_set record "uw_year" y)) w = (inr dated, tick n w) /\
             forall k, k <> "uw_year"%string -> dated !! k = record !! k).
  { destruct (extract_year_run sheet_name w) as (y & n & Hy). unfold m_bind, m_ret.
    rewrite Hy. eexists _, n. split; [reflexivity|].
    intros k Hk. apply dict_set_ne. congruence. }
  unfold uw_year. destruct (truthy (dict_get record "inception_date")) eqn:Htruthy;
    [|exact Hsheet].
  unfold m_try, m_bind at 1, m_lift at 1, dict_item.
  unfold dict_get in Htruthy.
  destruct (record !! "inception_date"%string) as [inception|]; [|discriminate].
  unfold m_bind at 1, m_lift at 1.
  destruct (text_prefix 4 inception) as [e|head4] eqn:Hhead.
  { destruct inception; try discriminate; revert Hhead; intros [= <-]; exact Hsheet. }
  unfold m_bind at 1, m_lift at 1.
  destruct (int_of_str head4) as [e|year] eqn:Hyear.
  { rewrite (int_of_str_error _ _ Hyear). exact Hsheet. }
  unfold m_ret. eexists _, 0%nat. rewrite tick_0. split; [reflexivity|].
  intros k Hk. apply dict_set_ne. congruence.
Qed.

(** *** Required field fallbacks *)

Lemma set_if_falsy_same (record : dict) (k : string) (d : value) :
  set_if_falsy record k d !! k = Some (py_or (dict_get record k) d).
Proof.
  unfold set_if_falsy, py_or, dict_get.
  destruct (record !! k) as [v|] eqn:Hv; cbn [default from_option id].
  - destruct (truthy v); cbn [negb]; [exact Hv | apply dict_set_eq].
  - apply dict_set_eq.
Qed.

Lemma set_if_falsy_other (record : dict) (k k' : string) (d : value) :
  k <> k' -> set_if_falsy record k d !! k' = record !! k'.
Proof.
  intros Hk. unfold set_if_falsy. destruct (negb _); [apply dict_set_ne; exact Hk | reflexivity].
Qed.

(** [v if v is not None else d] *)
Definition if_none (v d : value) : value := if is_none v then d else v.

Lemma set_if_none_same (record : dict) (k : string) (d : value) :
  set_if_none record k d !! k = Some (if_none (dict_get record k) d).
Proof.
  unfold set_if_none, if_none, dict_get.
  destruct (record !! k) as [v|] eqn:Hv; cbn [default from_option id].
  - destruct (is_none v); [apply dict_set_eq | exact Hv].
  - apply dict_set_eq.
Qed.

Lemma set_if_none_other (record : dict) (k k' : string) (d : value) :
  k <> k' -> set_if_none record k d !! k' = record !! k'.
Proof.
  intros Hk. unfold set_if_none. destruct (is_none _); [apply dict_set_ne; exact Hk | reflexivity].
Qed.

(** The date a year after [d], where the calendar has one. *)
Definition a_year_after (d : datetime) : datetime :=
  match datetime_add_days d 365 with
  | inr d' => d'
  | inl _ => d
  end.

Lemma a_year_after_run (d : datetime) :
  0 < toordinal d -> toordinal d + 365 <= MAXORDINAL ->
  datetime_add_days d 365 = inr (a_year_after d).
Proof.
  intros Hlo Hhi. unfold a_year_after, datetime_add_days.
  replace (0 <? toordinal d + 365) with true by (symmetry; apply Z.ltb_lt; lia).
  replace (toordinal d + 365 <=? MAXORDINAL) with true by (symmetry; apply Z.leb_le; lia).
  cbn [andb]. destruct (ord2ymd _) as [[y m] dd]. reflexivity.
Qed.

(** The fallbacks of the text fields, of the number fields and of the two
    dates. *)
Definition text_fallback (sheet_name : pystr) (row_number : Z) (k : string)
  : option pystr :=
  if decide (k = "contract_number"%string)
  then Some (py "IMPORT-" ++ sheet_name ++ py "-" ++ str_of_Z row_number)
  else if decide (k = "cedant_name"%string) then Some (py "Unknown Cedant")
  else if decide (k = "type_of_cover"%string) then Some (py "Property")
  else if decide (k = "class_of_cover"%string) then Some (py "All Risks")
  else if decide (k = "currency"%string) then Some (py "USD")
  else None.

Definition number_fallback (k : string) : option value :=
  if decide (k = "limit_of_liability"%string) then Some (VInt 0)
  else if decide (k = "gross_premium"%string) then Some (VInt 0)
  else if decide (k = "our_share"%string) then Some (VInt 100)
  else None.

Definition date_fallback (k : string) (now : datetime) : pystr :=
  if decide (k = "inception_date"%string) then strftime_ymd now
  else strftime_ymd (a_year_after now).

Ltac find_fallback :=
  repeat first
    [ rewrite set_if_falsy_same | rewrite set_if_none_same
    | rewrite set_if_falsy_other by congruence
    | rewrite set_if_none_other by congruence ].

Lemma required_fallbacks_run (record : dict) (row_number : Z) (sheet_name : pystr)
    (w : world) :
  clock_ok w ->
  exists filled,
    required_fallbacks record row_number sheet_name w = (inr filled, tick 2 w) /\
    (forall k d, text_fallback sheet_name row_number k = Some d ->
       filled !! k = Some (py_or (dict_get record k) (VStr d))) /\
    (forall k, k = "inception_date"%string \/ k = "expiry_date"%string ->
       exists t, filled !! k
                 = Some (py_or (dict_get record k) (VStr (date_fallback k (w_now w t))))) /\
    (forall k d, number_fallback k = Some d ->
       filled !! k = Some (if_none (dict_get record k) d)) /\
    (forall k, text_fallback sheet_name row_number k = None ->
       number_fallback k = None ->
       k <> "inception_date"%string -> k <> "expiry_date"%string ->
       filled !! k = record !! k).
Proof.
  intros Hclock. unfold required_fallbacks. cbv zeta. unfold m_bind at 1.
  rewrite now_run. unfold m_bind at 1. rewrite now_run.
  unfold m_bind at 1, m_lift at 1.
  change (timedelta_days 365) with (@inr exn Z 365).
  unfold m_bind at 1, m_lift at 1. cbn [w_now w_ticks tick].
  destruct (Hclock (w_ticks w + 1)%nat) as [Hlo Hhi].
  rewrite (a_year_after_run _ Hlo Hhi). unfold m_ret.
  rewrite tick_tick. change (1 + 1)%nat with 2%nat.
  eexists. split; [reflexivity|].
  split; [|split; [|split]].
  - intros k d. unfold text_fallback.
    repeat case_decide; try discriminate; subst k; intros [= <-];
      find_fallback; unfold dict_get; find_fallback; reflexivity.
  - intros k [-> | ->].
    + exists (w_ticks w). unfold date_fallback. rewrite decide_True by reflexivity.
      find_fallback. unfold dict_get. find_fallback. reflexivity.
    + exists (w_ticks w + 1)%nat. unfold date_fallback. rewrite decide_False by discriminate.
      find_fallback. unfold dict_get. find_fallback. reflexivity.
  - intros k d. unfold number_fallback.
    repeat case_decide; try discriminate; subst k; intros [= <-];
      find_fallback; unfold dict_get; find_fallback; reflexivity.
  - intros k. unfold text_fallback, number_fallback.
    repeat case_decide; try discriminate. intros _ _ Hi He.
    find_fallback. reflexivity.
Qed.

(** *** The whole of [parse_row] *)

Lemma is_empty_row_cells (row : list value) :
  is_empty_row (columns_read row)
  = negb (truthy (text_cell row 5) || truthy (text_cell row 7) || truthy (text_cell row 1)).
Proof.
  unfold is_empty_row, dict_get.
  rewrite (columns_read_text row 5 "cedant_name") by (cbn; tauto).
  rewrite (columns_read_text row 7 "contract_number") by (cbn; tauto).
  rewrite (columns_read_text row 1 "original_insured_name") by (cbn; tauto).
  cbn [default from_option id].
  destruct (truthy (text_cell row 5)), (truthy (text_cell row 7)),
    (truthy (text_cell row 1)); reflexivity.
Qed.

Ltac kept_column Hkeep2 Hkeep1 Hcell :=
  unfold dict_get;
  rewrite Hkeep2 by discriminate;
  rewrite Hkeep1 by (unfold derived_names; cbn [In]; intuition discriminate);
  rewrite Hcell; cbn [default from_option id].

Ltac with_fallback H :=
  match goal with
  | |- _ !! ?k = _ => rewrite (H k _ eq_refl)
  end.

(** C9, where the code departs from the claim.  For every raw row whose
    integer cells fit a float, read while the clock is a year short of the
    end of the calendar, [parse_row] raises no error, as claimed: a number
    cell that does not coerce is null, and then 0 for the limit of liability
    and the gross premium, 100 for our share; a date cell that does not
    coerce is null, and then today for the inception date and a year from
    today for the expiry date; a required text field that is empty takes its
    fallback.  But no warning is recorded for any of it: the run leaves the
    world as it was but for the readings of the clock, the console included,
    and returns the record alone, or null for a row with neither cedant,
    contract number nor insured.  The [parse_row] of
    [staging/import_portfolio.py] collects a warning for each of the six
    fallbacks and prints one for a date that does not parse; the production
    copy lacks them. *)
Theorem coercion_failures_degrade_silently (row : list value) (row_number : Z)
    (sheet_name batch_id : pystr) (w : world) :
  Forall cell_ok row -> clock_ok w ->
  exists result n,
    parse_row row row_number sheet_name batch_id w = (inr result, tick n w) /\
    (result = None
     <-> truthy (text_cell row 5) || truthy (text_cell row 7) || truthy (text_cell row 1)
         = false) /\
    forall record, result = Some record ->
      (forall c k, In (c, k) NUMERIC_COLUMNS ->
         exists x, parse_number (get_cell_value row c) = inr x /\
           record !! k = Some (match x, number_fallback k with
                               | Some x, _ => VFloat x
                               | None, Some d => d
                               | None, None => VNone
                               end)) /\
      (forall c k, In (c, k) DATE_COLUMNS ->
         exists d t, parse_date (get_cell_value row c) = inr d /\
           record !! k = Some (VStr (match d with
                                     | Some s => s
                                     | None => date_fallback k (w_now w t)
                                     end))) /\
      (forall c k, In (c, k) TEXT_COLUMNS ->
         record !! k = Some (match text_fallback sheet_name row_number k with
                             | Some d => py_or (text_cell row c) (VStr d)
                             | None => text_cell row c
                             end)).
Proof.
  intros Hok Hclock. unfold parse_row. cbv zeta. unfold m_bind at 1.
  rewrite date_columns_run. unfold m_bind at 1. rewrite (numeric_columns_run _ _ _ Hok).
  fold (columns_read row). rewrite is_empty_row_cells.
  destruct (truthy (text_cell row 5) || truthy (text_cell row 7) || truthy (text_cell row 1))
    eqn:Hfilled; cbn [negb].
  2:{ exists None, 0%nat. rewrite tick_0. split; [reflexivity|]. split; [tauto | discriminate]. }
  destruct (derived_fields_run (columns_read row) row_number sheet_name batch_id w)
    as (r1 & Hr1 & Hkeep1).
  { unfold dict_get. rewrite (columns_read_text row 16 "territory") by (cbn; tauto).
    apply text_cell_reads. }
  { unfold dict_get. rewrite (columns_read_text row 19 "currency") by (cbn; tauto).
    apply text_cell_reads. }
  unfold m_bind at 1. rewrite Hr1.
  destruct (uw_year_run r1 sheet_name w) as (r2 & n & Hr2 & Hkeep2).
  unfold m_bind at 1. rewrite Hr2.
  destruct (required_fallbacks_run r2 row_number sheet_name (tick n w) Hclock)
    as (r3 & Hr3 & Htext & Hdate & Hnum & Hrest).
  unfold m_bind at 1. rewrite Hr3. unfold m_ret. rewrite tick_tick.
  exists (Some r3), (n + 2)%nat. split; [reflexivity|].
  split; [split; discriminate|].
  intros record [= <-]. split; [|split].
  - intros c k Hin. exists (number_cell row c).
    split; [apply parse_number_cell; exact Hok|].
    pose proof (columns_read_number row c k Hin) as Hcell.
    unfold NUMERIC_COLUMNS in Hin. cbn [In] in Hin.
    repeat (destruct Hin as [[= <- <-]|Hin];
            [first [ with_fallback Hnum; unfold if_none;
                     kept_column Hkeep2 Hkeep1 Hcell
                   | rewrite Hrest by first [reflexivity | discriminate];
                     rewrite Hkeep2 by discriminate;
                     rewrite Hkeep1
                       by (unfold derived_names; cbn [In]; intuition discriminate);
                     rewrite Hcell ];
             destruct (number_cell row _); reflexivity|]).
    contradiction.
  - intros c k Hin.
    pose proof (columns_read_date row c k Hin) as Hcell.
    assert (Hk : k = "inception_date"%string \/ k = "expiry_date"%string).
    { unfold DATE_COLUMNS in Hin. cbn [In] in Hin.
      destruct Hin as [[= _ <-]|[[= _ <-]|[]]]; [left | right]; reflexivity. }
    destruct (Hdate k Hk) as (t & Ht). exists (date_cell row c), t.
    split; [apply parse_date_cell|]. rewrite Ht.
    destruct Hk as [-> | ->]; kept_column Hkeep2 Hkeep1 Hcell; unfold py_or;
      (destruct (date_cell row c) as [s|] eqn:Hd; cbn [opt_str];
       [rewrite (parse_date_truthy (get_cell_value row c) s)
          by (rewrite parse_date_cell, Hd; reflexivity)|]; reflexivity).
  - intros c k Hin.
    pose proof (columns_read_text row c k Hin) as Hcell.
    unfold TEXT_COLUMNS in Hin. cbn [In] in Hin.
    repeat (destruct Hin as [[= <- <-]|Hin];
            [first [ with_fallback Htext; kept_column Hkeep2 Hkeep1 Hcell
                   | rewrite Hrest by first [reflexivity | discriminate];
                     rewrite Hkeep2 by discriminate;
                     rewrite Hkeep1
                       by (unfold derived_names; cbn [In]; intuition discriminate);
                     rewrite Hcell ];
             reflexivity|]).
    contradiction.
Qed.

End Normalizer.

(** *** A garbled row *)

(** A row given by its filled cells; the others are empty. *)
Definition cell_in (cells : list (nat * value)) (c : nat) : value :=
  match List.find (fun p => Nat.eqb (fst p) c) cells with
  | Some (_, v) => v
  | None => VNone
  end.

Definition sheet_row (cells : list (nat * value)) : list value :=
  map (cell_in cells) (seq 0 50).

(** A cedant, a date and a premium that do not read, a limit and a share
    that do. *)
Definition garbled_row : list value :=
  sheet_row [(5%nat, VStr (py "Acme Re")); (25%nat, VStr (py "soon"));
             (32%nat, VInt 5000000); (39%nat, VStr (py "50")); (41%nat, VStr (py "abc"))].

Definition garbled_run : Exc (option dict) * world :=
  Production.parse_row garbled_row 7 (py "2024") (py "batch-1")
    (example_world [] (open_store ∅)).

Definition record_of (run : Exc (option dict) * world) : dict :=
  match fst run with
  | inr (Some record) => record
  | _ => ∅
  end.

(** The fields [parse_row] writes. *)
Definition record_fields : list string :=
  map snd Production.TEXT_COLUMNS ++ map snd Production.DATE_COLUMNS
  ++ map snd Production.NUMERIC_COLUMNS
  ++ ["structure"; "notes"; "origin"; "type"; "status"; "cedant_country";
      "import_batch_id"; "import_source"; "uw_year"]%string.

Lemma garbled_row_ok : Forall cell_ok garbled_row.
Proof.
  apply Forall_forall. intros v Hv. destruct v as [| b | z | x | s | d]; try exact I.
  unfold garbled_row, sheet_row in Hv. apply list_elem_of_fmap in Hv.
  destruct Hv as (c & Hc & _).
  assert (Hz : z = 5000000).
  { revert Hc. unfold cell_in. cbn [List.find fst Nat.eqb].
    repeat (destruct c as [|c]; [cbn; congruence|]). cbn. congruence. }
  subst z. eexists. vm_compute. reflexivity.
Qed.

Lemma example_clock_ok (answers : list pystr) (st : store) :
  clock_ok (example_world answers st).
Proof. intros k. vm_compute. split; [reflexivity | discriminate]. Qed.

Lemma garbled_runs :
  garbled_run = (inr (Some (record_of garbled_run)), snd garbled_run).
Proof. by_evaluation. Qed.

Lemma coercion_failures_degrade_silently_witness :
  Forall cell_ok garbled_row /\ clock_ok (example_world [] (open_store ∅)) /\
  exists record n,
    garbled_run = (inr (Some record), tick n (example_world [] (open_store ∅))) /\
    record !! "gross_premium"%string = Some (VInt 0) /\
    record !! "net_premium"%string = Some VNone /\
    record !! "cedant_name"%string = Some (VStr (py "Acme Re")) /\
    record !! "currency"%string = Some (VStr (py "USD")) /\
    exists t, record !! "inception_date"%string
              = Some (VStr (date_fallback "inception_date" (example_clock t))).
Proof.
  split; [exact garbled_row_ok|]. split; [apply example_clock_ok|].
  destruct (coercion_failures_degrade_silently garbled_row 7 (py "2024") (py "batch-1")
              (example_world [] (open_store ∅)) garbled_row_ok (example_clock_ok _ _))
    as (result & n & Hrun & Hnone & Hfields).
  destruct result as [record|].
  2:{ destruct Hnone as [Hnone _]. specialize (Hnone eq_refl). vm_compute in Hnone.
      discriminate. }
  exists record, n. split; [exact Hrun|].
  destruct (Hfields record eq_refl) as (Hnum & Hdate & Htext).
  split.
  { destruct (Hnum 41%nat "gross_premium"%string) as (x & Hx & ->); [cbn; tauto|].
    vm_compute in Hx. revert Hx. intros [= <-]. reflexivity. }
  split.
  { destruct (Hnum 48%nat "net_premium"%string) as (x & Hx & ->); [cbn; tauto|].
    vm_compute in Hx. revert Hx. intros [= <-]. reflexivity. }
  split.
  { rewrite (Htext 5%nat "cedant_name"%string) by (cbn; tauto). vm_compute. reflexivity. }
  split.
  { rewrite (Htext 19%nat "currency"%string) by (cbn; tauto). vm_compute. reflexivity. }
  destruct (Hdate 25%nat "inception_date"%string) as (d & t & Hd & ->); [cbn; tauto|].
  exists t. vm_compute in Hd. revert Hd. intros [= <-]. reflexivity.
Defined.

Lemma fields_within (record : dict) (fields : list string) :
  forallb (fun kv => bool_decide (fst kv ∈ fields)) (map_to_list record) = true ->
  forall k, is_Some (record !! k) -> k ∈ fields.
Proof.
  intros Hall k [v Hv]. apply elem_of_map_to_list in Hv.
  rewrite forallb_forall in Hall. specialize (Hall (k, v)). cbn [fst] in Hall.
  eapply bool_decide_eq_true_1. apply Hall. apply list_elem_of_In. exact Hv.
Qed.

Lemma record_of_garbled_fields :
  forallb (fun kv => bool_decide (fst kv ∈ record_fields))
    (map_to_list (record_of garbled_run)) = true.
Proof. by_evaluation. Qed.

(** C9 fails of the code in what it says of warnings: the premium of this
    row does not coerce and takes its fallback, and so does the inception
    date, the contract number being absent takes its placeholder, while
    nothing is printed and the record, which is all that [parse_row] returns,
    has no field but those of the table. *)
Lemma unrecorded_fallback_counterexample :
  exists record w',
    garbled_run = (inr (Some record), w') /\
    Production.get_cell_value garbled_row 41 = VStr (py "abc") /\
    Production.parse_number (VStr (py "abc")) = inr None /\
    record !! "gross_premium"%string = Some (VInt 0) /\
    Production.get_cell_value garbled_row 25 = VStr (py "soon") /\
    Production.parse_date (VStr (py "soon")) = inr None /\
    record !! "inception_date"%string = Some (VStr (py "2026-02-10")) /\
    w_stdout w' = [] /\
    forall k, is_Some (record !! k) -> k ∈ record_fields.
Proof.
  exists (record_of garbled_run), (snd garbled_run).
  split; [exact garbled_runs|].
  repeat (split; [vm_compute; reflexivity|]).
  exact (fields_within _ _ record_of_garbled_fields).
Qed.


(** Ordinary rows: the territory and the currency are read whole, so a
    row of Uzbekistan, or one in UZS, is DOMESTIC and another FOREIGN. *)
Definition origin_of_row (territory currency : value) : option value :=
  record_of
    (Production.parse_row
       (sheet_row [(5%nat, VStr (py "Acme Re")); (7%nat, VStr (py "C-1"));
                   (16%nat, territory); (19%nat, currency)])
       2 (py "2024") (py "batch-1") (example_world [] (open_store ∅)))
  !! "origin"%string.

Lemma ordinary_rows_have_their_origin :
  origin_of_row (VStr (py "Uzbekistan")) (VStr (py "UZS")) = Some (VStr (py "DOMESTIC")) /\
  origin_of_row (VStr (py "Republic of Uzbekistan")) (VStr (py "USD"))
  = Some (VStr (py "DOMESTIC")) /\
  origin_of_row (VStr (py "Kazakhstan")) (VStr (py "UZS")) = Some (VStr (py "DOMESTIC")) /\
  origin_of_row VNone (VStr (py "uzs")) = Some (VStr (py "DOMESTIC")) /\
  origin_of_row (VStr (py "Kazakhstan")) (VStr (py "USD")) = Some (VStr (py "FOREIGN")) /\
  origin_of_row (VStr (py "xuz")) (VStr (py "XUZS")) = Some (VStr (py "FOREIGN")) /\
  origin_of_row VNone VNone = Some (VStr (py "FOREIGN")).
Proof. repeat split; vm_compute; reflexivity. Qed.


(** * Further properties of the two scripts *)

(** ** Words and dedup keys *)

Section Words.

(** A word: a non-empty run without a blank. *)
Definition is_word (w : pystr) : Prop :=
  w <> [] /\ Forall (fun c => py_isspace c = false) w.

Lemma split_go_run (w r cur : pystr) :
  Forall (fun c => py_isspace c = false) w ->
  split_go cur (w ++ r) = split_go (rev w ++ cur) r.
Proof.
  intros Hw. revert cur. induction Hw as [|c w Hc _ IH]; intros cur; [reflexivity|].
  cbn [app split_go]. rewrite Hc, IH. cbn [rev]. rewrite <- app_assoc. reflexivity.
Qed.

Lemma split_go_words (s cur : pystr) :
  Forall (fun c => py_isspace c = false) cur ->
  Forall is_word (split_go cur s).
Proof.
  revert cur. induction s as [|c r IH]; intros cur Hcur; cbn [split_go].
  - destruct cur as [|c0 cur0]; [constructor|].
    constructor; [|constructor]. split.
    + intros Hnil. apply (f_equal (@length N)) in Hnil.
      rewrite length_rev in Hnil. discriminate.
    + apply List.Forall_rev. exact Hcur.
  - destruct (py_isspace c) eqn:Hc.
    + destruct cur as [|c0 cur0]; [apply IH; constructor|].
      constructor; [|apply IH; constructor]. split.
      * intros Hnil. apply (f_equal (@length N)) in Hnil.
        rewrite length_rev in Hnil. discriminate.
      * apply List.Forall_rev. exact Hcur.
    + apply IH. constructor; assumption.
Qed.

Lemma split_words (s : pystr) : Forall is_word (py_split s).
Proof. apply split_go_words. constructor. Qed.

Lemma split_join (ws : list pystr) :
  Forall is_word ws -> py_split (py_join (py " ") ws) = ws.
Proof.
  unfold py_split. induction 1 as [|w ws [Hne Hw] Hws IH]; [reflexivity|].
  destruct ws as [|w' ws'].
  - cbn [py_join]. rewrite <- (app_nil_r w) at 1. rewrite split_go_run by exact Hw.
    cbn [split_go]. rewrite app_nil_r.
    destruct (rev w) eqn:Hr.
    + apply (f_equal (@length N)) in Hr. rewrite length_rev in Hr.
      destruct w; [congruence | discriminate].
    + rewrite <- Hr, rev_involutive. reflexivity.
  - change (py_join (py " ") (w :: w' :: ws'))
      with (w ++ py " " ++ py_join (py " ") (w' :: ws')).
    rewrite split_go_run by exact Hw. rewrite app_nil_r.
    change (py " " ++ py_join (py " ") (w' :: ws'))
      with (0x20%N :: py_join (py " ") (w' :: ws')).
    cbn [split_go]. change (py_isspace 0x20) with true. cbv iota.
    rewrite IH.
    destruct (rev w) eqn:Hr.
    + apply (f_equal (@length N)) in Hr. rewrite length_rev in Hr.
      destruct w; [congruence | discriminate].
    + rewrite <- Hr, rev_involutive. reflexivity.
Qed.

Lemma lstrip_fixed (c : N) (r : pystr) :
  py_isspace c = false -> py_lstrip (c :: r) = c :: r.
Proof. intros Hc. cbn [py_lstrip]. rewrite Hc. reflexivity. Qed.

Lemma rstrip_fixed (c : N) (r : pystr) :
  py_isspace c = false -> py_rstrip (r ++ [c]) = r ++ [c].
Proof.
  intros Hc. unfold py_rstrip. rewrite rev_app_distr. cbn [rev app].
  rewrite lstrip_fixed by exact Hc.
  change (c :: rev r) with ([c] ++ rev r). rewrite rev_app_distr, rev_involutive.
  reflexivity.
Qed.

Lemma word_ends (w : pystr) :
  is_word w ->
  (exists c r, w = c :: r /\ py_isspace c = false) /\
  (exists c r, w = r ++ [c] /\ py_isspace c = false).
Proof.
  intros [Hne Hw]. split.
  - destruct w as [|c r]; [congruence|]. exists c, r. split; [reflexivity|].
    apply List.Forall_inv in Hw. exact Hw.
  - destruct (exists_last Hne) as (r & c & ->). exists c, r. split; [reflexivity|].
    apply List.Forall_app in Hw. destruct Hw as [_ Hc].
    apply List.Forall_inv in Hc. exact Hc.
Qed.

Lemma join_ends (ws : list pystr) :
  Forall is_word ws -> ws <> [] ->
  (exists c r, py_join (py " ") ws = c :: r /\ py_isspace c = false) /\
  (exists c r, py_join (py " ") ws = r ++ [c] /\ py_isspace c = false).
Proof.
  induction 1 as [|w ws Hw Hws IH]; [congruence|]. intros _.
  destruct (word_ends w Hw) as [(c & r & Hhead & Hc) (c' & r' & Hlast & Hc')].
  destruct ws as [|w' ws']; [cbn [py_join]; eauto 10|].
  change (py_join (py " ") (w :: w' :: ws'))
    with (w ++ py " " ++ py_join (py " ") (w' :: ws')).
  split.
  - exists c, (r ++ py " " ++ py_join (py " ") (w' :: ws')). rewrite Hhead. auto.
  - destruct IH as [_ (c2 & r2 & Hj & Hc2)]; [discriminate|].
    exists c2, (w ++ py " " ++ r2). rewrite Hj, <- !app_assoc. auto.
Qed.

Lemma strip_join (ws : list pystr) :
  Forall is_word ws -> py_strip (py_join (py " ") ws) = py_join (py " ") ws.
Proof.
  intros Hws. destruct ws as [|w ws']; [reflexivity|].
  destruct (join_ends (w :: ws') Hws ltac:(discriminate))
    as [(c & r & Hhead & Hc) (c' & r' & Hlast & Hc')].
  unfold py_strip. rewrite Hhead, lstrip_fixed by exact Hc.
  rewrite <- Hhead, Hlast. apply rstrip_fixed. exact Hc'.
Qed.

(** The dedup key of a name is its words joined by single blanks. *)
Lemma normalize_name_words (name : pystr) :
  Production.normalize_name name = py_join (py " ") (py_split name).
Proof.
  unfold Production.normalize_name. destruct name as [|c r]; [reflexivity|].
  apply strip_join. apply split_words.
Qed.

(** X1.  The dedup key is canonical: normalizing a key gives the key
    back, the key has neither a leading, a trailing nor a doubled blank
    that normalizing or trimming would remove, and two names have the same
    key exactly when they are made of the same words in the same order. *)
Theorem normalize_name_is_canonical (a b : pystr) :
  Production.normalize_name (Production.normalize_name a) = Production.normalize_name a /\
  py_strip (Production.normalize_name a) = Production.normalize_name a /\
  py_split (Production.normalize_name a) = py_split a /\
  (Production.normalize_name a = Production.normalize_name b <-> py_split a = py_split b).
Proof.
  rewrite !normalize_name_words.
  assert (Hsplit : forall s, py_split (py_join (py " ") (py_split s)) = py_split s)
    by (intros s; apply split_join, split_words).
  split; [rewrite Hsplit; reflexivity|].
  split; [apply strip_join, split_words|].
  split; [apply Hsplit|].
  split.
  - intros Heq. rewrite <- (Hsplit a), <- (Hsplit b), Heq. reflexivity.
  - intros ->. reflexivity.
Qed.

End Words.


(** ** Substrings and the keywords of the entity types *)

Section Keywords.

Lemma startswith_spec (s pre : pystr) :
  py_startswith s pre = true <-> exists post, s = pre ++ post.
Proof.
  revert s. induction pre as [|p pre IH]; intros s.
  - destruct s; cbn [py_startswith]; split; eauto.
  - destruct s as [|c s]; cbn [py_startswith].
    + split; [discriminate | intros (post & Hpost); discriminate].
    + rewrite andb_true_iff, N.eqb_eq, IH. split.
      * intros (-> & post & ->). exists post. reflexivity.
      * intros (post & Hpost). injection Hpost as -> ->. eauto.
Qed.

(** [sub in s] holds exactly when [s] has [sub] somewhere inside. *)
Lemma py_in_spec (sub s : pystr) :
  py_in sub s = true <-> exists pre post, s = pre ++ sub ++ post.
Proof.
  induction s as [|c r IH]; cbn [py_in].
  - rewrite orb_false_r, startswith_spec. split.
    + intros (post & Hpost). exists [], post. exact Hpost.
    + intros (pre & post & Hs). destruct pre; [|discriminate]. eauto.
  - rewrite orb_true_iff, startswith_spec, IH. split.
    + intros [(post & Hpost) | (pre & post & ->)].
      * exists [], post. exact Hpost.
      * exists (c :: pre), post. reflexivity.
    + intros (pre & post & Hs). destruct pre as [|c' pre].
      * left. exists post. exact Hs.
      * right. injection Hs as -> ->. eauto.
Qed.

Lemma py_in_inside (inner outer s a b : pystr) :
  outer = a ++ inner ++ b -> py_in outer s = true -> py_in inner s = true.
Proof.
  intros -> Hin. apply py_in_spec in Hin. destruct Hin as (pre & post & ->).
  apply py_in_spec. exists (pre ++ a), (b ++ post). rewrite <- !app_assoc. reflexivity.
Qed.

(** X2.  The insurance keywords are tested before the reinsurance ones and
    occur inside the usual reinsurance words: a name that holds
    "reinsurance" or "перестрахов" (in any case) is never typed Reinsurer,
    it is a Broker under the broker rule and an Insurance Company
    otherwise. *)
Theorem reinsurance_names_are_typed_insurance (name : pystr) (is_cedant is_broker : bool) :
  py_in (py "reinsurance") (py_lower name) = true
  \/ py_in (py "перестрахов") (py_lower name) = true ->
  Production.determine_entity_type name is_cedant is_broker
  = (if is_broker || py_in (py "broker") (py_lower name)
     then py "Broker" else py "Insurance Company") /\
  Production.determine_entity_type name is_cedant is_broker <> py "Reinsurer".
Proof.
  intros Hkey.
  assert (Hins : py_in (py "insurance") (py_lower name)
                 || py_in (py "страхов") (py_lower name)
                 || py_in (py "insuranc") (py_lower name) = true).
  { destruct Hkey as [Hre | Hre].
    - rewrite (py_in_inside (py "insurance") (py "reinsurance") _ (py "re") []
                 eq_refl Hre). reflexivity.
    - rewrite (py_in_inside (py "страхов") (py "перестрахов") _ (py "пере") []
                 eq_refl Hre). rewrite orb_true_r. reflexivity. }
  unfold Production.determine_entity_type. cbv zeta. rewrite Hins.
  destruct (is_broker || py_in (py "broker") (py_lower name)); split;
    first [reflexivity | discriminate].
Qed.

Lemma reinsurance_names_are_typed_insurance_witness :
  py_in (py "reinsurance") (py_lower (py "Swiss Reinsurance Company")) = true /\
  Production.determine_entity_type (py "Swiss Reinsurance Company") false false
  = py "Insurance Company".
Proof.
  split; [reflexivity|].
  exact (proj1 (reinsurance_names_are_typed_insurance (py "Swiss Reinsurance Company")
                  false false (or_introl eq_refl))).
Defined.

End Keywords.


(** ** The year of a sheet *)

Section SheetYear.

Lemma int_of_year_text_range (a b : N) :
  is_digit a = true -> is_digit b = true ->
  exists y, int_of_str [0x32; 0x30; a; b]%N = inr y /\ 2000 <= y <= 2099.
Proof.
  intros Ha Hb. unfold int_of_str.
  assert (Hascii : exists a' b', ascii_digit a' = true /\ ascii_digit b' = true /\
                     to_ascii_numeric [0x32; 0x30; a; b]%N = [0x32; 0x30; a'; b']%N).
  { destruct (to_ascii_digit b [] Hb) as (b' & Hb' & Heqb).
    destruct (to_ascii_digit a [b] Ha) as (a' & Ha' & Heqa).
    exists a', b'. split; [exact Ha'|]. split; [exact Hb'|].
    change (to_ascii_numeric [0x32; 0x30; a; b]%N)
      with (0x32 :: 0x30 :: to_ascii_numeric (a :: [b]))%N.
    rewrite Heqa, Heqb. reflexivity. }
  destruct Hascii as (a' & b' & Ha' & Hb' & ->).
  apply ascii_digit_cases in Ha'. apply ascii_digit_cases in Hb'.
  destruct Ha' as [-> | [-> | [-> | [-> | [-> | [-> | [-> | [-> | [-> | ->]]]]]]]]];
  destruct Hb' as [-> | [-> | [-> | [-> | [-> | [-> | [-> | [-> | [-> | ->]]]]]]]]];
  eexists; (split; [vm_compute; reflexivity | lia]).
Qed.

Lemma year_at_spec (s found : pystr) :
  Production.year_at s = Some found ->
  exists a b post,
    s = found ++ post /\ found = [0x32; 0x30; a; b]%N /\
    is_digit a = true /\ is_digit b = true.
Proof.
  unfold Production.year_at.
  destruct s as [|c1 [|c2 [|a [|b post]]]]; try discriminate.
  destruct (_ && _) eqn:Htest; [|discriminate]. intros [= <-].
  apply andb_prop in Htest. destruct Htest as [Htest Hb].
  apply andb_prop in Htest. destruct Htest as [Htest Ha].
  apply andb_prop in Htest. destruct Htest as [H1 H2].
  apply N.eqb_eq in H1. apply N.eqb_eq in H2. subst c1 c2.
  exists a, b, post. auto.
Qed.

Lemma year_at_none (a b : N) (post : pystr) :
  Production.year_at ([0x32; 0x30; a; b]%N ++ post) = None ->
  is_digit a && is_digit b = false.
Proof.
  cbn [app Production.year_at]. change (0x32 =? 0x32)%N with true.
  change (0x30 =? 0x30)%N with true. cbn [andb].
  destruct (is_digit a && is_digit b); [discriminate | reflexivity].
Qed.

Lemma search_year_some (s found : pystr) :
  Production.search_year s = Some found ->
  exists pre a b post,
    s = pre ++ [0x32; 0x30; a; b]%N ++ post /\ found = [0x32; 0x30; a; b]%N /\
    is_digit a = true /\ is_digit b = true.
Proof.
  induction s as [|c r IH].
  - cbn. discriminate.
  - cbn [Production.search_year].
    destruct (Production.year_at (c :: r)) as [f|] eqn:Hat.
    + intros [= <-]. destruct (year_at_spec _ _ Hat) as (a & b & post & Hs & -> & Ha & Hb).
      exists [], a, b, post. auto.
    + intros Hr. destruct (IH Hr) as (pre & a & b & post & -> & Hf & Ha & Hb).
      exists (c :: pre), a, b, post. auto.
Qed.

Lemma search_year_none (s : pystr) :
  Production.search_year s = None ->
  forall pre a b post,
    s = pre ++ [0x32; 0x30; a; b]%N ++ post -> is_digit a && is_digit b = false.
Proof.
  induction s as [|c r IH]; intros Hnone pre a b post Hs.
  - destruct pre; discriminate.
  - cbn [Production.search_year] in Hnone.
    destruct (Production.year_at (c :: r)) as [f|] eqn:Hat; [discriminate|].
    destruct pre as [|c' pre].
    + rewrite Hs in Hat. apply (year_at_none a b post). exact Hat.
    + injection Hs as -> ->. exact (IH Hnone pre a b post eq_refl).
Qed.

(** X3.  The year of a sheet never fails: when the name holds "20" followed
    by two decimal digits (of any script) the year is read from the name and
    lies between 2000 and 2099, the clock not being read; when it holds no
    such text, the year is the one of the clock, read once. *)
Theorem sheet_year_is_read_or_current (sheet_name : pystr) (w : world) :
  exists y n,
    Production.extract_year_from_sheet_name sheet_name w = (inr (VInt y), tick n w) /\
    ((exists pre a b post,
        sheet_name = pre ++ [0x32; 0x30; a; b]%N ++ post /\
        is_digit a = true /\ is_digit b = true /\
        Production.search_year sheet_name = Some [0x32; 0x30; a; b]%N /\
        int_of_str [0x32; 0x30; a; b]%N = inr y /\
        2000 <= y <= 2099 /\ n = 0%nat)
     \/
     ((forall pre a b post,
         sheet_name = pre ++ [0x32; 0x30; a; b]%N ++ post ->
         is_digit a && is_digit b = false) /\
      y = dt_year (w_now w (w_ticks w)) /\ n = 1%nat)).
Proof.
  unfold Production.extract_year_from_sheet_name.
  destruct (Production.search_year sheet_name) as [found|] eqn:Hs.
  - destruct (search_year_some _ _ Hs) as (pre & a & b & post & Hname & -> & Ha & Hb).
    destruct (int_of_year_text_range a b Ha Hb) as (y & Hy & Hrange).
    exists y, 0%nat. unfold m_bind, m_lift, m_ret. rewrite Hy, tick_0.
    split; [reflexivity|]. left. exists pre, a, b, post. auto 10.
  - exists (dt_year (w_now w (w_ticks w))), 1%nat.
    unfold m_bind, m_ret. rewrite now_run. split; [reflexivity|].
    right. split; [exact (search_year_none _ Hs) | auto].
Qed.

End SheetYear.

(** ** The parsers of the two scripts *)

Section TwoParsers.

Lemma claims_parse_number_eq (v : value) :
  Claims.parse_number v = Production.parse_number v.
Proof.
  destruct v as [| b | z | x | s | d]; try reflexivity.
  destruct s as [|c r]; reflexivity.
Qed.

Lemma claims_parse_date_eq (v : value) :
  Claims.parse_date v
  = (if is_number v && number_is_zero v then inr None else Production.parse_date v).
Proof.
  destruct v as [| b | z | x | s | d]; try reflexivity;
    try (destruct s as [|c r]; reflexivity);
    cbn [Claims.parse_date is_number andb];
    match goal with |- context [number_is_zero ?n] => destruct (number_is_zero n) end;
    reflexivity.
Qed.

(** X4.  The claims script parses numbers exactly as the production script
    does, and dates too but for a number equal to zero (0, 0.0, -0.0,
    False), which it takes for an empty cell where the production script
    answers the epoch, 1899-12-30. *)
Theorem claims_parsers_follow_production (v : value) :
  Claims.parse_number v = Production.parse_number v /\
  Claims.parse_date v
  = (if is_number v && number_is_zero v then inr None else Production.parse_date v) /\
  (is_number v && number_is_zero v = true ->
   Claims.parse_date v = inr None /\
   Production.parse_date v = inr (Some (py "1899-12-30"))).
Proof.
  split; [apply claims_parse_number_eq|]. split; [apply claims_parse_date_eq|].
  intros Hzero. split; [rewrite claims_parse_date_eq, Hzero; reflexivity|].
  destruct v as [| b | z | x | s | d]; cbn [is_number andb number_is_zero] in Hzero;
    try discriminate.
  - destruct b; [discriminate|]. vm_compute. reflexivity.
  - apply Z.eqb_eq in Hzero. subst z. vm_compute. reflexivity.
  - destruct x as [sg | sg | | sg m e]; try discriminate.
    destruct sg; vm_compute; reflexivity.
Qed.

Lemma claims_parsers_follow_production_witness :
  is_number (VFloat (S754_zero false)) && number_is_zero (VFloat (S754_zero false)) = true /\
  Claims.parse_date (VFloat (S754_zero false)) = inr None /\
  Production.parse_date (VFloat (S754_zero false)) = inr (Some (py "1899-12-30")).
Proof.
  split; [reflexivity|].
  exact (proj2 (proj2 (claims_parsers_follow_production (VFloat (S754_zero false)))) eq_refl).
Defined.

End TwoParsers.


(** ** The whole commit loop *)

Section WholeImport.
Import Production.

(** What an import leaves of a store: the other tables and the schema as
    they were, and the table with the rows [added] after those it had. *)
Definition store_grew (table : string) (st st' : store) (added : list dict) : Prop :=
  st_reject_row st' = st_reject_row st /\
  st_reject_bulk st' = st_reject_bulk st /\
  st_reject_delete st' = st_reject_delete st /\
  (forall t, t <> table -> st_tables st' !! t = st_tables st !! t) /\
  match st_tables st !! table with
  | Some rows => st_tables st' !! table = Some (rows ++ added)
  | None => st_tables st' !! table = None /\ added = []
  end.

(** A stored row is a record of [records] with the id the store gave it. *)
Definition stored_from (records : list dict) (row : dict) : Prop :=
  exists n r, In r records /\ row = with_id n r.

Lemma store_grew_refl (table : string) (st : store) : store_grew table st st [].
Proof.
  unfold store_grew. do 4 (split; [reflexivity|]).
  destruct (st_tables st !! table); [rewrite app_nil_r|]; auto.
Qed.

Lemma store_grew_trans (table : string) (st1 st2 st3 : store) (a b : list dict) :
  store_grew table st1 st2 a -> store_grew table st2 st3 b ->
  store_grew table st1 st3 (a ++ b).
Proof.
  intros (Hr1 & Hb1 & Hd1 & Ho1 & Ht1) (Hr2 & Hb2 & Hd2 & Ho2 & Ht2).
  unfold store_grew. split; [congruence|]. split; [congruence|]. split; [congruence|].
  split; [intros t Ht; rewrite Ho2, Ho1 by exact Ht; reflexivity|].
  destruct (st_tables st1 !! table) as [rows|].
  - rewrite Ht1 in Ht2. rewrite Ht2, app_assoc. reflexivity.
  - destruct Ht1 as [Ht1 ->]. rewrite Ht1 in Ht2. exact Ht2.
Qed.

Lemma store_add_fold (st : store) (table : string) (rs : list dict)
    (rows : list dict) (n : N) (stored rows' stored' : list dict) (n' : N) :
  fold_left (store_add st table) rs (inr (rows, n, stored)) = inr (rows', n', stored') ->
  exists new,
    rows' = rows ++ new /\ stored' = stored ++ new /\ length new = length rs /\
    Forall (stored_from rs) new.
Proof.
  revert rows n stored. induction rs as [|r rest IH]; intros rows n stored; cbn [fold_left].
  - intros [= <- <- <-]. exists []. rewrite !app_nil_r. auto.
  - cbn [store_add]. destruct (st_reject_row st table rows r) as [msg|].
    + assert (Hstuck : forall l, fold_left (store_add st table) l (inl (APIError msg))
                                 = inl (APIError msg))
        by (induction l; [reflexivity | assumption]).
      rewrite Hstuck. discriminate.
    + intros Hfold. destruct (IH _ _ _ Hfold) as (new & -> & -> & Hlen & Hall).
      exists (with_id n r :: new). rewrite <- !app_assoc. cbn [app length].
      split; [reflexivity|]. split; [reflexivity|]. split; [congruence|].
      constructor.
      * exists n, r. split; [left; reflexivity | reflexivity].
      * eapply Forall_impl; [exact Hall|]. intros row (k & r0 & Hin & ->).
        exists k, r0. split; [right; exact Hin | reflexivity].
Qed.

Lemma insert_many_grows (table : string) (rs : list dict) (st st' : store)
    (data : list dict) :
  store_insert_many table rs st = inr (data, st') ->
  store_grew table st st' data /\ length data = length rs /\ Forall (stored_from rs) data.
Proof.
  unfold store_insert_many.
  destruct (st_tables st !! table) as [rows|] eqn:Htable; [|discriminate].
  destruct (st_reject_bulk st table rows rs); [discriminate|].
  destruct (fold_left _ rs _) as [e|[[rows' n'] stored]] eqn:Hfold; [discriminate|].
  intros [= <- <-]. destruct (store_add_fold _ _ _ _ _ _ _ _ _ Hfold)
    as (new & -> & Hstored & Hlen & Hall).
  cbn [app] in Hstored. subst stored.
  split; [|split; assumption].
  unfold store_grew, set_tables. cbn [st_reject_row st_reject_bulk st_reject_delete st_tables].
  repeat (split; [reflexivity|]).
  split; [intros t Ht; apply lookup_insert_ne; congruence|].
  rewrite Htable. apply lookup_insert_eq.
Qed.

Lemma insert_one_grows (table : string) (r : dict) (st st' : store) (data : list dict) :
  store_insert_one table r st = inr (data, st') ->
  store_grew table st st' data /\ length data = 1%nat /\ Forall (stored_from [r]) data.
Proof.
  unfold store_insert_one.
  destruct (st_tables st !! table) as [rows|] eqn:Htable; [|discriminate].
  cbn [store_add]. destruct (st_reject_row st table rows r); [discriminate|].
  intros [= <- <-]. cbn [app].
  split; [|split; [reflexivity|]].
  - unfold store_grew, set_tables.
    cbn [st_reject_row st_reject_bulk st_reject_delete st_tables].
    repeat (split; [reflexivity|]).
    split; [intros t Ht; apply lookup_insert_ne; congruence|].
    rewrite Htable. apply lookup_insert_eq.
  - constructor; [|constructor]. exists (st_next_id st), r. split; [left|]; reflexivity.
Qed.

Lemma stored_from_incl (a b : list dict) (row : dict) :
  (forall r, In r a -> In r b) -> stored_from a row -> stored_from b row.
Proof. intros Hincl (n & r & Hin & ->). exists n, r. auto. Qed.

(** The rows the retry of a batch leaves in the table. *)
Lemma row_outcomes_grow (batch : list dict) (st : store) :
  exists added,
    store_grew "inward_reinsurance" st (snd (row_outcomes batch st)) added /\
    Z.of_nat (length added) = count_inserted (fst (row_outcomes batch st)) /\
    Forall (stored_from batch) added.
Proof.
  revert st. induction batch as [|record rest IH]; intros st; cbn [row_outcomes].
  - exists []. split; [apply store_grew_refl|]. split; [reflexivity | constructor].
  - destruct (store_insert_one "inward_reinsurance" record st) as [e|[data st1]] eqn:Hone.
    + destruct (IH st) as (added & Hgrew & Hlen & Hall).
      destruct (row_outcomes rest st) as [os st']. cbn [fst snd] in *.
      exists added. split; [exact Hgrew|]. split; [exact Hlen|].
      eapply Forall_impl; [exact Hall|]. intros row. apply stored_from_incl.
      intros r Hr. right. exact Hr.
    + destruct (insert_one_grows _ _ _ _ _ Hone) as (Hg1 & Hl1 & Ha1).
      destruct (IH st1) as (added & Hgrew & Hlen & Hall).
      destruct (row_outcomes rest st1) as [os st']. cbn [fst snd] in *.
      exists (data ++ added). split; [eapply store_grew_trans; eassumption|].
      split.
      * rewrite length_app, Hl1. unfold count_inserted in *.
        cbn [List.filter snd length]. lia.
      * apply List.Forall_app. split.
        -- eapply Forall_impl; [exact Ha1|]. intros row. apply stored_from_incl.
           intros r [<- | []]. left. reflexivity.
        -- eapply Forall_impl; [exact Hall|]. intros row. apply stored_from_incl.
           intros r Hr. right. exact Hr.
Qed.

(** The offsets of the loop cut the records into consecutive batches. *)
Lemma range_slices_cover {A} (l : list A) (step fuel i : nat) :
  (0 < step)%nat -> (length l - i <= fuel)%nat ->
  concat (map (fun j => slice l j (j + step)) (range_from fuel i (length l) step))
  = drop i l.
Proof.
  intros Hstep. revert i. induction fuel as [|f IH]; intros i Hfuel; cbn [range_from].
  - cbn [map concat]. symmetry. apply drop_ge. lia.
  - destruct (Nat.ltb_spec i (length l)) as [Hlt|Hge].
    + cbn [map concat]. rewrite IH by lia. unfold slice.
      replace (i + step - i)%nat with step by lia.
      rewrite <- (drop_drop l step i). apply take_drop.
    + cbn [map concat]. symmetry. apply drop_ge. lia.
Qed.

Lemma batches_cover {A} (l : list A) :
  concat (map (fun j => slice l j (j + BATCH_SIZE)) (py_range (length l) BATCH_SIZE)) = l.
Proof.
  unfold py_range. rewrite range_slices_cover; [reflexivity | unfold BATCH_SIZE; lia | lia].
Qed.

Lemma import_batch_run (all_records : list dict) (stats : import_stats) (i : nat)
    (w : world) :
  exists stats' w' added,
    import_batch all_records stats i w = (inr stats', w') /\
    store_grew "inward_reinsurance" (w_store w) (w_store w') added /\
    Forall (stored_from (slice all_records i (i + BATCH_SIZE))) added /\
    w_stdin w' = w_stdin w /\
    records_inserted stats' = records_inserted stats + Z.of_nat (length added) /\
    records_errors stats' + Z.of_nat (length added)
    = records_errors stats + Z.of_nat (length (slice all_records i (i + BATCH_SIZE))) /\
    Z.of_nat (length (error_records stats')) - records_errors stats'
    = Z.of_nat (length (error_records stats)) - records_errors stats.
Proof.
  unfold import_batch. cbv zeta. unfold m_bind at 1.
  destruct (print_keeps (py "  Record batch " ++
              str_of_Z (Z.of_nat i / Z.of_nat BATCH_SIZE + 1) ++ py ": " ++
              str_of_Z (Z.of_nat i + 1) ++ py " - " ++
              str_of_Z (Z.min (Z.of_nat i + Z.of_nat BATCH_SIZE)
                          (Z.of_nat (length all_records))) ++ py "...") w)
    as (w1 & -> & Hst1 & Hin1).
  set (batch := slice all_records i (i + BATCH_SIZE)).
  unfold m_try at 1. unfold m_bind at 1. unfold db_insert_many at 1, with_store at 1.
  destruct (store_insert_many _ batch (w_store w1)) as [e|[data st1]] eqn:Hbulk.
  - cbn [any_exception]. unfold m_bind at 1.
    destruct (print_keeps (py "FAILED - retrying row by row...") w1)
      as (w2 & -> & Hst2 & Hin2).
    pose proof (retry_rows_outcomes batch stats w2) as Hr.
    pose proof (row_outcomes_grow batch (w_store w2)) as (added & Hgrew & Hlen & Hall).
    pose proof (row_outcomes_length batch (w_store w2)) as Hlength.
    destruct (row_outcomes batch (w_store w2)) as [os st']. cbn [fst snd] in *.
    rewrite Hr. eexists _, _, added. split; [reflexivity|].
    cbn [set_store w_store w_stdin records_inserted records_errors error_records].
    pose proof (outcomes_partition os) as Hpart. rewrite Hlength in Hpart.
    rewrite Hst2, Hst1 in Hgrew.
    split; [exact Hgrew|]. split; [exact Hall|]. split; [congruence|].
    split; [lia|]. split; [lia|].
    rewrite length_app. unfold count_failed in *. lia.
  - unfold m_bind at 1. unfold print at 1. unfold m_ret.
    destruct (insert_many_grows _ _ _ _ _ Hbulk) as (Hgrew & Hlen & Hall).
    eexists _, _, data. split; [reflexivity|].
    cbn [w_store w_stdin records_inserted records_errors error_records].
    rewrite Hst1 in Hgrew.
    split; [exact Hgrew|]. split; [exact Hall|]. split; [exact Hin1|].
    rewrite Hlen. split; [reflexivity|]. split; lia.
Qed.

Lemma import_loop_run (all_records : list dict) (offsets : list nat)
    (stats : import_stats) (w : world) :
  exists stats' w' added,
    m_for offsets stats (import_batch all_records) w = (inr stats', w') /\
    store_grew "inward_reinsurance" (w_store w) (w_store w') added /\
    Forall (stored_from
              (concat (map (fun j => slice all_records j (j + BATCH_SIZE)) offsets))) added /\
    w_stdin w' = w_stdin w /\
    records_inserted stats' = records_inserted stats + Z.of_nat (length added) /\
    records_errors stats' + Z.of_nat (length added)
    = records_errors stats
      + Z.of_nat (length (concat (map (fun j => slice all_records j (j + BATCH_SIZE))
                                    offsets))) /\
    Z.of_nat (length (error_records stats')) - records_errors stats'
    = Z.of_nat (length (error_records stats)) - records_errors stats.
Proof.
  revert stats w. induction offsets as [|i rest IH]; intros stats w; cbn [m_for].
  - unfold m_ret. exists stats, w, []. split; [reflexivity|].
    split; [apply store_grew_refl|]. split; [constructor|]. split; [reflexivity|].
    cbn [map concat length]. lia.
  - unfold m_bind.
    destruct (import_batch_run all_records stats i w)
      as (stats1 & w1 & a1 & -> & Hg1 & Ha1 & Hi1 & Hins1 & Herr1 & Hrec1).
    destruct (IH stats1 w1) as (stats2 & w2 & a2 & -> & Hg2 & Ha2 & Hi2 & Hins2 & Herr2 & Hrec2).
    exists stats2, w2, (a1 ++ a2). split; [reflexivity|].
    split; [eapply store_grew_trans; eassumption|].
    cbn [map concat]. split.
    { apply List.Forall_app. split.
      - eapply Forall_impl; [exact Ha1|]. intros row. apply stored_from_incl.
        intros r Hr. apply in_or_app. left. exact Hr.
      - eapply Forall_impl; [exact Ha2|]. intros row. apply stored_from_incl.
        intros r Hr. apply in_or_app. right. exact Hr. }
    split; [congruence|]. rewrite !length_app, !Nat2Z.inj_add. lia.
Qed.

(** X5.  The whole commit loop accounts for every record: it never
    raises, the inserted and the error counts add up to the number of
    records, there is one reported entry per error, and the store holds, after
    the rows the table had, exactly as many new rows as were counted, each one
    a record of the run with the id the store gave it; the other tables, the
    rows already there and the keyboard are left alone. *)
Theorem every_record_is_inserted_or_reported (all_records : list dict) (w : world) :
  exists stats w' added,
    import_records all_records w = (inr stats, w') /\
    records_inserted stats + records_errors stats = Z.of_nat (length all_records) /\
    Z.of_nat (length (error_records stats)) = records_errors stats /\
    records_inserted stats = Z.of_nat (length added) /\
    Forall (stored_from all_records) added /\
    (forall t, t <> "inward_reinsurance"%string ->
               st_tables (w_store w') !! t = st_tables (w_store w) !! t) /\
    match st_tables (w_store w) !! "inward_reinsurance"%string with
    | Some rows => st_tables (w_store w') !! "inward_reinsurance"%string = Some (rows ++ added)
    | None => st_tables (w_store w') !! "inward_reinsurance"%string = None /\ added = []
    end /\
    w_stdin w' = w_stdin w.
Proof.
  unfold import_records.
  destruct (import_loop_run all_records (py_range (length all_records) BATCH_SIZE)
              (mk_stats 0 0 []) w)
    as (stats & w' & added & Hrun & Hgrew & Hall & Hin & Hins & Herr & Hrec).
  rewrite batches_cover in Hall, Herr.
  cbn [records_inserted records_errors error_records length] in *.
  exists stats, w', added. split; [exact Hrun|].
  destruct Hgrew as (_ & _ & _ & Hother & Htable).
  split; [lia|]. split; [lia|]. split; [lia|]. split; [exact Hall|].
  split; [exact Hother|]. split; [exact Htable | exact Hin].
Qed.

End WholeImport.


(** ** Rollbacks that change nothing, and the rollback of an import *)

Section QuietRollback.
Import Production.

(** No row of the two tagged tables carries the batch id. *)
Definition batch_absent (b : pystr) (st : store) : Prop :=
  forall table rows,
    table = "inward_reinsurance"%string \/ table = "legal_entities"%string ->
    st_tables st !! table = Some rows ->
    Forall (fun r => r !! "import_batch_id"%string <> Some (VStr b)) rows.

Lemma rows_matching_none (b : pystr) (rows : list dict) :
  Forall (fun r => r !! "import_batch_id"%string <> Some (VStr b)) rows ->
  rows_matching "import_batch_id" b rows = [].
Proof.
  unfold rows_matching. induction 1 as [|r rest Hr _ IH]; [reflexivity|].
  cbn [List.filter]. destruct (row_matches "import_batch_id" b r) eqn:Hm; [|exact IH].
  apply row_matches_tag in Hm. contradiction.
Qed.

Lemma rows_matching_all (b : pystr) (rows : list dict) :
  Forall (fun r => r !! "import_batch_id"%string = Some (VStr b)) rows ->
  kept b rows = [].
Proof.
  unfold kept, rows_not_matching. induction 1 as [|r rest Hr _ IH]; [reflexivity|].
  cbn [List.filter]. apply row_matches_tag in Hr. rewrite Hr. exact IH.
Qed.

Lemma kept_all (b : pystr) (rows : list dict) :
  Forall (fun r => r !! "import_batch_id"%string <> Some (VStr b)) rows ->
  kept b rows = rows.
Proof.
  intros Hall. apply kept_no_match. rewrite rows_matching_none by exact Hall. reflexivity.
Qed.

(** One table of a rollback that finds no row of the batch: no prompt, no
    deletion. *)
Lemma rollback_table_absent (b : pystr) (table : string) (w : world) :
  (forall rows, st_tables (w_store w) !! table = Some rows ->
                Forall (fun r => r !! "import_batch_id"%string <> Some (VStr b)) rows) ->
  exists w',
    rollback_table b table w = (inr tt, w') /\
    w_store w' = w_store w /\ w_stdin w' = w_stdin w.
Proof.
  intros Habsent. destruct w as [nw tk sin sout st].
  unfold rollback_table, m_try, m_bind, print, db_count_eq, with_store, store_count_eq.
  cbn [w_store w_stdin w_stdout w_now w_ticks] in *.
  destruct (st_tables st !! table) as [rows|] eqn:Htable.
  - rewrite (rows_matching_none b rows (Habsent rows eq_refl)).
    cbn [length Z.of_nat Z.eqb]. eexists. repeat split.
  - cbn [any_exception]. eexists. repeat split.
Qed.

(** One table of a rollback whose prompt, if any, is not answered yes. *)
Lemma rollback_table_declined (b : pystr) (table : string) (w : world) :
  Forall (fun a => py_lower a <> py "yes") (w_stdin w) ->
  exists w',
    rollback_table b table w = (inr tt, w') /\
    w_store w' = w_store w /\
    Forall (fun a => py_lower a <> py "yes") (w_stdin w').
Proof.
  intros Hno. destruct w as [nw tk sin sout st].
  unfold rollback_table, m_try, m_bind, print, db_count_eq, with_store, store_count_eq.
  cbn [w_store w_stdin w_stdout w_now w_ticks] in *.
  destruct (st_tables st !! table) as [rows|] eqn:Htable.
  2:{ cbn [any_exception]. eexists. repeat split. exact Hno. }
  cbn [w_store w_stdin w_stdout w_now w_ticks].
  destruct (Z.of_nat (length (rows_matching "import_batch_id" b rows)) =? 0).
  { eexists. repeat split. exact Hno. }
  unfold input. cbn [w_store w_stdin w_stdout w_now w_ticks].
  destruct sin as [|answer rest].
  { cbn [any_exception]. eexists. repeat split. constructor. }
  apply List.Forall_cons_iff in Hno. destruct Hno as [Hanswer Hrest].
  destruct (pystr_eqb (py_lower answer) (py "yes")) eqn:Hyes; cbn [negb].
  { unfold pystr_eqb in Hyes. apply bool_decide_eq_true in Hyes. contradiction. }
  eexists. repeat split. exact Hrest.
Qed.

(** X6.  A rollback no prompt of which is answered yes (in any case)
    completes and leaves the whole store as it was. *)
Theorem declined_rollback_changes_nothing (batch_id : pystr) (w : world) :
  Forall (fun a => py_lower a <> py "yes") (w_stdin w) ->
  exists w', rollback_batch batch_id w = (inr true, w') /\ w_store w' = w_store w.
Proof.
  intros Hno. unfold rollback_batch. cbv zeta. unfold m_bind at 1.
  destruct (print_keeps ([0x0A%N] ++ py "Rolling back batch: " ++ batch_id) w) as (w1 & -> & Hs1 & Hi1).
  rewrite <- Hi1 in Hno.
  unfold m_bind at 1. cbn [m_for]. unfold m_bind at 1.
  destruct (rollback_table_declined batch_id "inward_reinsurance" w1 Hno)
    as (w2 & -> & Hs2 & Hno2).
  unfold m_bind at 1.
  destruct (rollback_table_declined batch_id "legal_entities" w2 Hno2)
    as (w3 & -> & Hs3 & Hno3).
  unfold m_ret at 1. unfold m_bind at 1.
  destruct (print_keeps ([0x0A%N] ++ py "Rollback complete!") w3) as (w4 & -> & Hs4 & Hi4).
  unfold m_ret. exists w4. split; [reflexivity | congruence].
Qed.

(** X7.  The rollback of a batch no row carries, an unknown id or a batch
    already rolled back, asks nothing and leaves the whole store as it was;
    and once its rows are deleted from a table no row of the table carries
    the batch. *)
Theorem absent_batch_rollback_is_silent (batch_id : pystr) (w : world) :
  batch_absent batch_id (w_store w) ->
  (exists w',
     rollback_batch batch_id w = (inr true, w') /\
     w_store w' = w_store w /\ w_stdin w' = w_stdin w) /\
  (forall rows,
     Forall (fun r => r !! "import_batch_id"%string <> Some (VStr batch_id))
       (kept batch_id rows)).
Proof.
  intros Habsent. split.
  - unfold rollback_batch. cbv zeta. unfold m_bind at 1.
    destruct (print_keeps ([0x0A%N] ++ py "Rolling back batch: " ++ batch_id) w)
      as (w1 & -> & Hs1 & Hi1).
    unfold m_bind at 1. cbn [m_for]. unfold m_bind at 1.
    destruct (rollback_table_absent batch_id "inward_reinsurance" w1)
      as (w2 & -> & Hs2 & Hi2).
    { intros rows Hrows. rewrite Hs1 in Hrows. eapply Habsent; [left; reflexivity | exact Hrows]. }
    unfold m_bind at 1.
    destruct (rollback_table_absent batch_id "legal_entities" w2)
      as (w3 & -> & Hs3 & Hi3).
    { intros rows Hrows. rewrite Hs2, Hs1 in Hrows.
      eapply Habsent; [right; reflexivity | exact Hrows]. }
    unfold m_ret at 1. unfold m_bind at 1.
    destruct (print_keeps ([0x0A%N] ++ py "Rollback complete!") w3) as (w4 & -> & Hs4 & Hi4).
    unfold m_ret. exists w4. split; [reflexivity|]. split; congruence.
  - intros rows. apply List.Forall_forall. intros r Hr.
    apply kept_spec in Hr. destruct Hr as [_ Hr]. exact Hr.
Qed.

Lemma with_id_keeps_tag (n : N) (r : dict) :
  with_id n r !! "import_batch_id"%string = r !! "import_batch_id"%string.
Proof.
  unfold with_id. destruct (r !! "id"%string); [reflexivity|].
  apply lookup_insert_ne. discriminate.
Qed.

Lemma kept_app (b : pystr) (rows added : list dict) :
  kept b (rows ++ added) = kept b rows ++ kept b added.
Proof. unfold kept, rows_not_matching. apply List.filter_app. Qed.

(** X8.  An import followed by the rollback of its batch gives the table
    back: when every record carries the batch id, no row of the table
    carried it before, the prompts are answered yes and the store accepts
    deletions, the table holds after the rollback exactly the rows it held
    before the import, and the tables the two steps do not name are as they
    were. *)
Theorem rollback_undoes_import (batch_id : pystr) (all_records rows : list dict)
    (w : world) :
  Forall (fun r => r !! "import_batch_id"%string = Some (VStr batch_id)) all_records ->
  st_tables (w_store w) !! "inward_reinsurance"%string = Some rows ->
  Forall (fun r => r !! "import_batch_id"%string <> Some (VStr batch_id)) rows ->
  all_confirmed w ->
  (forall t rs, st_reject_delete (w_store w) t rs = None) ->
  exists stats w1 w2,
    import_records all_records w = (inr stats, w1) /\
    rollback_batch batch_id w1 = (inr true, w2) /\
    st_tables (w_store w2) !! "inward_reinsurance"%string = Some rows /\
    (forall t, t <> "inward_reinsurance"%string -> t <> "legal_entities"%string ->
               st_tables (w_store w2) !! t = st_tables (w_store w) !! t).
Proof.
  intros Htagged Htable Hfresh [Hyes Hlen] Hnever.
  unfold import_records.
  destruct (import_loop_run all_records (py_range (length all_records) BATCH_SIZE)
              (mk_stats 0 0 []) w)
    as (stats & w1 & added & Hrun & Hgrew & Hall & Hin & _).
  rewrite batches_cover in Hall.
  destruct Hgrew as (_ & _ & Hdel & Hother & Hgrown). rewrite Htable in Hgrown.
  exists stats, w1. rewrite Hrun.
  assert (Hadded : Forall (fun r => r !! "import_batch_id"%string = Some (VStr batch_id)) added).
  { eapply Forall_impl; [exact Hall|]. intros row (n & r & Hr & ->).
    rewrite with_id_keeps_tag. rewrite Forall_forall in Htagged. apply Htagged.
    apply list_elem_of_In. exact Hr. }
  unfold rollback_batch. cbv zeta. unfold m_bind at 1.
  destruct (print_keeps ([0x0A%N] ++ py "Rolling back batch: " ++ batch_id) w1)
    as (w1' & -> & Hs1 & Hi1).
  unfold m_bind at 1. cbn [m_for]. unfold m_bind at 1.
  destruct (rollback_table_run batch_id "inward_reinsurance" w1')
    as (w2 & -> & _ & Hoth2 & _ & Hdel2).
  unfold m_bind at 1.
  destruct (rollback_table_run batch_id "legal_entities" w2)
    as (w3 & -> & _ & Hoth3 & _ & _).
  unfold m_ret at 1. unfold m_bind at 1.
  destruct (print_keeps ([0x0A%N] ++ py "Rollback complete!") w3) as (w4 & -> & Hs4 & Hi4).
  unfold m_ret. exists w4. split; [reflexivity|]. split; [reflexivity|].
  rewrite Hs4. split.
  - rewrite Hoth3 by discriminate.
    rewrite (Hdel2 (rows ++ added)).
    + rewrite kept_app, (kept_all _ _ Hfresh), (rows_matching_all _ _ Hadded), app_nil_r.
      reflexivity.
    + rewrite Hs1. exact Hgrown.
    + unfold confirms. rewrite Hi1, Hin.
      destruct (w_stdin w) as [|a rest]; [simpl in Hlen; lia|].
      exists a, rest. split; [reflexivity|]. inversion Hyes; assumption.
    + intros rs. rewrite Hs1, Hdel. apply Hnever.
  - intros t Hne1 Hne2. rewrite Hoth3, Hoth2 by congruence. rewrite Hs1. apply Hother.
    exact Hne1.
Qed.

End QuietRollback.

(** A rollback declined at both prompts. *)
Definition declined_world : world := example_world [py "no"; py "y"] two_imports.

Lemma declined_rollback_changes_nothing_witness :
  Forall (fun a => py_lower a <> py "yes") (w_stdin declined_world) /\
  exists w',
    Production.rollback_batch (py "ab12cd34") declined_world = (inr true, w') /\
    w_store w' = two_imports.
Proof.
  assert (Hno : Forall (fun a => py_lower a <> py "yes") (w_stdin declined_world)).
  { repeat constructor; vm_compute; discriminate. }
  split; [exact Hno|].
  exact (declined_rollback_changes_nothing (py "ab12cd34") declined_world Hno).
Defined.

Lemma two_imports_without_deadbeef : batch_absent (py "deadbeef") two_imports.
Proof.
  intros table rows [-> | ->] Hrows.
  - assert (Htable : st_tables two_imports !! "inward_reinsurance"%string
                     = Some [ untagged "C-0"; tagged "C-1" "ab12cd34"; tagged "C-2" "ffff0000";
                              tagged "C-3" "ab12cd34" ]) by by_evaluation.
    rewrite Htable in Hrows. injection Hrows as <-.
    repeat constructor; vm_compute; discriminate.
  - assert (Htable : st_tables two_imports !! "legal_entities"%string
                     = Some [ tagged "Acme" "ab12cd34"; untagged "Zenith" ]) by by_evaluation.
    rewrite Htable in Hrows. injection Hrows as <-.
    repeat constructor; vm_compute; discriminate.
Qed.

Lemma absent_batch_rollback_is_silent_witness :
  batch_absent (py "deadbeef") (w_store rollback_world) /\
  exists w',
    Production.rollback_batch (py "deadbeef") rollback_world = (inr true, w') /\
    w_store w' = two_imports /\ w_stdin w' = [py "yes"; py "YES"].
Proof.
  split; [exact two_imports_without_deadbeef|].
  exact (proj1 (absent_batch_rollback_is_silent (py "deadbeef") rollback_world
                  two_imports_without_deadbeef)).
Defined.

(** A table with one earlier row, and an import of two records of one
    batch. *)
Definition earlier_store : store :=
  open_store {[ "inward_reinsurance"%string := [ untagged "C-0" ] ]}.

Definition earlier_world : world := example_world [py "yes"; py "Yes"] earlier_store.

Definition batch_records : list dict := [ tagged "C-1" "ab12cd34"; tagged "C-2" "ab12cd34" ].

Lemma rollback_undoes_import_witness :
  Forall (fun r => r !! "import_batch_id"%string = Some (VStr (py "ab12cd34"))) batch_records /\
  st_tables (w_store earlier_world) !! "inward_reinsurance"%string = Some [ untagged "C-0" ] /\
  Forall (fun r => r !! "import_batch_id"%string <> Some (VStr (py "ab12cd34")))
    [ untagged "C-0" ] /\
  all_confirmed earlier_world /\
  exists stats w1 w2,
    Production.import_records batch_records earlier_world = (inr stats, w1) /\
    Production.rollback_batch (py "ab12cd34") w1 = (inr true, w2) /\
    st_tables (w_store w2) !! "inward_reinsurance"%string = Some [ untagged "C-0" ].
Proof.
  assert (Htagged : Forall (fun r => r !! "import_batch_id"%string = Some (VStr (py "ab12cd34")))
                      batch_records).
  { repeat constructor; by_evaluation. }
  assert (Htable : st_tables (w_store earlier_world) !! "inward_reinsurance"%string
                   = Some [ untagged "C-0" ]) by by_evaluation.
  assert (Hfresh : Forall (fun r => r !! "import_batch_id"%string <> Some (VStr (py "ab12cd34")))
                     [ untagged "C-0" ]).
  { repeat constructor; vm_compute; discriminate. }
  assert (Hconf : all_confirmed earlier_world).
  { split; [repeat constructor | simpl; lia]. }
  repeat (split; [assumption|]).
  destruct (rollback_undoes_import (py "ab12cd34") batch_records [ untagged "C-0" ]
              earlier_world Htagged Htable Hfresh Hconf (fun _ _ => eq_refl))
    as (stats & w1 & w2 & Himport & Hrollback & Hrows & _).
  exists stats, w1, w2. repeat split; assumption.
Defined.


(** ** The header row *)

Section HeaderRow.
Import Production.

(** Row [i] of the sheet has a header cell. *)
Definition header_at (rows : list (list value)) (i : nat) : Prop :=
  exists row, rows !! i = Some row /\ existsb is_header_cell row = true.

Lemma find_header_from_spec (rows : list (list value)) (start max_rows : nat) :
  (exists j,
     header_at rows j /\ (start + j < max_rows)%nat /\
     (forall i, (i < j)%nat -> ~ header_at rows i) /\
     find_header_from start rows max_rows = (start + j)%nat)
  \/
  ((forall j, (start + j < max_rows)%nat -> ~ header_at rows j) /\
   find_header_from start rows max_rows = 0%nat).
Proof.
  revert start. induction rows as [|row rest IH]; intros start; cbn [find_header_from].
  - right. split; [|reflexivity]. intros j _ (row & Hrow & _). discriminate.
  - destruct (Nat.leb_spec max_rows start) as [Hmax|Hmax].
    { right. split; [|reflexivity]. intros j Hj. lia. }
    destruct (existsb is_header_cell row) eqn:Hrow.
    { left. exists 0%nat. split; [exists row; auto|]. split; [lia|].
      split; [intros i Hi; lia|]. lia. }
    destruct (IH (S start)) as [(j & (r & Hr & Hh) & Hlt & Hmin & ->) | (Hnone & ->)].
    + left. exists (S j). split; [exists r; auto|]. split; [lia|].
      split; [|lia]. intros [|i] Hi (r' & Hr' & Hh').
      * cbn in Hr'. injection Hr' as <-. congruence.
      * apply (Hmin i ltac:(lia)). exists r'. auto.
    + right. split; [|reflexivity]. intros [|j] Hj (r' & Hr' & Hh').
      * cbn in Hr'. injection Hr' as <-. congruence.
      * apply (Hnone j ltac:(lia)). exists r'. auto.
Qed.

(** X9.  The header row is the first of the first [max_rows] rows with a
    cell that holds "insured" or "застрахован" (in any case); when there is
    none, and also when the sheet is empty, the answer is row 0, which a
    header found in row 0 gives as well. *)
Theorem header_row_is_first_match (rows : list (list value)) (max_rows : nat) :
  let h := find_header_row rows max_rows in
  (forall i, (i < max_rows)%nat -> header_at rows i ->
     header_at rows h /\ (h <= i)%nat /\ (h < max_rows)%nat) /\
  ((forall i, (i < max_rows)%nat -> ~ header_at rows i) -> h = 0%nat) /\
  (h = 0%nat \/ (h < length rows)%nat).
Proof.
  cbv zeta. unfold find_header_row.
  destruct (find_header_from_spec rows 0 max_rows)
    as [(j & Hj & Hlt & Hmin & ->) | (Hnone & ->)]; cbn [Nat.add] in *.
  - split; [|split].
    + intros i Hi Hheader. split; [exact Hj|]. split; [|exact Hlt].
      destruct (Nat.le_gt_cases j i) as [Hle|Hgt]; [exact Hle|].
      exfalso. exact (Hmin i Hgt Hheader).
    + intros Hnone. exfalso. exact (Hnone j Hlt Hj).
    + right. destruct Hj as (row & Hrow & _). eapply lookup_lt_Some. exact Hrow.
  - split; [|split].
    + intros i Hi Hheader. exfalso. exact (Hnone i Hi Hheader).
    + reflexivity.
    + left. reflexivity.
Qed.

(** A sheet with a title row, a header row and a data row. *)
Definition titled_sheet : list (list value) :=
  [[VStr (py "Portfolio 2024")]; [VNone; VStr (py "Original Insured")]; [VStr (py "Acme")]].

Lemma header_row_is_first_match_witness :
  header_at titled_sheet 1 /\
  header_at titled_sheet (find_header_row titled_sheet 15) /\
  (find_header_row titled_sheet 15 <= 1)%nat.
Proof.
  assert (Hat : header_at titled_sheet 1) by (eexists; split; reflexivity).
  split; [exact Hat|].
  destruct (header_row_is_first_match titled_sheet 15) as (Hfirst & _ & _).
  cbv zeta in Hfirst. destruct (Hfirst 1%nat ltac:(lia) Hat) as (Hh & Hle & _).
  split; assumption.
Defined.

End HeaderRow.


(** ** What a parsed record holds *)

Section RecordContract.
Import Production.

Lemma determine_origin_values (territory currency : option pystr) :
  determine_origin territory currency = py "DOMESTIC"
  \/ determine_origin territory currency = py "FOREIGN".
Proof.
  unfold determine_origin.
  repeat match goal with
         | |- context [match ?x with _ => _ end] => destruct x
         end; auto.
Qed.

Lemma parse_structure_values (v : value) :
  parse_structure v = py "PROPORTIONAL" \/ parse_structure v = py "NON_PROPORTIONAL".
Proof.
  unfold parse_structure. destruct v; auto; destruct (_ || _); auto.
Qed.

Lemma derived_fields_sets (record : dict) (row_number : Z) (sheet_name batch_id : pystr)
    (w : world) :
  (exists o, text_if_truthy (dict_get record "territory") = inr o) ->
  (exists o, text_if_truthy (dict_get record "currency") = inr o) ->
  exists derived,
    derived_fields record row_number sheet_name batch_id w = (inr derived, w) /\
    (forall k, ~ In k derived_names -> derived !! k = record !! k) /\
    derived !! "import_batch_id"%string = Some (VStr batch_id) /\
    derived !! "import_source"%string
    = Some (VStr (py "Excel:" ++ sheet_name ++ py ":Row" ++ str_of_Z row_number)) /\
    derived !! "type"%string = Some (VStr (py "FAC")) /\
    derived !! "status"%string = Some (VStr (py "ACTIVE")) /\
    derived !! "cedant_country"%string = Some (dict_get record "territory") /\
    (derived !! "origin"%string = Some (VStr (py "DOMESTIC"))
     \/ derived !! "origin"%string = Some (VStr (py "FOREIGN"))).
Proof.
  intros (t & Ht) (cur & Hc). unfold derived_fields, m_bind, m_lift, m_ret.
  rewrite Ht, Hc. cbv zeta. eexists. split; [reflexivity|].
  split.
  { intros k Hk. unfold derived_names in Hk. cbn [In] in Hk.
    rewrite !dict_set_ne by (intros <-; apply Hk; tauto). reflexivity. }
  repeat (split;
          [repeat first [ rewrite dict_set_eq | rewrite dict_set_ne by discriminate ];
           unfold dict_get;
           repeat first [ rewrite dict_set_eq | rewrite dict_set_ne by discriminate ];
           reflexivity|]).
  destruct (determine_origin_values t cur) as [-> | ->]; [left | right];
    repeat first [ rewrite dict_set_eq | rewrite dict_set_ne by discriminate ];
    reflexivity.
Qed.

Lemma extract_year_int (sheet_name : pystr) (w : world) :
  exists y n, extract_year_from_sheet_name sheet_name w = (inr (VInt y), tick n w).
Proof.
  unfold extract_year_from_sheet_name.
  destruct (search_year sheet_name) as [found|] eqn:Hs.
  - destruct (search_year_reads _ _ Hs) as (y & Hy). unfold m_bind, m_lift, m_ret.
    rewrite Hy. exists y, 0%nat. rewrite tick_0. reflexivity.
  - unfold m_bind, m_ret. rewrite now_run. eauto.
Qed.

Lemma uw_year_sets (record : dict) (sheet_name : pystr) (w : world) :
  exists dated n y,
    uw_year record sheet_name w = (inr dated, tick n w) /\
    dated !! "uw_year"%string = Some (VInt y) /\
    forall k, k <> "uw_year"%string -> dated !! k = record !! k.
Proof.
  assert (Hsheet : exists dated n y,
             m_bind (extract_year_from_sheet_name sheet_name)
               (fun y => m_ret (dict_set record "uw_year" y)) w = (inr dated, tick n w) /\
             dated !! "uw_year"%string = Some (VInt y) /\
             forall k, k <> "uw_year"%string -> dated !! k = record !! k).
  { destruct (extract_year_int sheet_name w) as (y & n & Hy). unfold m_bind, m_ret.
    rewrite Hy. eexists _, n, y. split; [reflexivity|]. split; [apply dict_set_eq|].
    intros k Hk. apply dict_set_ne. congruence. }
  unfold uw_year. destruct (truthy (dict_get record "inception_date")) eqn:Htruthy;
    [|exact Hsheet].
  unfold m_try, m_bind at 1, m_lift at 1, dict_item.
  unfold dict_get in Htruthy.
  destruct (record !! "inception_date"%string) as [inception|]; [|discriminate].
  unfold m_bind at 1, m_lift at 1.
  destruct (text_prefix 4 inception) as [e|head4] eqn:Hhead.
  { destruct inception; try discriminate; revert Hhead; intros [= <-]; exact Hsheet. }
  unfold m_bind at 1, m_lift at 1.
  destruct (int_of_str head4) as [e|year] eqn:Hyear.
  { rewrite (int_of_str_error _ _ Hyear). exact Hsheet. }
  unfold m_ret. eexists _, 0%nat, year. rewrite tick_0. split; [reflexivity|].
  split; [apply dict_set_eq|]. intros k Hk. apply dict_set_ne. congruence.
Qed.

Lemma columns_read_structure (row : list value) :
  columns_read row !! "structure"%string
  = Some (VStr (parse_structure (get_cell_value row STRUCTURE_COLUMN))).
Proof.
  unfold columns_read, structure_and_notes. cbv zeta.
  rewrite dict_set_ne by discriminate. apply dict_set_eq.
Qed.

(** The three stages of a row that is not skipped. *)
Lemma parse_row_stages (row : list value) (row_number : Z) (sheet_name batch_id : pystr)
    (w : world) :
  Forall cell_ok row -> clock_ok w ->
  (is_empty_row (columns_read row) = true /\
   parse_row row row_number sheet_name batch_id w = (inr None, w))
  \/
  (is_empty_row (columns_read row) = false /\
   exists r1 r2 r3 n,
     derived_fields (columns_read row) row_number sheet_name batch_id w = (inr r1, w) /\
     uw_year r1 sheet_name w = (inr r2, tick n w) /\
     required_fallbacks r2 row_number sheet_name (tick n w) = (inr r3, tick (n + 2) w) /\
     parse_row row row_number sheet_name batch_id w = (inr (Some r3), tick (n + 2) w)).
Proof.
  intros Hok Hclock.
  assert (Hrun : parse_row row row_number sheet_name batch_id w
                 = (if is_empty_row (columns_read row) then m_ret None
                    else
                      (record <- derived_fields (columns_read row) row_number sheet_name
                                   batch_id ;;
                       record <- uw_year record sheet_name ;;
                       record <- required_fallbacks record row_number sheet_name ;;
                       m_ret (Some record))%M) w).
  { unfold parse_row. cbv zeta. unfold m_bind at 1. rewrite date_columns_run.
    unfold m_bind at 1. rewrite (numeric_columns_run _ _ _ Hok). reflexivity. }
  rewrite Hrun.
  destruct (is_empty_row (columns_read row)) eqn:Hempty; [left; auto|]. right.
  split; [reflexivity|].
  destruct (derived_fields_run (columns_read row) row_number sheet_name batch_id w)
    as (r1 & Hr1 & _).
  { unfold dict_get. rewrite (columns_read_text row 16 "territory") by (cbn; tauto).
    apply text_cell_reads. }
  { unfold dict_get. rewrite (columns_read_text row 19 "currency") by (cbn; tauto).
    apply text_cell_reads. }
  destruct (uw_year_run r1 sheet_name w) as (r2 & n & Hr2 & _).
  destruct (required_fallbacks_run r2 row_number sheet_name (tick n w) Hclock)
    as (r3 & Hr3 & _).
  rewrite tick_tick in Hr3.
  exists r1, r2, r3, n. split; [exact Hr1|]. split; [exact Hr2|]. split; [exact Hr3|].
  unfold m_bind at 1. rewrite Hr1. unfold m_bind at 1. rewrite Hr2.
  unfold m_bind at 1. rewrite Hr3. reflexivity.
Qed.

Lemma text_cell_shape (row : list value) (c : nat) :
  text_cell row c = VNone \/ exists s, text_cell row c = VStr s.
Proof. unfold text_cell. destruct (truthy _); eauto. Qed.

Lemma opt_str_shape (o : option pystr) : opt_str o = VNone \/ exists s, opt_str o = VStr s.
Proof. destruct o; cbn; eauto. Qed.

Lemma py_or_text (v : value) (d : pystr) :
  v = VNone \/ (exists s, v = VStr s) -> d <> [] ->
  exists s, Some (py_or (default VNone (Some v)) (VStr d)) = Some (VStr s) /\ s <> [].
Proof.
  cbn [default from_option id].
  intros [-> | (s & ->)] Hd; unfold py_or; cbn [truthy].
  - eauto.
  - destruct s as [|c r]; [eauto|]. exists (c :: r). split; [reflexivity | discriminate].
Qed.

Lemma if_none_present (v d : value) : d <> VNone -> if_none v d <> VNone.
Proof. intros Hd. unfold if_none. destruct v; cbn [is_none]; congruence. Qed.

Definition required_text : list string :=
  ["contract_number"; "cedant_name"; "type_of_cover"; "class_of_cover"; "inception_date";
   "expiry_date"; "currency"]%string.

Definition required_numbers : list string :=
  ["limit_of_liability"; "gross_premium"; "our_share"]%string.

(** A required amount after its fallback: the float of the cell, or the
    integer of the fallback. *)
Lemma if_none_number (o : option float) (z : Z) :
  let v := if_none (default VNone (Some (opt_float o))) (VInt z) in
  v <> VNone /\ ((exists x, v = VFloat x) \/ (exists z', v = VInt z' /\ Some (VInt z) = Some v)).
Proof.
  cbv zeta. destruct o as [x|]; cbn.
  - split; [discriminate|]. left. exists x. reflexivity.
  - split; [discriminate|]. right. exists z. split; reflexivity.
Qed.

Ltac from_columns Hkeep2 Hkeep1 :=
  unfold dict_get;
  rewrite Hkeep2 by discriminate;
  rewrite Hkeep1 by (unfold derived_names; cbn [In]; intuition discriminate).

(** X10.  What [parse_row] hands over for a row it does not skip (the
    cells as the reader gives them, the clock a year short of the end of the
    calendar): the record carries the batch id and names its sheet and row,
    is a FAC record with status ACTIVE, has DOMESTIC or FOREIGN as origin and
    PROPORTIONAL or NON_PROPORTIONAL as structure, an integer underwriting
    year, the territory as cedant country, a non-empty text in each of the
    seven required text and date fields and a number in each of the three
    required amounts: the float its cell reads as, or else the integer of the
    fallback (0 for the limit of liability and the gross premium, 100 for our
    share). *)
Theorem parsed_record_is_complete (row : list value) (row_number : Z)
    (sheet_name batch_id : pystr) (w : world) :
  Forall cell_ok row -> clock_ok w ->
  exists result n,
    parse_row row row_number sheet_name batch_id w = (inr result, tick n w) /\
    forall record, result = Some record ->
      record !! "import_batch_id"%string = Some (VStr batch_id) /\
      record !! "import_source"%string
      = Some (VStr (py "Excel:" ++ sheet_name ++ py ":Row" ++ str_of_Z row_number)) /\
      record !! "type"%string = Some (VStr (py "FAC")) /\
      record !! "status"%string = Some (VStr (py "ACTIVE")) /\
      (record !! "origin"%string = Some (VStr (py "DOMESTIC"))
       \/ record !! "origin"%string = Some (VStr (py "FOREIGN"))) /\
      (record !! "structure"%string = Some (VStr (py "PROPORTIONAL"))
       \/ record !! "structure"%string = Some (VStr (py "NON_PROPORTIONAL"))) /\
      (exists y, record !! "uw_year"%string = Some (VInt y)) /\
      record !! "cedant_country"%string = record !! "territory"%string /\
      (forall k, In k required_text -> exists s, record !! k = Some (VStr s) /\ s <> []) /\
      (forall k, In k required_numbers ->
         exists v,
           record !! k = Some v /\ v <> VNone /\
           ((exists x, v = VFloat x) \/ (exists z, v = VInt z /\ number_fallback k = Some v))).
Proof.
  intros Hok Hclock.
  destruct (parse_row_stages row row_number sheet_name batch_id w Hok Hclock)
    as [(_ & Hrun) | (_ & r1 & r2 & r3 & n & Hr1 & Hr2 & Hr3 & Hrun)].
  { exists None, 0%nat. rewrite tick_0. split; [exact Hrun | discriminate]. }
  exists (Some r3), (n + 2)%nat. split; [exact Hrun|]. intros record [= <-].
  destruct (derived_fields_sets (columns_read row) row_number sheet_name batch_id w)
    as (d1 & Hd1 & Hkeep1 & Hbatch & Hsource & Htype & Hstatus & Hcountry & Horigin).
  { unfold dict_get. rewrite (columns_read_text row 16 "territory") by (cbn; tauto).
    apply text_cell_reads. }
  { unfold dict_get. rewrite (columns_read_text row 19 "currency") by (cbn; tauto).
    apply text_cell_reads. }
  rewrite Hr1 in Hd1. injection Hd1 as <-.
  destruct (uw_year_sets r1 sheet_name w) as (d2 & n2 & y & Hd2 & Hyear & Hkeep2).
  rewrite Hr2 in Hd2. injection Hd2 as <- _.
  destruct (required_fallbacks_run r2 row_number sheet_name (tick n w) Hclock)
    as (d3 & Hd3 & Htext & Hdate & Hnum & Hrest).
  rewrite tick_tick, Hr3 in Hd3. injection Hd3 as <-.
  assert (Hsame : forall k,
             text_fallback sheet_name row_number k = None -> number_fallback k = None ->
             k <> "inception_date"%string -> k <> "expiry_date"%string ->
             k <> "uw_year"%string -> r3 !! k = r1 !! k).
  { intros k H1 H2 H3 H4 H5. rewrite Hrest, Hkeep2 by assumption. reflexivity. }
  split; [rewrite Hsame by first [reflexivity | discriminate]; exact Hbatch|].
  split; [rewrite Hsame by first [reflexivity | discriminate]; exact Hsource|].
  split; [rewrite Hsame by first [reflexivity | discriminate]; exact Htype|].
  split; [rewrite Hsame by first [reflexivity | discriminate]; exact Hstatus|].
  split; [rewrite Hsame by first [reflexivity | discriminate]; exact Horigin|].
  split.
  { rewrite Hsame by first [reflexivity | discriminate].
    rewrite Hkeep1 by (unfold derived_names; cbn [In]; intuition discriminate).
    rewrite columns_read_structure.
    destruct (parse_structure_values (get_cell_value row STRUCTURE_COLUMN)) as [-> | ->];
      auto. }
  split.
  { exists y. rewrite Hrest by first [reflexivity | discriminate]. exact Hyear. }
  split.
  { rewrite !Hsame by first [reflexivity | discriminate]. rewrite Hcountry.
    rewrite Hkeep1 by (unfold derived_names; cbn [In]; intuition discriminate).
    unfold dict_get. rewrite (columns_read_text row 16 "territory") by (cbn; tauto).
    reflexivity. }
  split.
  - intros k Hk. unfold required_text in Hk. cbn [In] in Hk.
    destruct Hk as [<- | [<- | [<- | [<- | [<- | [<- | [<- | []]]]]]]].
    + rewrite (Htext "contract_number"%string _ eq_refl). from_columns Hkeep2 Hkeep1.
      rewrite (columns_read_text row 7 "contract_number") by (cbn; tauto).
      apply py_or_text; [apply text_cell_shape | discriminate].
    + rewrite (Htext "cedant_name"%string _ eq_refl). from_columns Hkeep2 Hkeep1.
      rewrite (columns_read_text row 5 "cedant_name") by (cbn; tauto).
      apply py_or_text; [apply text_cell_shape | discriminate].
    + rewrite (Htext "type_of_cover"%string _ eq_refl). from_columns Hkeep2 Hkeep1.
      rewrite (columns_read_text row 11 "type_of_cover") by (cbn; tauto).
      apply py_or_text; [apply text_cell_shape | discriminate].
    + rewrite (Htext "class_of_cover"%string _ eq_refl). from_columns Hkeep2 Hkeep1.
      rewrite (columns_read_text row 12 "class_of_cover") by (cbn; tauto).
      apply py_or_text; [apply text_cell_shape | discriminate].
    + destruct (Hdate "inception_date"%string (or_introl eq_refl)) as (t & ->).
      from_columns Hkeep2 Hkeep1.
      rewrite (columns_read_date row 25 "inception_date") by (cbn; tauto).
      apply py_or_text; [apply opt_str_shape|].
      pose proof (strftime_ymd_truthy (w_now (tick n w) t)) as Hne.
      unfold date_fallback. rewrite decide_True by reflexivity.
      intros Hnil. rewrite Hnil in Hne. discriminate.
    + destruct (Hdate "expiry_date"%string (or_intror eq_refl)) as (t & ->).
      from_columns Hkeep2 Hkeep1.
      rewrite (columns_read_date row 26 "expiry_date") by (cbn; tauto).
      apply py_or_text; [apply opt_str_shape|].
      pose proof (strftime_ymd_truthy (a_year_after (w_now (tick n w) t))) as Hne.
      unfold date_fallback. rewrite decide_False by discriminate.
      intros Hnil. rewrite Hnil in Hne. discriminate.
    + rewrite (Htext "currency"%string _ eq_refl). from_columns Hkeep2 Hkeep1.
      rewrite (columns_read_text row 19 "currency") by (cbn; tauto).
      apply py_or_text; [apply text_cell_shape | discriminate].
  - intros k Hk. unfold required_numbers in Hk. cbn [In] in Hk.
    destruct Hk as [<- | [<- | [<- | []]]].
    + rewrite (Hnum "limit_of_liability"%string _ eq_refl). eexists. split; [reflexivity|].
      from_columns Hkeep2 Hkeep1.
      rewrite (columns_read_number row 32 "limit_of_liability") by (cbn; tauto).
      apply if_none_number.
    + rewrite (Hnum "gross_premium"%string _ eq_refl). eexists. split; [reflexivity|].
      from_columns Hkeep2 Hkeep1.
      rewrite (columns_read_number row 41 "gross_premium") by (cbn; tauto).
      apply if_none_number.
    + rewrite (Hnum "our_share"%string _ eq_refl). eexists. split; [reflexivity|].
      from_columns Hkeep2 Hkeep1.
      rewrite (columns_read_number row 39 "our_share") by (cbn; tauto).
      apply if_none_number.
Qed.

End RecordContract.

Lemma parsed_record_is_complete_witness :
  Forall cell_ok garbled_row /\ clock_ok (example_world [] (open_store ∅)) /\
  exists record n,
    garbled_run = (inr (Some record), tick n (example_world [] (open_store ∅))) /\
    record !! "import_batch_id"%string = Some (VStr (py "batch-1")) /\
    record !! "type"%string = Some (VStr (py "FAC")) /\
    record !! "status"%string = Some (VStr (py "ACTIVE")).
Proof.
  split; [exact garbled_row_ok|]. split; [apply example_clock_ok|].
  destruct (parsed_record_is_complete garbled_row 7 (py "2024") (py "batch-1")
              (example_world [] (open_store ∅)) garbled_row_ok (example_clock_ok _ _))
    as (result & n & Hrun & Hrecord).
  assert (Hsome : result = Some (record_of garbled_run)).
  { generalize garbled_runs. unfold garbled_run at 1. rewrite Hrun. congruence. }
  destruct (Hrecord _ Hsome) as (Hbatch & _ & Htype & Hstatus & _).
  exists (record_of garbled_run), n. unfold garbled_run at 1. rewrite Hrun, Hsome.
  repeat split; assumption.
Defined.


(** ** Computations that leave the store and the keyboard alone *)

Section Quiet.

(** Whatever its outcome, [c] neither writes to the store nor reads the
    keyboard. *)
Definition quiet {A} (c : M A) : Prop :=
  forall w, w_store (snd (c w)) = w_store w /\ w_stdin (snd (c w)) = w_stdin w.

Lemma quiet_ret {A} (a : A) : quiet (m_ret a).
Proof. intros w. split; reflexivity. Qed.

Lemma quiet_lift {A} (c : Exc A) : quiet (m_lift c).
Proof. intros w. split; reflexivity. Qed.

Lemma quiet_now : quiet now.
Proof. intros w. split; reflexivity. Qed.

Lemma quiet_print (line : pystr) : quiet (print line).
Proof. intros w. split; reflexivity. Qed.

Lemma quiet_bind {A B} (c : M A) (k : A -> M B) :
  quiet c -> (forall a, quiet (k a)) -> quiet (m_bind c k).
Proof.
  intros Hc Hk w. unfold m_bind. specialize (Hc w).
  destruct (c w) as [[e|a] w1]; cbn [snd] in *; [exact Hc|].
  destruct Hc as [Hcs Hci]. destruct (Hk a w1) as [Hs Hi]. split; congruence.
Qed.

Lemma quiet_try {A} (c : M A) (handles : exn -> bool) (h : exn -> M A) :
  quiet c -> (forall e, quiet (h e)) -> quiet (m_try c handles h).
Proof.
  intros Hc Hh w. unfold m_try. specialize (Hc w).
  destruct (c w) as [[e|a] w1]; cbn [snd] in *; [|exact Hc].
  destruct (handles e); [|exact Hc].
  destruct Hc as [Hcs Hci]. destruct (Hh e w1) as [Hs Hi]. split; congruence.
Qed.

Lemma quiet_for {A B} (xs : list A) (acc : B) (body : B -> A -> M B) :
  (forall acc x, quiet (body acc x)) -> quiet (m_for xs acc body).
Proof.
  intros Hbody. revert acc. induction xs as [|x rest IH]; intros acc; cbn [m_for].
  - apply quiet_ret.
  - apply quiet_bind; [apply Hbody | intros acc'; apply IH].
Qed.

Lemma quiet_if {A} (b : bool) (c1 c2 : M A) :
  quiet c1 -> quiet c2 -> quiet (if b then c1 else c2).
Proof. destruct b; auto. Qed.

(** What a loop that ends well has accumulated. *)
Lemma m_for_inv {A B} (P : B -> Prop) (xs : list A) (body : B -> A -> M B) :
  (forall acc x w acc' w', In x xs -> body acc x w = (inr acc', w') -> P acc -> P acc') ->
  forall acc w r w', P acc -> m_for xs acc body w = (inr r, w') -> P r.
Proof.
  induction xs as [|x rest IH]; intros Hbody acc w r w' Hacc; cbn [m_for].
  - intros Hret. apply m_ret_inv in Hret. destruct Hret as [<- _]. exact Hacc.
  - intros Hrun. apply m_bind_inv in Hrun. destruct Hrun as (acc1 & w1 & Hstep & Hrest).
    eapply IH; [| |exact Hrest].
    + intros a y v a' v' Hy. apply Hbody. right. exact Hy.
    + eapply Hbody; [left; reflexivity | exact Hstep | exact Hacc].
Qed.

End Quiet.

(** ** The pass over the sheets *)

Section Sheets.
Import Production.

Lemma quiet_parse_row (row : list value) (row_number : Z) (sheet_name batch_id : pystr) :
  quiet (parse_row row row_number sheet_name batch_id).
Proof.
  unfold parse_row. cbv zeta.
  apply quiet_bind.
  { unfold date_columns. apply quiet_for. intros acc [c k].
    apply quiet_bind; [apply quiet_lift | intros d; apply quiet_ret]. }
  intros r1. apply quiet_bind.
  { unfold numeric_columns. apply quiet_for. intros acc [c k].
    apply quiet_bind; [apply quiet_lift | intros d; apply quiet_ret]. }
  intros r2. apply quiet_if; [apply quiet_ret|].
  apply quiet_bind.
  { unfold derived_fields. apply quiet_bind; [apply quiet_lift|]. intros t.
    apply quiet_bind; [apply quiet_lift|]. intros cur. apply quiet_ret. }
  intros r3. apply quiet_bind.
  { assert (Hsheet : forall r, quiet (m_bind (extract_year_from_sheet_name sheet_name)
                                        (fun y => m_ret (dict_set r "uw_year" y)))).
    { intros r. apply quiet_bind; [|intros y; apply quiet_ret].
      unfold extract_year_from_sheet_name. destruct (search_year sheet_name).
      - apply quiet_bind; [apply quiet_lift | intros y; apply quiet_ret].
      - apply quiet_bind; [apply quiet_now | intros y; apply quiet_ret]. }
    unfold uw_year. apply quiet_if; [|apply Hsheet].
    apply quiet_try; [|intros e; apply Hsheet].
    apply quiet_bind; [apply quiet_lift|]. intros i.
    apply quiet_bind; [apply quiet_lift|]. intros h.
    apply quiet_bind; [apply quiet_lift|]. intros y. apply quiet_ret. }
  intros r4. apply quiet_bind; [|intros r5; apply quiet_ret].
  unfold required_fallbacks. cbv zeta.
  apply quiet_bind; [apply quiet_now|]. intros t1.
  apply quiet_bind; [apply quiet_now|]. intros t2.
  apply quiet_bind; [apply quiet_lift|]. intros delta.
  apply quiet_bind; [apply quiet_lift|]. intros t2'. apply quiet_ret.
Qed.

Lemma derived_fields_inv (record : dict) (row_number : Z) (sheet_name batch_id : pystr)
    (w w' : world) (derived : dict) :
  derived_fields record row_number sheet_name batch_id w = (inr derived, w') ->
  derived !! "import_batch_id"%string = Some (VStr batch_id) /\
  derived !! "import_source"%string
  = Some (VStr (py "Excel:" ++ sheet_name ++ py ":Row" ++ str_of_Z row_number)).
Proof.
  unfold derived_fields, m_bind, m_lift, m_ret.
  destruct (text_if_truthy (dict_get record "territory")) as [e|t]; [discriminate|].
  destruct (text_if_truthy (dict_get record "currency")) as [e|cur]; [discriminate|].
  cbv zeta. intros [= <- _].
  split; repeat first [ rewrite dict_set_eq | rewrite dict_set_ne by discriminate ];
    reflexivity.
Qed.

Lemma required_fallbacks_keeps (record : dict) (row_number : Z) (sheet_name : pystr)
    (w w' : world) (filled : dict) :
  required_fallbacks record row_number sheet_name w = (inr filled, w') ->
  forall k, text_fallback sheet_name row_number k = None ->
            number_fallback k = None ->
            k <> "inception_date"%string -> k <> "expiry_date"%string ->
            filled !! k = record !! k.
Proof.
  unfold required_fallbacks. cbv zeta. unfold m_bind at 1.
  rewrite now_run. unfold m_bind at 1. rewrite now_run.
  unfold m_bind at 1, m_lift at 1.
  change (timedelta_days 365) with (@inr exn Z 365).
  unfold m_bind at 1, m_lift at 1.
  destruct (datetime_add_days _ 365) as [e|t2']; [discriminate|].
  unfold m_ret. intros [= <- _] k. unfold text_fallback, number_fallback.
  repeat case_decide; try discriminate. intros _ _ Hi He.
  repeat first
    [ rewrite set_if_falsy_other by congruence
    | rewrite set_if_none_other by congruence ].
  reflexivity.
Qed.

(** A record [parse_row] returns carries the batch and names its source. *)
Lemma parse_row_tagged (row : list value) (row_number : Z) (sheet_name batch_id : pystr)
    (w w' : world) (record : dict) :
  parse_row row row_number sheet_name batch_id w = (inr (Some record), w') ->
  record !! "import_batch_id"%string = Some (VStr batch_id) /\
  record !! "import_source"%string
  = Some (VStr (py "Excel:" ++ sheet_name ++ py ":Row" ++ str_of_Z row_number)).
Proof.
  unfold parse_row. cbv zeta. intros Hrun.
  apply m_bind_inv in Hrun. destruct Hrun as (c1 & w1 & _ & Hrun).
  apply m_bind_inv in Hrun. destruct Hrun as (c2 & w2 & _ & Hrun).
  destruct (is_empty_row _).
  { apply m_ret_inv in Hrun. destruct Hrun as [Hrun _]. discriminate. }
  apply m_bind_inv in Hrun. destruct Hrun as (r1 & w3 & Hderived & Hrun).
  apply m_bind_inv in Hrun. destruct Hrun as (r2 & w4 & Hyear & Hrun).
  apply m_bind_inv in Hrun. destruct Hrun as (r3 & w5 & Hfilled & Hrun).
  apply m_ret_inv in Hrun. destruct Hrun as [[= <-] _].
  apply derived_fields_inv in Hderived. destruct Hderived as [Hbatch Hsource].
  destruct (uw_year_run r1 sheet_name w3) as (dated & n & Hdated & Hkeep).
  rewrite Hdated in Hyear. injection Hyear as <- _.
  pose proof (required_fallbacks_keeps _ _ _ _ _ _ Hfilled) as Hrest.
  split.
  - rewrite Hrest by first [reflexivity | discriminate].
    rewrite Hkeep by discriminate. exact Hbatch.
  - rewrite Hrest by first [reflexivity | discriminate].
    rewrite Hkeep by discriminate. exact Hsource.
Qed.

(** A sheet the pass leaves out for its name. *)
Definition skipped (sheet_name : pystr) : bool :=
  existsb (fun skip => py_in skip (py_lower sheet_name)) SKIP_WORDS.

(** A record of sheet [sheet_name] of batch [b]: it carries the batch and
    names the sheet and a row after the first. *)
Definition from_sheet (b sheet_name : pystr) (r : dict) : Prop :=
  r !! "import_batch_id"%string = Some (VStr b) /\
  exists row_number,
    2 <= row_number /\
    r !! "import_source"%string
    = Some (VStr (py "Excel:" ++ sheet_name ++ py ":Row" ++ str_of_Z row_number)).

Definition from_sheets (wb : workbook) (b : pystr) (r : dict) : Prop :=
  exists sheet_name,
    In sheet_name (wb_sheets wb) /\ skipped sheet_name = false /\ from_sheet b sheet_name r.

Definition sum_counts (stats : list (pystr * Z)) : Z := fold_right Z.add 0 (map snd stats).

Lemma count_set_keys (stats : list (pystr * Z)) (k : pystr) (v : Z) (k' : pystr) :
  In k' (map fst (count_set stats k v)) -> k' = k \/ In k' (map fst stats).
Proof.
  induction stats as [|[k0 v0] rest IH]; cbn [count_set map fst In].
  - intros [<- | []]. left. reflexivity.
  - destruct (pystr_eqb k0 k); cbn [map fst In]; [tauto|].
    intros [<- | Hin]; [tauto|]. destruct (IH Hin); tauto.
Qed.

Lemma count_set_fresh (stats : list (pystr * Z)) (k : pystr) (v : Z) :
  ~ In k (map fst stats) -> sum_counts (count_set stats k v) = sum_counts stats + v.
Proof.
  unfold sum_counts. induction stats as [|[k0 v0] rest IH]; cbn [count_set map fst snd In fold_right].
  - intros _. lia.
  - intros Hfresh. destruct (pystr_eqb k0 k) eqn:Heq.
    + unfold pystr_eqb in Heq. apply bool_decide_eq_true in Heq. tauto.
    + cbn [map snd fold_right]. rewrite IH by tauto. lia.
Qed.

Lemma enumerate_in {A} (xs : list A) (i : nat) (x : A) :
  In (i, x) (enumerate xs) -> (i < length xs)%nat.
Proof.
  unfold enumerate. intros Hin. apply in_combine_l in Hin. apply in_seq in Hin. lia.
Qed.

Lemma parse_sheet_rows_good (rows : list (list value)) (header_row_idx : nat)
    (sheet_name batch_id : pystr) (w w' : world) (sheet_records : list dict) :
  parse_sheet_rows rows header_row_idx sheet_name batch_id w = (inr sheet_records, w') ->
  Forall (from_sheet batch_id sheet_name) sheet_records.
Proof.
  unfold parse_sheet_rows.
  apply (m_for_inv (Forall (from_sheet batch_id sheet_name))); [|constructor].
  intros acc [row_idx row] v acc' v' _ Hstep Hacc.
  destruct (Nat.leb_spec row_idx header_row_idx) as [Hle|Hgt].
  { apply m_ret_inv in Hstep. destruct Hstep as [<- _]. exact Hacc. }
  cbv zeta in Hstep. apply m_bind_inv in Hstep.
  destruct Hstep as ([record|] & v1 & Hrow & Hstep).
  - destruct (dict_truthy record); apply m_ret_inv in Hstep; destruct Hstep as [<- _];
      [|exact Hacc].
    apply List.Forall_app. split; [exact Hacc|]. constructor; [|constructor].
    apply parse_row_tagged in Hrow. destruct Hrow as [Hbatch Hsource].
    split; [exact Hbatch|]. exists (Z.of_nat row_idx + 1). split; [lia | exact Hsource].
  - apply m_ret_inv in Hstep. destruct Hstep as [<- _]. exact Hacc.
Qed.

Lemma quiet_process_sheet (wb : workbook) (batch_id : pystr)
    (acc : list dict * list (pystr * Z)) (sheet_name : pystr) :
  quiet (process_sheet wb batch_id acc sheet_name).
Proof.
  unfold process_sheet. destruct acc as [all_records sheet_stats].
  apply quiet_if.
  { apply quiet_bind; [apply quiet_print | intros _; apply quiet_ret]. }
  apply quiet_bind; [apply quiet_print|]. intros _.
  apply quiet_try.
  - apply quiet_bind; [apply quiet_lift|]. intros rows. cbv zeta.
    apply quiet_bind.
    + unfold parse_sheet_rows. apply quiet_for. intros recs [row_idx row].
      apply quiet_if; [apply quiet_ret|]. cbv zeta.
      apply quiet_bind; [apply quiet_parse_row|]. intros [record|]; [|apply quiet_ret].
      apply quiet_if; apply quiet_ret.
    + intros recs. apply quiet_bind; [apply quiet_print | intros _; apply quiet_ret].
  - intros e. apply quiet_bind; [apply quiet_print | intros _; apply quiet_ret].
Qed.

(** One sheet: the pass goes on whatever happens, and adds the records of
    the sheet and their count, or nothing and zero. *)
Lemma process_sheet_run (wb : workbook) (batch_id : pystr)
    (all_records : list dict) (sheet_stats : list (pystr * Z)) (sheet_name : pystr)
    (w : world) :
  exists all_records' sheet_stats' w',
    process_sheet wb batch_id (all_records, sheet_stats) sheet_name w
    = (inr (all_records', sheet_stats'), w') /\
    if skipped sheet_name then all_records' = all_records /\ sheet_stats' = sheet_stats
    else
      exists sheet_records,
        all_records' = all_records ++ sheet_records /\
        Forall (from_sheet batch_id sheet_name) sheet_records /\
        sheet_stats' = count_set sheet_stats sheet_name (Z.of_nat (length sheet_records)).
Proof.
  unfold process_sheet. fold (skipped sheet_name).
  destruct (skipped sheet_name).
  { unfold m_bind, print, m_ret. eexists _, _, _. split; [reflexivity | auto]. }
  unfold m_bind at 1. unfold print at 1. unfold m_try.
  set (w1 := mk_world _ _ _ _ _).
  unfold m_bind at 1. unfold m_lift at 1.
  destruct (wb_rows wb sheet_name) as [e|rows].
  { cbn [any_exception]. unfold m_bind, print, m_ret. eexists _, _, _.
    split; [reflexivity|]. exists []. rewrite app_nil_r. split; [reflexivity|].
    split; [constructor | reflexivity]. }
  cbv zeta. unfold m_bind at 1.
  destruct (parse_sheet_rows rows (find_header_row rows 15) sheet_name batch_id w1)
    as [[e|sheet_records] w2] eqn:Hrows.
  { cbn [any_exception]. unfold m_bind, print, m_ret. eexists _, _, _.
    split; [reflexivity|]. exists []. rewrite app_nil_r. split; [reflexivity|].
    split; [constructor | reflexivity]. }
  unfold m_bind, print, m_ret. eexists _, _, _. split; [reflexivity|].
  exists sheet_records. split; [reflexivity|]. split; [|reflexivity].
  eapply parse_sheet_rows_good. exact Hrows.
Qed.

Lemma sheets_loop_run (wb : workbook) (batch_id : pystr) (names : list pystr)
    (all_records : list dict) (sheet_stats : list (pystr * Z)) (w : world) :
  (forall name, In name names -> In name (wb_sheets wb)) ->
  Forall (from_sheets wb batch_id) all_records ->
  exists all_records' sheet_stats' w',
    m_for names (all_records, sheet_stats) (process_sheet wb batch_id) w
    = (inr (all_records', sheet_stats'), w') /\
    Forall (from_sheets wb batch_id) all_records' /\
    (List.NoDup names ->
     (forall k, In k (map fst sheet_stats) -> ~ In k names) ->
     sum_counts sheet_stats' - Z.of_nat (length all_records')
     = sum_counts sheet_stats - Z.of_nat (length all_records)).
Proof.
  revert all_records sheet_stats w.
  induction names as [|name rest IH]; intros all_records sheet_stats w Hincl Hgood;
    cbn [m_for].
  - unfold m_ret. eexists _, _, _. split; [reflexivity|]. split; [exact Hgood | reflexivity].
  - unfold m_bind.
    destruct (process_sheet_run wb batch_id all_records sheet_stats name w)
      as (records1 & stats1 & w1 & -> & Hstep).
    assert (Hgood1 : Forall (from_sheets wb batch_id) records1).
    { destruct (skipped name) eqn:Hskip.
      - destruct Hstep as [-> _]. exact Hgood.
      - destruct Hstep as (recs & -> & Hrecs & _). apply List.Forall_app.
        split; [exact Hgood|]. eapply Forall_impl; [exact Hrecs|].
        intros r Hr. exists name. split; [apply Hincl; left; reflexivity|]. auto. }
    destruct (IH records1 stats1 w1) as (records2 & stats2 & w2 & Hrun & Hgood2 & Hsum).
    { intros k Hk. apply Hincl. right. exact Hk. }
    { exact Hgood1. }
    exists records2, stats2, w2. split; [exact Hrun|]. split; [exact Hgood2|].
    intros Hnodup Hfresh. apply List.NoDup_cons_iff in Hnodup. destruct Hnodup as [Hname Hrest].
    rewrite Hsum.
    + destruct (skipped name).
      * destruct Hstep as [-> ->]. reflexivity.
      * destruct Hstep as (recs & -> & _ & ->).
        rewrite count_set_fresh by (intros Hin; apply (Hfresh _ Hin); left; reflexivity).
        rewrite length_app, Nat2Z.inj_add. lia.
    + exact Hrest.
    + intros k Hk Hin. destruct (skipped name).
      * destruct Hstep as [_ ->]. apply (Hfresh k Hk). right. exact Hin.
      * destruct Hstep as (recs & _ & _ & ->). apply count_set_keys in Hk.
        destruct Hk as [-> | Hk]; [contradiction|]. apply (Hfresh k Hk). right. exact Hin.
Qed.

(** X11.  The pass over the sheets never fails, whatever the workbook
    does: a sheet that cannot be read, or a row of which raises, counts for
    zero and the pass goes on.  It touches neither the store nor the
    keyboard.  Every record it returns carries the batch id and names as its
    source a sheet of the workbook that is not skipped for its name and a row
    after the first; and when no two sheets have the same name the counts per
    sheet add up to the number of records. *)
Theorem sheets_pass_tags_every_record (wb : workbook) (batch_id : pystr) (w : world) :
  exists all_records sheet_stats w',
    process_all_sheets wb batch_id w = (inr (all_records, sheet_stats), w') /\
    w_store w' = w_store w /\ w_stdin w' = w_stdin w /\
    Forall (from_sheets wb batch_id) all_records /\
    (List.NoDup (wb_sheets wb) -> sum_counts sheet_stats = Z.of_nat (length all_records)).
Proof.
  assert (Hquiet : quiet (process_all_sheets wb batch_id)).
  { unfold process_all_sheets. cbv zeta. apply quiet_bind; [apply quiet_print|].
    intros _. apply quiet_for. intros acc name. apply quiet_process_sheet. }
  specialize (Hquiet w).
  unfold process_all_sheets in *. cbv zeta in *. unfold m_bind in *. unfold print in *.
  set (w1 := mk_world _ _ _ _ _) in *. unfold get_all_sheets in *.
  destruct (sheets_loop_run wb batch_id (wb_sheets wb) [] [] w1)
    as (all_records & sheet_stats & w' & Hrun & Hgood & Hsum); [auto | constructor|].
  rewrite Hrun in *. cbn [snd] in Hquiet. destruct Hquiet as [Hstore Hstdin].
  exists all_records, sheet_stats, w'. split; [reflexivity|].
  split; [exact Hstore|]. split; [exact Hstdin|]. split; [exact Hgood|].
  intros Hnodup. specialize (Hsum Hnodup (fun k Hk => False_ind _ Hk)).
  cbn in Hsum. lia.
Qed.

End Sheets.


(** ** The entities the store already has *)

Section KnownEntities.
Import Production.

(** The store has a row whose name is a non-empty text with the dedup key
    of [e]. *)
Definition name_known (rows : list dict) (e : entity) : Prop :=
  exists row name,
    In row rows /\ dict_get row "fullName" = VStr name /\ name <> [] /\
    normalize_name name = normalize_name (fullName e).

(** Every name of the table is a text, or empty. *)
Definition names_readable (rows : list dict) : Prop :=
  Forall (fun row => exists o, text_if_truthy (dict_get row "fullName") = inr o) rows.

Lemma project_name (row : dict) :
  dict_get (project ["fullName"%string] row) "fullName" = dict_get row "fullName".
Proof. unfold project, dict_get. cbn [fold_left]. rewrite lookup_insert_eq. reflexivity. Qed.

Lemma text_if_truthy_text (v : value) (s : pystr) :
  text_if_truthy v = inr (Some s) <-> v = VStr s /\ s <> [].
Proof.
  split.
  - apply text_if_truthy_some.
  - intros [-> Hs]. destruct s; [congruence | reflexivity].
Qed.

Lemma existing_names_spec (rows : list dict) (names : gset (list N)) :
  existing_names_of (map (project ["fullName"%string]) rows) = inr names ->
  forall key, key ∈ names <->
    exists row name, In row rows /\ dict_get row "fullName" = VStr name /\ name <> [] /\
                     key = normalize_name name.
Proof.
  revert names. induction rows as [|row rest IH]; intros names; cbn [map existing_names_of].
  - intros [= <-] key. split; [intros Hin; apply elem_of_empty in Hin; contradiction|].
    intros (row & name & [] & _).
  - rewrite project_name.
    destruct (text_if_truthy (dict_get row "fullName")) as [e|o] eqn:Hname;
      cbn [exc_bind]; [discriminate|].
    destruct (existing_names_of _) as [e|names'] eqn:Hrest; cbn [exc_bind]; [discriminate|].
    specialize (IH names' eq_refl). intros [= <-] key.
    destruct o as [name|].
    + apply text_if_truthy_text in Hname. destruct Hname as [Hv Hne].
      rewrite elem_of_union, elem_of_singleton, IH. split.
      * intros [-> | (r & n & Hr & Hrest')].
        -- exists row, name. split; [left; reflexivity | auto].
        -- exists r, n. split; [right; exact Hr | exact Hrest'].
      * intros (r & n & [<- | Hr] & Hn & Hnn & ->).
        -- left. rewrite Hv in Hn. injection Hn as <-. reflexivity.
        -- right. exists r, n. auto.
    + rewrite IH. split.
      * intros (r & n & Hr & Hrest'). exists r, n. split; [right; exact Hr | exact Hrest'].
      * intros (r & n & [<- | Hr] & Hn & Hnn & ->).
        -- exfalso. assert (Hsome : text_if_truthy (dict_get row "fullName") = inr (Some n))
             by (apply text_if_truthy_text; auto).
           congruence.
        -- exists r, n. auto.
Qed.

Lemma existing_names_fail (rows : list dict) (e : exn) :
  existing_names_of (map (project ["fullName"%string]) rows) = inl e ->
  ~ names_readable rows.
Proof.
  induction rows as [|row rest IH]; cbn [map existing_names_of]; [discriminate|].
  rewrite project_name. intros Hfail Hall. apply List.Forall_cons_iff in Hall.
  destruct Hall as [(o & Ho) Hrest]. rewrite Ho in Hfail. cbn [exc_bind] in Hfail.
  destruct (existing_names_of _) as [e'|names'] eqn:Hnames; cbn [exc_bind] in Hfail;
    [|discriminate].
  exact (IH Hfail Hrest).
Qed.

Lemma filter_sublist {A} (f : A -> bool) (l : list A) : sublist (List.filter f l) l.
Proof.
  induction l as [|x l IH]; cbn [List.filter]; [constructor|].
  destruct (f x); [apply sublist_skip | apply sublist_cons]; exact IH.
Qed.

(** X12.  The check against the store never fails and changes nothing in
    it.  It returns the entities in their order, without those whose dedup
    key is the key of a non-empty name of the table; it returns all of them
    when the table cannot be read or holds a name that is not a text. *)
Theorem known_entities_are_filtered (entities : list entity) (w : world) :
  exists result w',
    check_existing_entities entities w = (inr result, w') /\
    w_store w' = w_store w /\ w_stdin w' = w_stdin w /\
    sublist result entities /\
    match st_tables (w_store w) !! "legal_entities"%string with
    | Some rows =>
      (names_readable rows ->
       forall e, In e result <-> In e entities /\ ~ name_known rows e) /\
      (~ names_readable rows -> result = entities)
    | None => result = entities
    end.
Proof.
  unfold check_existing_entities. destruct entities as [|e0 rest].
  { unfold m_ret. exists [], w. split; [reflexivity|]. split; [reflexivity|].
    split; [reflexivity|]. split; [constructor|].
    destruct (st_tables (w_store w) !! "legal_entities"%string); [|reflexivity].
    split; [|reflexivity]. intros _ e. cbn [In]. tauto. }
  set (entities := e0 :: rest).
  unfold m_bind at 1. unfold print at 1. unfold m_try.
  unfold m_bind at 1. unfold db_select, with_store, store_select.
  cbn [w_store w_now w_ticks w_stdin w_stdout].
  destruct (st_tables (w_store w) !! "legal_entities"%string) as [rows|].
  2:{ cbn [any_exception]. unfold m_bind, print, m_ret. eexists _, _.
      split; [reflexivity|]. cbn [w_store w_stdin].
      split; [reflexivity|]. split; [reflexivity|]. split; reflexivity. }
  unfold m_bind at 1. unfold m_lift at 1.
  destruct (existing_names_of (map (project ["fullName"%string]) rows))
    as [e|names] eqn:Hnames.
  { cbn [any_exception]. unfold m_bind, print, m_ret. eexists _, _.
    split; [reflexivity|]. cbn [w_store w_stdin].
    split; [reflexivity|]. split; [reflexivity|]. split; [reflexivity|].
    split; [|reflexivity]. intros Hread. exfalso.
    exact (existing_names_fail _ _ Hnames Hread). }
  cbv zeta. unfold m_bind, print, m_ret. eexists _, _. split; [reflexivity|].
  cbn [w_store w_stdin]. split; [reflexivity|]. split; [reflexivity|].
  split; [apply filter_sublist|].
  pose proof (existing_names_spec rows names Hnames) as Hspec.
  assert (Hfilter : forall e,
             In e (List.filter
                     (fun e => negb (bool_decide (normalize_name (fullName e) ∈ names)))
                     entities)
             <-> In e entities /\ ~ name_known rows e).
  { intros e. rewrite List.filter_In, negb_true_iff, bool_decide_eq_false, Hspec.
    unfold name_known. split; intros [Hin Hnot]; (split; [exact Hin|]);
      intros (row & name & Hrow & Hname & Hne & Hkey); apply Hnot;
      exists row, name; auto. }
  split; [intros _; exact Hfilter|].
  intros Hnot. exfalso. apply Hnot. clear -Hnames.
  revert names Hnames. induction rows as [|row rows IH]; intros names; [constructor|].
  cbn [map existing_names_of]. rewrite project_name.
  destruct (text_if_truthy (dict_get row "fullName")) as [e|o] eqn:Hname;
    cbn [exc_bind]; [discriminate|].
  destruct (existing_names_of _) as [e|names'] eqn:Hrest; cbn [exc_bind]; [discriminate|].
  intros _. constructor; [eauto | eapply IH; reflexivity].
Qed.

End KnownEntities.


(** ** The lookup maps *)

Section LookupMaps.
Import Claims.

(** Row [r] names [key] in [column]: the column holds a truthy identifier
    whose lookup key is [key]. *)
Definition names_key (column : string) (key : pystr) (r : dict) : bool :=
  truthy (dict_get r column) && pystr_eqb (lookup_key (dict_get r column)) key.

(** The last row of a table that names [key] in [column]. *)
Definition last_named (column : string) (key : pystr) (rows : list dict) : option dict :=
  List.find (names_key column key) (rev rows).

(** The map a pass over the rows builds from [m]. *)
Definition indexed (column : string) (rows : list dict) (m : lookup_map) : lookup_map :=
  fold_left (fun m r =>
               if truthy (dict_get r column)
               then <[lookup_key (dict_get r column) := dict_get r "id"]> m else m)
    rows m.

Lemma find_append {A} (f : A -> bool) (l1 l2 : list A) :
  List.find f (l1 ++ l2)
  = match List.find f l1 with Some x => Some x | None => List.find f l2 end.
Proof.
  induction l1 as [|x l1 IH]; cbn [app List.find]; [reflexivity|].
  destruct (f x); [reflexivity | exact IH].
Qed.

Lemma indexed_lookup (column : string) (rows : list dict) (m : lookup_map) (key : pystr) :
  indexed column rows m !! key
  = match last_named column key rows with
    | Some r => Some (dict_get r "id")
    | None => m !! key
    end.
Proof.
  unfold indexed, last_named. revert m.
  induction rows as [|r rest IH]; intros m; [reflexivity|].
  cbn [fold_left rev]. rewrite IH. rewrite find_append.
  destruct (List.find (names_key column key) (rev rest)) as [r'|]; [reflexivity|].
  cbn [List.find]. unfold names_key at 1.
  destruct (truthy (dict_get r column)); cbn [andb]; [|reflexivity].
  unfold pystr_eqb. case_bool_decide as Hkey.
  - rewrite Hkey. apply lookup_insert_eq.
  - apply lookup_insert_ne. exact Hkey.
Qed.

Lemma index_one_projected (columns : list string) (r : dict) (column : string)
    (m : lookup_map) :
  dict_item (project columns r) "id" = inr (dict_get r "id") ->
  dict_get (project columns r) column = dict_get r column ->
  dict_item (project columns r) column = inr (dict_get r column) ->
  index_one (project columns r) column m
  = inr (if truthy (dict_get r column)
         then <[lookup_key (dict_get r column) := dict_get r "id"]> m else m).
Proof.
  intros Hid Hget Hitem. unfold index_one. rewrite Hget, Hid, Hitem.
  destruct (truthy _); reflexivity.
Qed.

Ltac projected :=
  unfold project, dict_item, dict_get; cbn [fold_left];
  repeat first [ rewrite lookup_insert_eq | rewrite lookup_insert_ne by discriminate ];
  reflexivity.

Lemma index_policies_run (rows : list dict) (pn ps : lookup_map) :
  index_policies (map (project ["id"; "policyNumber"; "slipNumber"]%string) rows) pn ps
  = (indexed "policyNumber" rows pn, indexed "slipNumber" rows ps, None).
Proof.
  revert pn ps. induction rows as [|r rest IH]; intros pn ps; [reflexivity|].
  cbn [map index_policies].
  rewrite (index_one_projected _ r "policyNumber") by projected.
  rewrite (index_one_projected _ r "slipNumber") by projected.
  rewrite IH. reflexivity.
Qed.

Lemma index_inward_run (rows : list dict) (ibc : lookup_map) :
  index_inward (map (project ["id"; "contract_number"]%string) rows) ibc
  = (indexed "contract_number" rows ibc, None).
Proof.
  revert ibc. induction rows as [|r rest IH]; intros ibc; [reflexivity|].
  cbn [map index_inward].
  rewrite (index_one_projected _ r "contract_number") by projected.
  rewrite IH. reflexivity.
Qed.

(** The rows of a table, none when the table cannot be read. *)
Definition rows_of (st : store) (table : string) : list dict :=
  default [] (st_tables st !! table).

Lemma fetch_run (table : string) (columns : list string) (w : world) :
  exists answer,
    fetch table columns w = (inr answer, w) /\
    match st_tables (w_store w) !! table with
    | Some rows => answer = inr (map (project columns) rows)
    | None => exists e, answer = inl e
    end.
Proof.
  unfold fetch, m_try, m_bind, db_select, with_store, store_select, m_ret.
  destruct (st_tables (w_store w) !! table) as [rows|].
  - destruct w. eexists. split; reflexivity.
  - cbn [any_exception]. eexists. split; [reflexivity | eauto].
Qed.

(** X13.  Building the lookup maps never fails and leaves the store and
    the keyboard alone.  A key of a map leads to the id of the last row of
    the table whose identifier, trimmed and in lower case, is the key; rows
    with an empty identifier are left out, and a table that cannot be read
    gives an empty map.  So a direct claim is matched to the last policy
    whose number is its contract number up to case and surrounding blanks,
    and to nothing when there is none. *)
Theorem lookup_maps_index_the_store (w : world) :
  exists pn ps ibc w',
    build_lookup_maps w = (inr (pn, ps, ibc), w') /\
    w_store w' = w_store w /\ w_stdin w' = w_stdin w /\
    (forall key,
       pn !! key = option_map (fun r => dict_get r "id")
                     (last_named "policyNumber" key (rows_of (w_store w) "policies")) /\
       ps !! key = option_map (fun r => dict_get r "id")
                     (last_named "slipNumber" key (rows_of (w_store w) "policies")) /\
       ibc !! key = option_map (fun r => dict_get r "id")
                      (last_named "contract_number" key
                         (rows_of (w_store w) "inward_reinsurance"))) /\
    (forall slip contract,
       truthy contract = true -> lookup_key contract <> [] ->
       match_parent (py "direct") slip contract pn ps ibc
       = (match last_named "policyNumber" (lookup_key contract)
                  (rows_of (w_store w) "policies") with
          | Some r => dict_get r "id"
          | None => VNone
          end, VNone)).
Proof.
  assert (Hmaps : exists pn ps ibc w',
             build_lookup_maps w = (inr (pn, ps, ibc), w') /\
             w_store w' = w_store w /\ w_stdin w' = w_stdin w /\
             pn = indexed "policyNumber" (rows_of (w_store w) "policies") ∅ /\
             ps = indexed "slipNumber" (rows_of (w_store w) "policies") ∅ /\
             ibc = indexed "contract_number" (rows_of (w_store w) "inward_reinsurance") ∅).
  { unfold build_lookup_maps. cbv zeta. unfold m_bind at 1. unfold print at 1.
    set (w1 := mk_world _ _ _ _ _).
    assert (Hw1 : w_store w1 = w_store w /\ w_stdin w1 = w_stdin w) by (split; reflexivity).
    destruct Hw1 as [Hs1 Hi1]. clearbody w1.
    unfold m_bind at 1.
    destruct (fetch_run "policies" ["id"; "policyNumber"; "slipNumber"]%string w1)
      as (answer1 & -> & Hanswer1).
    unfold rows_of. rewrite <- Hs1.
    assert (Hpolicies :
              exists w2,
                w_store w2 = w_store w1 /\ w_stdin w2 = w_stdin w1 /\
                forall (k : lookup_map * lookup_map -> M (lookup_map * lookup_map * lookup_map)),
                  m_bind
                    match answer1 with
                    | inr policies =>
                      let '(policies_by_number, policies_by_slip, failure) :=
                        index_policies policies ∅ ∅ in
                      match failure with
                      | None =>
                        m_bind
                          (print (py "    Policies loaded: "
                                  ++ str_of_Z (Z.of_nat (length policies))
                                  ++ py " (by number: "
                                  ++ str_of_Z (Z.of_nat (size policies_by_number))
                                  ++ py ", by slip: "
                                  ++ str_of_Z (Z.of_nat (size policies_by_slip))
                                  ++ py ")"))
                          (fun _ => m_ret (policies_by_number, policies_by_slip))
                      | Some e =>
                        m_bind (print (py "    Warning: Could not fetch policies: "
                                       ++ exn_msg e))
                          (fun _ => m_ret (policies_by_number, policies_by_slip))
                      end
                    | inl e =>
                      m_bind (print (py "    Warning: Could not fetch policies: "
                                     ++ exn_msg e))
                        (fun _ => m_ret (∅, ∅))
                    end k w1
                  = k (indexed "policyNumber" (default [] (st_tables (w_store w1) !! "policies"%string)) ∅,
                       indexed "slipNumber" (default [] (st_tables (w_store w1) !! "policies"%string)) ∅)
                      w2).
    { destruct (st_tables (w_store w1) !! "policies"%string) as [rows|].
      - subst answer1. rewrite index_policies_run. eexists. split; [|split];
          [| |intros k; unfold m_bind, print, m_ret; reflexivity]; reflexivity.
      - destruct Hanswer1 as (e & ->). eexists. split; [|split];
          [| |intros k; unfold m_bind, print, m_ret; reflexivity]; reflexivity. }
    destruct Hpolicies as (w2 & Hs2 & Hi2 & Hk). rewrite Hk. clear Hk.
    cbv zeta. unfold m_bind at 1.
    destruct (fetch_run "inward_reinsurance" ["id"; "contract_number"]%string w2)
      as (answer2 & -> & Hanswer2).
    rewrite <- Hs2.
    destruct (st_tables (w_store w2) !! "inward_reinsurance"%string) as [rows|].
    - subst answer2. rewrite index_inward_run. unfold m_bind, print, m_ret.
      eexists _, _, _, _. split; [reflexivity|]. cbn [w_store w_stdin fst snd default from_option id].
      split; [congruence|]. split; [congruence|]. auto.
    - destruct Hanswer2 as (e & ->). unfold m_bind, print, m_ret.
      eexists _, _, _, _. split; [reflexivity|]. cbn [w_store w_stdin fst snd default from_option id].
      split; [congruence|]. split; [congruence|]. auto. }
  destruct Hmaps as (pn & ps & ibc & w' & Hrun & Hstore & Hstdin & -> & -> & ->).
  eexists _, _, _, w'. split; [exact Hrun|]. split; [exact Hstore|]. split; [exact Hstdin|].
  split.
  - intros key. rewrite !indexed_lookup.
    repeat split; destruct (last_named _ key _); reflexivity.
  - intros slip contract Htruthy Hkey. unfold match_parent. cbv zeta.
    change (pystr_eqb (py "direct") (py "inward-foreign")) with false.
    change (pystr_eqb (py "direct") (py "inward-domestic")) with false.
    change (pystr_eqb (py "direct") (py "direct")) with true.
    cbn [orb]. cbv iota. rewrite Htruthy. fold (lookup_key contract).
    destruct (lookup_key contract) as [|c r] eqn:Hk; [congruence|].
    rewrite indexed_lookup.
    destruct (last_named "policyNumber" (c :: r) _); reflexivity.
Qed.

End LookupMaps.


(** ** A claim row and its transactions *)

Section ClaimTransactions.
Import Claims.

(** The cells of the row are as the reader gives them. *)
Definition claim_row_ok (sheet : xl_sheet) (row_idx : nat) : Prop :=
  forall c, cell_ok (cell_value sheet row_idx c).

(** The number and the date a cell parses to. *)
Definition number_of (sheet : xl_sheet) (row_idx c : nat) : option float :=
  match parse_number (cell_value sheet row_idx c) with
  | inr x => x
  | inl _ => None
  end.

Definition date_of (sheet : xl_sheet) (row_idx c : nat) : option pystr :=
  match parse_date (cell_value sheet row_idx c) with
  | inr d => d
  | inl _ => None
  end.

Lemma cell_at_run (sheet : xl_sheet) (row_idx c : nat) (w : world) :
  cell_at sheet row_idx c w = (inr (cell_value sheet row_idx c), w).
Proof. unfold cell_at, m_lift. rewrite get_cell_value_total. reflexivity. Qed.

Lemma parse_number_of (sheet : xl_sheet) (row_idx c : nat) :
  claim_row_ok sheet row_idx ->
  parse_number (cell_value sheet row_idx c) = inr (number_of sheet row_idx c).
Proof.
  intros Hok. unfold number_of. rewrite claims_parse_number_eq.
  destruct (parse_number_total _ (Hok c)) as (x & ->). reflexivity.
Qed.

Lemma parse_date_of (sheet : xl_sheet) (row_idx c : nat) :
  parse_date (cell_value sheet row_idx c) = inr (date_of sheet row_idx c).
Proof.
  unfold date_of. rewrite claims_parse_date_eq.
  destruct (_ && _); [reflexivity|].
  destruct (parse_date_total (cell_value sheet row_idx c)) as (d & ->). reflexivity.
Qed.

Lemma number_at_run (sheet : xl_sheet) (row_idx c : nat) (w : world) :
  claim_row_ok sheet row_idx ->
  number_at sheet row_idx c w = (inr (number_of sheet row_idx c), w).
Proof.
  intros Hok. unfold number_at, m_bind. rewrite cell_at_run. unfold m_lift.
  rewrite (parse_number_of _ _ _ Hok). reflexivity.
Qed.

Lemma date_at_run (sheet : xl_sheet) (row_idx c : nat) (w : world) :
  date_at sheet row_idx c w = (inr (date_of sheet row_idx c), w).
Proof.
  unfold date_at, m_bind. rewrite cell_at_run. unfold m_lift.
  rewrite parse_date_of. reflexivity.
Qed.

Lemma date_of_truthy (sheet : xl_sheet) (row_idx c : nat) (s : pystr) :
  date_of sheet row_idx c = Some s -> truthy (VStr s) = true.
Proof.
  intros Hd. pose proof (parse_date_of sheet row_idx c) as Hp. rewrite Hd in Hp.
  rewrite claims_parse_date_eq in Hp. destruct (_ && _); [discriminate|].
  eapply parse_date_truthy. exact Hp.
Qed.

(** A date, or today when there is none: the text is never empty. *)
Lemma date_or_today_run (o : option pystr) (w : world) :
  (forall s, o = Some s -> truthy (VStr s) = true) ->
  exists s k,
    (if truthy (opt_str o) then m_ret (opt_str o) else today) w = (inr (VStr s), tick k w) /\
    truthy (VStr s) = true /\ (k <= 1)%nat.
Proof.
  intros Ho. destruct o as [s|]; cbn [opt_str].
  - rewrite (Ho s eq_refl). exists s, 0%nat. rewrite tick_0. unfold m_ret.
    split; [reflexivity|]. split; [apply Ho; reflexivity | lia].
  - cbn [truthy]. unfold today, m_bind. rewrite now_run. unfold m_ret.
    eexists _, 1%nat. split; [reflexivity|]. split; [apply strftime_ymd_truthy | lia].
Qed.

Lemma payment_date_run (o1 o2 : option pystr) (w : world) :
  (forall s, o1 = Some s -> truthy (VStr s) = true) ->
  (forall s, o2 = Some s -> truthy (VStr s) = true) ->
  exists s k,
    (if truthy (opt_str o1) then m_ret (opt_str o1)
     else if truthy (opt_str o2) then m_ret (opt_str o2) else today) w
    = (inr (VStr s), tick k w) /\
    truthy (VStr s) = true /\ (k <= 1)%nat.
Proof.
  intros Ho1 Ho2. destruct o1 as [s|]; cbn [opt_str].
  - rewrite (Ho1 s eq_refl). exists s, 0%nat. rewrite tick_0. unfold m_ret.
    split; [reflexivity|]. split; [apply Ho1; reflexivity | lia].
  - cbn [truthy]. apply date_or_today_run. exact Ho2.
Qed.

Lemma py_max_amounts (x y : option float) :
  exists v, py_max (py_or (opt_float x) (VInt 0)) (py_or (opt_float y) (VInt 0)) = inr v.
Proof.
  unfold py_max, py_or.
  destruct x as [x|], y as [y|]; cbn [opt_float truthy];
    repeat match goal with
           | |- context [float_truthy ?a] => destruct (float_truthy a)
           end;
    cbn [num_gt];
    repeat match goal with
           | |- context [match (if ?b then _ else _) with _ => _ end] => destruct b
           | |- context [match ?b with true => _ | false => _ end] => destruct b
           | |- context [match compare_Z_float ?a ?b with _ => _ end] =>
             destruct (compare_Z_float a b) as [[| |]|]
           end;
    eauto.
Qed.

Lemma py_or_truthy (v d : value) : truthy d = true -> truthy (py_or v d) = true.
Proof. intros Hd. unfold py_or. destruct (truthy v) eqn:Hv; assumption. Qed.

Ltac lookup_field :=
  unfold dict_get;
  repeat first [ rewrite dict_set_eq | rewrite dict_set_ne by discriminate ];
  cbn [default from_option id].

(** What a transaction of the row must hold to be usable. *)
Definition usable (t : dict) : Prop :=
  truthy (dict_get t "transaction_date") = true /\
  truthy (dict_get t "exchange_rate") = true /\
  truthy (dict_get t "our_share_percentage") = true.

(** The run of a claim row, case by case. *)
Lemma claim_row_run (sheet : xl_sheet) (row_idx : nat) (row_number : Z)
    (pn ps ibc : lookup_map) (w : world) :
  claim_row_ok sheet row_idx ->
  let cell := cell_value sheet row_idx in
  let reserve := number_of sheet row_idx 33 in
  let paid := number_of sheet row_idx 40 in
  exists claim txns n,
    parse_claim_row sheet row_idx row_number pn ps ibc w = (inr (claim, txns), tick n w) /\
    (n <= 3)%nat /\
    (claim = None
     <-> determine_source_type (cell 0%nat) = py "unknown" /\ truthy (cell 0%nat) = false) /\
    (claim = None -> txns = []) /\
    forall record, claim = Some record ->
      map (fun t => dict_get t "transaction_type") txns
      = (if positive_amount reserve then [VStr (py "RESERVE_SET")] else [])
        ++ (if positive_amount paid then [VStr (py "PAYMENT")] else []) /\
      record !! "liability_type"%string
      = Some (VStr (if match txns with [] => false | _ => true end
                    then py "ACTIVE" else py "INFORMATIONAL")) /\
      Forall usable txns /\
      (forall t, In t txns -> dict_get t "transaction_type" = VStr (py "PAYMENT") ->
                 exists x, paid = Some x /\ dict_get t "amount_100pct" = VFloat x).
Proof.
  intros Hok. cbv zeta. unfold parse_claim_row. cbv zeta.
  unfold m_bind at 1. rewrite cell_at_run.
  destruct (pystr_eqb (determine_source_type (cell_value sheet row_idx 0)) (py "unknown")
            && negb (truthy (cell_value sheet row_idx 0))) eqn:Hskip.
  { unfold m_ret. exists None, [], 0%nat. rewrite tick_0. split; [reflexivity|].
    split; [lia|]. split; [|split; [reflexivity | discriminate]].
    split; [intros _|reflexivity].
    apply andb_prop in Hskip. destruct Hskip as [Hsrc Hcol].
    unfold pystr_eqb in Hsrc. apply bool_decide_eq_true in Hsrc.
    apply negb_true_iff in Hcol. auto. }
  do 2 (unfold m_bind at 1; rewrite date_at_run).
  do 12 (unfold m_bind at 1; rewrite cell_at_run).
  do 12 (unfold m_bind at 1; rewrite (number_at_run _ _ _ _ Hok)).
  unfold m_bind at 1. rewrite date_at_run.
  unfold m_bind at 1. rewrite (number_at_run _ _ _ _ Hok).
  unfold m_bind at 1. rewrite cell_at_run.
  destruct (match_parent _ _ _ _ _ _) as [policy_id inward_id].
  unfold m_bind at 1. unfold m_lift at 1.
  destruct (py_max_amounts (number_of sheet row_idx 35) (number_of sheet row_idx 33))
    as (incurred & ->).
  unfold m_bind at 1.
  destruct (date_or_today_run (date_of sheet row_idx 2) w (date_of_truthy _ _ _))
    as (s1 & k1 & -> & Hs1 & Hk1).
  set (claim := if truthy inward_id then _ else _).
  assert (Hliability : claim !! "liability_type"%string
                       = Some (VStr (determine_liability_type (number_of sheet row_idx 33)
                                       (number_of sheet row_idx 40)))).
  { subst claim. destruct (truthy inward_id), (truthy policy_id);
      repeat first [ rewrite dict_set_eq | rewrite dict_set_ne by discriminate ];
      reflexivity. }
  clearbody claim.
  assert (Hnot_skipped :
            ~ (determine_source_type (cell_value sheet row_idx 0) = py "unknown"
               /\ truthy (cell_value sheet row_idx 0) = false)).
  { intros [Hsrc Hcol]. rewrite Hsrc, Hcol in Hskip. discriminate. }
  unfold determine_liability_type in Hliability.
  unfold m_bind at 1.
  destruct (positive_amount (number_of sheet row_idx 33)) eqn:Hreserve.
  - unfold m_bind at 1.
    destruct (date_or_today_run (date_of sheet row_idx 1) (tick k1 w) (date_of_truthy _ _ _))
      as (s2 & k2 & -> & Hs2 & Hk2).
    unfold m_ret at 1. unfold m_bind at 1.
    destruct (positive_amount (number_of sheet row_idx 40)) eqn:Hpaid.
    + unfold m_bind at 1.
      destruct (payment_date_run (date_of sheet row_idx 43) (date_of sheet row_idx 1)
                  (tick k2 (tick k1 w)) (date_of_truthy _ _ _) (date_of_truthy _ _ _))
        as (s3 & k3 & -> & Hs3 & Hk3).
      unfold m_ret. rewrite !tick_tick.
      eexists (Some claim), _, _. split; [reflexivity|]. split; [lia|].
      split; [split; [discriminate | intros H; destruct (Hnot_skipped H)]|].
      split; [discriminate|]. intros record [= <-]. cbn [app].
      split; [cbn [map]; lookup_field; reflexivity|].
      split; [exact Hliability|].
      split.
      * repeat constructor; lookup_field;
          first [ assumption | apply py_or_truthy; reflexivity ].
      * intros t [<- | [<- | []]]; lookup_field; [discriminate|]. intros _.
        destruct (number_of sheet row_idx 40) as [x|]; [|discriminate]. eauto.
    + unfold m_ret. rewrite !tick_tick.
      eexists (Some claim), _, _. split; [reflexivity|]. split; [lia|].
      split; [split; [discriminate | intros H; destruct (Hnot_skipped H)]|].
      split; [discriminate|]. intros record [= <-]. cbn [app].
      split; [cbn [map]; lookup_field; reflexivity|].
      split; [exact Hliability|].
      split.
      * repeat constructor; lookup_field;
          first [ assumption | apply py_or_truthy; reflexivity ].
      * intros t [<- | []]; lookup_field. discriminate.
  - unfold m_ret at 1. unfold m_bind at 1.
    destruct (positive_amount (number_of sheet row_idx 40)) eqn:Hpaid.
    + unfold m_bind at 1.
      destruct (payment_date_run (date_of sheet row_idx 43) (date_of sheet row_idx 1)
                  (tick k1 w) (date_of_truthy _ _ _) (date_of_truthy _ _ _))
        as (s3 & k3 & -> & Hs3 & Hk3).
      unfold m_ret. rewrite !tick_tick.
      eexists (Some claim), _, _. split; [reflexivity|]. split; [lia|].
      split; [split; [discriminate | intros H; destruct (Hnot_skipped H)]|].
      split; [discriminate|]. intros record [= <-]. cbn [app].
      split; [cbn [map]; lookup_field; reflexivity|].
      split; [exact Hliability|].
      split.
      * repeat constructor; lookup_field;
          first [ assumption | apply py_or_truthy; reflexivity ].
      * intros t [<- | []]; lookup_field. intros _.
        destruct (number_of sheet row_idx 40) as [x|]; [|discriminate]. eauto.
    + unfold m_ret.
      eexists (Some claim), _, _. split; [reflexivity|]. split; [lia|].
      split; [split; [discriminate | intros H; destruct (Hnot_skipped H)]|].
      split; [discriminate|]. intros record [= <-]. cbn [app].
      split; [reflexivity|]. split; [exact Hliability|].
      split; [constructor|]. intros t [].
Qed.

(** X14.  A claim row whose cells are as the reader gives them never
    fails; it reads the clock at most three times and does nothing else to
    the world.  It is skipped exactly when its first cell is empty.
    Otherwise it gives a reserve transaction when the reserve is positive,
    then a payment transaction when the paid amount is positive, and nothing
    else; the claim is ACTIVE exactly when it has a transaction and
    INFORMATIONAL when it has none; every transaction has a date, an exchange
    rate and a share that are not empty or zero, and a payment carries the
    paid amount. *)
Theorem claim_row_transactions (sheet : xl_sheet) (row_idx : nat) (row_number : Z)
    (pn ps ibc : lookup_map) (w : world) :
  claim_row_ok sheet row_idx ->
  let cell := cell_value sheet row_idx in
  let reserve := number_of sheet row_idx 33 in
  let paid := number_of sheet row_idx 40 in
  exists claim txns n,
    parse_claim_row sheet row_idx row_number pn ps ibc w = (inr (claim, txns), tick n w) /\
    (n <= 3)%nat /\
    (claim = None
     <-> determine_source_type (cell 0%nat) = py "unknown" /\ truthy (cell 0%nat) = false) /\
    (claim = None -> txns = []) /\
    forall record, claim = Some record ->
      map (fun t => dict_get t "transaction_type") txns
      = (if positive_amount reserve then [VStr (py "RESERVE_SET")] else [])
        ++ (if positive_amount paid then [VStr (py "PAYMENT")] else []) /\
      (length txns <= 2)%nat /\
      (record !! "liability_type"%string = Some (VStr (py "ACTIVE")) <-> txns <> []) /\
      (record !! "liability_type"%string = Some (VStr (py "INFORMATIONAL")) <-> txns = []) /\
      Forall usable txns /\
      (forall t, In t txns -> dict_get t "transaction_type" = VStr (py "PAYMENT") ->
                 exists x, paid = Some x /\ dict_get t "amount_100pct" = VFloat x).
Proof.
  intros Hok. cbv zeta.
  destruct (claim_row_run sheet row_idx row_number pn ps ibc w Hok)
    as (claim & txns & n & Hrun & Hn & Hnone & Hempty & Hrecord).
  exists claim, txns, n. split; [exact Hrun|]. split; [exact Hn|].
  split; [exact Hnone|]. split; [exact Hempty|].
  intros record Hclaim. destruct (Hrecord record Hclaim) as (Htypes & Hliab & Husable & Hpay).
  split; [exact Htypes|]. split.
  { apply (f_equal (@length value)) in Htypes. rewrite length_map, length_app in Htypes.
    destruct (positive_amount _), (positive_amount _); cbn [length] in Htypes; lia. }
  rewrite Hliab. destruct txns as [|t rest].
  - split; [split; [discriminate | congruence]|].
    split; [split; reflexivity|]. split; [exact Husable | exact Hpay].
  - split; [split; [discriminate | reflexivity]|].
    split; [split; discriminate|]. split; [exact Husable | exact Hpay].
Qed.

End ClaimTransactions.

(** A sheet whose number cells are floats or text is as the reader gives
    it. *)
Definition plain_cell (c : Claims.xl_cell) : bool :=
  match c with
  | Claims.XL_CELL_OTHER (VInt _) | Claims.XL_CELL_DATE (VInt _) None => false
  | _ => true
  end.

Lemma plain_sheet_ok (sheet : list (list Claims.xl_cell)) :
  forallb (forallb plain_cell) sheet = true -> forall row_idx, claim_row_ok sheet row_idx.
Proof.
  intros Hplain row_idx c. unfold cell_value, Claims.get_cell_value, Claims.sheet_cell.
  destruct (sheet !! row_idx) as [row|] eqn:Hrow; [|exact I].
  destruct (row !! c) as [cell|] eqn:Hcell; [|exact I].
  rewrite forallb_forall in Hplain. apply list_elem_of_lookup_2, list_elem_of_In in Hrow.
  specialize (Hplain _ Hrow). rewrite forallb_forall in Hplain.
  apply list_elem_of_lookup_2, list_elem_of_In in Hcell. specialize (Hplain _ Hcell).
  destruct cell as [| raw [dt|] | v]; cbn [exc_bind exc_catch]; try exact I.
  - destruct raw; try exact I. discriminate.
  - destruct v; try exact I. discriminate.
Qed.

Lemma claim_row_transactions_witness :
  claim_row_ok part_paid_sheet 0 /\
  exists claim txns n,
    part_paid_run = (inr (Some claim, txns), tick n (example_world [] (open_store ∅))) /\
    map (fun t => dict_get t "transaction_type") txns = [VStr (py "PAYMENT")] /\
    claim !! "liability_type"%string = Some (VStr (py "ACTIVE")).
Proof.
  assert (Hok : claim_row_ok part_paid_sheet 0) by exact (plain_sheet_ok part_paid_sheet eq_refl 0%nat).
  split; [exact Hok|].
  destruct (claim_row_transactions part_paid_sheet 0 1 ∅ ∅ ∅
              (example_world [] (open_store ∅)) Hok)
    as (claim & txns & n & Hrun & _ & _ & _ & Hrecord).
  assert (Hsome : claim = Some (claim_of part_paid_run)).
  { generalize part_paid_runs. unfold part_paid_run at 1. rewrite Hrun. congruence. }
  destruct (Hrecord _ Hsome) as (Htypes & _ & Hactive & _).
  exists (claim_of part_paid_run), txns, n. unfold part_paid_run at 1. rewrite Hrun, Hsome.
  split; [reflexivity|].
  assert (Hreserve : Claims.positive_amount (number_of part_paid_sheet 0 33) = false)
    by (vm_compute; reflexivity).
  assert (Hpaid : Claims.positive_amount (number_of part_paid_sheet 0 40) = true)
    by (vm_compute; reflexivity).
  rewrite Hreserve, Hpaid in Htypes. split; [exact Htypes|].
  apply Hactive. destruct txns; [discriminate Htypes | discriminate].
Defined.


(** ** The pass over the claim rows *)

Section ClaimsPass.
Import Claims.

Definition has_policy (c : dict) : bool := truthy (dict_get c "policy_id").

Definition has_inward_only (c : dict) : bool :=
  negb (truthy (dict_get c "policy_id")) && truthy (dict_get c "inward_reinsurance_id").

Definition has_no_parent (c : dict) : bool :=
  negb (truthy (dict_get c "policy_id")) && negb (truthy (dict_get c "inward_reinsurance_id")).

Definition count_of (f : dict -> bool) (claims : list dict) : Z :=
  Z.of_nat (length (List.filter f claims)).

Definition sum_by_type (d : list (value * Z)) : Z := fold_right Z.add 0 (map snd d).

Lemma count_add_sum (d : list (value * Z)) (k : value) :
  sum_by_type (count_add d k) = sum_by_type d + 1.
Proof.
  unfold sum_by_type. induction d as [|[k' n] rest IH]; cbn [count_add map snd fold_right].
  - lia.
  - destruct (py_eq k' k); cbn [map snd fold_right]; lia.
Qed.

Lemma count_of_snoc (f : dict -> bool) (claims : list dict) (c : dict) :
  count_of f (claims ++ [c]) = count_of f claims + (if f c then 1 else 0).
Proof.
  unfold count_of. rewrite List.filter_app, length_app. cbn [List.filter].
  destruct (f c); cbn [length]; lia.
Qed.

(** What the loop keeps true of its state. *)
Definition pass_invariant (st : parse_state) : Prop :=
  let '(claims, all_transactions, stats) := st in
  total stats = Z.of_nat (length claims) /\
  matched_policy stats = count_of has_policy claims /\
  matched_inward stats = count_of has_inward_only claims /\
  unmatched stats = count_of has_no_parent claims /\
  sum_by_type (by_source_type stats) = total stats /\
  Forall (fun p => (fst p < length claims)%nat) all_transactions.

Lemma parse_claims_row_run (sheet : xl_sheet) (pn ps ibc : lookup_map) (st : parse_state)
    (row_idx : nat) (w : world) :
  claim_row_ok sheet row_idx -> pass_invariant st ->
  exists st' n,
    parse_claims_row sheet pn ps ibc st row_idx w = (inr st', tick n w) /\
    pass_invariant st' /\
    (length (fst (fst st')) <= S (length (fst (fst st))))%nat.
Proof.
  intros Hok Hinv. destruct st as [[claims all_transactions] stats].
  unfold parse_claims_row. cbv zeta. unfold m_bind.
  destruct (claim_row_run sheet row_idx (Z.of_nat row_idx + 1) pn ps ibc w Hok)
    as (claim & txns & n & -> & _).
  destruct claim as [claim|]; [|unfold m_ret; exists (claims, all_transactions, stats), n;
                                 cbn [fst]; split; [reflexivity|]; split; [exact Hinv | lia]].
  destruct (dict_truthy claim);
    [|unfold m_ret; exists (claims, all_transactions, stats), n;
      cbn [fst]; split; [reflexivity|]; split; [exact Hinv | lia]].
  unfold m_ret. eexists (_, _, _), n. split; [reflexivity|].
  cbn [fst]. split; [|rewrite length_app; cbn [length]; lia].
  destruct Hinv as (Htotal & Hpolicy & Hinward & Hnone & Hsum & Hidx).
  unfold pass_invariant.
  rewrite !count_of_snoc. unfold has_policy, has_inward_only, has_no_parent in *.
  assert (Hindices :
            Forall (fun p => (fst p < length (claims ++ [claim]))%nat)
              (all_transactions ++ map (pair (length (claims ++ [claim]) - 1)%nat) txns)).
  { apply List.Forall_app. split.
    - eapply Forall_impl; [exact Hidx|]. intros p Hp. cbv beta in Hp |- *. rewrite length_app. cbn [length]. lia.
    - apply Forall_forall. intros p Hp. apply list_elem_of_fmap in Hp.
      destruct Hp as (t & -> & _). cbn [fst]. rewrite length_app. cbn [length]. lia. }
  destruct (truthy (dict_get claim "policy_id"));
    [|destruct (truthy (dict_get claim "inward_reinsurance_id"))];
    cbn [total matched_policy matched_inward unmatched by_source_type negb andb];
    rewrite count_add_sum;
    repeat split; try exact Hindices;
    rewrite ?length_app, ?Nat2Z.inj_add; cbn [length]; lia.
Qed.

Lemma parse_claims_loop (sheet : xl_sheet) (pn ps ibc : lookup_map) (rows : list nat)
    (st : parse_state) (w : world) :
  (forall row_idx, claim_row_ok sheet row_idx) -> pass_invariant st ->
  exists st' n,
    m_for rows st (parse_claims_row sheet pn ps ibc) w = (inr st', tick n w) /\
    pass_invariant st' /\
    (length (fst (fst st')) <= length (fst (fst st)) + length rows)%nat.
Proof.
  intros Hok. revert st w. induction rows as [|row_idx rest IH]; intros st w Hinv;
    cbn [m_for].
  - unfold m_ret. exists st, 0%nat. rewrite tick_0. split; [reflexivity|].
    split; [exact Hinv | lia].
  - unfold m_bind.
    destruct (parse_claims_row_run sheet pn ps ibc st row_idx w (Hok row_idx) Hinv)
      as (st1 & n1 & -> & Hinv1 & Hlen1).
    destruct (IH st1 (tick n1 w) Hinv1) as (st2 & n2 & -> & Hinv2 & Hlen2).
    rewrite tick_tick. exists st2, (n1 + n2)%nat. split; [reflexivity|].
    split; [exact Hinv2|]. cbn [length]. lia.
Qed.

(** X15.  The pass over the rows of a claims sheet whose cells are as the
    reader gives them never fails, and only reads the clock.  Its statistics
    are those of the claims it returns: the total is their number; the claims
    matched to a policy, those matched to an inward contract alone and the
    unmatched ones are counted apart and add up to the total, as do the
    counts by source type; every transaction is paired with the index of a
    claim of the list; and there are at most as many claims as rows after the
    two header rows. *)
Theorem claims_pass_statistics (sheet : xl_sheet) (pn ps ibc : lookup_map) (w : world) :
  (forall row_idx, claim_row_ok sheet row_idx) ->
  exists claims all_transactions stats n,
    parse_claims sheet pn ps ibc w = (inr (claims, all_transactions, stats), tick n w) /\
    total stats = Z.of_nat (length claims) /\
    matched_policy stats = count_of has_policy claims /\
    matched_inward stats = count_of has_inward_only claims /\
    unmatched stats = count_of has_no_parent claims /\
    matched_policy stats + matched_inward stats + unmatched stats = total stats /\
    sum_by_type (by_source_type stats) = total stats /\
    Forall (fun p => (fst p < length claims)%nat) all_transactions /\
    (length claims <= length sheet - 2)%nat.
Proof.
  intros Hok. unfold parse_claims.
  destruct (parse_claims_loop sheet pn ps ibc
              (seq data_start_row (length sheet - data_start_row))
              ([], [], mk_match_stats 0 0 0 0 []) w Hok)
    as ([[claims all_transactions] stats] & n & Hrun & Hinv & Hlen).
  { unfold pass_invariant. cbn. repeat split; constructor. }
  exists claims, all_transactions, stats, n. split; [exact Hrun|].
  destruct Hinv as (Htotal & Hpolicy & Hinward & Hnone & Hsum & Hidx).
  cbn [fst length] in Hlen. rewrite length_seq in Hlen. unfold data_start_row in Hlen.
  repeat (split; [assumption|]).
  split; [|split; [exact Hsum | split; [exact Hidx | lia]]].
  rewrite Hpolicy, Hinward, Hnone, Htotal. clear.
  unfold count_of, has_policy, has_inward_only, has_no_parent.
  induction claims as [|c rest IH]; [reflexivity|]. cbn [List.filter].
  destruct (truthy (dict_get c "policy_id")),
    (truthy (dict_get c "inward_reinsurance_id")); cbn [negb andb length] in *; lia.
Qed.

End ClaimsPass.

(** Two header rows, then the two example claims. *)
Definition ledger_sheet : list (list Claims.xl_cell) :=
  [[]; []] ++ part_paid_sheet ++ inward_claim_sheet ++ [[]].

Lemma claims_pass_statistics_witness :
  (forall row_idx, claim_row_ok ledger_sheet row_idx) /\
  exists claims all_transactions stats n,
    Claims.parse_claims ledger_sheet policy_numbers ∅ ∅ (example_world [] (open_store ∅))
    = (inr (claims, all_transactions, stats), tick n (example_world [] (open_store ∅))) /\
    Claims.total stats = Z.of_nat (length claims) /\
    (length claims <= 3)%nat.
Proof.
  assert (Hok : forall row_idx, claim_row_ok ledger_sheet row_idx)
    by exact (plain_sheet_ok ledger_sheet eq_refl).
  split; [exact Hok|].
  destruct (claims_pass_statistics ledger_sheet policy_numbers ∅ ∅
              (example_world [] (open_store ∅)) Hok)
    as (claims & all_transactions & stats & n & Hrun & Htotal & _ & _ & _ & _ & _ & _ & Hlen).
  exists claims, all_transactions, stats, n. repeat split; assumption.
Defined.


(** ** The ids of the inserted claims *)

Section ClaimIds.
Import Claims.

(** A row as the store keeps it always has an id. *)
Lemma with_id_has_id (n : N) (r : dict) : exists id, with_id n r !! "id"%string = Some id.
Proof.
  unfold with_id. destruct (r !! "id"%string) as [id|] eqn:Hid.
  - exists id. exact Hid.
  - eexists. apply lookup_insert_eq.
Qed.

(** The rows an insert statement answers with are its records, in order,
    each with an id. *)
Lemma store_add_fold_rows (st : store) (table : string) (rs : list dict)
    (rows : list dict) (n : N) (stored rows' stored' : list dict) (n' : N) :
  fold_left (store_add st table) rs (inr (rows, n, stored)) = inr (rows', n', stored') ->
  exists new,
    stored' = stored ++ new /\ Forall2 (fun r row => exists k, row = with_id k r) rs new.
Proof.
  revert rows n stored. induction rs as [|r rest IH]; intros rows n stored; cbn [fold_left].
  - intros [= <- <- <-]. exists []. rewrite app_nil_r. split; [reflexivity | constructor].
  - cbn [store_add]. destruct (st_reject_row st table rows r) as [msg|].
    + assert (Hstuck : forall l, fold_left (store_add st table) l (inl (APIError msg))
                                 = inl (APIError msg))
        by (induction l; [reflexivity | assumption]).
      rewrite Hstuck. discriminate.
    + intros Hfold. destruct (IH _ _ _ Hfold) as (new & -> & Hall).
      exists (with_id n r :: new). rewrite <- app_assoc. split; [reflexivity|].
      constructor; [exists n; reflexivity | exact Hall].
Qed.

Lemma insert_many_rows (table : string) (rs : list dict) (st st' : store)
    (data : list dict) :
  store_insert_many table rs st = inr (data, st') ->
  Forall2 (fun r row => exists k, row = with_id k r) rs data.
Proof.
  unfold store_insert_many.
  destruct (st_tables st !! table) as [rows|]; [|discriminate].
  destruct (st_reject_bulk st table rows rs); [discriminate|].
  destruct (fold_left _ rs _) as [e|[[rows' n'] stored]] eqn:Hfold; [discriminate|].
  intros [= <- <-]. destruct (store_add_fold_rows _ _ _ _ _ _ _ _ _ Hfold) as (new & -> & Hall).
  exact Hall.
Qed.

(** Every entry of the map gives, for the index of a claim, the id of a
    row stored from that claim. *)
Definition ids_link (claims added : list dict) (claim_id_map : gmap nat value) : Prop :=
  forall i id,
    claim_id_map !! i = Some id ->
    exists claim row,
      claims !! i = Some claim /\ In row added /\ stored_from [claim] row /\
      row !! "id"%string = Some id.

(** Every stored row has its entry: the index of its claim leads to its
    id. *)
Definition rows_have_entries (claims added : list dict) (claim_id_map : gmap nat value)
  : Prop :=
  forall row,
    In row added ->
    exists i id claim,
      claim_id_map !! i = Some id /\ row !! "id"%string = Some id /\
      claims !! i = Some claim /\ stored_from [claim] row.

(** The state of the insertion once the claims before [bound] are done. *)
Definition linked_state (claims : list dict) (bound : nat) (added : list dict)
    (claim_id_map : gmap nat value) : Prop :=
  ids_link claims added claim_id_map /\
  rows_have_entries claims added claim_id_map /\
  forall i, is_Some (claim_id_map !! i) -> (i < bound)%nat.

Lemma linked_state_later (claims : list dict) (bound bound' : nat) (added : list dict)
    (m : gmap nat value) :
  (bound <= bound')%nat -> linked_state claims bound added m ->
  linked_state claims bound' added m.
Proof.
  intros Hle (Hlink & Hrows & Hbelow). split; [exact Hlink|]. split; [exact Hrows|].
  intros i Hi. specialize (Hbelow i Hi). lia.
Qed.

Lemma stored_from_one (n : N) (claim : dict) : stored_from [claim] (with_id n claim).
Proof. exists n, claim. split; [left; reflexivity | reflexivity]. Qed.

(** One more claim stored, and its id recorded. *)
Lemma linked_state_insert (claims : list dict) (at_ : nat) (added : list dict)
    (m : gmap nat value) (n : N) (claim : dict) (id : value) :
  linked_state claims at_ added m ->
  claims !! at_ = Some claim -> with_id n claim !! "id"%string = Some id ->
  linked_state claims (S at_) (added ++ [with_id n claim]) (<[at_ := id]> m).
Proof.
  intros (Hlink & Hrows & Hbelow) Hclaim Hid. split; [|split].
  - intros j id' Hj. destruct (decide (j = at_)) as [->|Hne].
    + rewrite lookup_insert_eq in Hj. injection Hj as <-.
      exists claim, (with_id n claim). split; [exact Hclaim|].
      split; [apply in_or_app; right; left; reflexivity|].
      split; [apply stored_from_one | exact Hid].
    + rewrite lookup_insert_ne in Hj by congruence.
      destruct (Hlink j id' Hj) as (c & row & Hc & Hin & Hrow & Hrid).
      exists c, row. split; [exact Hc|]. split; [apply in_or_app; left; exact Hin|]. auto.
  - intros row Hrow. apply in_app_or in Hrow. destruct Hrow as [Hrow | [<- | []]].
    + destruct (Hrows row Hrow) as (i & id' & c & Hi & Hrid & Hc & Hfrom).
      exists i, id', c. split; [|auto].
      rewrite lookup_insert_ne; [exact Hi|].
      intros <-. specialize (Hbelow at_ ltac:(eexists; exact Hi)). lia.
    + exists at_, id, claim. split; [apply lookup_insert_eq|]. split; [exact Hid|].
      split; [exact Hclaim | apply stored_from_one].
  - intros i [id' Hi]. destruct (decide (i = at_)) as [->|Hne]; [lia|].
    rewrite lookup_insert_ne in Hi by congruence.
    specialize (Hbelow i ltac:(eexists; exact Hi)). lia.
Qed.

(** Recording the ids of the rows of a statement never fails, and gives
    every row its entry. *)
Lemma record_ids_rows (claims batch data : list dict) (at_ : nat) (added : list dict)
    (m : gmap nat value) :
  Forall2 (fun r row => exists k, row = with_id k r) batch data ->
  (forall k r, batch !! k = Some r -> claims !! (at_ + k)%nat = Some r) ->
  linked_state claims at_ added m ->
  exists m',
    record_ids at_ data m = (m', None) /\
    linked_state claims (at_ + length data) (added ++ data) m'.
Proof.
  intros Hrows. revert at_ added m.
  induction Hrows as [|r row batch data (k & ->) _ IH]; intros at_ added m Hat Hstate;
    cbn [record_ids].
  - exists m. split; [reflexivity|]. cbn [length]. rewrite Nat.add_0_r, app_nil_r.
    exact Hstate.
  - destruct (with_id_has_id k r) as (id & Hid). unfold dict_item. rewrite Hid.
    destruct (IH (S at_) (added ++ [with_id k r]) (<[at_ := id]> m)) as (m' & Hrun & Hstate').
    + intros j c Hj. replace (S at_ + j)%nat with (at_ + S j)%nat by lia.
      apply Hat. exact Hj.
    + apply linked_state_insert; [exact Hstate | | exact Hid].
      rewrite <- (Nat.add_0_r at_). apply Hat. reflexivity.
    + exists m'. split; [exact Hrun|]. cbn [length].
      rewrite <- app_assoc in Hstate'. cbn [app] in Hstate'.
      replace (at_ + S (length data))%nat with (S at_ + length data)%nat by lia.
      exact Hstate'.
Qed.

(** The row-by-row retry of a batch. *)
Lemma retry_claims_run (claims batch : list dict) (at_ : nat) (st : claim_state)
    (added0 : list dict) (w : world) :
  (forall k r, batch !! k = Some r -> claims !! (at_ + k)%nat = Some r) ->
  linked_state claims at_ added0 (snd st) ->
  exists st' w' added,
    retry_claims at_ batch st w = (inr st', w') /\
    store_grew "claims" (w_store w) (w_store w') added /\
    fst st' = fst st + Z.of_nat (length added) /\
    (length added <= length batch)%nat /\
    linked_state claims (at_ + length batch) (added0 ++ added) (snd st').
Proof.
  revert at_ st added0 w.
  induction batch as [|claim rest IH]; intros at_ st added0 w Hat Hstate; cbn [retry_claims].
  - unfold m_ret. exists st, w, []. split; [reflexivity|].
    split; [apply store_grew_refl|]. cbn [length]. split; [lia|]. split; [lia|].
    rewrite app_nil_r, Nat.add_0_r. exact Hstate.
  - assert (Hrest : forall k r, rest !! k = Some r -> claims !! (S at_ + k)%nat = Some r).
    { intros k r Hk. replace (S at_ + k)%nat with (at_ + S k)%nat by lia. apply Hat. exact Hk. }
    assert (Hclaim : claims !! at_ = Some claim).
    { rewrite <- (Nat.add_0_r at_). apply Hat. reflexivity. }
    unfold m_bind at 1. unfold m_try at 1. unfold m_bind at 1.
    unfold db_insert_one at 1, with_store at 1.
    destruct (store_insert_one "claims" claim (w_store w)) as [e|[data st1]] eqn:Hone.
    + cbn [any_exception]. unfold m_bind at 1.
      destruct (print_keeps (py "      Failed: " ++ py_str (dict_get claim "claim_number")
                             ++ py " - " ++ take 100 (exn_msg e)) w)
        as (w1 & -> & Hs1 & _).
      unfold m_ret at 1.
      destruct (IH (S at_) st added0 w1 Hrest
                  (linked_state_later claims at_ (S at_) added0 (snd st)
                     (Nat.le_succ_diag_r at_) Hstate))
        as (st' & w' & added & -> & Hgrew & Hcount & Hlen & Hstate').
      exists st', w', added. split; [reflexivity|]. rewrite Hs1 in Hgrew.
      split; [exact Hgrew|]. split; [exact Hcount|]. cbn [length]. split; [lia|].
      replace (at_ + S (length rest))%nat with (S at_ + length rest)%nat by lia.
      exact Hstate'.
    + destruct (insert_one_grows _ _ _ _ _ Hone) as (Hg1 & Hl1 & Ha1).
      destruct data as [|row [|row' more]]; try discriminate Hl1.
      apply List.Forall_cons_iff in Ha1. destruct Ha1 as [Hrow _].
      unfold m_bind at 1. unfold m_lift at 1. unfold m_bind at 1. unfold m_lift at 1.
      destruct Hrow as (n & r & [<- | []] & ->).
      destruct (with_id_has_id n claim) as (id & Hid). unfold dict_item. rewrite Hid.
      unfold m_ret at 1.
      destruct (IH (S at_) (fst st + 1, <[at_ := id]> (snd st)) (added0 ++ [with_id n claim])
                  (mk_world (w_now w) (w_ticks w) (w_stdin w) (w_stdout w) st1) Hrest)
        as (st' & w' & added & -> & Hgrew & Hcount & Hlen & Hstate').
      { cbn [snd]. apply linked_state_insert; assumption. }
      exists st', w', (with_id n claim :: added). split; [reflexivity|].
      cbn [w_store] in Hgrew.
      split; [exact (store_grew_trans _ _ _ _ _ _ Hg1 Hgrew)|].
      cbn [fst length] in *. split; [lia|]. split; [lia|].
      rewrite <- app_assoc in Hstate'.
      replace (at_ + S (length rest))%nat with (S at_ + length rest)%nat by lia.
      exact Hstate'.
Qed.

Lemma slice_lookup {A} (l : list A) (i j k : nat) (x : A) :
  slice l i j !! k = Some x -> l !! (i + k)%nat = Some x.
Proof.
  unfold slice. intros Hk. apply lookup_take_Some in Hk. destruct Hk as [Hk _].
  rewrite lookup_drop in Hk. exact Hk.
Qed.

Lemma slice_length {A} (l : list A) (i j : nat) : (length (slice l i j) <= j - i)%nat.
Proof. unfold slice. rewrite length_take. lia. Qed.

Lemma insert_claim_batch_run (claims : list dict) (st : claim_state) (batch_start : nat)
    (added0 : list dict) (w : world) :
  linked_state claims batch_start added0 (snd st) ->
  exists st' w' added,
    insert_claim_batch claims st batch_start w = (inr st', w') /\
    store_grew "claims" (w_store w) (w_store w') added /\
    fst st' = fst st + Z.of_nat (length added) /\
    linked_state claims (batch_start + BATCH_SIZE) (added0 ++ added) (snd st').
Proof.
  intros Hstate. unfold insert_claim_batch. cbv zeta.
  set (batch := slice claims batch_start (Nat.min (batch_start + BATCH_SIZE) (length claims))).
  assert (Hat : forall k r, batch !! k = Some r -> claims !! (batch_start + k)%nat = Some r)
    by (intros k r; apply slice_lookup).
  assert (Hshort : (batch_start + length batch <= batch_start + BATCH_SIZE)%nat).
  { pose proof (slice_length claims batch_start
                  (Nat.min (batch_start + BATCH_SIZE) (length claims))).
    fold batch in H. lia. }
  unfold m_bind at 1.
  destruct (print_keeps
              (py "  Batch " ++ str_of_Z (Z.of_nat batch_start / Z.of_nat BATCH_SIZE + 1)
               ++ py ": claims " ++ str_of_Z (Z.of_nat batch_start + 1) ++ py " - "
               ++ str_of_Z (Z.of_nat (Nat.min (batch_start + BATCH_SIZE) (length claims)))
               ++ py "...") w)
    as (w1 & -> & Hs1 & _).
  unfold m_bind at 1. unfold m_try at 1. unfold m_bind at 1.
  unfold db_insert_many at 1, with_store at 1.
  destruct (store_insert_many "claims" batch (w_store w1)) as [e|[data st1]] eqn:Hbulk.
  - cbn [any_exception]. unfold m_ret at 1.
    unfold m_bind at 1.
    destruct (print_keeps (py "FAILED") w1) as (w2 & -> & Hs2 & _).
    unfold m_bind at 1.
    destruct (print_keeps (py "    Error: " ++ exn_msg e) w2) as (w3 & -> & Hs3 & _).
    unfold m_bind at 1.
    destruct (print_keeps (py "    Retrying row-by-row...") w3) as (w4 & -> & Hs4 & _).
    destruct (retry_claims_run claims batch batch_start st added0 w4 Hat Hstate)
      as (st' & w' & added & -> & Hgrew & Hcount & _ & Hstate').
    exists st', w', added. split; [reflexivity|].
    rewrite Hs4, Hs3, Hs2, Hs1 in Hgrew. split; [exact Hgrew|]. split; [exact Hcount|].
    exact (linked_state_later _ _ _ _ _ Hshort Hstate').
  - unfold m_ret at 1.
    destruct (insert_many_grows _ _ _ _ _ Hbulk) as (Hgrew & Hlen & _).
    pose proof (insert_many_rows _ _ _ _ _ Hbulk) as Hrows.
    destruct (record_ids_rows claims batch data batch_start added0 (snd st) Hrows Hat Hstate)
      as (m' & -> & Hstate').
    unfold m_bind at 1. unfold print at 1. unfold m_ret.
    eexists _, _, data. split; [reflexivity|]. cbn [w_store fst snd].
    rewrite Hs1 in Hgrew. split; [exact Hgrew|]. split; [lia|].
    rewrite Hlen in Hstate'. exact (linked_state_later _ _ _ _ _ Hshort Hstate').
Qed.

Lemma insert_claims_loop (claims : list dict) (fuel i : nat) (st : claim_state)
    (added0 : list dict) (w : world) :
  linked_state claims i added0 (snd st) ->
  exists st' w' added bound,
    m_for (range_from fuel i (length claims) BATCH_SIZE) st (insert_claim_batch claims) w
    = (inr st', w') /\
    store_grew "claims" (w_store w) (w_store w') added /\
    fst st' = fst st + Z.of_nat (length added) /\
    linked_state claims bound (added0 ++ added) (snd st').
Proof.
  revert i st added0 w. induction fuel as [|fuel IH]; intros i st added0 w Hstate;
    cbn [range_from].
  - cbn [m_for]. unfold m_ret. exists st, w, [], i. split; [reflexivity|].
    split; [apply store_grew_refl|]. cbn [length]. split; [lia|].
    rewrite app_nil_r. exact Hstate.
  - destruct (i <? length claims)%nat; cbn [m_for].
    + unfold m_bind.
      destruct (insert_claim_batch_run claims st i added0 w Hstate)
        as (st1 & w1 & a1 & -> & Hg1 & Hc1 & Hl1).
      destruct (IH (i + BATCH_SIZE)%nat st1 (added0 ++ a1) w1 Hl1)
        as (st2 & w2 & a2 & bound & -> & Hg2 & Hc2 & Hl2).
      exists st2, w2, (a1 ++ a2), bound. split; [reflexivity|].
      split; [eapply store_grew_trans; eassumption|].
      rewrite length_app, Nat2Z.inj_add. split; [lia|].
      rewrite <- app_assoc in Hl2. exact Hl2.
    + unfold m_ret. exists st, w, [], i. split; [reflexivity|].
      split; [apply store_grew_refl|]. cbn [length]. split; [lia|].
      rewrite app_nil_r. exact Hstate.
Qed.

Lemma linked_state_start (claims : list dict) : linked_state claims 0 [] ∅.
Proof.
  split; [|split].
  - intros i id Hi. rewrite lookup_empty in Hi. discriminate.
  - intros row [].
  - intros i [id Hi]. rewrite lookup_empty in Hi. discriminate.
Qed.

(** X16.  The insertion of the claims never raises.  The count it
    returns is the number of rows the claims table gained, the other tables
    being left alone; every entry of the id map gives, for the index of a
    claim of the list, the id of a row stored from that very claim; so every
    transaction built from the map carries the id of a claim row that is in
    the store. *)
Theorem transactions_reference_stored_claims (claims : list dict)
    (all_transactions : list (nat * dict)) (w : world) :
  exists inserted_claims claim_id_map w' added,
    insert_claims claims w = (inr (inserted_claims, claim_id_map), w') /\
    inserted_claims = Z.of_nat (length added) /\
    (forall t, t <> "claims"%string ->
               st_tables (w_store w') !! t = st_tables (w_store w) !! t) /\
    match st_tables (w_store w) !! "claims"%string with
    | Some rows => st_tables (w_store w') !! "claims"%string = Some (rows ++ added)
    | None => st_tables (w_store w') !! "claims"%string = None /\ added = []
    end /\
    (forall i id,
       claim_id_map !! i = Some id ->
       exists claim row,
         claims !! i = Some claim /\ In row added /\ stored_from [claim] row /\
         row !! "id"%string = Some id) /\
    (forall txn,
       In txn (build_transactions claim_id_map all_transactions) ->
       exists row, In row added /\ txn !! "claim_id"%string = row !! "id"%string).
Proof.
  unfold insert_claims, py_range.
  destruct (insert_claims_loop claims (length claims) 0 (0, ∅) [] w
              (linked_state_start claims))
    as ([inserted_claims claim_id_map] & w' & added & bound & Hrun & Hgrew & Hcount
        & Hlink & _).
  cbn [fst snd app] in *.
  exists inserted_claims, claim_id_map, w', added. split; [exact Hrun|].
  split; [lia|]. destruct Hgrew as (_ & _ & _ & Hother & Htable).
  split; [exact Hother|]. split; [exact Htable|]. split; [exact Hlink|].
  intros txn Htxn. rewrite build_transactions_omap in Htxn.
  apply list_elem_of_In, list_elem_of_omap in Htxn.
  destruct Htxn as ([i t] & _ & Hlinked). unfold linked in Hlinked. cbn [fst snd] in Hlinked.
  destruct (claim_id_map !! i) as [id|] eqn:Hid; [|discriminate].
  injection Hlinked as <-.
  destruct (Hlink i id Hid) as (claim & row & _ & Hin & _ & Hrow).
  exists row. split; [exact Hin|]. rewrite Hrow. apply dict_set_eq.
Qed.

(** C8.  A transaction enters the dependent batch exactly when the map
    from claim index to generated id knows its claim, and then it carries
    that id; the transactions of the other claims are left out, nothing else
    happening to them.  The map is the one the insertion of the claims
    leaves: a claim whose insert succeeds, with its batch or on its own, gets
    the id of its stored row as its entry, so its transactions enter the
    batch with that id; a claim whose own insert fails leaves the count and
    the map as they were, so it has no entry and its transactions are
    dropped. *)
Theorem orphan_transactions_are_dropped (claims : list dict)
    (all_transactions : list (nat * dict)) (w : world) :
  (forall claim_id_map : gmap nat value,
     let batch := build_transactions claim_id_map all_transactions in
     batch = omap (linked claim_id_map) all_transactions /\
     (forall txn, txn ∈ batch <->
        exists claim_idx t id,
          (claim_idx, t) ∈ all_transactions /\ claim_id_map !! claim_idx = Some id /\
          txn = dict_set t "claim_id" id /\ txn !! "claim_id"%string = Some id) /\
     length batch
     = length (filter (fun p => is_Some (claim_id_map !! fst p)) all_transactions)) /\
  (forall (at_ : nat) (claim : dict) (rest : list dict) (st : claim_state)
          (v v1 : world) (row_error : exn),
     db_insert_one "claims" claim v = (inl row_error, v1) ->
     retry_claims at_ (claim :: rest) st v
     = retry_claims (S at_) rest st (snd (after_failed_row claim row_error v1))) /\
  exists inserted_claims claim_id_map w' added,
    insert_claims claims w = (inr (inserted_claims, claim_id_map), w') /\
    store_grew "claims" (w_store w) (w_store w') added /\
    inserted_claims = Z.of_nat (length added) /\
    (forall i id,
       claim_id_map !! i = Some id ->
       exists claim row,
         claims !! i = Some claim /\ In row added /\ stored_from [claim] row /\
         row !! "id"%string = Some id) /\
    (forall row,
       In row added ->
       exists i id claim,
         claim_id_map !! i = Some id /\ row !! "id"%string = Some id /\
         claims !! i = Some claim /\ stored_from [claim] row /\
         forall t,
           In (i, t) all_transactions ->
           In (dict_set t "claim_id" id) (build_transactions claim_id_map all_transactions)).
Proof.
  split; [|split].
  - intros claim_id_map. cbv zeta. rewrite build_transactions_omap.
    split; [reflexivity|]. split.
    + intros txn. rewrite list_elem_of_omap. split.
      * intros ([i t] & Hin & Hlinked). unfold linked in Hlinked. simpl in Hlinked.
        destruct (claim_id_map !! i) as [id|] eqn:Hid; [|discriminate].
        injection Hlinked as <-. exists i, t, id.
        split; [exact Hin|]. split; [exact Hid|]. split; [reflexivity|].
        apply dict_set_eq.
      * intros (i & t & id & Hin & Hid & -> & _). exists (i, t).
        split; [exact Hin|]. unfold linked. simpl. rewrite Hid. reflexivity.
    + induction all_transactions as [|[i t] rest IH]; [reflexivity|].
      cbn [omap list_omap]. rewrite filter_cons. unfold linked at 1. cbn [fst snd].
      destruct (claim_id_map !! i) as [id|] eqn:Hid.
      * rewrite decide_True by (eexists; reflexivity). simpl. f_equal. exact IH.
      * rewrite decide_False by (intros [? ?]; discriminate). exact IH.
  - intros at_ claim rest st v v1 row_error Hfail.
    cbn [retry_claims]. unfold m_bind at 1. unfold m_try at 1.
    unfold m_bind at 1. rewrite Hfail. cbn [any_exception].
    unfold after_failed_row, m_bind at 1.
    destruct (print _ v1) as [[e|[]] v2] eqn:Hp.
    + unfold print in Hp. discriminate.
    + unfold m_ret. reflexivity.
  - unfold insert_claims, py_range.
    destruct (insert_claims_loop claims (length claims) 0 (0, ∅) [] w
                (linked_state_start claims))
      as ([inserted_claims claim_id_map] & w' & added & bound & Hrun & Hgrew & Hcount
          & Hlink & Hrows & _).
    cbn [fst snd app] in *.
    exists inserted_claims, claim_id_map, w', added. split; [exact Hrun|].
    split; [exact Hgrew|]. split; [lia|]. split; [exact Hlink|].
    intros row Hrow. destruct (Hrows row Hrow) as (i & id & claim & Hi & Hid & Hclaim & Hfrom).
    exists i, id, claim. repeat (split; [assumption|]).
    intros t Ht. rewrite build_transactions_omap.
    apply list_elem_of_In, list_elem_of_omap. exists (i, t).
    split; [apply list_elem_of_In; exact Ht|]. unfold linked. cbn [fst snd].
    rewrite Hi. reflexivity.
Qed.

End ClaimIds.

(** Two claims the store takes with their batch. *)
Definition two_claims : list dict :=
  [ {[ "claim_number"%string := VStr (py "A") ]};
    {[ "claim_number"%string := VStr (py "C") ]} ].

Definition two_claims_run : Exc Claims.claim_state * world :=
  Claims.insert_claims two_claims (example_world [] picky_store).

Lemma orphan_transactions_are_dropped_witness :
  (* one claim refused: the batch fails and the rows are retried one by one *)
  ids_of three_claims_run !! 0%nat = Some (VStr (py "id-1")) /\
  ids_of three_claims_run !! 1%nat = None /\
  ids_of three_claims_run !! 2%nat = Some (VStr (py "id-2")) /\
  Claims.build_transactions (ids_of three_claims_run) three_claims_txns
  = [ dict_set (payment_of 10) "claim_id" (VStr (py "id-1"));
      dict_set (payment_of 40) "claim_id" (VStr (py "id-2")) ] /\
  (* no claim refused: the ids are those of the rows of the statement *)
  exists (w' : world) (added : list dict),
    two_claims_run = (inr (2, ids_of two_claims_run), w') /\
    length added = 2%nat /\
    ids_of two_claims_run !! 0%nat = Some (VStr (py "id-1")) /\
    ids_of two_claims_run !! 1%nat = Some (VStr (py "id-2")) /\
    Forall (fun row =>
              exists i id,
                ids_of two_claims_run !! i = Some id /\ row !! "id"%string = Some id /\
                forall t, In (i, t) three_claims_txns ->
                  In (dict_set t "claim_id" id)
                    (Claims.build_transactions (ids_of two_claims_run) three_claims_txns))
      added.
Proof.
  split; [by_evaluation|]. split; [by_evaluation|]. split; [by_evaluation|].
  split; [by_evaluation|].
  destruct (orphan_transactions_are_dropped two_claims three_claims_txns
              (example_world [] picky_store))
    as (_ & _ & inserted & m & w' & added & Hrun & _ & Hcount & _ & Hrows).
  assert (Hrun2 : fst two_claims_run = inr (2, ids_of two_claims_run)) by by_evaluation.
  unfold two_claims_run at 1 in Hrun2. rewrite Hrun in Hrun2. cbn [fst] in Hrun2.
  injection Hrun2 as -> ->.
  exists w', added. split; [exact Hrun|]. split; [lia|].
  split; [by_evaluation|]. split; [by_evaluation|].
  apply List.Forall_forall. intros row Hrow.
  destruct (Hrows row Hrow) as (i & id & claim & Hi & Hid & _ & _ & Htxns).
  exists i, id. auto.
Defined.


(** ** Dates the importer wrote are read back as they are *)

Section DateRoundTrip.
Import Production.

(** The text of a year of four digits: decimal digits that [int] reads
    back. *)
Definition year_text_ok (y : Z) : bool :=
  match str_of_Z y with
  | [a; b; c; d] =>
    is_digit a && is_digit b && is_digit c && is_digit d
    && ascii_digit b && ascii_digit c && negb (py_isspace a)
    && match int_of_str [a; b; c; d] with
       | inr y' => y' =? y
       | inl _ => false
       end
  | _ => false
  end.

Lemma year_texts (y : Z) : 1000 <= y <= 9999 -> year_text_ok y = true.
Proof.
  intros Hy.
  assert (Hall : forall_range 14 0 (fun z => (z <? 1000) || (9999 <? z) || year_text_ok z)
                 = true) by (vm_compute; reflexivity).
  pose proof (forall_range_spec 14 0 _ Hall y) as Hyear. cbv beta in Hyear.
  destruct (Z.ltb_spec y 1000); [lia|]. destruct (Z.ltb_spec 9999 y); [lia|].
  apply Hyear. change (2 ^ Z.of_nat 14) with 16384. lia.
Qed.

(** What follows the year in the text of a date, and the format that reads
    it. *)
Definition tail_text (m d : Z) : pystr :=
  [0x2D%N] ++ zfill 2 (str_of_Z m) ++ [0x2D%N] ++ zfill 2 (str_of_Z d).

Definition tail_format : list fmt_item := [FLit 0x2D; FMonth; FLit 0x2D; FDay].

Definition reads_as (text : pystr) (n : Z) : bool :=
  match int_of_str text with
  | inr n' => n' =? n
  | inl _ => false
  end.

Definition tail_text_ok (m d : Z) : bool :=
  match match_format tail_format (tail_text m d) with
  | Some ([_; mm; _; dd], []) => reads_as mm m && reads_as dd d
  | _ => false
  end
  && match rev (tail_text m d) with
     | x :: _ => negb (py_isspace x)
     | [] => false
     end
  && (length (tail_text m d) =? 6)%nat.

Lemma tail_texts (m d : Z) : 1 <= m <= 12 -> 1 <= d <= 31 -> tail_text_ok m d = true.
Proof.
  intros Hm Hd.
  assert (Hall : forall_range 4 0 (fun m =>
                   forall_range 5 0 (fun d =>
                     (m <? 1) || (12 <? m) || (d <? 1) || (31 <? d) || tail_text_ok m d))
                 = true) by (vm_compute; reflexivity).
  pose proof (forall_range_spec 4 0 _ Hall m) as Hmonth. cbv beta in Hmonth.
  assert (Hdays := Hmonth ltac:(change (2 ^ Z.of_nat 4) with 16; lia)).
  pose proof (forall_range_spec 5 0 _ Hdays d) as Hday. cbv beta in Hday.
  assert (Hok := Hday ltac:(change (2 ^ Z.of_nat 5) with 32; lia)).
  destruct (Z.ltb_spec m 1); [lia|]. destruct (Z.ltb_spec 12 m); [lia|].
  destruct (Z.ltb_spec d 1); [lia|]. destruct (Z.ltb_spec 31 d); [lia|].
  exact Hok.
Qed.

(** A literal of the format that the text does not have. *)
Lemma literal_mismatch (x c : N) (f : list fmt_item) (r : pystr) :
  (c =? x)%N = false -> match_format (FLit x :: f) (c :: r) = None.
Proof.
  intros Hc. cbn [match_format directive_alts fold_left match_classes].
  unfold cc_char. rewrite Hc. reflexivity.
Qed.

(** A day takes one or two characters; the literal after it must follow. *)
Lemma day_then_literal_fails (x a b c : N) (f : list fmt_item) (rest : pystr) :
  (b =? x)%N = false -> (c =? x)%N = false ->
  match_format (FDay :: FLit x :: f) (a :: b :: c :: rest) = None.
Proof.
  intros Hb Hc.
  assert (Hone : match_format (FLit x :: f) (b :: c :: rest) = None)
    by (apply literal_mismatch; exact Hb).
  assert (Htwo : match_format (FLit x :: f) (c :: rest) = None)
    by (apply literal_mismatch; exact Hc).
  remember (FLit x :: f) as f' eqn:Hf'.
  cbn [match_format directive_alts fold_left match_classes].
  repeat match goal with
         | |- context [if ?k a then _ else _] => destruct (k a)
         | |- context [if ?k b then _ else _] => destruct (k b)
         end;
    rewrite ?Hone, ?Htwo; reflexivity.
Qed.

(** The year of four digits at the head of a text. *)
Lemma year_first (a b c d : N) (f : list fmt_item) (rest : pystr) :
  is_digit a = true -> is_digit b = true -> is_digit c = true -> is_digit d = true ->
  match_format (FYear :: f) (a :: b :: c :: d :: rest)
  = match match_format f rest with
    | Some (caps, rest') => Some ([a; b; c; d] :: caps, rest')
    | None => None
    end.
Proof.
  intros Ha Hb Hc Hd. remember (match_format f) as found eqn:Hfound.
  cbn [match_format directive_alts fold_left match_classes].
  rewrite Ha, Hb, Hc, Hd, <- Hfound. reflexivity.
Qed.

Lemma ascii_digit_is_not (x c : N) :
  ascii_digit c = true -> (x < 0x30 \/ 0x39 < x)%N -> (c =? x)%N = false.
Proof.
  unfold ascii_digit. intros Hc Hx. apply andb_prop in Hc. destruct Hc as [Hlo Hhi].
  apply N.leb_le in Hlo. apply N.leb_le in Hhi. apply N.eqb_neq. lia.
Qed.

Lemma reads_as_spec (text : pystr) (n : Z) : reads_as text n = true -> int_of_str text = inr n.
Proof.
  unfold reads_as. destruct (int_of_str text) as [e|n']; [discriminate|].
  intros Hn. apply Z.eqb_eq in Hn. congruence.
Qed.

Lemma iso_text_reads (y m d : Z) :
  1000 <= y <= 9999 -> date_valid y m d = true ->
  let s := strftime_ymd (mk_datetime y m d 0 0 0 0) in
  py_strip s = s /\ s <> [] /\ try_formats date_formats s = inr (Some s).
Proof.
  intros Hy Hvalid. cbv zeta.
  unfold date_valid in Hvalid. repeat (apply andb_prop in Hvalid; destruct Hvalid as [Hvalid ?]).
  pose proof (days_in_month_le y m) as Hmax.
  assert (Hm : 1 <= m <= 12) by lia. assert (Hd : 1 <= d <= 31) by lia.
  pose proof (year_texts y Hy) as Hyear. pose proof (tail_texts m d Hm Hd) as Htail.
  change (strftime_ymd (mk_datetime y m d 0 0 0 0)) with (str_of_Z y ++ tail_text m d).
  unfold year_text_ok in Hyear.
  destruct (str_of_Z y) as [|y1 [|y2 [|y3 [|y4 [|]]]]] eqn:Hstr; try discriminate Hyear.
  repeat (apply andb_prop in Hyear; destruct Hyear as [Hyear ?]).
  unfold tail_text_ok in Htail. apply andb_prop in Htail. destruct Htail as [Htail _].
  apply andb_prop in Htail. destruct Htail as [Hmatch Hlast].
  destruct (match_format tail_format (tail_text m d))
    as [[[|l1 [|mm [|l2 [|dd [|]]]]] [|]]|] eqn:Hformat; try discriminate Hmatch.
  apply andb_prop in Hmatch. destruct Hmatch as [Hmm Hdd].
  apply reads_as_spec in Hmm. apply reads_as_spec in Hdd.
  destruct (rev (tail_text m d)) as [|x t] eqn:Hrev; [discriminate|].
  apply negb_true_iff in Hlast.
  assert (Htext : tail_text m d = rev t ++ [x]).
  { rewrite <- (rev_involutive (tail_text m d)), Hrev. reflexivity. }
  cbn [app]. split; [|split; [discriminate|]].
  - unfold py_strip. rewrite lstrip_fixed by (apply negb_true_iff; assumption).
    rewrite Htext.
    change (y1 :: y2 :: y3 :: y4 :: rev t ++ [x]) with ((y1 :: y2 :: y3 :: y4 :: rev t) ++ [x]).
    apply rstrip_fixed. exact Hlast.
  - assert (Hint : int_of_str [y1; y2; y3; y4] = inr y).
    { destruct (int_of_str [y1; y2; y3; y4]) as [e|y']; [discriminate|].
      f_equal. apply Z.eqb_eq. assumption. }
    unfold date_formats. cbn [try_formats].
    assert (Hdot : strptime (y1 :: y2 :: y3 :: y4 :: tail_text m d) fmt_dmy_dot
                   = inl (ValueError (py "time data does not match format"))).
    { unfold strptime, fmt_dmy_dot.
      rewrite day_then_literal_fails; [reflexivity | |];
        apply ascii_digit_is_not; (assumption || (left; lia)). }
    rewrite Hdot. cbn [exc_bind exc_catch is_ValueError].
    assert (Hdash : strptime (y1 :: y2 :: y3 :: y4 :: tail_text m d) fmt_ymd_dash
                    = inr (mk_datetime y m d 0 0 0 0)).
    { unfold strptime. change fmt_ymd_dash with (FYear :: tail_format).
      rewrite year_first by assumption. rewrite Hformat.
      unfold tail_format. cbn [capture_of]. rewrite Hint, Hmm, Hdd. cbn [exc_bind].
      unfold mk_date, MINYEAR, MAXYEAR.
      repeat match goal with
             | |- context [negb (?a && ?b)] =>
               replace (a && b) with true
                 by (symmetry; apply andb_true_intro; split; apply Z.leb_le; lia)
             end.
      reflexivity. }
    rewrite Hdash. cbn [exc_bind exc_catch].
    change (strftime_ymd (mk_datetime y m d 0 0 0 0)) with (str_of_Z y ++ tail_text m d).
    rewrite Hstr. reflexivity.
Qed.

(** A text of ten characters has a year of four digits. *)
Definition year_length_ok (y : Z) : bool :=
  (1000 <=? y) || negb (length (str_of_Z y) =? 4)%nat.

Lemma year_lengths (y : Z) :
  1 <= y <= 9999 -> length (str_of_Z y) = 4%nat -> 1000 <= y.
Proof.
  intros Hy Hlen.
  assert (Hall : forall_range 14 0 (fun z => (z <? 1) || (9999 <? z) || year_length_ok z)
                 = true) by (vm_compute; reflexivity).
  pose proof (forall_range_spec 14 0 _ Hall y) as Hyear. cbv beta in Hyear.
  destruct (Z.ltb_spec y 1); [lia|]. destruct (Z.ltb_spec 9999 y); [lia|].
  unfold year_length_ok in Hyear. rewrite Hlen in Hyear.
  destruct (Z.leb_spec 1000 y); [assumption|].
  discriminate Hyear. change (2 ^ Z.of_nat 14) with 16384. lia.
Qed.

(** The year of a date of the calendar's ordinals is one of the calendar. *)
Lemma year_of_ordinal (y m d : Z) :
  date_valid y m d = true -> 1 <= ymd2ord y m d <= MAXORDINAL -> 1 <= y <= 9999.
Proof.
  intros Hvalid. unfold date_valid in Hvalid.
  repeat (apply andb_prop in Hvalid; destruct Hvalid as [Hvalid ?]).
  pose proof (days_in_month_le y m) as Hmax.
  pose proof (days_before_month_bounds y m ltac:(lia)) as Hbefore.
  unfold ymd2ord, days_before_year, MAXORDINAL. cbv zeta.
  generalize dependent (days_before_month y m). intros before Hbefore.
  generalize dependent (days_in_month y m). intros most Hd Hmost.
  Z.div_mod_to_equations. lia.
Qed.

(** A date cell holds a date of the calendar. *)
Definition date_cell_ok (v : value) : Prop :=
  match v with
  | VDate date =>
    1 <= dt_year date <= 9999 /\
    date_valid (dt_year date) (dt_month date) (dt_day date) = true
  | _ => True
  end.

Lemma mk_date_valid (y m d : Z) (date : datetime) :
  mk_date y m d = inr date ->
  date = mk_datetime y m d 0 0 0 0 /\ 1 <= y <= 9999 /\ date_valid y m d = true.
Proof.
  unfold mk_date, date_valid, MINYEAR, MAXYEAR.
  destruct (Z.leb_spec 1 y), (Z.leb_spec y 9999); cbn [andb negb]; try discriminate.
  destruct (Z.leb_spec 1 m), (Z.leb_spec m 12); cbn [andb negb]; try discriminate.
  destruct (Z.leb_spec 1 d), (Z.leb_spec d (days_in_month y m)); cbn [andb negb];
    try discriminate.
  intros [= <-]. split; [reflexivity|]. split; [lia | reflexivity].
Qed.

Lemma strptime_valid (s : pystr) (f : list fmt_item) (date : datetime) :
  strptime s f = inr date ->
  1 <= dt_year date <= 9999 /\
  date_valid (dt_year date) (dt_month date) (dt_day date) = true.
Proof.
  unfold strptime.
  destruct (match_format f s) as [[caps [|c rest]]|]; try discriminate.
  destruct (int_of_str (capture_of FYear f caps)) as [e|y]; [discriminate|].
  destruct (int_of_str (capture_of FMonth f caps)) as [e|m]; [discriminate|].
  destruct (int_of_str (capture_of FDay f caps)) as [e|d]; [discriminate|].
  cbn [exc_bind]. intros Hdate. apply mk_date_valid in Hdate.
  destruct Hdate as (-> & Hy & Hvalid). cbn [dt_year dt_month dt_day]. auto.
Qed.

Lemma try_formats_valid (formats : list (list fmt_item)) (s t : pystr) :
  try_formats formats s = inr (Some t) ->
  exists date,
    t = strftime_ymd date /\ 1 <= dt_year date <= 9999 /\
    date_valid (dt_year date) (dt_month date) (dt_day date) = true.
Proof.
  induction formats as [|f rest IH]; cbn [try_formats]; [discriminate|].
  destruct (strptime s f) as [e|date] eqn:Hf; cbn [exc_bind exc_catch].
  - rewrite (strptime_error _ _ _ Hf). exact IH.
  - intros [= <-]. exists date. split; [reflexivity|]. eapply strptime_valid. exact Hf.
Qed.

(** Whatever the parser returns is the text of a date of the calendar. *)
Lemma parse_date_valid (v : value) (s : pystr) :
  date_cell_ok v -> parse_date v = inr (Some s) ->
  exists date,
    s = strftime_ymd date /\ 1 <= dt_year date <= 9999 /\
    date_valid (dt_year date) (dt_month date) (dt_day date) = true.
Proof.
  intros Hok Hparse.
  assert (Hnum : is_number v = true ->
                 exists date,
                   s = strftime_ymd date /\ 1 <= dt_year date <= 9999 /\
                   date_valid (dt_year date) (dt_month date) (dt_day date) = true).
  { intros Hnumber.
    assert (Hpd : parse_date v
                  = exc_catch (serial_to_date (int_of_number v))
                      (fun e => is_ValueError e || is_OverflowError e) (inr None))
      by (destruct v; try discriminate; reflexivity).
    rewrite Hpd in Hparse. destruct (int_of_number v) as [e|n] eqn:Hint.
    - pose proof (int_of_number_error v e Hnumber Hint) as He.
      unfold serial_to_date in Hparse.
      change (mk_date 1899 12 30) with (@inr exn datetime excel_epoch) in Hparse.
      cbn [exc_bind exc_catch] in Hparse. rewrite He in Hparse. discriminate.
    - destruct (serial_in_range n) eqn:Hr.
      + destruct (serial_to_date_in_range n Hr) as (date & Hd & Hord & Hvalid).
        rewrite Hd in Hparse. cbn [exc_catch] in Hparse. injection Hparse as <-.
        exists date. split; [reflexivity|]. split; [|exact Hvalid].
        apply (year_of_ordinal _ _ _ Hvalid). fold (toordinal date). rewrite Hord.
        unfold serial_in_range in Hr. apply andb_prop in Hr. destruct Hr as [Hlo Hhi].
        apply Z.ltb_lt in Hlo. apply Z.leb_le in Hhi. lia.
      + destruct (serial_to_date_out_of_range n Hr) as (e & He & Hov).
        rewrite He in Hparse. cbn [exc_catch] in Hparse.
        rewrite Hov, orb_true_r in Hparse. discriminate. }
  destruct v as [| b | z | x | t | date]; try (apply Hnum; reflexivity).
  - discriminate.
  - cbn [parse_date] in Hparse. destruct (py_strip t) as [|c r]; [discriminate|].
    eapply try_formats_valid. exact Hparse.
  - cbn [parse_date] in Hparse. injection Hparse as <-. exists date.
    destruct Hok as [Hy Hvalid]. auto.
Qed.

(** X17.  A date the parser has returned in ten characters is read back
    as itself, by the parser of either script: whatever the cell it came
    from, a date cell, a serial number or a text in any of the five formats,
    parsing the result again changes nothing. *)
Theorem parsed_dates_read_back (v : value) (s : pystr) :
  date_cell_ok v -> parse_date v = inr (Some s) -> length s = 10%nat ->
  parse_date (VStr s) = inr (Some s) /\ Claims.parse_date (VStr s) = inr (Some s).
Proof.
  intros Hok Hparse Hlen.
  destruct (parse_date_valid v s Hok Hparse) as (date & -> & Hy & Hvalid).
  assert (Hm : 1 <= dt_month date <= 12 /\ 1 <= dt_day date <= 31).
  { pose proof (days_in_month_le (dt_year date) (dt_month date)) as Hmax.
    unfold date_valid in Hvalid.
    repeat (apply andb_prop in Hvalid; destruct Hvalid as [Hvalid ?]). lia. }
  assert (Hyear : 1000 <= dt_year date).
  { apply (year_lengths _ Hy).
    pose proof (tail_texts _ _ (proj1 Hm) (proj2 Hm)) as Htail.
    unfold tail_text_ok in Htail. apply andb_prop in Htail. destruct Htail as [_ Hsix].
    apply Nat.eqb_eq in Hsix.
    change (strftime_ymd date)
      with (str_of_Z (dt_year date) ++ tail_text (dt_month date) (dt_day date)) in Hlen.
    rewrite length_app, Hsix in Hlen. lia. }
  destruct (iso_text_reads (dt_year date) (dt_month date) (dt_day date)
              ltac:(lia) Hvalid) as (Hstrip & Hne & Hread).
  change (strftime_ymd (mk_datetime (dt_year date) (dt_month date) (dt_day date) 0 0 0 0))
    with (strftime_ymd date) in Hstrip, Hne, Hread.
  assert (Hproduction : parse_date (VStr (strftime_ymd date))
                        = inr (Some (strftime_ymd date))).
  { cbn [parse_date]. rewrite Hstrip.
    destruct (strftime_ymd date) as [|c r]; [congruence | exact Hread]. }
  split; [exact Hproduction|].
  rewrite claims_parse_date_eq. exact Hproduction.
Qed.

End DateRoundTrip.

Lemma parsed_dates_read_back_witness :
  date_cell_ok (VStr (py " 31.12.2024 ")) /\
  Production.parse_date (VStr (py " 31.12.2024 ")) = inr (Some (py "2024-12-31")) /\
  length (py "2024-12-31") = 10%nat /\
  Production.parse_date (VStr (py "2024-12-31")) = inr (Some (py "2024-12-31")) /\
  Claims.parse_date (VStr (py "2024-12-31")) = inr (Some (py "2024-12-31")).
Proof.
  assert (Hparse : Production.parse_date (VStr (py " 31.12.2024 "))
                   = inr (Some (py "2024-12-31"))) by (vm_compute; reflexivity).
  split; [exact I|]. split; [exact Hparse|]. split; [reflexivity|].
  exact (parsed_dates_read_back (VStr (py " 31.12.2024 ")) (py "2024-12-31") I Hparse eq_refl).
Defined.


(** ** The entity and the transaction loops *)

Section OtherLoops.

Lemma retry_entities_run (batch : list Production.entity) (st : Z * Z) (w : world) :
  exists st' w' added,
    Production.retry_entities batch st w = (inr st', w') /\
    store_grew "legal_entities" (w_store w) (w_store w') added /\
    Forall (stored_from (map Production.entity_row batch)) added /\
    w_stdin w' = w_stdin w /\
    fst st' = fst st + Z.of_nat (length added) /\
    snd st' + Z.of_nat (length added) = snd st + Z.of_nat (length batch).
Proof.
  unfold Production.retry_entities. revert st w.
  induction batch as [|entity rest IH]; intros st w; cbn [m_for].
  - unfold m_ret. exists st, w, []. split; [reflexivity|].
    split; [apply store_grew_refl|]. split; [constructor|]. cbn [length]. split; [reflexivity|].
    lia.
  - unfold m_bind at 1. unfold m_try at 1. unfold m_bind at 1.
    unfold db_insert_one at 1, with_store at 1.
    destruct (store_insert_one "legal_entities" (Production.entity_row entity) (w_store w))
      as [e|[data st1]] eqn:Hone.
    + cbn [any_exception]. unfold m_bind at 1.
      destruct (print_keeps (py "    Failed: " ++ take 40 (Production.fullName entity)
                             ++ py " - " ++ take 50 (exn_msg e)) w)
        as (w1 & -> & Hs1 & Hi1).
      unfold m_ret at 1.
      destruct (IH (fst st, snd st + 1) w1)
        as (st' & w' & added & -> & Hgrew & Hall & Hin & Hcount & Herr).
      exists st', w', added. split; [reflexivity|]. rewrite Hs1 in Hgrew.
      split; [exact Hgrew|]. split.
      { eapply Forall_impl; [exact Hall|]. intros row. apply stored_from_incl.
        intros r Hr. right. exact Hr. }
      split; [congruence|]. cbn [fst snd length] in *. lia.
    + unfold m_ret at 1.
      destruct (insert_one_grows _ _ _ _ _ Hone) as (Hg1 & Hl1 & Ha1).
      destruct (IH (fst st + 1, snd st)
                  (mk_world (w_now w) (w_ticks w) (w_stdin w) (w_stdout w) st1))
        as (st' & w' & added & -> & Hgrew & Hall & Hin & Hcount & Herr).
      exists st', w', (data ++ added). split; [reflexivity|]. cbn [w_store w_stdin] in *.
      split; [eapply store_grew_trans; eassumption|]. split.
      { apply List.Forall_app. split.
        - eapply Forall_impl; [exact Ha1|]. intros row. apply stored_from_incl.
          intros r [<- | []]. left. reflexivity.
        - eapply Forall_impl; [exact Hall|]. intros row. apply stored_from_incl.
          intros r Hr. right. exact Hr. }
      split; [exact Hin|]. rewrite length_app, Hl1. cbn [fst snd length] in *. lia.
Qed.

Lemma import_entity_batch_run (new_entities : list Production.entity) (st : Z * Z) (i : nat)
    (w : world) :
  let batch := slice new_entities i (i + Production.BATCH_SIZE) in
  exists st' w' added,
    Production.import_entity_batch new_entities st i w = (inr st', w') /\
    store_grew "legal_entities" (w_store w) (w_store w') added /\
    Forall (stored_from (map Production.entity_row batch)) added /\
    w_stdin w' = w_stdin w /\
    fst st' = fst st + Z.of_nat (length added) /\
    snd st' + Z.of_nat (length added) = snd st + Z.of_nat (length batch).
Proof.
  cbv zeta. unfold Production.import_entity_batch. cbv zeta. unfold m_bind at 1.
  destruct (print_keeps
              (py "  Entity batch "
               ++ str_of_Z (Z.of_nat i / Z.of_nat Production.BATCH_SIZE + 1) ++ py ": "
               ++ str_of_Z (Z.of_nat i + 1) ++ py " - "
               ++ str_of_Z (Z.min (Z.of_nat i + Z.of_nat Production.BATCH_SIZE)
                              (Z.of_nat (length new_entities))) ++ py "...") w)
    as (w1 & -> & Hs1 & Hi1).
  set (batch := slice new_entities i (i + Production.BATCH_SIZE)).
  unfold m_try at 1. unfold m_bind at 1. unfold db_insert_many at 1, with_store at 1.
  destruct (store_insert_many "legal_entities" (map Production.entity_row batch) (w_store w1))
    as [e|[data st1]] eqn:Hbulk.
  - cbn [any_exception]. unfold m_bind at 1.
    destruct (print_keeps (py "FAILED: " ++ exn_msg e) w1) as (w2 & -> & Hs2 & Hi2).
    destruct (retry_entities_run batch st w2)
      as (st' & w' & added & -> & Hgrew & Hall & Hin & Hcount & Herr).
    exists st', w', added. split; [reflexivity|]. rewrite Hs2, Hs1 in Hgrew.
    split; [exact Hgrew|]. split; [exact Hall|]. split; [congruence|]. auto.
  - unfold m_bind at 1. unfold print at 1. unfold m_ret.
    destruct (insert_many_grows _ _ _ _ _ Hbulk) as (Hgrew & Hlen & Hall).
    eexists _, _, data. split; [reflexivity|]. cbn [w_store w_stdin fst snd].
    rewrite Hs1 in Hgrew. rewrite length_map in Hlen.
    split; [exact Hgrew|]. split; [exact Hall|]. split; [exact Hi1|].
    rewrite Hlen. split; lia.
Qed.

Lemma import_entities_loop (new_entities : list Production.entity) (offsets : list nat)
    (st : Z * Z) (w : world) :
  let covered :=
    concat (map (fun j => slice new_entities j (j + Production.BATCH_SIZE)) offsets) in
  exists st' w' added,
    m_for offsets st (Production.import_entity_batch new_entities) w = (inr st', w') /\
    store_grew "legal_entities" (w_store w) (w_store w') added /\
    Forall (stored_from (map Production.entity_row covered)) added /\
    w_stdin w' = w_stdin w /\
    fst st' = fst st + Z.of_nat (length added) /\
    snd st' + Z.of_nat (length added) = snd st + Z.of_nat (length covered).
Proof.
  cbv zeta. revert st w. induction offsets as [|i rest IH]; intros st w; cbn [m_for].
  - unfold m_ret. exists st, w, []. split; [reflexivity|].
    split; [apply store_grew_refl|]. split; [constructor|]. split; [reflexivity|].
    cbn [map concat length]. lia.
  - unfold m_bind.
    destruct (import_entity_batch_run new_entities st i w)
      as (st1 & w1 & a1 & -> & Hg1 & Ha1 & Hi1 & Hc1 & He1).
    destruct (IH st1 w1) as (st2 & w2 & a2 & -> & Hg2 & Ha2 & Hi2 & Hc2 & He2).
    exists st2, w2, (a1 ++ a2). split; [reflexivity|].
    split; [eapply store_grew_trans; eassumption|].
    cbn [map concat]. rewrite map_app. split.
    { apply List.Forall_app. split.
      - eapply Forall_impl; [exact Ha1|]. intros row. apply stored_from_incl.
        intros r Hr. apply in_or_app. left. exact Hr.
      - eapply Forall_impl; [exact Ha2|]. intros row. apply stored_from_incl.
        intros r Hr. apply in_or_app. right. exact Hr. }
    split; [congruence|]. rewrite !length_app, !Nat2Z.inj_add. lia.
Qed.

(** X18.  The entity loop accounts for every new entity: it never raises,
    the inserted and the error counts add up to the number of entities, and
    the entity table holds, after the rows it had, exactly as many new rows
    as were counted, each one the row of an entity of the list with the id
    the store gave it; the other tables and the keyboard are left alone.
    With no new entity the world is left as it was. *)
Theorem every_entity_is_inserted_or_counted (new_entities : list Production.entity)
    (w : world) :
  exists entities_inserted entities_errors w' added,
    Production.import_entities new_entities w
    = (inr (entities_inserted, entities_errors), w') /\
    entities_inserted + entities_errors = Z.of_nat (length new_entities) /\
    entities_inserted = Z.of_nat (length added) /\
    Forall (stored_from (map Production.entity_row new_entities)) added /\
    (forall t, t <> "legal_entities"%string ->
               st_tables (w_store w') !! t = st_tables (w_store w) !! t) /\
    match st_tables (w_store w) !! "legal_entities"%string with
    | Some rows => st_tables (w_store w') !! "legal_entities"%string = Some (rows ++ added)
    | None => st_tables (w_store w') !! "legal_entities"%string = None /\ added = []
    end /\
    w_stdin w' = w_stdin w /\
    (new_entities = [] -> w' = w).
Proof.
  unfold Production.import_entities. destruct new_entities as [|entity rest].
  - unfold m_ret. exists 0, 0, w, []. split; [reflexivity|]. cbn [length map].
    split; [reflexivity|]. split; [reflexivity|]. split; [constructor|].
    split; [reflexivity|]. split; [|split; reflexivity].
    destruct (st_tables (w_store w) !! "legal_entities"%string);
      [rewrite app_nil_r|]; auto.
  - set (new_entities := entity :: rest).
    destruct (import_entities_loop new_entities
                (py_range (length new_entities) Production.BATCH_SIZE) (0, 0) w)
      as ([entities_inserted entities_errors] & w' & added & Hrun & Hgrew & Hall & Hin
          & Hcount & Herr).
    rewrite batches_cover in Hall, Herr. cbn [fst snd] in *.
    exists entities_inserted, entities_errors, w', added. split; [exact Hrun|].
    destruct Hgrew as (_ & _ & _ & Hother & Htable).
    split; [lia|]. split; [lia|]. split; [exact Hall|]. split; [exact Hother|].
    split; [exact Htable|]. split; [exact Hin | discriminate].
Qed.

Lemma retry_transactions_run (batch : list dict) (inserted_transactions : Z) (w : world) :
  exists inserted' w' added,
    Claims.retry_transactions batch inserted_transactions w = (inr inserted', w') /\
    store_grew "claim_transactions" (w_store w) (w_store w') added /\
    Forall (stored_from batch) added /\
    w_stdin w' = w_stdin w /\
    inserted' = inserted_transactions + Z.of_nat (length added) /\
    (length added <= length batch)%nat.
Proof.
  unfold Claims.retry_transactions. revert inserted_transactions w.
  induction batch as [|txn rest IH]; intros inserted_transactions w; cbn [m_for].
  - unfold m_ret. exists inserted_transactions, w, []. split; [reflexivity|].
    split; [apply store_grew_refl|]. split; [constructor|]. cbn [length].
    split; [reflexivity|]. split; lia.
  - unfold m_bind at 1. unfold m_try at 1. unfold m_bind at 1.
    unfold db_insert_one at 1, with_store at 1.
    destruct (store_insert_one "claim_transactions" txn (w_store w))
      as [e|[data st1]] eqn:Hone.
    + cbn [any_exception]. unfold m_bind at 1.
      destruct (print_keeps (py "      Failed: " ++ take 100 (exn_msg e)) w)
        as (w1 & -> & Hs1 & Hi1).
      unfold m_ret at 1.
      destruct (IH inserted_transactions w1)
        as (inserted' & w' & added & -> & Hgrew & Hall & Hin & Hcount & Hlen).
      exists inserted', w', added. split; [reflexivity|]. rewrite Hs1 in Hgrew.
      split; [exact Hgrew|]. split.
      { eapply Forall_impl; [exact Hall|]. intros row. apply stored_from_incl.
        intros r Hr. right. exact Hr. }
      split; [congruence|]. cbn [length]. split; [exact Hcount | lia].
    + unfold m_ret at 1.
      destruct (insert_one_grows _ _ _ _ _ Hone) as (Hg1 & Hl1 & Ha1).
      destruct (IH (inserted_transactions + 1)
                  (mk_world (w_now w) (w_ticks w) (w_stdin w) (w_stdout w) st1))
        as (inserted' & w' & added & -> & Hgrew & Hall & Hin & Hcount & Hlen).
      exists inserted', w', (data ++ added). split; [reflexivity|].
      cbn [w_store w_stdin] in *.
      split; [eapply store_grew_trans; eassumption|]. split.
      { apply List.Forall_app. split.
        - eapply Forall_impl; [exact Ha1|]. intros row. apply stored_from_incl.
          intros r [<- | []]. left. reflexivity.
        - eapply Forall_impl; [exact Hall|]. intros row. apply stored_from_incl.
          intros r Hr. right. exact Hr. }
      split; [exact Hin|]. rewrite length_app, Hl1. cbn [length]. split; lia.
Qed.

Lemma slice_to_end {A} (l : list A) (i step : nat) :
  slice l i (Nat.min (i + step) (length l)) = slice l i (i + step).
Proof.
  unfold slice. destruct (Nat.le_gt_cases (i + step) (length l)) as [Hle|Hgt].
  - rewrite Nat.min_l by exact Hle. reflexivity.
  - rewrite Nat.min_r by lia.
    rewrite !take_ge; [reflexivity | rewrite length_drop; lia | rewrite length_drop; lia].
Qed.

Lemma insert_transaction_batch_run (transactions_to_insert : list dict)
    (inserted_transactions : Z) (batch_start : nat) (w : world) :
  let batch := slice transactions_to_insert batch_start (batch_start + Claims.BATCH_SIZE) in
  exists inserted' w' added,
    Claims.insert_transaction_batch transactions_to_insert inserted_transactions batch_start w
    = (inr inserted', w') /\
    store_grew "claim_transactions" (w_store w) (w_store w') added /\
    Forall (stored_from batch) added /\
    w_stdin w' = w_stdin w /\
    inserted' = inserted_transactions + Z.of_nat (length added) /\
    (length added <= length batch)%nat /\
    ((forall rows rs, st_reject_bulk (w_store w) "claim_transactions" rows rs = None) ->
     (forall rows r, st_reject_row (w_store w) "claim_transactions" rows r = None) ->
     is_Some (st_tables (w_store w) !! "claim_transactions"%string) ->
     length added = length batch).
Proof.
  cbv zeta. unfold Claims.insert_transaction_batch. cbv zeta.
  rewrite slice_to_end.
  set (batch := slice transactions_to_insert batch_start (batch_start + Claims.BATCH_SIZE)).
  unfold m_bind at 1.
  destruct (print_keeps
              (py "  Batch "
               ++ str_of_Z (Z.of_nat batch_start / Z.of_nat Claims.BATCH_SIZE + 1)
               ++ py ": transactions " ++ str_of_Z (Z.of_nat batch_start + 1) ++ py " - "
               ++ str_of_Z (Z.of_nat (Nat.min (batch_start + Claims.BATCH_SIZE)
                                        (length transactions_to_insert)))
               ++ py "...") w)
    as (w1 & -> & Hs1 & Hi1).
  unfold m_try at 1. unfold m_bind at 1. unfold db_insert_many at 1, with_store at 1.
  destruct (store_insert_many "claim_transactions" batch (w_store w1))
    as [e|[data st1]] eqn:Hbulk.
  - cbn [any_exception]. unfold m_bind at 1.
    destruct (print_keeps (py "FAILED") w1) as (w2 & -> & Hs2 & Hi2).
    unfold m_bind at 1.
    destruct (print_keeps (py "    Error: " ++ exn_msg e) w2) as (w3 & -> & Hs3 & Hi3).
    destruct (retry_transactions_run batch inserted_transactions w3)
      as (inserted' & w' & added & -> & Hgrew & Hall & Hin & Hcount & Hlen).
    exists inserted', w', added. split; [reflexivity|]. rewrite Hs3, Hs2, Hs1 in Hgrew.
    split; [exact Hgrew|]. split; [exact Hall|]. split; [congruence|].
    split; [exact Hcount|]. split; [exact Hlen|].
    intros Hbulk_ok Hrow_ok [rows Hrows]. exfalso.
    rewrite Hs1 in Hbulk. unfold store_insert_many in Hbulk.
    rewrite Hrows, Hbulk_ok in Hbulk.
    assert (Hfold : forall rs rows n stored,
               exists acc, fold_left (store_add (w_store w) "claim_transactions") rs
                             (inr (rows, n, stored)) = inr acc).
    { induction rs as [|r rs IH]; intros rows0 n stored; cbn [fold_left].
      - eexists. reflexivity.
      - cbn [store_add]. rewrite Hrow_ok. apply IH. }
    destruct (Hfold batch rows (st_next_id (w_store w)) []) as ([[rows' n'] stored] & Hacc).
    rewrite Hacc in Hbulk. discriminate.
  - unfold m_bind at 1. unfold print at 1. unfold m_ret.
    destruct (insert_many_grows _ _ _ _ _ Hbulk) as (Hgrew & Hlen & Hall).
    eexists _, _, data. split; [reflexivity|]. cbn [w_store w_stdin].
    rewrite Hs1 in Hgrew.
    split; [exact Hgrew|]. split; [exact Hall|]. split; [exact Hi1|].
    rewrite Hlen. split; [reflexivity|]. split; [lia|]. intros _ _ _. reflexivity.
Qed.

Lemma insert_transactions_loop (transactions_to_insert : list dict) (offsets : list nat)
    (inserted_transactions : Z) (w : world) :
  let covered :=
    concat (map (fun j => slice transactions_to_insert j (j + Claims.BATCH_SIZE)) offsets) in
  exists inserted' w' added,
    m_for offsets inserted_transactions
      (Claims.insert_transaction_batch transactions_to_insert) w
    = (inr inserted', w') /\
    store_grew "claim_transactions" (w_store w) (w_store w') added /\
    Forall (stored_from covered) added /\
    w_stdin w' = w_stdin w /\
    inserted' = inserted_transactions + Z.of_nat (length added) /\
    (length added <= length covered)%nat /\
    ((forall rows rs, st_reject_bulk (w_store w) "claim_transactions" rows rs = None) ->
     (forall rows r, st_reject_row (w_store w) "claim_transactions" rows r = None) ->
     is_Some (st_tables (w_store w) !! "claim_transactions"%string) ->
     length added = length covered).
Proof.
  cbv zeta. revert inserted_transactions w.
  induction offsets as [|i rest IH]; intros inserted_transactions w; cbn [m_for].
  - unfold m_ret. exists inserted_transactions, w, []. split; [reflexivity|].
    split; [apply store_grew_refl|]. split; [constructor|]. split; [reflexivity|].
    cbn [map concat length]. split; [lia|]. split; [lia|]. reflexivity.
  - unfold m_bind.
    destruct (insert_transaction_batch_run transactions_to_insert inserted_transactions i w)
      as (n1 & w1 & a1 & -> & Hg1 & Ha1 & Hi1 & Hc1 & Hl1 & Hall1).
    destruct (IH n1 w1) as (n2 & w2 & a2 & -> & Hg2 & Ha2 & Hi2 & Hc2 & Hl2 & Hall2).
    exists n2, w2, (a1 ++ a2). split; [reflexivity|].
    split; [eapply store_grew_trans; eassumption|].
    cbn [map concat]. split.
    { apply List.Forall_app. split.
      - eapply Forall_impl; [exact Ha1|]. intros row. apply stored_from_incl.
        intros r Hr. apply in_or_app. left. exact Hr.
      - eapply Forall_impl; [exact Ha2|]. intros row. apply stored_from_incl.
        intros r Hr. apply in_or_app. right. exact Hr. }
    split; [congruence|]. rewrite !length_app, !Nat2Z.inj_add.
    split; [lia|]. split; [lia|].
    intros Hbulk_ok Hrow_ok Htable.
    destruct Hg1 as (Hrow1 & Hbulk1 & _ & _ & Htable1).
    rewrite (Hall1 Hbulk_ok Hrow_ok Htable), Hall2; [reflexivity | | |].
    + intros rows rs. rewrite Hbulk1. apply Hbulk_ok.
    + intros rows r. rewrite Hrow1. apply Hrow_ok.
    + destruct Htable as [rows Hrows]. rewrite Hrows in Htable1. eexists. exact Htable1.
Qed.

(** X19.  The transaction loop never raises; the count it returns is the
    number of rows the transaction table gained, at most one per transaction
    given, each one a transaction of the list with the id the store gave it;
    the other tables and the keyboard are left alone.  When the table exists
    and the store refuses none of its rows, every transaction is stored. *)
Theorem transaction_count_is_rows_stored (transactions_to_insert : list dict) (w : world) :
  exists inserted_transactions w' added,
    Claims.insert_transactions transactions_to_insert w = (inr inserted_transactions, w') /\
    inserted_transactions = Z.of_nat (length added) /\
    (length added <= length transactions_to_insert)%nat /\
    Forall (stored_from transactions_to_insert) added /\
    (forall t, t <> "claim_transactions"%string ->
               st_tables (w_store w') !! t = st_tables (w_store w) !! t) /\
    match st_tables (w_store w) !! "claim_transactions"%string with
    | Some rows =>
      st_tables (w_store w') !! "claim_transactions"%string = Some (rows ++ added)
    | None => st_tables (w_store w') !! "claim_transactions"%string = None /\ added = []
    end /\
    w_stdin w' = w_stdin w /\
    ((forall rows rs, st_reject_bulk (w_store w) "claim_transactions" rows rs = None) ->
     (forall rows r, st_reject_row (w_store w) "claim_transactions" rows r = None) ->
     is_Some (st_tables (w_store w) !! "claim_transactions"%string) ->
     length added = length transactions_to_insert).
Proof.
  unfold Claims.insert_transactions.
  destruct (insert_transactions_loop transactions_to_insert
              (py_range (length transactions_to_insert) Claims.BATCH_SIZE) 0 w)
    as (inserted & w' & added & Hrun & Hgrew & Hall & Hin & Hcount & Hlen & Hevery).
  change Claims.BATCH_SIZE with Production.BATCH_SIZE in Hall, Hlen, Hevery.
  rewrite batches_cover in Hall, Hlen, Hevery.
  exists inserted, w', added. split; [exact Hrun|].
  destruct Hgrew as (_ & _ & _ & Hother & Htable).
  split; [lia|]. split; [exact Hlen|]. split; [exact Hall|]. split; [exact Hother|].
  split; [exact Htable|]. split; [exact Hin | exact Hevery].
Qed.

End OtherLoops.


(** ** A live import and the rollback of its batch *)

Section WholeRun.
Import Production.

Lemma m_try_inv {A} (c : M A) (handles : exn -> bool) (h : exn -> M A)
    (w w' : world) (r : A) :
  m_try c handles h w = (inr r, w') ->
  c w = (inr r, w') \/
  exists e w1, c w = (inl e, w1) /\ handles e = true /\ h e w1 = (inr r, w').
Proof.
  unfold m_try. destruct (c w) as [[e|a] w1].
  - destruct (handles e) eqn:He; [|discriminate]. intros Hh. right. exists e, w1. auto.
  - intros [= <- <-]. left. reflexivity.
Qed.

(** What holds of every record [parse_row] returns holds of every record
    of the pass. *)
Lemma parse_sheet_rows_all (P : dict -> Prop) (rows : list (list value))
    (header_row_idx : nat) (sheet_name batch_id : pystr) (w w' : world)
    (sheet_records : list dict) :
  (forall row row_number v v' record,
     parse_row row row_number sheet_name batch_id v = (inr (Some record), v') -> P record) ->
  parse_sheet_rows rows header_row_idx sheet_name batch_id w = (inr sheet_records, w') ->
  Forall P sheet_records.
Proof.
  intros Hrow. unfold parse_sheet_rows.
  apply (m_for_inv (Forall P)); [|constructor].
  intros acc [row_idx row] v acc' v' _ Hstep Hacc.
  destruct (Nat.leb_spec row_idx header_row_idx) as [Hle|Hgt].
  { apply m_ret_inv in Hstep. destruct Hstep as [<- _]. exact Hacc. }
  cbv zeta in Hstep. apply m_bind_inv in Hstep.
  destruct Hstep as ([record|] & v1 & Hparsed & Hstep).
  - destruct (dict_truthy record); apply m_ret_inv in Hstep; destruct Hstep as [<- _];
      [|exact Hacc].
    apply List.Forall_app. split; [exact Hacc|]. constructor; [|constructor].
    eapply Hrow. exact Hparsed.
  - apply m_ret_inv in Hstep. destruct Hstep as [<- _]. exact Hacc.
Qed.

Lemma process_sheet_all (P : dict -> Prop) (wb : workbook) (batch_id : pystr)
    (acc acc' : list dict * list (pystr * Z)) (sheet_name : pystr) (w w' : world) :
  (forall row row_number v v' record,
     parse_row row row_number sheet_name batch_id v = (inr (Some record), v') -> P record) ->
  process_sheet wb batch_id acc sheet_name w = (inr acc', w') ->
  Forall P (fst acc) -> Forall P (fst acc').
Proof.
  intros Hrow. destruct acc as [all_records sheet_stats]. unfold process_sheet.
  destruct (existsb _ SKIP_WORDS).
  { intros Hrun. apply m_bind_inv in Hrun. destruct Hrun as (? & w1 & _ & Hrun).
    apply m_ret_inv in Hrun. destruct Hrun as [<- _]. auto. }
  intros Hrun Hacc. apply m_bind_inv in Hrun. destruct Hrun as (? & w1 & _ & Hrun).
  apply m_try_inv in Hrun. destruct Hrun as [Hrun | (e & w2 & _ & _ & Hrun)].
  - apply m_bind_inv in Hrun. destruct Hrun as (rows & w2 & _ & Hrun).
    cbv zeta in Hrun. apply m_bind_inv in Hrun.
    destruct Hrun as (sheet_records & w3 & Hrows & Hrun).
    apply m_bind_inv in Hrun. destruct Hrun as (? & w4 & _ & Hrun).
    apply m_ret_inv in Hrun. destruct Hrun as [<- _]. cbn [fst] in *.
    apply List.Forall_app. split; [exact Hacc|].
    eapply parse_sheet_rows_all; [exact Hrow | exact Hrows].
  - apply m_bind_inv in Hrun. destruct Hrun as (? & w3 & _ & Hrun).
    apply m_ret_inv in Hrun. destruct Hrun as [<- _]. exact Hacc.
Qed.

Lemma pass_records_all (P : dict -> Prop) (wb : workbook) (batch_id : pystr)
    (w w' : world) (all_records : list dict) (sheet_stats : list (pystr * Z)) :
  (forall row row_number sheet_name v v' record,
     parse_row row row_number sheet_name batch_id v = (inr (Some record), v') -> P record) ->
  process_all_sheets wb batch_id w = (inr (all_records, sheet_stats), w') ->
  Forall P all_records.
Proof.
  intros Hrow. unfold process_all_sheets. cbv zeta. intros Hrun.
  apply m_bind_inv in Hrun. destruct Hrun as (? & w1 & _ & Hrun).
  change all_records with (fst (all_records, sheet_stats)).
  revert Hrun. apply (m_for_inv (fun acc => Forall P (fst acc))); [|constructor].
  intros acc sheet_name v acc' v' _ Hstep. eapply process_sheet_all; [|exact Hstep].
  intros row row_number. apply Hrow.
Qed.

(** The three name fields of a parsed record hold text or nothing. *)
Lemma text_columns_names (row : list value) (c : nat) (k : string) :
  In (c, k) TEXT_COLUMNS -> text_columns row ∅ !! k = Some (text_cell row c).
Proof.
  unfold text_columns, TEXT_COLUMNS. cbn [fold_left].
  cbv zeta. fold (text_cell row 1) (text_cell row 4) (text_cell row 5) (text_cell row 7)
    (text_cell row 11) (text_cell row 12) (text_cell row 14) (text_cell row 15)
    (text_cell row 16) (text_cell row 19).
  intros Hin. cbn [In] in Hin.
  repeat (destruct Hin as [[= <- <-]|Hin];
          [repeat first [ rewrite dict_set_eq | rewrite dict_set_ne by discriminate ];
           reflexivity|]).
  contradiction.
Qed.

Definition name_fields : list string :=
  ["cedant_name"; "broker_name"; "original_insured_name"]%string.

Lemma numeric_columns_keeps (row : list value) (record filled : dict) (w w' : world) :
  numeric_columns row record w = (inr filled, w') ->
  forall k, In k name_fields -> filled !! k = record !! k.
Proof.
  unfold numeric_columns.
  apply (m_for_inv (fun r => forall k, In k name_fields -> r !! k = record !! k));
    [|reflexivity].
  intros acc [c field] v acc' v' Hin Hstep Hacc k Hk.
  apply m_bind_inv in Hstep. destruct Hstep as (x & v1 & _ & Hstep).
  apply m_ret_inv in Hstep. destruct Hstep as [<- _].
  rewrite <- (Hacc k Hk). apply dict_set_ne.
  unfold NUMERIC_COLUMNS in Hin. unfold name_fields in Hk. cbn [In] in Hin, Hk.
  intuition congruence.
Qed.

Lemma required_fallbacks_cedant (record : dict) (row_number : Z) (sheet_name : pystr)
    (w w' : world) (filled : dict) :
  required_fallbacks record row_number sheet_name w = (inr filled, w') ->
  filled !! "cedant_name"%string
  = Some (py_or (dict_get record "cedant_name") (VStr (py "Unknown Cedant"))).
Proof.
  unfold required_fallbacks. cbv zeta. unfold m_bind at 1.
  rewrite now_run. unfold m_bind at 1. rewrite now_run.
  unfold m_bind at 1, m_lift at 1.
  change (timedelta_days 365) with (@inr exn Z 365).
  unfold m_bind at 1, m_lift at 1.
  destruct (datetime_add_days _ 365) as [e|t2']; [discriminate|].
  unfold m_ret. intros [= <- _].
  repeat first
    [ rewrite set_if_falsy_other by discriminate
    | rewrite set_if_none_other by discriminate ].
  rewrite set_if_falsy_same. unfold dict_get.
  rewrite set_if_falsy_other by discriminate. reflexivity.
Qed.

Lemma parse_row_names (row : list value) (row_number : Z) (sheet_name batch_id : pystr)
    (w w' : world) (record : dict) :
  parse_row row row_number sheet_name batch_id w = (inr (Some record), w') ->
  names_are_text record.
Proof.
  unfold parse_row. cbv zeta. intros Hrun.
  apply m_bind_inv in Hrun. destruct Hrun as (c1 & w1 & Hdates & Hrun).
  rewrite date_columns_run in Hdates. injection Hdates as <- <-.
  apply m_bind_inv in Hrun. destruct Hrun as (c2 & w2 & Hnumbers & Hrun).
  pose proof (numeric_columns_keeps _ _ _ _ _ Hnumbers) as Hkeep2.
  destruct (is_empty_row _).
  { apply m_ret_inv in Hrun. destruct Hrun as [Hrun _]. discriminate. }
  apply m_bind_inv in Hrun. destruct Hrun as (r1 & w3 & Hderived & Hrun).
  apply m_bind_inv in Hrun. destruct Hrun as (r2 & w4 & Hyear & Hrun).
  apply m_bind_inv in Hrun. destruct Hrun as (r3 & w5 & Hfilled & Hrun).
  apply m_ret_inv in Hrun. destruct Hrun as [[= <-] _].
  assert (Hcolumns : forall c k,
             In k name_fields -> In (c, k) TEXT_COLUMNS ->
             structure_and_notes row c2 !! k = Some (text_cell row c)).
  { intros c k Hk Hin. unfold structure_and_notes. cbv zeta.
    rewrite !dict_set_ne by (unfold name_fields in Hk; cbn [In] in Hk; intuition congruence).
    rewrite (Hkeep2 k Hk).
    rewrite !dict_set_ne by (unfold name_fields in Hk; cbn [In] in Hk; intuition congruence).
    apply text_columns_names. exact Hin. }
  assert (Hr1 : forall k, In k name_fields -> r1 !! k = structure_and_notes row c2 !! k).
  { revert Hderived. unfold derived_fields, m_bind, m_lift, m_ret.
    destruct (text_if_truthy (dict_get _ "territory")) as [e|t]; [discriminate|].
    destruct (text_if_truthy (dict_get _ "currency")) as [e|cur]; [discriminate|].
    cbv zeta. intros [= <- _] k Hk.
    rewrite !dict_set_ne by (unfold name_fields in Hk; cbn [In] in Hk; intuition congruence).
    reflexivity. }
  destruct (uw_year_run r1 sheet_name w3) as (dated & n & Hdated & Hkeep).
  rewrite Hdated in Hyear. injection Hyear as <- _.
  pose proof (required_fallbacks_keeps _ _ _ _ _ _ Hfilled) as Hrest.
  pose proof (required_fallbacks_cedant _ _ _ _ _ _ Hfilled) as Hcedant.
  intros [| |]; cbn [role_field]; unfold dict_get at 1.
  - rewrite Hcedant. unfold dict_get. rewrite Hkeep by discriminate.
    rewrite Hr1 by (cbn; tauto).
    rewrite (Hcolumns 5%nat) by (cbn; tauto). cbn [default from_option id].
    unfold py_or. destruct (truthy (text_cell row 5)); [apply text_cell_reads|].
    eexists. reflexivity.
  - rewrite Hrest by first [reflexivity | discriminate].
    rewrite Hkeep by discriminate. rewrite Hr1 by (cbn; tauto).
    rewrite (Hcolumns 4%nat) by (cbn; tauto). apply text_cell_reads.
  - rewrite Hrest by first [reflexivity | discriminate].
    rewrite Hkeep by discriminate. rewrite Hr1 by (cbn; tauto).
    rewrite (Hcolumns 1%nat) by (cbn; tauto). apply text_cell_reads.
Qed.

(** The entities of tagged records are tagged. *)
Definition carries (b : pystr) (r : dict) : Prop :=
  r !! "import_batch_id"%string = Some (VStr b).

Lemma add_if_new_all (P : entity -> Prop) (entities : list (pystr * entity)) (k : pystr)
    (e : entity) :
  Forall (fun kv => P (snd kv)) entities -> P e ->
  Forall (fun kv => P (snd kv)) (add_if_new entities k e).
Proof.
  intros Hall He. unfold add_if_new. destruct k; [exact Hall|].
  destruct (has_key entities _); [exact Hall|].
  apply List.Forall_app. split; [exact Hall|]. constructor; [exact He | constructor].
Qed.

Lemma extract_from_record_batch (b : pystr) (entities entities' : list (pystr * entity))
    (record : dict) :
  carries b record ->
  extract_from_record entities record = inr entities' ->
  Forall (fun kv => import_batch_id (snd kv) = VStr b) entities ->
  Forall (fun kv => import_batch_id (snd kv) = VStr b) entities'.
Proof.
  intros Hb Hrun Hall. unfold extract_from_record in Hrun.
  assert (Htag : dict_get record "import_batch_id" = VStr b)
    by (unfold dict_get; rewrite Hb; reflexivity).
  destruct (text_if_truthy (dict_get record "cedant_name")) as [|cedant];
    [discriminate|]. cbn [exc_bind] in Hrun.
  destruct (text_if_truthy (dict_get record "broker_name")) as [|broker];
    [discriminate|]. cbn [exc_bind] in Hrun.
  destruct (text_if_truthy (dict_get record "original_insured_name")) as [|insured];
    [discriminate|]. cbn [exc_bind] in Hrun.
  injection Hrun as <-.
  repeat match goal with
         | |- Forall _ (match ?o with Some _ => _ | None => _ end) => destruct o
         | |- Forall _ (if ?c then _ else _) => destruct c
         | |- Forall _ (add_if_new _ _ _) =>
           apply (add_if_new_all (fun e => import_batch_id e = VStr b)); [|exact Htag]
         end;
    exact Hall.
Qed.

Lemma extract_loop_batch (b : pystr) (records : list dict)
    (entities entities' : list (pystr * entity)) :
  Forall (carries b) records ->
  extract_loop records entities = inr entities' ->
  Forall (fun kv => import_batch_id (snd kv) = VStr b) entities ->
  Forall (fun kv => import_batch_id (snd kv) = VStr b) entities'.
Proof.
  intros Hrecords. revert entities.
  induction Hrecords as [|record rest Hrecord _ IH]; intros entities; cbn [extract_loop].
  - intros [= <-]. auto.
  - destruct (extract_from_record entities record) as [e|mid] eqn:Hstep; [discriminate|].
    cbn [exc_bind]. intros Hrest Hall. apply (IH mid Hrest).
    eapply extract_from_record_batch; eassumption.
Qed.

Lemma entity_row_batch (e : entity) :
  entity_row e !! "import_batch_id"%string = Some (import_batch_id e).
Proof.
  unfold entity_row. rewrite !lookup_insert_ne by discriminate.
  apply lookup_singleton_eq.
Qed.

(** The rollback of a batch whose rows came last in the two tables. *)
Lemma rollback_restores (b : pystr) (st0 : store) (entity_rows record_rows : list dict)
    (st1 : store) (w : world) :
  batch_absent b st0 ->
  (forall t rs, st_reject_delete st0 t rs = None) ->
  store_grew "legal_entities" st0 st1 entity_rows ->
  store_grew "inward_reinsurance" st1 (w_store w) record_rows ->
  Forall (carries b) entity_rows -> Forall (carries b) record_rows ->
  all_confirmed w ->
  exists w',
    rollback_batch b w = (inr true, w') /\
    forall t, st_tables (w_store w') !! t = st_tables st0 !! t.
Proof.
  intros Habsent Hnever (_ & _ & Hdel1 & Hother1 & Hgrown1) (_ & _ & Hdel2 & Hother2 & Hgrown2)
    Hentities Hrecords [Hyes Hlen].
  unfold rollback_batch. cbv zeta. unfold m_bind at 1.
  destruct (print_keeps ([0x0A%N] ++ py "Rolling back batch: " ++ b) w) as (w1 & -> & Hs1 & Hi1).
  unfold m_bind at 1. cbn [m_for]. unfold m_bind at 1.
  destruct (rollback_table_run b "inward_reinsurance" w1)
    as (w2 & -> & [Hback2 Hdelete2] & Hoth2 & Hin2 & Hexact2).
  unfold m_bind at 1.
  destruct (rollback_table_run b "legal_entities" w2)
    as (w3 & -> & [Hback3 _] & Hoth3 & _ & Hexact3).
  unfold m_ret at 1. unfold m_bind at 1.
  destruct (print_keeps ([0x0A%N] ++ py "Rollback complete!") w3) as (w4 & -> & Hs4 & _).
  unfold m_ret. exists w4. split; [reflexivity|]. rewrite Hs4.
  assert (Hnever1 : forall t rs, st_reject_delete (w_store w1) t rs = None).
  { intros t rs. rewrite Hs1, Hdel2, Hdel1. apply Hnever. }
  assert (Hconfirm1 : confirms w1).
  { unfold confirms. rewrite Hi1.
    destruct (w_stdin w) as [|a rest]; [simpl in Hlen; lia|].
    exists a, rest. split; [reflexivity|]. inversion Hyes; assumption. }
  assert (Hconfirm2 : confirms w2).
  { unfold confirms. rewrite Hi1 in Hin2.
    destruct (w_stdin w) as [|a [|a' rest]]; try (simpl in Hlen; lia).
    apply List.Forall_cons_iff in Hyes. destruct Hyes as [Ha Hyes].
    apply List.Forall_cons_iff in Hyes. destruct Hyes as [Ha' _].
    destruct Hin2 as [-> | ->]; cbn [tail]; eauto. }
  assert (Hkept : forall rows added,
             Forall (fun r => r !! "import_batch_id"%string <> Some (VStr b)) rows ->
             Forall (carries b) added -> kept b (rows ++ added) = rows).
  { intros rows added Hrows Hadded.
    rewrite kept_app, (kept_all _ _ Hrows), (rows_matching_all _ _ Hadded), app_nil_r.
    reflexivity. }
  intros t.
  destruct (decide (t = "inward_reinsurance"%string)) as [->|Hne1].
  - rewrite Hoth3 by discriminate.
    rewrite <- (Hother1 "inward_reinsurance"%string) by discriminate.
    destruct (st_tables st1 !! "inward_reinsurance"%string) as [rows|] eqn:Hrows.
    + rewrite (Hexact2 (rows ++ record_rows)); [| rewrite Hs1; exact Hgrown2 | exact Hconfirm1
                                                  | intros rs; apply Hnever1].
      rewrite Hkept; [reflexivity | | exact Hrecords].
      apply (Habsent "inward_reinsurance"%string); [left; reflexivity|].
      rewrite <- (Hother1 "inward_reinsurance"%string) by discriminate. exact Hrows.
    + destruct Hgrown2 as [Hnone _]. specialize (Hback2 "inward_reinsurance"%string).
      rewrite Hs1, Hnone in Hback2. unfold table_rolled_back in Hback2.
      destruct (st_tables (w_store w2) !! "inward_reinsurance"%string); [contradiction|].
      reflexivity.
  - destruct (decide (t = "legal_entities"%string)) as [->|Hne2].
    + assert (Hsame : st_tables (w_store w2) !! "legal_entities"%string
                      = st_tables st1 !! "legal_entities"%string).
      { rewrite Hoth2 by discriminate. rewrite Hs1. apply Hother2. discriminate. }
      destruct (st_tables st0 !! "legal_entities"%string) as [rows|] eqn:Hrows.
      * rewrite (Hexact3 (rows ++ entity_rows)); [| rewrite Hsame; exact Hgrown1 | exact Hconfirm2
                                                    |].
        -- rewrite Hkept; [reflexivity | | exact Hentities].
           apply (Habsent "legal_entities"%string); [right; reflexivity | exact Hrows].
        -- intros rs. rewrite Hdelete2. apply Hnever1.
      * destruct Hgrown1 as [Hnone _]. specialize (Hback3 "legal_entities"%string).
        rewrite Hsame, Hnone in Hback3. unfold table_rolled_back in Hback3.
        destruct (st_tables (w_store w3) !! "legal_entities"%string); [contradiction|].
        reflexivity.
    + rewrite Hoth3, Hoth2 by congruence. rewrite Hs1, Hother2, Hother1 by congruence.
      reflexivity.
Qed.

Lemma stored_rows_carry (b : pystr) (records added : list dict) :
  Forall (carries b) records -> Forall (stored_from records) added ->
  Forall (carries b) added.
Proof.
  intros Hrecords Hadded. eapply Forall_impl; [exact Hadded|].
  intros row (n & r & Hr & ->). unfold carries. rewrite with_id_keeps_tag.
  rewrite List.Forall_forall in Hrecords. apply Hrecords. exact Hr.
Qed.

(** X20.  A live import and the rollback of its batch leave every table
    as it was.  Whatever the workbook holds, the pass over its sheets leaves
    the store alone and gives records that carry the batch id, from which the
    extraction of the entities does not fail and gives entities that carry it
    too; and then, in any store no row of which carries
    the batch id and that accepts deletions, whichever of these entities are
    imported, the import of the entities, the import of the records and,
    every prompt being answered yes, the rollback of the batch all complete,
    and every table holds at the end exactly the rows it held at the start. *)
Theorem live_import_is_undone_by_rollback (wb : workbook) (batch_id : pystr) (w0 : world) :
  exists all_records sheet_stats w1 all_entities,
    process_all_sheets wb batch_id w0 = (inr (all_records, sheet_stats), w1) /\
    w_store w1 = w_store w0 /\
    Forall (carries batch_id) all_records /\
    extract_legal_entities all_records = inr all_entities /\
    Forall (fun e => import_batch_id e = VStr batch_id) all_entities /\
    forall (new_entities : list entity) (w2 : world),
      (forall e, In e new_entities -> In e all_entities) ->
      batch_absent batch_id (w_store w2) ->
      (forall t rs, st_reject_delete (w_store w2) t rs = None) ->
      exists counts w3,
        import_entities new_entities w2 = (inr counts, w3) /\
        forall w4, w_store w4 = w_store w3 ->
        exists stats w5,
          import_records all_records w4 = (inr stats, w5) /\
          forall w6, w_store w6 = w_store w5 -> all_confirmed w6 ->
          exists w7,
            rollback_batch batch_id w6 = (inr true, w7) /\
            forall t, st_tables (w_store w7) !! t = st_tables (w_store w2) !! t.
Proof.
  destruct (sheets_loop_run wb batch_id (wb_sheets wb) [] []
              (snd (print ([0x0A%N] ++ py "Found "
                            ++ str_of_Z (Z.of_nat (length (get_all_sheets wb)))
                            ++ py " sheets: " ++ wb_sheets_text wb) w0)))
    as (all_records & sheet_stats & w1 & Hloop & _); [auto | constructor|].
  assert (Hpass : process_all_sheets wb batch_id w0 = (inr (all_records, sheet_stats), w1)).
  { unfold process_all_sheets. cbv zeta. unfold m_bind at 1. unfold print at 1.
    unfold print in Hloop. cbn [snd] in Hloop. exact Hloop. }
  assert (Hgood : Forall (fun r => carries batch_id r /\ names_are_text r) all_records).
  { eapply pass_records_all; [|exact Hpass].
    intros row row_number sheet_name v v' record Hrow. split.
    - apply parse_row_tagged in Hrow. apply Hrow.
    - eapply parse_row_names. exact Hrow. }
  assert (Htagged : Forall (carries batch_id) all_records).
  { eapply Forall_impl; [exact Hgood|]. intros r [Hr _]. exact Hr. }
  assert (Hnames : Forall names_are_text all_records).
  { eapply Forall_impl; [exact Hgood|]. intros r [_ Hr]. exact Hr. }
  destruct (extract_loop_total all_records [] Hnames) as (entities & Hentities).
  exists all_records, sheet_stats, w1, (map snd entities).
  split; [exact Hpass|]. split.
  { assert (Hquiet : quiet (process_all_sheets wb batch_id)).
    { unfold process_all_sheets. cbv zeta. apply quiet_bind; [apply quiet_print|].
      intros _. apply quiet_for. intros acc name. apply quiet_process_sheet. }
    specialize (Hquiet w0). rewrite Hpass in Hquiet. apply Hquiet. }
  split; [exact Htagged|].
  split; [unfold extract_legal_entities; rewrite Hentities; reflexivity|].
  assert (Hbatch : Forall (fun e => import_batch_id e = VStr batch_id) (map snd entities)).
  { apply List.Forall_map.
    apply (extract_loop_batch batch_id all_records [] entities Htagged Hentities).
    constructor. }
  split; [exact Hbatch|].
  intros new_entities w2 Hnew Habsent Hnever.
  assert (Hrows : Forall (carries batch_id) (map entity_row new_entities)).
  { apply List.Forall_map. apply List.Forall_forall. intros e He. unfold carries.
    rewrite entity_row_batch. rewrite List.Forall_forall in Hbatch.
    rewrite (Hbatch e (Hnew e He)). reflexivity. }
  assert (Hentity_import :
            exists counts w3 added,
              import_entities new_entities w2 = (inr counts, w3) /\
              store_grew "legal_entities" (w_store w2) (w_store w3) added /\
              Forall (stored_from (map entity_row new_entities)) added).
  { unfold import_entities. destruct new_entities as [|entity rest].
    - unfold m_ret. exists (0, 0), w2, []. split; [reflexivity|].
      split; [apply store_grew_refl | constructor].
    - destruct (import_entities_loop (entity :: rest)
                  (py_range (length (entity :: rest)) BATCH_SIZE) (0, 0) w2)
        as (counts & w3 & added & Hrun & Hgrew & Hall & _).
      rewrite batches_cover in Hall. exists counts, w3, added. auto. }
  destruct Hentity_import as (counts & w3 & entity_rows & Hrun3 & Hgrew3 & Hall3).
  exists counts, w3. split; [exact Hrun3|]. intros w4 Hw4.
  destruct (import_loop_run all_records (py_range (length all_records) BATCH_SIZE)
              (mk_stats 0 0 []) w4)
    as (stats & w5 & record_rows & Hrun5 & Hgrew5 & Hall5 & _).
  rewrite batches_cover in Hall5.
  exists stats, w5. split; [exact Hrun5|]. intros w6 Hw6 Hconfirmed.
  rewrite Hw4 in Hgrew5. rewrite <- Hw6 in Hgrew5.
  apply (rollback_restores batch_id (w_store w2) entity_rows record_rows (w_store w3) w6);
    try assumption.
  - exact (stored_rows_carry _ _ _ Hrows Hall3).
  - exact (stored_rows_carry _ _ _ Htagged Hall5).
Qed.

End WholeRun.

(** A workbook of one sheet: a header row and a row that names a cedant. *)
Definition one_sheet_book : Production.workbook :=
  Production.mk_workbook [py "2024"] (py "['2024']")
    (fun _ => inr [[VNone; VStr (py "Original Insured")]; garbled_row]).

(** The world with the given answers on the keyboard. *)
Definition answering (answers : list pystr) (w : world) : world :=
  mk_world (w_now w) (w_ticks w) answers (w_stdout w) (w_store w).

Lemma live_import_is_undone_by_rollback_witness :
  exists all_records sheet_stats w1 all_entities counts w3 stats w5 w7,
    Production.process_all_sheets one_sheet_book (py "deadbeef") (example_world [] two_imports)
    = (inr (all_records, sheet_stats), w1) /\
    Production.extract_legal_entities all_records = inr all_entities /\
    Production.import_entities all_entities w1 = (inr counts, w3) /\
    Production.import_records all_records w3 = (inr stats, w5) /\
    Production.rollback_batch (py "deadbeef") (answering [py "yes"; py "yes"] w5)
    = (inr true, w7) /\
    forall t, st_tables (w_store w7) !! t = st_tables two_imports !! t.
Proof.
  destruct (live_import_is_undone_by_rollback one_sheet_book (py "deadbeef")
              (example_world [] two_imports))
    as (all_records & sheet_stats & w1 & all_entities & Hpass & Hstore & _ & Hextract & _
        & Hrun).
  destruct (Hrun all_entities w1 (fun e He => He)) as (counts & w3 & Hentities & Hrecords).
  { rewrite Hstore. exact two_imports_without_deadbeef. }
  { rewrite Hstore. intros t rs. reflexivity. }
  destruct (Hrecords w3 eq_refl) as (stats & w5 & Hinsert & Hrollback).
  destruct (Hrollback (answering [py "yes"; py "yes"] w5) eq_refl) as (w7 & Hback & Htables).
  { split; [repeat constructor | simpl; lia]. }
  exists all_records, sheet_stats, w1, all_entities, counts, w3, stats, w5, w7.
  repeat (split; [assumption|]). intros t. rewrite Htables, Hstore. reflexivity.
Defined.


(** ** Every named party has an entity *)

Section NamedParties.
Import Production.

Lemma has_key_app (entities more : list (pystr * entity)) (k : pystr) :
  has_key (entities ++ more) k = has_key entities k || has_key more k.
Proof. unfold has_key. apply existsb_app. Qed.

Lemma add_if_new_keeps (entities : list (pystr * entity)) (k k' : pystr) (e : entity) :
  has_key entities k' = true -> has_key (add_if_new entities k e) k' = true.
Proof.
  intros Hk. destruct (add_if_new_extends entities k e) as (more & ->).
  rewrite has_key_app, Hk. reflexivity.
Qed.

Lemma add_if_new_has (entities : list (pystr * entity)) (k : pystr) (e : entity) :
  k <> [] -> has_key (add_if_new entities k e) k = true.
Proof.
  intros Hk. unfold add_if_new. destruct k as [|c k']; [congruence|].
  destruct (has_key entities (c :: k')) eqn:Hhas; [exact Hhas|].
  rewrite has_key_app. apply orb_true_intro. right.
  unfold has_key, pystr_eqb. cbn [existsb fst]. rewrite bool_decide_eq_true_2 by reflexivity.
  reflexivity.
Qed.

Lemma add_if_new_length (entities : list (pystr * entity)) (k : pystr) (e : entity) :
  (length (add_if_new entities k e) <= S (length entities))%nat.
Proof.
  unfold add_if_new. destruct k; [lia|].
  destruct (has_key entities _); [lia|]. rewrite length_app. cbn [length]. lia.
Qed.

Lemma normalize_name_nonempty (name : pystr) : normalize_name name <> [] -> name <> [].
Proof. intros Hne ->. apply Hne. reflexivity. Qed.

(** A name a record holds under a role, that the extractor takes. *)
Definition party_named (record : dict) (r : role) (name : pystr) : Prop :=
  dict_get record (role_field r) = VStr name /\
  normalize_name name <> [] /\
  (r = CedantRole -> name <> py "Unknown Cedant").

Lemma extract_from_record_covers (entities entities' : list (pystr * entity))
    (record : dict) :
  extract_from_record entities record = inr entities' ->
  (forall k, has_key entities k = true -> has_key entities' k = true) /\
  (forall r name, party_named record r name -> has_key entities' (normalize_name name) = true) /\
  (length entities' <= length entities + 3)%nat.
Proof.
  unfold extract_from_record. intros Hrun.
  destruct (text_if_truthy (dict_get record "cedant_name")) as [|cedant] eqn:Hc;
    [discriminate|]. cbn [exc_bind] in Hrun.
  destruct (text_if_truthy (dict_get record "broker_name")) as [|broker] eqn:Hb;
    [discriminate|]. cbn [exc_bind] in Hrun.
  destruct (text_if_truthy (dict_get record "original_insured_name")) as [|insured] eqn:Hi;
    [discriminate|]. cbn [exc_bind] in Hrun.
  injection Hrun as <-.
  set (step1 := match cedant with Some _ => _ | None => _ end).
  set (step2 := match broker with Some _ => _ | None => _ end).
  set (step3 := match insured with Some _ => _ | None => _ end).
  assert (H1 : (forall k, has_key entities k = true -> has_key step1 k = true) /\
               (length step1 <= S (length entities))%nat).
  { subst step1. destruct cedant as [name|]; [|auto].
    destruct (negb _); [|auto].
    split; [intros k; apply add_if_new_keeps | apply add_if_new_length]. }
  assert (H2 : (forall k, has_key step1 k = true -> has_key step2 k = true) /\
               (length step2 <= S (length step1))%nat).
  { subst step2. destruct broker as [name|]; [|auto].
    split; [intros k; apply add_if_new_keeps | apply add_if_new_length]. }
  assert (H3 : (forall k, has_key step2 k = true -> has_key step3 k = true) /\
               (length step3 <= S (length step2))%nat).
  { subst step3. destruct insured as [name|]; [|auto].
    split; [intros k; apply add_if_new_keeps | apply add_if_new_length]. }
  destruct H1 as [Hkeep1 Hlen1], H2 as [Hkeep2 Hlen2], H3 as [Hkeep3 Hlen3].
  split; [auto|]. split; [|lia].
  intros r name (Hget & Hkey & Hknown).
  assert (Htext : text_if_truthy (VStr name) = inr (Some name)).
  { apply text_if_truthy_text. split; [reflexivity|]. apply normalize_name_nonempty, Hkey. }
  destruct r; cbn [role_field] in Hget.
  - rewrite Hget, Htext in Hc. injection Hc as <-.
    apply Hkeep3, Hkeep2. subst step1.
    assert (Hnot : pystr_eqb name (py "Unknown Cedant") = false).
    { unfold pystr_eqb. apply bool_decide_eq_false_2. apply Hknown. reflexivity. }
    rewrite Hnot. cbn [negb]. apply add_if_new_has. exact Hkey.
  - rewrite Hget, Htext in Hb. injection Hb as <-.
    apply Hkeep3. subst step2. apply add_if_new_has. exact Hkey.
  - rewrite Hget, Htext in Hi. injection Hi as <-.
    subst step3. apply add_if_new_has. exact Hkey.
Qed.

Lemma extract_loop_covers (records : list dict) (entities entities' : list (pystr * entity)) :
  extract_loop records entities = inr entities' ->
  (forall k, has_key entities k = true -> has_key entities' k = true) /\
  (forall record r name,
     In record records -> party_named record r name ->
     has_key entities' (normalize_name name) = true) /\
  (length entities' <= length entities + 3 * length records)%nat.
Proof.
  revert entities. induction records as [|record rest IH]; intros entities;
    cbn [extract_loop].
  - intros [= <-]. split; [auto|]. split; [intros ? ? ? []|]. cbn [length]. lia.
  - destruct (extract_from_record entities record) as [e|mid] eqn:Hstep; [discriminate|].
    cbn [exc_bind]. intros Hrest.
    destruct (extract_from_record_covers _ _ _ Hstep) as (Hkeep1 & Hhas1 & Hlen1).
    destruct (IH mid Hrest) as (Hkeep2 & Hhas2 & Hlen2).
    split; [auto|]. split; [|cbn [length]; lia].
    intros rec r name [<- | Hin] Hnames.
    + apply Hkeep2. eapply Hhas1. exact Hnames.
    + eapply Hhas2; eassumption.
Qed.

(** X21.  The extraction gives an entity for every named party: when
    the name fields of the records hold text or nothing it does not fail,
    and every name a record holds under one of the three roles (but for a
    name of blanks only and for the placeholder of an unknown cedant) is the
    name, up to its blanks, of one of the entities; there are at most three
    entities per record. *)
Theorem every_named_party_has_an_entity (records : list dict) :
  Forall names_are_text records ->
  exists ents,
    extract_legal_entities records = inr ents /\
    (length ents <= 3 * length records)%nat /\
    forall record r name,
      In record records -> party_named record r name ->
      exists e, In e ents /\ entity_key e = normalize_name name.
Proof.
  intros Hnames.
  destruct (extract_loop_total records [] Hnames) as (entities & Hloop).
  exists (map snd entities).
  split; [unfold extract_legal_entities; rewrite Hloop; reflexivity|].
  destruct (extract_loop_covers records [] entities Hloop) as (_ & Hhas & Hlen).
  split; [rewrite length_map; cbn [length] in Hlen; lia|].
  intros record r name Hin Hname.
  pose proof (Hhas record r name Hin Hname) as Hkey.
  destruct (extract_loop_inv records records [] entities (fun _ H => H) Hloop
              (dict_inv_nil records)) as (Hinv & _).
  apply has_key_true in Hkey. rewrite <- (dict_inv_keys _ _ Hinv) in Hkey.
  apply list_elem_of_fmap in Hkey. destruct Hkey as (e & Heq & He).
  exists e. split; [apply list_elem_of_In; exact He | congruence].
Qed.

End NamedParties.

(** A cedant whose name comes back with other blanks, and its broker. *)
Definition placed_records : list dict :=
  [ {[ "cedant_name"%string := VStr (py "Acme   Insurance");
       "broker_name"%string := VStr (py "Marsh") ]};
    {[ "cedant_name"%string := VStr (py " Acme Insurance") ]} ].

Lemma placed_records_are_text : Forall names_are_text placed_records.
Proof. repeat constructor; intros [| |]; eexists; vm_compute; reflexivity. Qed.

Lemma every_named_party_has_an_entity_witness :
  Forall names_are_text placed_records /\
  exists ents e,
    Production.extract_legal_entities placed_records = inr ents /\
    (length ents <= 6)%nat /\
    In e ents /\ entity_key e = py "Acme Insurance".
Proof.
  split; [exact placed_records_are_text|].
  destruct (every_named_party_has_an_entity placed_records placed_records_are_text)
    as (ents & Hrun & Hlen & Hall).
  destruct (Hall {[ "cedant_name"%string := VStr (py " Acme Insurance") ]} CedantRole
              (py " Acme Insurance")) as (e & He & Hkey).
  { right. left. reflexivity. }
  { split; [vm_compute; reflexivity|]. split; [vm_compute; discriminate|].
    intros _. vm_compute. discriminate. }
  exists ents, e. split; [exact Hrun|]. split; [exact Hlen|]. split; [exact He|].
  rewrite Hkey. vm_compute. reflexivity.
Defined.


(** ** The dedup key and the first occurrence *)

Section FirstOccurrence.
Import Production.

(** C5.  The extractor keys its candidates by the whitespace-normalized
    name: the key of a name is its words joined by single blanks, so two
    names have the same key exactly when they are made of the same words.
    The first occurrence of a key is authoritative: the candidates drawn from
    a run of records stay, unchanged and in place, when more records follow,
    and no two candidates of a run share a key, whatever the roles under
    which a name comes back.  Every candidate is drawn from a name of a
    record, and every name of a record has its candidate: a name whose key is
    new adds one.  Two records naming "Acme   Insurance" and
    "Acme Insurance" give exactly one candidate, named as the first. *)
Theorem first_occurrence_is_authoritative (records later : list dict) :
  Forall names_are_text (records ++ later) ->
  (forall name, normalize_name name = py_join (py " ") (py_split name)) /\
  (forall a b, normalize_name a = normalize_name b <-> py_split a = py_split b) /\
  exists ents more,
    extract_legal_entities records = inr ents /\
    extract_legal_entities (records ++ later) = inr (ents ++ more) /\
    NoDup (map entity_key (ents ++ more)) /\
    (forall e, In e (ents ++ more) ->
       exists record r name,
         In record (records ++ later) /\ dict_get record (role_field r) = VStr name /\
         fullName e = py_strip name /\ entity_key e = normalize_name name) /\
    (forall record r name,
       In record records -> party_named record r name ->
       exists e, In e ents /\ entity_key e = normalize_name name) /\
    (forall record r name,
       In record (records ++ later) -> party_named record r name ->
       exists e,
         In e (ents ++ more) /\ entity_key e = normalize_name name /\
         (~ In (normalize_name name) (map entity_key ents) -> In e more)) /\
    forall r1 r2, exists e,
      extract_legal_entities
        [ {[ role_field r1 := VStr (py "Acme   Insurance") ]};
          {[ role_field r2 := VStr (py "Acme Insurance") ]} ] = inr [e] /\
      fullName e = py "Acme   Insurance".
Proof.
  intros Hall.
  split; [exact normalize_name_words|].
  split.
  { intros a b. rewrite !normalize_name_words.
    assert (Hsplit : forall s, py_split (py_join (py " ") (py_split s)) = py_split s)
      by (intros s; apply split_join, split_words).
    split.
    - intros Heq. rewrite <- (Hsplit a), <- (Hsplit b), Heq. reflexivity.
    - intros ->. reflexivity. }
  assert (Hrec : Forall names_are_text records).
  { apply Forall_app in Hall. tauto. }
  assert (Hlat : Forall names_are_text later).
  { apply Forall_app in Hall. tauto. }
  destruct (extract_loop_total records [] Hrec) as (es1 & Hes1).
  destruct (extract_loop_total later es1 Hlat) as (es2 & Hes2).
  assert (Hfull : extract_loop (records ++ later) [] = inr es2).
  { rewrite extract_loop_app, Hes1. exact Hes2. }
  destruct (extract_loop_inv (records ++ later) records [] es1) as (Hinv1 & _);
    [intros r Hr; apply elem_of_app; left; exact Hr
    | exact Hes1 | apply dict_inv_nil |].
  destruct (extract_loop_inv (records ++ later) later es1 es2) as (Hinv & more & Hmore);
    [intros r Hr; apply elem_of_app; right; exact Hr
    | exact Hes2 | exact Hinv1 |].
  assert (Hkeys1 : map entity_key (map snd es1) = map fst es1)
    by exact (dict_inv_keys _ _ Hinv1).
  assert (Hkeys : map entity_key (map snd es2) = map fst es2)
    by exact (dict_inv_keys _ _ Hinv).
  assert (Hents : map snd es2 = map snd es1 ++ map snd more)
    by (rewrite Hmore, map_app; reflexivity).
  assert (Hfound : forall (entities : list (pystr * entity)) key,
             map entity_key (map snd entities) = map fst entities ->
             has_key entities key = true ->
             exists e, In e (map snd entities) /\ entity_key e = key).
  { intros entities key Hk Hhas. apply has_key_true in Hhas. rewrite <- Hk in Hhas.
    apply list_elem_of_fmap in Hhas. destruct Hhas as (e & -> & He).
    exists e. split; [apply list_elem_of_In; exact He | reflexivity]. }
  exists (map snd es1), (map snd more).
  split; [unfold extract_legal_entities; rewrite Hes1; reflexivity|].
  split; [unfold extract_legal_entities; rewrite Hfull; cbn [exc_bind]; rewrite Hents;
          reflexivity|].
  rewrite <- Hents.
  split; [rewrite Hkeys; apply Hinv|].
  split.
  { intros e He. apply list_elem_of_In, list_elem_of_fmap in He.
    destruct He as ([k e'] & -> & Hin). destruct Hinv as [Hentries _].
    rewrite Forall_forall in Hentries. specialize (Hentries _ Hin).
    destruct Hentries as (Hk & _ & record & name & r & Hrecord & Hget & Hname & _).
    cbn [fst snd] in *. exists record, r, name.
    split; [apply list_elem_of_In; exact Hrecord|]. split; [exact Hget|].
    split; [exact Hname|]. unfold entity_key. rewrite Hname. apply normalize_name_strip. }
  destruct (extract_loop_covers records [] es1 Hes1) as (_ & Hhas1 & _).
  destruct (extract_loop_covers (records ++ later) [] es2 Hfull) as (_ & Hhas & _).
  split.
  { intros record r name Hin Hname. apply (Hfound es1 _ Hkeys1).
    eapply Hhas1; eassumption. }
  split.
  { intros record r name Hin Hname.
    destruct (Hfound es2 _ Hkeys (Hhas record r name Hin Hname)) as (e & He & Hkey).
    exists e. split; [exact He|]. split; [exact Hkey|].
    intros Hnew. rewrite Hents in He. apply in_app_or in He. destruct He as [He|He];
      [|exact He].
    exfalso. apply Hnew. rewrite <- Hkey. apply in_map. exact He. }
  intros r1 r2. destruct r1, r2; eexists; split; vm_compute; reflexivity.
Qed.

End FirstOccurrence.

(** A run of two records, then a third one: the name of the first comes
    back as a broker and as an insured, and a new cedant follows. *)
Definition acme_records : list dict :=
  [ {[ "cedant_name"%string := VStr (py "Acme   Insurance") ]};
    {[ "broker_name"%string := VStr (py " Acme Insurance") ]} ].

Definition acme_later : list dict :=
  [ {[ "original_insured_name"%string := VStr (py "Acme Insurance ");
       "cedant_name"%string := VStr (py "Zenith Re") ]} ].

Lemma acme_names_are_text : Forall names_are_text (acme_records ++ acme_later).
Proof. repeat constructor; intros r; destruct r; eexists; vm_compute; reflexivity. Qed.

Lemma first_occurrence_is_authoritative_witness :
  Forall names_are_text (acme_records ++ acme_later) /\
  Production.normalize_name (py "Acme   Insurance") = py "Acme Insurance" /\
  exists ents more zenith,
    Production.extract_legal_entities acme_records = inr ents /\
    Production.extract_legal_entities (acme_records ++ acme_later) = inr (ents ++ more) /\
    NoDup (map entity_key (ents ++ more)) /\
    In zenith more /\ entity_key zenith = py "Zenith Re".
Proof.
  split; [exact acme_names_are_text|].
  destruct (first_occurrence_is_authoritative acme_records acme_later acme_names_are_text)
    as (Hkey & _ & ents & more & Hents & Hall & Hnodup & _ & _ & Hnew & _).
  split; [rewrite Hkey; vm_compute; reflexivity|].
  destruct (Hnew {[ "original_insured_name"%string := VStr (py "Acme Insurance ");
                    "cedant_name"%string := VStr (py "Zenith Re") ]}
              CedantRole (py "Zenith Re")) as (zenith & _ & Hzenith & Hmore).
  { right. right. left. reflexivity. }
  { split; [vm_compute; reflexivity|]. split; [vm_compute; discriminate|].
    intros _. vm_compute. discriminate. }
  exists ents, more, zenith. split; [exact Hents|]. split; [exact Hall|].
  split; [exact Hnodup|]. split; [|rewrite Hzenith; vm_compute; reflexivity].
  apply Hmore.
  assert (Hfirst : Production.extract_legal_entities acme_records
                   = inr [ Production.mk_entity (py "Acme   Insurance") VNone
                             (py "Insurance Company") VNone VNone ]) by by_evaluation.
  rewrite Hfirst in Hents. injection Hents as <-. vm_compute. intros [H | []].
  discriminate H.
Defined.


(** ** Claims and their transactions in the store *)

Section StoredTransactions.
Import Claims.

Lemma with_id_keeps (n : N) (r : dict) (k : string) :
  k <> "id"%string -> with_id n r !! k = r !! k.
Proof.
  intros Hk. unfold with_id. destruct (r !! "id"%string); [reflexivity|].
  apply lookup_insert_ne. congruence.
Qed.

(** X22.  After the claims and then their transactions are inserted,
    every row the transaction table has gained names, as its claim, a row the
    claims table has gained: neither loop raises, the claims table keeps the
    rows the first loop added while the second runs, and the claim id of every
    new transaction row is the id of one of those rows. *)
Theorem stored_transactions_reference_stored_claims (claims : list dict)
    (all_transactions : list (nat * dict)) (w : world) :
  exists inserted_claims claim_id_map w1 claim_rows,
    insert_claims claims w = (inr (inserted_claims, claim_id_map), w1) /\
    store_grew "claims" (w_store w) (w_store w1) claim_rows /\
    forall w2, w_store w2 = w_store w1 ->
      exists inserted_transactions w3 transaction_rows,
        insert_transactions (build_transactions claim_id_map all_transactions) w2
        = (inr inserted_transactions, w3) /\
        store_grew "claim_transactions" (w_store w1) (w_store w3) transaction_rows /\
        st_tables (w_store w3) !! "claims"%string = st_tables (w_store w1) !! "claims"%string /\
        Forall (fun row =>
                  exists claim_row,
                    In claim_row claim_rows /\
                    row !! "claim_id"%string = claim_row !! "id"%string /\
                    is_Some (claim_row !! "id"%string))
          transaction_rows.
Proof.
  unfold insert_claims, py_range.
  destruct (insert_claims_loop claims (length claims) 0 (0, ∅) [] w
              (linked_state_start claims))
    as ([inserted_claims claim_id_map] & w1 & claim_rows & bound & Hrun & Hgrew & _
        & Hlink & _).
  cbn [fst snd app] in *.
  exists inserted_claims, claim_id_map, w1, claim_rows. split; [exact Hrun|].
  split; [exact Hgrew|]. intros w2 Hw2.
  unfold insert_transactions.
  set (transactions_to_insert := build_transactions claim_id_map all_transactions).
  destruct (insert_transactions_loop transactions_to_insert
              (py_range (length transactions_to_insert) BATCH_SIZE) 0 w2)
    as (inserted & w3 & transaction_rows & Hrun3 & Hgrew3 & Hall & _).
  change BATCH_SIZE with Production.BATCH_SIZE in Hall. rewrite batches_cover in Hall.
  rewrite Hw2 in Hgrew3.
  exists inserted, w3, transaction_rows. split; [exact Hrun3|]. split; [exact Hgrew3|].
  split; [destruct Hgrew3 as (_ & _ & _ & Hother & _); apply Hother; discriminate|].
  eapply Forall_impl; [exact Hall|]. intros row (n & txn & Htxn & ->).
  subst transactions_to_insert. rewrite build_transactions_omap in Htxn.
  apply list_elem_of_In, list_elem_of_omap in Htxn.
  destruct Htxn as ([i t] & _ & Hlinked). unfold linked in Hlinked. cbn [fst snd] in Hlinked.
  destruct (claim_id_map !! i) as [id|] eqn:Hid; [|discriminate].
  injection Hlinked as <-.
  destruct (Hlink i id Hid) as (claim & claim_row & _ & Hin & _ & Hrow).
  exists claim_row. split; [exact Hin|]. rewrite Hrow. split; [|eexists; reflexivity].
  rewrite with_id_keeps by discriminate. apply dict_set_eq.
Qed.

End StoredTransactions.
